(** * pantryManager: a shallow embedding of [simulation.py]

    The development follows the Python module top to bottom: [FoodItem],
    the pantry strategies, [Pantry], the consumption strategies, [Meal],
    the meal planning strategies, [GroceryStore], the order policies and
    [Household.daily_step].

    Conventions of the embedding.
    - Python objects that are mutated through references ([FoodItem]s) live
      in an explicit object store ([Heap.t]); a pantry list holds references.
    - Python [float]/[int] masses are exact rationals ([Q]); day counts are
      integers ([Z]).  Rounding of binary floating point is not modelled,
      except that [random.uniform] can return its upper end point.
    - The module-level random source of Python is an explicit tape of raw
      draws ([Rng.t]) threaded through every function that draws.
    - Exceptions are values: a function that may raise returns [result]. *)

From Stdlib Require Import ZArith QArith Qround Lqa Lia List String Bool.
From stdpp Require Import base option list gmap.
Import ListNotations.

Open Scope Z_scope.

(** ** Exceptions *)

Inductive exn : Type :=
| ValueError
| IndexError
| KeyError
| AttributeError.

Inductive result (A : Type) : Type :=
| Ok (a : A)
| Raise (e : exn).

Arguments Ok {A} a.
Arguments Raise {A} e.

Definition rbind {A B : Type} (m : result A) (k : A -> result B) : result B :=
  match m with
  | Ok a => k a
  | Raise e => Raise e
  end.

Notation "'let*' x ':=' m 'in' k" := (rbind m (fun x => k))
  (at level 10, x pattern, m at level 100, k at level 200, only parsing).

(** ** Rational helpers *)

Definition Qltb (a b : Q) : bool := negb (Qle_bool b a).

(** Python's [min] and [max] on two numbers: [min(a, b)] returns [b] only
    when [b < a], [max(a, b)] returns [b] only when [b > a]. *)
Definition Qmin_py (a b : Q) : Q := if Qltb b a then b else a.
Definition Qmax_py (a b : Q) : Q := if Qltb a b then b else a.

(** Python's [int(x)] on a number: truncation towards zero. *)
Definition int_of_Q (x : Q) : Z := Z.quot (Qnum x) (Z.pos (Qden x)).

(** Python's [sum(xs)]: a left fold starting from [0]. *)
Definition Qsum (xs : list Q) : Q := fold_left Qplus xs 0%Q.

(** ** FoodType *)

Inductive FoodType : Type :=
| LEFTOVER
| PERISHABLE
| NON_PERISHABLE.

#[global] Instance FoodType_eq_dec : EqDecision FoodType.
Proof. solve_decision. Defined.

Definition FoodType_encode (ft : FoodType) : positive :=
  match ft with
  | LEFTOVER => 1 | PERISHABLE => 2 | NON_PERISHABLE => 3
  end%positive.

Definition FoodType_decode (p : positive) : option FoodType :=
  match p with
  | 1 => Some LEFTOVER | 2 => Some PERISHABLE | 3 => Some NON_PERISHABLE
  | _ => None
  end%positive.

#[global] Instance FoodType_countable : Countable FoodType.
Proof.
  refine {| encode := FoodType_encode; decode := FoodType_decode |}.
  by intros [].
Defined.

(** [food_type.name] *)
Definition FoodType_name (ft : FoodType) : string :=
  match ft with
  | LEFTOVER => "LEFTOVER"
  | PERISHABLE => "PERISHABLE"
  | NON_PERISHABLE => "NON_PERISHABLE"
  end.

(** A dict that holds exactly the three members of [FoodType] as keys, in
    the order of the enumeration (such as
    [{item_type: 0 for item_type in FoodType}] or [Pantry.items_by_type]). *)
Module ByType.
Record t (A : Type) : Type := mk {
  leftover : A;
  perishable : A;
  non_perishable : A
}.
Arguments mk {A} _ _ _.
Arguments leftover {A} _.
Arguments perishable {A} _.
Arguments non_perishable {A} _.

Definition const {A : Type} (a : A) : t A := mk a a a.

Definition get {A : Type} (d : t A) (ft : FoodType) : A :=
  match ft with
  | LEFTOVER => leftover d
  | PERISHABLE => perishable d
  | NON_PERISHABLE => non_perishable d
  end.

Definition set {A : Type} (d : t A) (ft : FoodType) (a : A) : t A :=
  match ft with
  | LEFTOVER => mk a (perishable d) (non_perishable d)
  | PERISHABLE => mk (leftover d) a (non_perishable d)
  | NON_PERISHABLE => mk (leftover d) (perishable d) a
  end.

(** [d.values()], in insertion order. *)
Definition values {A : Type} (d : t A) : list A :=
  [leftover d; perishable d; non_perishable d].
End ByType.

(** ** FoodItem *)

Definition EMERGENCY_TAKEOUT : string := "Emergency Takeout".

Module FoodItem.
Record t : Type := mk {
  name : string;
  food_type : FoodType;
  best_before : Z;
  spoilage_date : Z;
  quantity : Q
}.

(** [FoodItem.__init__]: the attribute values, or the validation error. *)
Definition init (name : string) (food_type : FoodType)
    (best_before spoilage_date : Z) (quantity : Q) : result t :=
  if spoilage_date <? best_before then Raise ValueError
  else Ok (mk name food_type best_before spoilage_date quantity).

Definition consume (self : t) (amount : Q) : result t :=
  if Qltb (quantity self) amount then Raise ValueError
  else Ok (mk (name self) (food_type self) (best_before self)
              (spoilage_date self) (quantity self - amount)%Q).

Definition day_passes (self : t) : t :=
  let bb := if 0 <? best_before self then best_before self - 1
            else best_before self in
  let sd := if 0 <? spoilage_date self then spoilage_date self - 1
            else spoilage_date self in
  mk (name self) (food_type self) bb sd (quantity self).

Definition is_past_best_before (self : t) : bool := best_before self <=? 0.

Definition is_expired (self : t) : bool := spoilage_date self <=? 0.

(** [day_passes()] called [n] times in a row. *)
Definition days_pass (n : nat) (self : t) : t := Nat.iter n day_passes self.
End FoodItem.

(** ** The object store

    A [FoodItem] is a mutable object: the pantry lists, the selection
    returned by a consumption strategy and the caller all hold references to
    the same object.  [ref] is the identity of an object (what Python's
    [is], and [list.remove] on a class without [__eq__], compare). *)

Abbreviation ref := nat (only parsing).

Module Heap.
Record t : Type := mk {
  cell : ref -> FoodItem.t;
  next : ref
}.

Definition get (h : t) (r : ref) : FoodItem.t := cell h r.

Definition set (h : t) (r : ref) (v : FoodItem.t) : t :=
  mk (fun r' => if Nat.eqb r' r then v else cell h r') (next h).

(** A new object; its identity is fresh. *)
Definition alloc (h : t) (v : FoodItem.t) : ref * t :=
  (next h, mk (fun r' => if Nat.eqb r' (next h) then v else cell h r') (S (next h))).

Definition empty : t := mk (fun _ => FoodItem.mk "" LEFTOVER 0 0 0) 0%nat.
End Heap.

(** [FoodItem(...)] as an expression: validate, then allocate. *)
Definition FoodItem_new (h : Heap.t) (name : string) (food_type : FoodType)
    (best_before spoilage_date : Z) (quantity : Q) : result (ref * Heap.t) :=
  let* item := FoodItem.init name food_type best_before spoilage_date quantity in
  Ok (Heap.alloc h item).

(** ** The random source

    Python's module [random] keeps one hidden generator.  Here it is a tape
    of raw draws and a cursor; every call consumes one raw draw. *)

Module Rng.
Record t : Type := mk {
  tape : nat -> Z;
  cursor : nat
}.

Definition draw (g : t) : Z * t :=
  (tape g (cursor g), mk (tape g) (S (cursor g))).

(** [random.random()]: a multiple of [2^-53] in [[0, 1)]. *)
Definition random (g : t) : Q * t :=
  let (z, g') := draw g in
  (Qmake (z mod 2 ^ 53) (2 ^ 53)%positive, g').

(** [random.uniform(a, b)], which is [a + (b - a) * random()] computed on
    floats: the rounding of the sum can give [b] itself, so the factor
    ranges over the multiples of [2^-53] in [[0, 1]], [1] included.  As
    [random()] it consumes one raw draw. *)
Definition uniform (a b : Q) (g : t) : Q * t :=
  let (z, g') := draw g in
  ((a + (b - a) * Qmake (z mod (2 ^ 53 + 1)) (2 ^ 53)%positive)%Q, g').

(** The index picked by [random.choice(seq)] in a sequence of length
    [len > 0]. *)
Definition choice_index (len : nat) (g : t) : nat * t :=
  let (z, g') := draw g in
  (Z.to_nat (z mod Z.of_nat len), g').

(** [int(random.gauss(mean, std_dev))].  The normal deviate is not
    modelled: the tape supplies the truncated value, which may be any
    integer. *)
Definition gauss_int (mean std_dev : Q) (g : t) : Z * t := draw g.
End Rng.

(** ** PantryStrategy

    The abstract base class has the single method [should_discard]; a
    strategy is that method. *)

Module PantryStrategy.
Definition t : Type := FoodItem.t -> bool.
Definition should_discard (self : t) (item : FoodItem.t) : bool := self item.
End PantryStrategy.

Definition StrictStrategy : PantryStrategy.t := FoodItem.is_past_best_before.

Definition LaxStrategy : PantryStrategy.t := FoodItem.is_expired.

(** ** Pantry *)

(** [l.remove(x)]: drops the first occurrence of the object, or raises. *)
Fixpoint list_remove (x : ref) (l : list ref) : result (list ref) :=
  match l with
  | [] => Raise ValueError
  | y :: l' =>
      if Nat.eqb y x then Ok l'
      else let* l'' := list_remove x l' in Ok (y :: l'')
  end.

(** [l.sort(key=...)] is a stable sort; it is modelled by stable insertion:
    an element goes after every element whose key is not larger. *)
Fixpoint insert_by_key (key : ref -> Z) (x : ref) (l : list ref) : list ref :=
  match l with
  | [] => [x]
  | y :: l' =>
      if key x <? key y then x :: y :: l'
      else y :: insert_by_key key x l'
  end.

Definition sort_by_key (key : ref -> Z) (l : list ref) : list ref :=
  fold_left (fun acc x => insert_by_key key x acc) l [].

Module Pantry.
Record t : Type := mk {
  items_by_type : ByType.t (list ref);
  (** [waste_log['strategy_discards']] and [waste_log['expired_discards']]:
      day number to mass per food type. *)
  waste_log_strategy_discards : gmap Z (ByType.t Q);
  waste_log_expired_discards : gmap Z (ByType.t Q);
  current_day : Z
}.

(** [Pantry.__init__] *)
Definition init : t := mk (ByType.const []) ∅ ∅ 0.

Definition get_items_by_type (self : t) (food_type : FoodType) : list ref :=
  ByType.get (items_by_type self) food_type.

Definition set_items_by_type (self : t) (food_type : FoodType) (l : list ref) : t :=
  mk (ByType.set (items_by_type self) food_type l)
     (waste_log_strategy_discards self) (waste_log_expired_discards self)
     (current_day self).

(** Every item of the pantry, in the order in which
    [for food_list in self.items_by_type.values(): for item in food_list]
    visits them. *)
Definition all_items (self : t) : list ref :=
  concat (ByType.values (items_by_type self)).

Definition add_item (h : Heap.t) (self : t) (item : ref) : t :=
  let ft := FoodItem.food_type (Heap.get h item) in
  let appended := get_items_by_type self ft ++ [item] in
  set_items_by_type self ft
    (sort_by_key (fun r => FoodItem.spoilage_date (Heap.get h r)) appended).

(** The local variables of [step] while it classifies the items. *)
Record marks : Type := mk_marks {
  heap_now : Heap.t;
  expired_items : list ref;
  strategy_discards : list ref;
  empty_items : list ref;
  weights_expired : ByType.t Q;
  weights_strategy_discarded : ByType.t Q
}.

(** The body of the inner [for item in food_list] of [step]. *)
Definition classify_item (strategy : PantryStrategy.t) (acc : marks) (r : ref) : marks :=
  let item := FoodItem.day_passes (Heap.get (heap_now acc) r) in
  let h := Heap.set (heap_now acc) r item in
  let ft := FoodItem.food_type item in
  if Qle_bool (FoodItem.quantity item) (1 # 1000) then
    mk_marks h (expired_items acc) (strategy_discards acc)
      (empty_items acc ++ [r])
      (weights_expired acc) (weights_strategy_discarded acc)
  else if FoodItem.is_expired item then
    mk_marks h (expired_items acc ++ [r]) (strategy_discards acc)
      (empty_items acc)
      (ByType.set (weights_expired acc) ft
         (ByType.get (weights_expired acc) ft + FoodItem.quantity item)%Q)
      (weights_strategy_discarded acc)
  else if PantryStrategy.should_discard strategy item then
    mk_marks h (expired_items acc) (strategy_discards acc ++ [r])
      (empty_items acc)
      (weights_expired acc)
      (ByType.set (weights_strategy_discarded acc) ft
         (ByType.get (weights_strategy_discarded acc) ft + FoodItem.quantity item)%Q)
  else
    mk_marks h (expired_items acc) (strategy_discards acc) (empty_items acc)
      (weights_expired acc) (weights_strategy_discarded acc).

(** The two nested [for] loops of [step]. *)
Definition classify (strategy : PantryStrategy.t) (h : Heap.t) (self : t) : marks :=
  fold_left (classify_item strategy) (all_items self)
    (mk_marks h [] [] [] (ByType.const 0%Q) (ByType.const 0%Q)).

(** The last loop of [step]:
    [self.items_by_type[item.food_type].remove(item)] for each marked item. *)
Fixpoint remove_items (h : Heap.t) (items : ByType.t (list ref))
    (to_remove : list ref) : result (ByType.t (list ref)) :=
  match to_remove with
  | [] => Ok items
  | r :: rest =>
      let ft := FoodItem.food_type (Heap.get h r) in
      let* l := list_remove r (ByType.get items ft) in
      remove_items h (ByType.set items ft l) rest
  end.

Definition step (strategy : PantryStrategy.t) (h : Heap.t) (self : t)
    : result (t * Heap.t) :=
  let day := current_day self + 1 in
  let m := classify strategy h self in
  let expired_log := <[day := weights_expired m]> (waste_log_expired_discards self) in
  let strategy_log :=
    <[day := weights_strategy_discarded m]> (waste_log_strategy_discards self) in
  let* items :=
    remove_items (heap_now m) (items_by_type self)
      (expired_items m ++ strategy_discards m ++ empty_items m) in
  Ok (mk items strategy_log expired_log day, heap_now m).

Definition quantities (h : Heap.t) (l : list ref) : list Q :=
  map (fun r => FoodItem.quantity (Heap.get h r)) l.

Definition get_total_by_type (h : Heap.t) (self : t) (food_type : FoodType) : Q :=
  Qsum (quantities h (get_items_by_type self food_type)).

Definition get_total (h : Heap.t) (self : t) : Q :=
  Qsum (quantities h (all_items self)).

Definition reset (self : t) : t :=
  mk (ByType.const []) (waste_log_strategy_discards self)
     (waste_log_expired_discards self) (current_day self).
End Pantry.

(** ** ConsumptionStrategy

    A selection is the list of [(item, amount_to_take)] tuples. *)

Definition selection : Type := list (ref * Q).

Module BasicConsumptionStrategy.
(** The [for food in available_foods] loop; [break] ends it. *)
Fixpoint select_loop (h : Heap.t) (available_foods : list ref) (amount : Q)
    : selection :=
  match available_foods with
  | [] => []
  | food :: rest =>
      if Qle_bool amount 0 then []
      else
        let q := FoodItem.quantity (Heap.get h food) in
        if Qle_bool q amount then (food, q) :: select_loop h rest (amount - q)%Q
        else (food, amount) :: select_loop h rest 0%Q
  end.

Definition select_food (h : Heap.t) (pantry : Pantry.t) (food_type : FoodType)
    (amount : Q) : selection * Pantry.t :=
  let available_foods := Pantry.get_items_by_type pantry food_type in
  (select_loop h available_foods amount, pantry).
End BasicConsumptionStrategy.

Module RandomConsumptionStrategy.
(** The [while amount > 0 and available_foods] loop.  [available_foods] is
    the pantry's own list (see [Pantry.get_items_by_type]), so the loop's
    [remove] acts on the pantry.  Every iteration either removes an item or
    sets [amount] to 0, so [S (length available_foods)] iterations are
    enough; [fuel] counts them, and the loop state is returned as it is when
    they are used up. *)
Fixpoint select_loop (fuel : nat) (h : Heap.t) (available_foods : list ref)
    (amount : Q) (foods_to_eat : selection) (g : Rng.t)
    : result (selection * list ref * Rng.t) :=
  match fuel with
  | O => Ok (foods_to_eat, available_foods, g)
  | S fuel' =>
      if Qltb 0 amount && negb (Nat.eqb (length available_foods) 0) then
        let (i, g') := Rng.choice_index (length available_foods) g in
        let food := nth i available_foods 0%nat in
        let q := FoodItem.quantity (Heap.get h food) in
        if Qle_bool q amount then
          let* l' := list_remove food available_foods in
          select_loop fuel' h l' (amount - q)%Q (foods_to_eat ++ [(food, q)]) g'
        else
          select_loop fuel' h available_foods 0%Q (foods_to_eat ++ [(food, amount)]) g'
      else Ok (foods_to_eat, available_foods, g)
  end.

Definition select_food (h : Heap.t) (pantry : Pantry.t) (food_type : FoodType)
    (amount : Q) (g : Rng.t) : result (selection * Pantry.t * Rng.t) :=
  let available_foods := Pantry.get_items_by_type pantry food_type in
  let* (foods_to_eat, l, g') :=
    select_loop (S (length available_foods)) h available_foods amount [] g in
  Ok (foods_to_eat, Pantry.set_items_by_type pantry food_type l, g').
End RandomConsumptionStrategy.

Module ConsumptionStrategy.
Inductive t : Type :=
| Basic
| Random
| Mixed (fifo_probability : Q).

Definition select_food (self : t) (h : Heap.t) (pantry : Pantry.t)
    (food_type : FoodType) (amount : Q) (g : Rng.t)
    : result (selection * Pantry.t * Rng.t) :=
  match self with
  | Basic =>
      let (s, p) := BasicConsumptionStrategy.select_food h pantry food_type amount in
      Ok (s, p, g)
  | Random => RandomConsumptionStrategy.select_food h pantry food_type amount g
  | Mixed fifo_probability =>
      let (u, g') := Rng.random g in
      if Qltb u fifo_probability then
        let (s, p) := BasicConsumptionStrategy.select_food h pantry food_type amount in
        Ok (s, p, g')
      else RandomConsumptionStrategy.select_food h pantry food_type amount g'
  end.
End ConsumptionStrategy.

(** The Python interpreter state shared by every object: the store of
    [FoodItem]s and the random source. *)
Module World.
Record t : Type := mk {
  heap : Heap.t;
  rng : Rng.t
}.
End World.

(** ** Meal

    [consumption_patterns] is a dict from food type to mass; iteration
    follows insertion order, and a key occurs once. *)

Module Meal.
Definition patterns : Type := list (FoodType * Q).

(** The [for food_type, amount in self.consumption_patterns.items()] loop
    of [choose_food_to_eat]. *)
Fixpoint choose_loop (consumption_strategy : ConsumptionStrategy.t)
    (consumption_patterns : patterns) (foods_to_eat : selection)
    (pantry : Pantry.t) (w : World.t)
    : result (selection * Pantry.t * World.t) :=
  match consumption_patterns with
  | [] => Ok (foods_to_eat, pantry, w)
  | (food_type, amount) :: rest =>
      let* (chosen_foods, pantry1, g1) :=
        ConsumptionStrategy.select_food consumption_strategy (World.heap w)
          pantry food_type amount (World.rng w) in
      let foods1 := foods_to_eat ++ chosen_foods in
      let consumed_amount := Qsum (map snd chosen_foods) in
      let remaining_amount := (amount - consumed_amount)%Q in
      if Qltb 0 remaining_amount then
        let* (takeout, h1) :=
          FoodItem_new (World.heap w) EMERGENCY_TAKEOUT PERISHABLE 0 0
            remaining_amount in
        choose_loop consumption_strategy rest
          (foods1 ++ [(takeout, remaining_amount)]) pantry1 (World.mk h1 g1)
      else
        choose_loop consumption_strategy rest foods1 pantry1
          (World.mk (World.heap w) g1)
  end.

Definition choose_food_to_eat (consumption_strategy : ConsumptionStrategy.t)
    (consumption_patterns : patterns) (pantry : Pantry.t) (w : World.t)
    : result (selection * Pantry.t * World.t) :=
  choose_loop consumption_strategy consumption_patterns [] pantry w.

(** The [for food_choice in foods_to_eat] loop of [consume]. *)
Fixpoint consume_loop (foods_to_eat : selection) (h : Heap.t) : result Heap.t :=
  match foods_to_eat with
  | [] => Ok h
  | (food, amount) :: rest =>
      if negb (String.eqb (FoodItem.name (Heap.get h food)) "Emergency Takeout") then
        let* item := FoodItem.consume (Heap.get h food) amount in
        consume_loop rest (Heap.set h food item)
      else consume_loop rest h
  end.

Definition consume (consumption_strategy : ConsumptionStrategy.t)
    (consumption_patterns : patterns) (pantry : Pantry.t) (w : World.t)
    : result (selection * Pantry.t * World.t) :=
  let* (foods_to_eat, pantry1, w1) :=
    choose_food_to_eat consumption_strategy consumption_patterns pantry w in
  let* h2 := consume_loop foods_to_eat (World.heap w1) in
  Ok (foods_to_eat, pantry1, World.mk h2 (World.rng w1)).
End Meal.

(** ** PlannedMeal and MealPlanningStrategy *)

Module PlannedMeal.
Record t : Type := mk { total_grams : Q }.
End PlannedMeal.

Module FreshFirstStrategy.
(** [plan_meal]; the [household] argument is not used by the source. *)
Definition plan_meal (planned_meal : PlannedMeal.t) (h : Heap.t)
    (pantry : Pantry.t) : Meal.patterns :=
  let total_grams := PlannedMeal.total_grams planned_meal in
  let leftovers := Pantry.get_total_by_type h pantry LEFTOVER in
  let perishables := Pantry.get_total_by_type h pantry PERISHABLE in
  let leftovers_to_consume := Qmin_py leftovers total_grams in
  let total_grams := (total_grams - leftovers_to_consume)%Q in
  let perishables_to_consume := Qmin_py perishables total_grams in
  let total_grams := (total_grams - perishables_to_consume)%Q in
  let non_perishables_to_consume := total_grams in
  [(LEFTOVER, leftovers_to_consume);
   (PERISHABLE, perishables_to_consume);
   (NON_PERISHABLE, non_perishables_to_consume)].
End FreshFirstStrategy.

Module ProportionalConsumptionStrategy.
Definition plan_meal (proportion_perishables : Q) (planned_meal : PlannedMeal.t)
    (h : Heap.t) (pantry : Pantry.t) : Meal.patterns :=
  let total_grams := PlannedMeal.total_grams planned_meal in
  let leftovers_available := Pantry.get_total_by_type h pantry LEFTOVER in
  let perishables_available := Pantry.get_total_by_type h pantry PERISHABLE in
  let leftovers_to_consume := Qmin_py leftovers_available total_grams in
  let total_grams := (total_grams - leftovers_to_consume)%Q in
  let perishables_to_consume := (total_grams * proportion_perishables)%Q in
  let non_perishables_to_consume := (total_grams - perishables_to_consume)%Q in
  let '(perishables_to_consume, non_perishables_to_consume) :=
    if Qle_bool perishables_available perishables_to_consume then
      let to_transfer := (perishables_to_consume - perishables_available)%Q in
      (perishables_available, (non_perishables_to_consume + to_transfer)%Q)
    else (perishables_to_consume, non_perishables_to_consume) in
  [(LEFTOVER, leftovers_to_consume);
   (PERISHABLE, perishables_to_consume);
   (NON_PERISHABLE, non_perishables_to_consume)].
End ProportionalConsumptionStrategy.

Module MealPlanningStrategy.
Inductive t : Type :=
| FreshFirst
| Proportional (proportion_perishables : Q).

Definition plan_meal (self : t) (planned_meal : PlannedMeal.t) (h : Heap.t)
    (pantry : Pantry.t) : Meal.patterns :=
  match self with
  | FreshFirst => FreshFirstStrategy.plan_meal planned_meal h pantry
  | Proportional p => ProportionalConsumptionStrategy.plan_meal p planned_meal h pantry
  end.
End MealPlanningStrategy.

(** ** GroceryStore *)

Module GroceryStore.
Record t : Type := mk {
  best_before_params : gmap FoodType (Q * Q);
  spoilage_date_params : gmap FoodType (Q * Q);
  food_names : list string
}.

Definition init (best_before_params spoilage_date_params : gmap FoodType (Q * Q)) : t :=
  mk best_before_params spoilage_date_params
     ["Test"; "Other"; "SomethingElse"; "UHT"]%string.

(** [_draw_from_distribution] *)
Definition draw_from_distribution (mean std_dev : Q) (g : Rng.t) : Z * Rng.t :=
  Rng.gauss_int mean std_dev g.

(** [d[key]] on a dict. *)
Definition dict_get {V : Type} (d : gmap FoodType V) (key : FoodType) : result V :=
  match d !! key with
  | Some v => Ok v
  | None => Raise KeyError
  end.

(** The variables of [get_order] that its [while] loop updates.  [draws] is
    a ghost variable: the [quantity] computed by each iteration so far,
    oldest first. *)
Record loop_state : Type := mk_state {
  order : list ref;
  remaining_quantity : Z;
  failures : Z;
  world : World.t;
  draws : list Z
}.

Definition loop_condition (s : loop_state) : bool :=
  (0 <? remaining_quantity s) && (failures s <? 100).

(** One iteration of the [while] loop of [get_order]. *)
Definition loop_body (food_type : FoodType) (total_quantity : Q)
    (best_before_mean best_before_std_dev : Q)
    (spoilage_date_mean spoilage_date_std_dev : Q)
    (s : loop_state) : result loop_state :=
  let food_name := (FoodType_name food_type ++ " - item")%string in
  let (best_before, g1) :=
    draw_from_distribution best_before_mean best_before_std_dev
      (World.rng (world s)) in
  let (spoilage_date, g2) :=
    draw_from_distribution spoilage_date_mean spoilage_date_std_dev g1 in
  let spoilage_date := Z.max (best_before + 1) spoilage_date in
  let (u, g3) :=
    Rng.uniform ((1 # 10) * total_quantity)%Q ((1 # 2) * total_quantity)%Q g2 in
  let quantity := Qmin_py u (inject_Z (remaining_quantity s)) in
  let quantity := int_of_Q quantity in
  if quantity =? 0 then
    Ok (mk_state (order s) (remaining_quantity s) (failures s + 1)
          (World.mk (World.heap (world s)) g3) (draws s ++ [quantity]))
  else
    let* (item, h1) :=
      FoodItem_new (World.heap (world s)) food_name food_type best_before
        spoilage_date (inject_Z quantity) in
    Ok (mk_state (order s ++ [item]) (remaining_quantity s - quantity)
          (failures s) (World.mk h1 g3) (draws s ++ [quantity])).

(** The [while remaining_quantity > 0 and failures < 100] loop; [fuel]
    bounds the number of iterations, and the state is returned as it is when
    the fuel is used up. *)
Fixpoint while_loop (fuel : nat) (food_type : FoodType) (total_quantity : Q)
    (bbm bbs sdm sds : Q) (s : loop_state) : result loop_state :=
  match fuel with
  | O => Ok s
  | S fuel' =>
      if loop_condition s then
        let* s' := loop_body food_type total_quantity bbm bbs sdm sds s in
        while_loop fuel' food_type total_quantity bbm bbs sdm sds s'
      else Ok s
  end.

(** The state in which [get_order] enters its loop. *)
Definition initial_state (total_quantity : Q) (w : World.t) : loop_state :=
  mk_state [] (int_of_Q total_quantity) 0 w [].

(** Every iteration either counts a failure or lowers [remaining_quantity]
    by at least one, so this many iterations are enough. *)
Definition enough_fuel (total_quantity : Q) : nat :=
  (Z.to_nat (int_of_Q total_quantity) + 100)%nat.

(** [get_order] up to the end of its loop. *)
Definition get_order_run (self : t) (food_type : FoodType) (total_quantity : Q)
    (w : World.t) : result loop_state :=
  let* (best_before_mean, best_before_std_dev) :=
    dict_get (best_before_params self) food_type in
  let* (spoilage_date_mean, spoilage_date_std_dev) :=
    dict_get (spoilage_date_params self) food_type in
  while_loop (enough_fuel total_quantity) food_type total_quantity
    best_before_mean best_before_std_dev
    spoilage_date_mean spoilage_date_std_dev
    (initial_state total_quantity w).

Definition get_order (self : t) (food_type : FoodType) (total_quantity : Q)
    (w : World.t) : result (list ref * World.t) :=
  let* s := get_order_run self food_type total_quantity w in
  Ok (order s, world s).
End GroceryStore.

(** ** One entry of [Household.history] *)

Module DailyRecord.
Record t : Type := mk {
  meals_eaten_today : Z;
  daily_consumption : ByType.t Q;
  emergency_takeouts : Q;
  total_perishable_bought : Q;
  total_nonperishable_bought : Q;
  expired_discards : Q;
  strategy_discards : Q;
  total_food_stored : Q;
  perishables_stored : Q;
  non_perishables_stored : Q;
  leftovers_stored : Q;
  daily_plate_waste : Q;
  daily_leftovers_generated : Q
}.
End DailyRecord.

(** [history[-7:]] *)
Definition last7 {A : Type} (history : list A) : list A :=
  drop (length history - 7) history.

(** ** OrderPolicy *)

Module FixedConsumptionPolicy.
(** The attributes set by [OrderPolicy.__init__] and
    [FixedConsumptionPolicy.__init__]. *)
Record t : Type := mk {
  frequency : Z;
  days_until_next_order : Z;
  daily_consumption_perishable : Q;
  daily_consumption_non_perishable : Q;
  safety_stock_perishable : Q;
  safety_stock_non_perishable : Q
}.

Definition init (daily_consumption_perishable daily_consumption_non_perishable : Q)
    (frequency : Z) (safety_stock_perishable safety_stock_non_perishable : Q) : t :=
  mk frequency frequency daily_consumption_perishable
     daily_consumption_non_perishable safety_stock_perishable
     safety_stock_non_perishable.

Definition determine_order_quantity (self : t) (h : Heap.t) (pantry : Pantry.t)
    : Q * Q :=
  let order_quantity_perishable :=
    (daily_consumption_perishable self * inject_Z (frequency self)
     + safety_stock_perishable self)%Q in
  let order_quantity_non_perishable :=
    (daily_consumption_non_perishable self * inject_Z (frequency self)
     + safety_stock_non_perishable self)%Q in
  let order_quantity_perishable :=
    (order_quantity_perishable - Pantry.get_total_by_type h pantry PERISHABLE)%Q in
  let order_quantity_non_perishable :=
    (order_quantity_non_perishable
     - Pantry.get_total_by_type h pantry NON_PERISHABLE)%Q in
  (Qmax_py 0 order_quantity_perishable, Qmax_py 0 order_quantity_non_perishable).

Definition decrement_days_until_next_order (self : t) : t :=
  mk (frequency self) (days_until_next_order self - 1)
     (daily_consumption_perishable self) (daily_consumption_non_perishable self)
     (safety_stock_perishable self) (safety_stock_non_perishable self).

Definition reset_days_until_next_order (self : t) : t :=
  mk (frequency self) (frequency self)
     (daily_consumption_perishable self) (daily_consumption_non_perishable self)
     (safety_stock_perishable self) (safety_stock_non_perishable self).
End FixedConsumptionPolicy.

(** [day["daily_consumption"][food_type] for day in household.history[-7:]] *)
Definition last_week (food_type : FoodType) (history : list DailyRecord.t) : list Q :=
  map (fun day => ByType.get (DailyRecord.daily_consumption day) food_type)
      (last7 history).

(** [statistics.mean] of a non-empty list. *)
Definition mean (data : list Q) : Q :=
  (Qsum data / inject_Z (Z.of_nat (length data)))%Q.

Module HistoricalConsumptionPolicy.
(** [determine_order_quantity]: the result and the wrapped policy, whose
    rates the method overwrites. *)
Definition determine_order_quantity (base_policy : FixedConsumptionPolicy.t)
    (history : list DailyRecord.t) (h : Heap.t) (pantry : Pantry.t)
    : (Q * Q) * FixedConsumptionPolicy.t :=
  if (length history <? 7)%nat then
    (FixedConsumptionPolicy.determine_order_quantity base_policy h pantry, base_policy)
  else
    let last_week_consumption_perishable := mean (last_week PERISHABLE history) in
    let last_week_consumption_non_perishable :=
      mean (last_week NON_PERISHABLE history) in
    let base_policy :=
      FixedConsumptionPolicy.mk
        (FixedConsumptionPolicy.frequency base_policy)
        (FixedConsumptionPolicy.days_until_next_order base_policy)
        last_week_consumption_perishable
        last_week_consumption_non_perishable
        (FixedConsumptionPolicy.safety_stock_perishable base_policy)
        (FixedConsumptionPolicy.safety_stock_non_perishable base_policy) in
    (FixedConsumptionPolicy.determine_order_quantity base_policy h pantry, base_policy).
End HistoricalConsumptionPolicy.

Module AdaptiveOrderPolicy.
(** [_calculate_std_dev]; [pow_half x] stands for the float operation
    [x ** 0.5], which has no exact rational value. *)
Definition calculate_std_dev (pow_half : Q -> Q) (data : list Q) : Q :=
  let n := length data in
  if (n <=? 1)%nat then 0%Q
  else
    let mean_val := (Qsum data / inject_Z (Z.of_nat n))%Q in
    let variance :=
      (Qsum (map (fun x => (x - mean_val) ^ 2) data)
       / inject_Z (Z.of_nat n - 1))%Q in
    pow_half variance.

Definition determine_order_quantity (pow_half : Q -> Q)
    (self : FixedConsumptionPolicy.t) (delta : Q)
    (history : list DailyRecord.t) (h : Heap.t) (pantry : Pantry.t)
    : (Q * Q) * FixedConsumptionPolicy.t :=
  if (length history <? 7)%nat then
    (FixedConsumptionPolicy.determine_order_quantity self h pantry, self)
  else
    let last_week_consumption_perishable :=
      (Qsum (last_week PERISHABLE history) / 7)%Q in
    let last_week_consumption_non_perishable :=
      (Qsum (last_week NON_PERISHABLE history) / 7)%Q in
    let std_dev_perishable :=
      calculate_std_dev pow_half (last_week PERISHABLE history) in
    let std_dev_non_perishable :=
      calculate_std_dev pow_half (last_week NON_PERISHABLE history) in
    let self :=
      FixedConsumptionPolicy.mk
        (FixedConsumptionPolicy.frequency self)
        (FixedConsumptionPolicy.days_until_next_order self)
        last_week_consumption_perishable
        last_week_consumption_non_perishable
        (delta * std_dev_perishable)%Q
        (delta * std_dev_non_perishable)%Q in
    (FixedConsumptionPolicy.determine_order_quantity self h pantry, self).
End AdaptiveOrderPolicy.

Module OrderPolicy.
(** The three concrete policies with the attributes their constructors
    set.  [HistoricalConsumptionPolicy.__init__] stores [base_policy] and
    nothing else: it does not call [OrderPolicy.__init__], so the object has
    neither [frequency] nor [days_until_next_order]. *)
Inductive t : Type :=
| Fixed (self : FixedConsumptionPolicy.t)
| Historical (base_policy : FixedConsumptionPolicy.t)
| Adaptive (self : FixedConsumptionPolicy.t) (delta : Q).

(** [FixedConsumptionPolicy(...)] *)
Definition new_fixed (daily_consumption_perishable daily_consumption_non_perishable : Q)
    (frequency : Z) (safety_stock_perishable safety_stock_non_perishable : Q) : t :=
  Fixed (FixedConsumptionPolicy.init daily_consumption_perishable
           daily_consumption_non_perishable frequency safety_stock_perishable
           safety_stock_non_perishable).

(** [HistoricalConsumptionPolicy(base_policy)] *)
Definition new_historical (base_policy : FixedConsumptionPolicy.t) : t :=
  Historical base_policy.

(** [AdaptiveOrderPolicy(base_policy, delta)] *)
Definition new_adaptive (base_policy : FixedConsumptionPolicy.t) (delta : Q) : t :=
  Adaptive
    (FixedConsumptionPolicy.init
       (FixedConsumptionPolicy.daily_consumption_perishable base_policy)
       (FixedConsumptionPolicy.daily_consumption_non_perishable base_policy)
       (FixedConsumptionPolicy.frequency base_policy)
       (FixedConsumptionPolicy.safety_stock_perishable base_policy)
       (FixedConsumptionPolicy.safety_stock_non_perishable base_policy))
    delta.

(** Reading the attribute [self.frequency]. *)
Definition frequency (self : t) : result Z :=
  match self with
  | Fixed p | Adaptive p _ => Ok (FixedConsumptionPolicy.frequency p)
  | Historical _ => Raise AttributeError
  end.

(** Reading the attribute [self.days_until_next_order]. *)
Definition days_until_next_order (self : t) : result Z :=
  match self with
  | Fixed p | Adaptive p _ => Ok (FixedConsumptionPolicy.days_until_next_order p)
  | Historical _ => Raise AttributeError
  end.

Definition decrement_days_until_next_order (self : t) : result t :=
  match self with
  | Fixed p => Ok (Fixed (FixedConsumptionPolicy.decrement_days_until_next_order p))
  | Adaptive p delta =>
      Ok (Adaptive (FixedConsumptionPolicy.decrement_days_until_next_order p) delta)
  | Historical _ => Raise AttributeError
  end.

Definition reset_days_until_next_order (self : t) : result t :=
  match self with
  | Fixed p => Ok (Fixed (FixedConsumptionPolicy.reset_days_until_next_order p))
  | Adaptive p delta =>
      Ok (Adaptive (FixedConsumptionPolicy.reset_days_until_next_order p) delta)
  | Historical _ => Raise AttributeError
  end.

Definition determine_order_quantity (pow_half : Q -> Q) (self : t)
    (history : list DailyRecord.t) (h : Heap.t) (pantry : Pantry.t)
    : (Q * Q) * t :=
  match self with
  | Fixed p => (FixedConsumptionPolicy.determine_order_quantity p h pantry, self)
  | Historical base_policy =>
      let (q, base_policy') :=
        HistoricalConsumptionPolicy.determine_order_quantity base_policy history
          h pantry in
      (q, Historical base_policy')
  | Adaptive p delta =>
      let (q, p') :=
        AdaptiveOrderPolicy.determine_order_quantity pow_half p delta history
          h pantry in
      (q, Adaptive p' delta)
  end.
End OrderPolicy.

(** ** Plate waste and leftovers *)

Module FixedPercentageWasteCalculator.
Record t : Type := mk { waste_percentage : Q }.

Definition compute_plate_waste (self : t) (consumed_items : selection) : selection :=
  map (fun '(food_item, amount) => (food_item, (amount * waste_percentage self)%Q))
      consumed_items.
End FixedPercentageWasteCalculator.

Module FixedPercentageLeftoverGenerator.
Record t : Type := mk { leftover_percentage : Q }.

Definition compute_leftovers (self : t) (consumed_items plate_waste : selection) : Q :=
  fold_left (fun leftovers '(food_item, amount) =>
               (leftovers + amount * leftover_percentage self)%Q)
            consumed_items 0%Q.
End FixedPercentageLeftoverGenerator.

(** ** Household

    [meal_generator] and [start_of_week] are not modelled: [weekly_meals]
    is the plan that [start_of_week] stored ([None] before its first call,
    when the attribute does not exist). *)

Module Household.
Record t : Type := mk {
  adults : Z;
  children : Z;
  income_percentile : Q;
  pantry : Pantry.t;
  history : list DailyRecord.t;
  meal_planning_strategy : MealPlanningStrategy.t;
  consumption_strategy : ConsumptionStrategy.t;
  pantry_strategy : PantryStrategy.t;
  leftover_generator : FixedPercentageLeftoverGenerator.t;
  plate_waste_generator : FixedPercentageWasteCalculator.t;
  order_policy : OrderPolicy.t;
  grocery_store : option GroceryStore.t;
  daily_consumption : ByType.t Q;
  daily_emergency_takeouts : Q;
  daily_plate_waste : Q;
  daily_leftovers_generated : Q;
  meals_eaten_today : Z;
  weekly_meals : option (list (list PlannedMeal.t))
}.

(** [Household.__init__] with every policy given. *)
Definition init (adults children : Z) (income_percentile : Q)
    (meal_planning_strategy : MealPlanningStrategy.t)
    (consumption_strategy : ConsumptionStrategy.t)
    (pantry_strategy : PantryStrategy.t)
    (order_policy : OrderPolicy.t)
    (grocery_store : option GroceryStore.t)
    (leftover_generator : FixedPercentageLeftoverGenerator.t)
    (plate_waste_generator : FixedPercentageWasteCalculator.t) : t :=
  mk adults children income_percentile Pantry.init []
     meal_planning_strategy consumption_strategy pantry_strategy
     leftover_generator plate_waste_generator order_policy grocery_store
     (ByType.const 0%Q) 0%Q 0%Q 0%Q 0 None.

(** The attributes that [daily_step] assigns. *)
Definition set_pantry (self : t) (p : Pantry.t) : t :=
  mk (adults self) (children self) (income_percentile self) p (history self)
     (meal_planning_strategy self) (consumption_strategy self)
     (pantry_strategy self) (leftover_generator self)
     (plate_waste_generator self) (order_policy self) (grocery_store self)
     (daily_consumption self) (daily_emergency_takeouts self)
     (daily_plate_waste self) (daily_leftovers_generated self)
     (meals_eaten_today self) (weekly_meals self).

Definition set_history (self : t) (hist : list DailyRecord.t) : t :=
  mk (adults self) (children self) (income_percentile self) (pantry self) hist
     (meal_planning_strategy self) (consumption_strategy self)
     (pantry_strategy self) (leftover_generator self)
     (plate_waste_generator self) (order_policy self) (grocery_store self)
     (daily_consumption self) (daily_emergency_takeouts self)
     (daily_plate_waste self) (daily_leftovers_generated self)
     (meals_eaten_today self) (weekly_meals self).

Definition set_order_policy (self : t) (policy : OrderPolicy.t) : t :=
  mk (adults self) (children self) (income_percentile self) (pantry self)
     (history self)
     (meal_planning_strategy self) (consumption_strategy self)
     (pantry_strategy self) (leftover_generator self)
     (plate_waste_generator self) policy (grocery_store self)
     (daily_consumption self) (daily_emergency_takeouts self)
     (daily_plate_waste self) (daily_leftovers_generated self)
     (meals_eaten_today self) (weekly_meals self).

Definition set_weekly_meals (self : t) (meals : option (list (list PlannedMeal.t))) : t :=
  mk (adults self) (children self) (income_percentile self) (pantry self)
     (history self)
     (meal_planning_strategy self) (consumption_strategy self)
     (pantry_strategy self) (leftover_generator self)
     (plate_waste_generator self) (order_policy self) (grocery_store self)
     (daily_consumption self) (daily_emergency_takeouts self)
     (daily_plate_waste self) (daily_leftovers_generated self)
     (meals_eaten_today self) meals.

(** The five per-day counters. *)
Definition set_counters (self : t) (consumption : ByType.t Q)
    (emergency_takeouts plate_waste leftovers_generated : Q) (meals_eaten : Z) : t :=
  mk (adults self) (children self) (income_percentile self) (pantry self)
     (history self)
     (meal_planning_strategy self) (consumption_strategy self)
     (pantry_strategy self) (leftover_generator self)
     (plate_waste_generator self) (order_policy self) (grocery_store self)
     consumption emergency_takeouts plate_waste leftovers_generated
     meals_eaten (weekly_meals self).

(** The last loop of the meal body:
    [for food_item, amount in consumption]. *)
Definition record_consumption (h : Heap.t) (consumption : selection)
    (acc : ByType.t Q * Q) : ByType.t Q * Q :=
  fold_left
    (fun '(daily_consumption, daily_emergency_takeouts) '(food_item, amount) =>
       let ft := FoodItem.food_type (Heap.get h food_item) in
       let daily_consumption :=
         ByType.set daily_consumption ft
           (ByType.get daily_consumption ft + amount)%Q in
       if String.eqb (FoodItem.name (Heap.get h food_item)) EMERGENCY_TAKEOUT
       then (daily_consumption, (daily_emergency_takeouts + amount)%Q)
       else (daily_consumption, daily_emergency_takeouts))
    consumption acc.

(** The body of [for planned_meal in meals_today]. *)
Definition eat_meal (planned_meal : PlannedMeal.t) (self : t) (w : World.t)
    : result (t * World.t) :=
  let actual_meal :=
    MealPlanningStrategy.plan_meal (meal_planning_strategy self) planned_meal
      (World.heap w) (pantry self) in
  let* (consumption, pantry1, w1) :=
    Meal.consume (consumption_strategy self) actual_meal (pantry self) w in
  let meals_eaten := meals_eaten_today self + 1 in
  let plate_waste :=
    FixedPercentageWasteCalculator.compute_plate_waste
      (plate_waste_generator self) consumption in
  let daily_plate_waste :=
    fold_left (fun acc wasted => (acc + snd wasted)%Q) plate_waste
      (daily_plate_waste self) in
  let leftovers_here :=
    FixedPercentageLeftoverGenerator.compute_leftovers (leftover_generator self)
      consumption plate_waste in
  let* (pantry2, h2, leftovers_generated) :=
    if Qltb 0 leftovers_here then
      let* (item, h2) :=
        FoodItem_new (World.heap w1) "leftover" LEFTOVER 2 2 leftovers_here in
      Ok (Pantry.add_item h2 pantry1 item, h2,
          (daily_leftovers_generated self + leftovers_here)%Q)
    else Ok (pantry1, World.heap w1, daily_leftovers_generated self) in
  let '(consumption_by_type, emergency_takeouts) :=
    record_consumption h2 consumption
      (daily_consumption self, daily_emergency_takeouts self) in
  Ok (set_counters (set_pantry self pantry2) consumption_by_type
        emergency_takeouts daily_plate_waste leftovers_generated meals_eaten,
      World.mk h2 (World.rng w1)).

Fixpoint eat_meals (meals_today : list PlannedMeal.t) (self : t) (w : World.t)
    : result (t * World.t) :=
  match meals_today with
  | [] => Ok (self, w)
  | planned_meal :: rest =>
      let* (self1, w1) := eat_meal planned_meal self w in
      eat_meals rest self1 w1
  end.

(** [for item in order: self.pantry.add_item(item)], with the running total
    of the quantities. *)
Definition add_order (h : Heap.t) (order : list ref) (p : Pantry.t) : Q * Pantry.t :=
  fold_left (fun '(total, p) item =>
               ((total + FoodItem.quantity (Heap.get h item))%Q,
                Pantry.add_item h p item))
            order (0%Q, p).

(** The block under [if self.order_policy.days_until_next_order == 0]. *)
Definition place_order (pow_half : Q -> Q) (self : t) (w : World.t)
    : result (Q * Q * t * World.t) :=
  let '(perishable_quantity, non_perishable_quantity, policy1) :=
    OrderPolicy.determine_order_quantity pow_half (order_policy self)
      (history self) (World.heap w) (pantry self) in
  let* store :=
    match grocery_store self with
    | Some store => Ok store
    | None => Raise AttributeError
    end in
  let* (perishable_order, w1) :=
    GroceryStore.get_order store PERISHABLE perishable_quantity w in
  let* (non_perishable_order, w2) :=
    GroceryStore.get_order store NON_PERISHABLE non_perishable_quantity w1 in
  let '(total_perishable_bought, pantry1) :=
    add_order (World.heap w2) perishable_order (pantry self) in
  let '(total_nonperishable_bought, pantry2) :=
    add_order (World.heap w2) non_perishable_order pantry1 in
  let* policy2 := OrderPolicy.reset_days_until_next_order policy1 in
  Ok (total_perishable_bought, total_nonperishable_bought,
      set_order_policy (set_pantry self pantry2) policy2, w2).

(** [sum(value for value in waste_log[...][current_day].values())] *)
Definition waste_of_day (log : gmap Z (ByType.t Q)) (day : Z) : result Q :=
  match log !! day with
  | Some weights => Ok (Qsum (ByType.values weights))
  | None => Raise KeyError
  end.

Definition daily_step (pow_half : Q -> Q) (self : t) (w : World.t)
    : result (DailyRecord.t * t * World.t) :=
  let self := set_counters self (ByType.const 0%Q) 0%Q 0%Q 0%Q 0 in
  let* (meals_today, rest_of_week) :=
    match weekly_meals self with
    | None => Raise AttributeError
    | Some [] => Raise IndexError
    | Some (meals_today :: rest_of_week) => Ok (meals_today, rest_of_week)
    end in
  let self := set_weekly_meals self (Some rest_of_week) in
  let* (self, w) := eat_meals meals_today self w in
  let* (pantry1, h1) :=
    Pantry.step (pantry_strategy self) (World.heap w) (pantry self) in
  let self := set_pantry self pantry1 in
  let w := World.mk h1 (World.rng w) in
  let* policy1 := OrderPolicy.decrement_days_until_next_order (order_policy self) in
  let self := set_order_policy self policy1 in
  let* days := OrderPolicy.days_until_next_order policy1 in
  let* (total_perishable_bought, total_nonperishable_bought, self, w) :=
    if days =? 0 then place_order pow_half self w
    else Ok (0%Q, 0%Q, self, w) in
  let p := pantry self in
  let h := World.heap w in
  let* expired :=
    waste_of_day (Pantry.waste_log_expired_discards p) (Pantry.current_day p) in
  let* discarded :=
    waste_of_day (Pantry.waste_log_strategy_discards p) (Pantry.current_day p) in
  let daily_record :=
    DailyRecord.mk (meals_eaten_today self) (daily_consumption self)
      (daily_emergency_takeouts self) total_perishable_bought
      total_nonperishable_bought expired discarded
      (Pantry.get_total h p)
      (Pantry.get_total_by_type h p PERISHABLE)
      (Pantry.get_total_by_type h p NON_PERISHABLE)
      (Pantry.get_total_by_type h p LEFTOVER)
      (daily_plate_waste self) (daily_leftovers_generated self) in
  Ok (daily_record, set_history self (history self ++ [daily_record]), w).
End Household.

(** * Vocabulary of the properties *)

(** ** GroceryStore.get_order *)

(** The number of zero-quantity draws in the ghost log of [get_order]. *)
Definition count_zero_draws (draws : list Z) : Z :=
  Z.of_nat (length (List.filter (fun q => q =? 0) draws)).

(** The length of the longest run of consecutive zero-quantity draws;
    [current] is the length of the run that ends where the list starts. *)
Fixpoint longest_zero_run_from (current : nat) (draws : list Z) : nat :=
  match draws with
  | [] => current
  | q :: rest =>
      if q =? 0 then longest_zero_run_from (S current) rest
      else Nat.max current (longest_zero_run_from 0 rest)
  end.

Definition longest_zero_run (draws : list Z) : nat :=
  longest_zero_run_from 0 draws.

(** The cumulative drawn mass. *)
Definition Zsum (l : list Z) : Z := fold_right Z.add 0 l.

(** The mass of an order: [sum(item.quantity for item in order)]. *)
Definition order_mass (h : Heap.t) (order : list ref) : Q :=
  Qsum (Pantry.quantities h order).

(** What the loop of [get_order] keeps true, for a request of [wanted]
    (the value of [int(total_quantity)]) of type [food_type]. *)
Definition order_invariant (food_type : FoodType) (wanted : Z)
    (s : GroceryStore.loop_state) : Prop :=
  0 <= GroceryStore.remaining_quantity s <= wanted
  /\ 0 <= GroceryStore.failures s <= 100
  /\ GroceryStore.failures s = count_zero_draws (GroceryStore.draws s)
  /\ Zsum (GroceryStore.draws s) = wanted - GroceryStore.remaining_quantity s
  /\ Forall (fun r =>
       (r < Heap.next (World.heap (GroceryStore.world s)))%nat
       /\ FoodItem.food_type (Heap.get (World.heap (GroceryStore.world s)) r) = food_type
       /\ FoodItem.best_before (Heap.get (World.heap (GroceryStore.world s)) r) + 1
          <= FoodItem.spoilage_date (Heap.get (World.heap (GroceryStore.world s)) r))
     (GroceryStore.order s)
  /\ (order_mass (World.heap (GroceryStore.world s)) (GroceryStore.order s)
      == inject_Z (wanted - GroceryStore.remaining_quantity s))%Q.

(** A bound on the number of iterations still to come. *)
Definition order_measure (s : GroceryStore.loop_state) : nat :=
  (Z.to_nat (GroceryStore.remaining_quantity s)
   + Z.to_nat (100 - GroceryStore.failures s))%nat.

(** ** Concrete inputs used by the examples *)

(** The store of [tests/test_grocerystore.py]. *)
Definition test_store : GroceryStore.t :=
  GroceryStore.init
    {[ PERISHABLE := (3%Q, 1%Q); NON_PERISHABLE := (50%Q, 10%Q) ]}
    {[ PERISHABLE := (5%Q, 2%Q); NON_PERISHABLE := (100%Q, 20%Q) ]}.

(** A random source whose raw draws are all [0], except the draw number
    [299], which is [3 * 2^51] (so that [random()] gives [0.75] there).
    [get_order] uses three draws per iteration, the third one for the
    quantity: the quantity draw of iteration 99 is the exceptional one. *)
Definition late_success_tape : nat -> Z :=
  fun n => if (n =? 299)%nat then 3 * 2 ^ 51 else 0.

Definition late_success_world : World.t :=
  World.mk Heap.empty (Rng.mk late_success_tape 0).

(** A random source with all raw draws equal to [2^52] ([random()] gives
    [0.5]). *)
Definition half_world : World.t :=
  World.mk Heap.empty (Rng.mk (fun _ => 2 ^ 52) 0).

(** ** Pantry *)

(** A pantry holds distinct objects, each in the list of its own food type,
    and only objects that exist.  [Pantry.add_item] of a newly built item
    keeps this, and so do [Pantry.step] and the consumption strategies. *)
Definition pantry_wf (h : Heap.t) (p : Pantry.t) : Prop :=
  NoDup (Pantry.all_items p)
  /\ (forall ft r, r ∈ Pantry.get_items_by_type p ft ->
                   FoodItem.food_type (Heap.get h r) = ft)
  /\ (forall r, r ∈ Pantry.all_items p -> (r < Heap.next h)%nat).

(** The items of [l] whose food type is [ft], and their mass. *)
Definition items_of_type (h : Heap.t) (ft : FoodType) (l : list ref) : list ref :=
  List.filter (fun r => bool_decide (FoodItem.food_type (Heap.get h r) = ft)) l.

Definition mass_of_type (h : Heap.t) (ft : FoodType) (l : list ref) : Q :=
  Qsum (Pantry.quantities h (items_of_type h ft l)).

(** All the items that [Pantry.step] marks for removal. *)
Definition marked (m : Pantry.marks) : list ref :=
  Pantry.expired_items m ++ Pantry.strategy_discards m ++ Pantry.empty_items m.

(** What the classification loop of [Pantry.step] keeps true; [h0] is the
    store before the step, [all] the items of the pantry and [todo] the
    items still to visit. *)
Definition classify_invariant (h0 : Heap.t) (all todo : list ref)
    (acc : Pantry.marks) : Prop :=
  (forall r, FoodItem.quantity (Heap.get (Pantry.heap_now acc) r)
             = FoodItem.quantity (Heap.get h0 r)
             /\ FoodItem.food_type (Heap.get (Pantry.heap_now acc) r)
                = FoodItem.food_type (Heap.get h0 r)
             /\ FoodItem.name (Heap.get (Pantry.heap_now acc) r)
                = FoodItem.name (Heap.get h0 r))
  /\ Heap.next (Pantry.heap_now acc) = Heap.next h0
  /\ NoDup (marked acc)
  /\ (forall r, r ∈ marked acc -> r ∈ all /\ r ∉ todo)
  /\ (forall ft, (ByType.get (Pantry.weights_expired acc) ft
                  == mass_of_type h0 ft (Pantry.expired_items acc))%Q)
  /\ (forall ft, (ByType.get (Pantry.weights_strategy_discarded acc) ft
                  == mass_of_type h0 ft (Pantry.strategy_discards acc))%Q)
  /\ Forall (fun r => (1 # 1000 < FoodItem.quantity (Heap.get h0 r))%Q
                      /\ FoodItem.is_expired (Heap.get (Pantry.heap_now acc) r) = true)
            (Pantry.expired_items acc)
  /\ Forall (fun r => (1 # 1000 < FoodItem.quantity (Heap.get h0 r))%Q
                      /\ FoodItem.is_expired (Heap.get (Pantry.heap_now acc) r) = false)
            (Pantry.strategy_discards acc)
  /\ Forall (fun r => (FoodItem.quantity (Heap.get h0 r) <= 1 # 1000)%Q)
            (Pantry.empty_items acc).

(** An object store that holds the given items, at the references
    [0], [1], ... in this order. *)
Definition heap_of_list (items : list FoodItem.t) : Heap.t :=
  fold_left (fun h item => snd (Heap.alloc h item)) items Heap.empty.

(** [pantry.add_item] for each of the given objects, on an empty pantry. *)
Definition pantry_of_list (h : Heap.t) (items : list ref) : Pantry.t :=
  fold_left (Pantry.add_item h) items Pantry.init.

(** The pantry of [tests/test_consumption_strategy2.py]: three bags of rice
    with the same dates. *)
Definition rice_heap : Heap.t :=
  heap_of_list
    [FoodItem.mk "Small Rice" NON_PERISHABLE 365 730 (7 # 10);
     FoodItem.mk "Medium Rice" NON_PERISHABLE 365 730 1;
     FoodItem.mk "Large Rice" NON_PERISHABLE 365 730 (15 # 10)].

Definition rice_pantry : Pantry.t :=
  pantry_of_list rice_heap [0; 1; 2]%nat.

(** A random source whose raw draws are all [0]: [random.choice] always
    picks the first element. *)
Definition zero_rng : Rng.t := Rng.mk (fun _ => 0) 0.

(** The pantry of [test_strategy_discards_logged_separately_from_expired_discards]
    in [tests/test_pantry.py]. *)
Definition leftovers_heap : Heap.t :=
  heap_of_list
    [FoodItem.mk "LeftoverItem1" LEFTOVER 1 5 2;
     FoodItem.mk "LeftoverItem2" LEFTOVER 1 1 3].

Definition leftovers_pantry : Pantry.t :=
  pantry_of_list leftovers_heap [0; 1]%nat.

(** ** Meal *)

(** The sum of the take-amounts of a selection. *)
Definition takes (sel : selection) : Q := Qsum (map snd sel).

(** [food_choice[0].name == "Emergency Takeout"], the test by which
    [Meal.consume] and [Household.daily_step] recognise the placeholder. *)
Definition is_takeout (h : Heap.t) (e : ref * Q) : bool :=
  String.eqb (FoodItem.name (Heap.get h (fst e))) EMERGENCY_TAKEOUT.

(** The take-amounts of the selected items that are not named
    "Emergency Takeout": all of them, and those of one food type. *)
Definition real_takes (h : Heap.t) (sel : selection) : Q :=
  takes (List.filter (fun e => negb (is_takeout h e)) sel).

Definition real_takes_of_type (h : Heap.t) (ft : FoodType) (sel : selection) : Q :=
  takes (List.filter
           (fun e => negb (is_takeout h e)
                     && bool_decide (FoodItem.food_type (Heap.get h (fst e)) = ft))
           sel).

(** What [Meal.consume] subtracts from the object [r]. *)
Definition taken (h : Heap.t) (sel : selection) (r : ref) : Q :=
  takes (List.filter (fun e => Nat.eqb (fst e) r && negb (is_takeout h e)) sel).

(** No item of the pantry carries the name of the placeholder. *)
Definition no_takeout_names (h : Heap.t) (p : Pantry.t) : Prop :=
  forall r, r ∈ Pantry.all_items p ->
            FoodItem.name (Heap.get h r) <> EMERGENCY_TAKEOUT.

(** [h'] has every object of [h], unchanged, and maybe new ones. *)
Definition heap_extends (h h' : Heap.t) : Prop :=
  (Heap.next h <= Heap.next h')%nat
  /\ forall r, (r < Heap.next h)%nat -> Heap.get h' r = Heap.get h r.

(** The two pantries differ at most in their item lists. *)
Definition same_logs (p p' : Pantry.t) : Prop :=
  Pantry.waste_log_strategy_discards p' = Pantry.waste_log_strategy_discards p
  /\ Pantry.waste_log_expired_discards p' = Pantry.waste_log_expired_discards p
  /\ Pantry.current_day p' = Pantry.current_day p.

(** An entry of the selection that [choose_food_to_eat] returns is either an
    item of the pantry, of a requested food type and taken for no more than
    it holds, or a placeholder built by the call. *)
Definition entry_ok (h h' : Heap.t) (p : Pantry.t) (keys : list FoodType)
    (e : ref * Q) : Prop :=
  (exists ft, ft ∈ keys /\ fst e ∈ Pantry.get_items_by_type p ft
              /\ (snd e <= FoodItem.quantity (Heap.get h (fst e)))%Q)
  \/ ((Heap.next h <= fst e < Heap.next h')%nat
      /\ Heap.get h' (fst e)
         = FoodItem.mk EMERGENCY_TAKEOUT PERISHABLE 0 0 (snd e)).

(** The shape of the selection that [choose_food_to_eat] returns for a
    consumption pattern: for each requested food type, the items chosen in
    the pantry and then, when they do not add up to the requested amount, one
    new object (the placeholder) taken for the shortfall. *)
Inductive served (h0 : Heap.t) (p0 : Pantry.t) : Meal.patterns -> selection -> Prop :=
| served_nil : served h0 p0 [] []
| served_enough (ft : FoodType) (amount : Q) (rest : Meal.patterns)
    (chosen sel : selection) :
    Forall (fun e => fst e ∈ Pantry.get_items_by_type p0 ft) chosen ->
    (amount - takes chosen <= 0)%Q ->
    served h0 p0 rest sel ->
    served h0 p0 ((ft, amount) :: rest) (chosen ++ sel)
| served_short (ft : FoodType) (amount : Q) (rest : Meal.patterns)
    (chosen sel : selection) (r : ref) :
    Forall (fun e => fst e ∈ Pantry.get_items_by_type p0 ft) chosen ->
    (0 < amount - takes chosen)%Q ->
    (Heap.next h0 <= r)%nat ->
    served h0 p0 rest sel ->
    served h0 p0 ((ft, amount) :: rest)
      (chosen ++ (r, (amount - takes chosen)%Q) :: sel).

(** Executable checks of [pantry_wf] and [no_takeout_names]. *)
Fixpoint distinctb (l : list ref) : bool :=
  match l with
  | [] => true
  | x :: l' => negb (existsb (Nat.eqb x) l') && distinctb l'
  end.

Definition pantry_wfb (h : Heap.t) (p : Pantry.t) : bool :=
  distinctb (Pantry.all_items p)
  && forallb (fun ft =>
                forallb (fun r => bool_decide (FoodItem.food_type (Heap.get h r) = ft))
                        (Pantry.get_items_by_type p ft))
             [LEFTOVER; PERISHABLE; NON_PERISHABLE]
  && forallb (fun r => (r <? Heap.next h)%nat) (Pantry.all_items p).

Definition no_takeout_namesb (h : Heap.t) (p : Pantry.t) : bool :=
  forallb (fun r => negb (String.eqb (FoodItem.name (Heap.get h r)) EMERGENCY_TAKEOUT))
          (Pantry.all_items p).

(** The perishables of [tests/test_meal2.py]. *)
Definition meat_heap : Heap.t :=
  heap_of_list
    [FoodItem.mk "Chicken" PERISHABLE 3 5 (1 # 2);
     FoodItem.mk "Beef" PERISHABLE 4 7 (7 # 10)].

Definition meat_pantry : Pantry.t := pantry_of_list meat_heap [0; 1]%nat.

(** A pantry with two real items that carry the name of the placeholder. *)
Definition takeout_named_heap : Heap.t :=
  heap_of_list
    [FoodItem.mk "Emergency Takeout" PERISHABLE 3 5 2;
     FoodItem.mk "Emergency Takeout" PERISHABLE 3 5 5].

Definition takeout_named_pantry : Pantry.t :=
  pantry_of_list takeout_named_heap [0; 1]%nat.

(** ** Household *)

(** The take-amounts of the entries of one food type (what
    [daily_step] adds to [daily_consumption[ft]]), and of the entries named
    "Emergency Takeout" (what it adds to [daily_emergency_takeouts]). *)
Definition takes_of_type (h : Heap.t) (ft : FoodType) (sel : selection) : Q :=
  takes (List.filter
           (fun e => bool_decide (FoodItem.food_type (Heap.get h (fst e)) = ft)) sel).

Definition takeout_takes (h : Heap.t) (sel : selection) : Q :=
  takes (List.filter (is_takeout h) sel).

(** The attributes of a household that a meal does not assign. *)
Definition same_policies (a b : Household.t) : Prop :=
  Household.order_policy b = Household.order_policy a
  /\ Household.history b = Household.history a
  /\ Household.grocery_store b = Household.grocery_store a
  /\ Household.meal_planning_strategy b = Household.meal_planning_strategy a
  /\ Household.consumption_strategy b = Household.consumption_strategy a
  /\ Household.pantry_strategy b = Household.pantry_strategy a
  /\ Household.leftover_generator b = Household.leftover_generator a
  /\ Household.plate_waste_generator b = Household.plate_waste_generator a
  /\ Household.weekly_meals b = Household.weekly_meals a.

(** The household as [daily_step] has it when it starts the meals of the
    day: counters reset, today's plan popped from [weekly_meals]. *)
Definition at_breakfast (self : Household.t) (rest_of_week : list (list PlannedMeal.t))
    : Household.t :=
  Household.set_weekly_meals
    (Household.set_counters self (ByType.const 0%Q) 0%Q 0%Q 0%Q 0)
    (Some rest_of_week).

(** Perishable consumption recorded so far today, less the emergency
    takeout recorded so far, plus the perishable mass in the pantry: meals
    keep this balance. *)
Definition perishable_balance (self : Household.t) (h : Heap.t) : Q :=
  (ByType.get (Household.daily_consumption self) PERISHABLE
   - Household.daily_emergency_takeouts self
   + Pantry.get_total_by_type h (Household.pantry self) PERISHABLE)%Q.

(** A household with a [HistoricalConsumptionPolicy], the store of the
    tests, an empty pantry and one meal of 1000 g planned for each day of the
    week. *)
Definition historical_household : Household.t :=
  Household.set_weekly_meals
    (Household.init 2 1 (1 # 2) MealPlanningStrategy.FreshFirst
       ConsumptionStrategy.Basic LaxStrategy
       (OrderPolicy.new_historical (FixedConsumptionPolicy.init 1 (1 # 2) 7 1 1))
       (Some test_store)
       (FixedPercentageLeftoverGenerator.mk 0)
       (FixedPercentageWasteCalculator.mk 0))
    (Some (repeat [PlannedMeal.mk 1000] 7)).

(** The same household with the [FixedConsumptionPolicy] itself. *)
Definition fixed_household : Household.t :=
  Household.set_order_policy historical_household
    (OrderPolicy.new_fixed 1 (1 # 2) 7 1 1).

Definition empty_world : World.t := World.mk Heap.empty zero_rng.

(** The items of the order that [get_order] is building are new objects
    (not in the store [h0] in which the call started), distinct, of the
    requested food type and named after it. *)
Definition order_fresh (h0 : Heap.t) (food_type : FoodType)
    (h : Heap.t) (order : list ref) : Prop :=
  heap_extends h0 h
  /\ NoDup order
  /\ Forall (fun r =>
       (Heap.next h0 <= r < Heap.next h)%nat
       /\ FoodItem.food_type (Heap.get h r) = food_type
       /\ FoodItem.name (Heap.get h r) = (FoodType_name food_type ++ " - item")%string)
     order.

(** The invariant of the simulation: the pantry is well formed and none of
    its items is named "Emergency Takeout". *)
Definition pantry_ok (h : Heap.t) (p : Pantry.t) : Prop :=
  pantry_wf h p /\ no_takeout_names h p.


(** * Vocabulary of the further properties *)

(** ** Pantry *)

(** The list is in non-decreasing order of [key]. *)
Fixpoint sorted_by (key : ref -> Z) (l : list ref) : Prop :=
  match l with
  | [] => True
  | x :: l' => Forall (fun y => key x <= key y) l' /\ sorted_by key l'
  end.

(** The sort key of [Pantry.add_item]: [lambda x: x.spoilage_date]. *)
Definition spoilage_key (h : Heap.t) (r : ref) : Z :=
  FoodItem.spoilage_date (Heap.get h r).

(** The object [r] as [Pantry.step] sees it after [item.day_passes()]. *)
Definition aged (h : Heap.t) (r : ref) : FoodItem.t :=
  FoodItem.day_passes (Heap.get h r).

(** The branches of the [if]/[elif] chain of [Pantry.step], as tests on the
    aged item: [quantity <= 0.001], else [is_expired()], else
    [strategy.should_discard(item)], else nothing (the item stays). *)
Definition goes_empty (h : Heap.t) (r : ref) : bool :=
  Qle_bool (FoodItem.quantity (aged h r)) (1 # 1000).

Definition goes_expired (h : Heap.t) (r : ref) : bool :=
  negb (goes_empty h r) && FoodItem.is_expired (aged h r).

Definition goes_discarded (strategy : PantryStrategy.t) (h : Heap.t) (r : ref) : bool :=
  negb (goes_empty h r) && negb (FoodItem.is_expired (aged h r))
  && PantryStrategy.should_discard strategy (aged h r).

Definition stays (strategy : PantryStrategy.t) (h : Heap.t) (r : ref) : bool :=
  negb (goes_empty h r) && negb (FoodItem.is_expired (aged h r))
  && negb (PantryStrategy.should_discard strategy (aged h r)).

(** ** Consumption strategies *)

(** No item of the list holds a negative quantity. *)
Definition nonneg_quantities (h : Heap.t) (l : list ref) : Prop :=
  Forall (fun r => (0 <= FoodItem.quantity (Heap.get h r))%Q) l.

(** ** GroceryStore *)

(** What [get_order] builds for a request of [total_quantity] of
    [food_type]: an item of that type, named after it, whose spoilage date
    lies after its best before date, and whose quantity is a whole number,
    at least 1 and at most half the request. *)
Definition order_item (total_quantity : Q) (food_type : FoodType)
    (h : Heap.t) (r : ref) : Prop :=
  FoodItem.food_type (Heap.get h r) = food_type
  /\ FoodItem.name (Heap.get h r) = (FoodType_name food_type ++ " - item")%string
  /\ FoodItem.best_before (Heap.get h r) < FoodItem.spoilage_date (Heap.get h r)
  /\ exists n : Z, 1 <= n
                   /\ FoodItem.quantity (Heap.get h r) = inject_Z n
                   /\ (inject_Z n <= (1 # 2) * total_quantity)%Q.

(** The random source after [n] more raw draws. *)
Definition Rng_skip (n : nat) (g : Rng.t) : Rng.t :=
  Rng.mk (Rng.tape g) (n + Rng.cursor g).

(** ** Household: the day's ledger *)

(** [sum(daily_consumption.values())]: all that was eaten today. *)
Definition consumption_total (daily_consumption : ByType.t Q) : Q :=
  Qsum (ByType.values daily_consumption).

(** The planned mass of a day's meals. *)
Definition planned_grams (meals : list PlannedMeal.t) : Q :=
  Qsum (map PlannedMeal.total_grams meals).

(** ** Meal: what is asked for and what the pantry cannot supply *)

(** The mass that a consumption pattern asks for. *)
Definition requested (patterns : Meal.patterns) : Q := Qsum (map snd patterns).

(** What the pantry cannot supply of a pattern: per food type, the part of
    the requested amount that exceeds what the pantry holds of the type. *)
Definition shortfall (h : Heap.t) (p : Pantry.t) (patterns : Meal.patterns) : Q :=
  Qsum (map (fun '(ft, amount) =>
               Qmax_py 0 (amount - Pantry.get_total_by_type h p ft)) patterns).

(** The entries of a selection for objects built after the store held [n]
    objects. *)
Definition built_since (n : nat) (sel : selection) : selection :=
  List.filter (fun e => (n <=? fst e)%nat) sel.

(** ** The state of a pantry during the simulation *)

(** The pantry is well formed, none of its items is named "Emergency
    Takeout", no quantity is negative and every list is in order of
    spoilage date. *)
Definition pantry_sound (h : Heap.t) (p : Pantry.t) : Prop :=
  pantry_ok h p
  /\ nonneg_quantities h (Pantry.all_items p)
  /\ forall ft, sorted_by (spoilage_key h) (Pantry.get_items_by_type p ft).

(** A planning strategy whose proportion of perishables is a proportion. *)
Definition sensible_plan (strategy : MealPlanningStrategy.t) : Prop :=
  match strategy with
  | MealPlanningStrategy.FreshFirst => True
  | MealPlanningStrategy.Proportional proportion => (0 <= proportion <= 1)%Q
  end.

(** A household can order: it has a grocery store, with parameters for
    the two food types that are ordered. *)
Definition can_order (self : Household.t) : Prop :=
  is_Some (Household.grocery_store self)
  /\ (forall store, Household.grocery_store self = Some store ->
        forall ft, ft = PERISHABLE \/ ft = NON_PERISHABLE ->
          is_Some (GroceryStore.best_before_params store !! ft)
          /\ is_Some (GroceryStore.spoilage_date_params store !! ft)).

(** ** MealGenerator and StandardMealGenerator *)

(** The keys of [ADULT_CONSUMPTION] and [KID_CONSUMPTION], and of the dict
    that [_calculate_daily_consumption] returns. *)
Inductive MealName : Type := breakfast | lunch | dinner.

Module MealGenerator.
Definition ADULT_CONSUMPTION (meal_name : MealName) : Z :=
  match meal_name with
  | breakfast => 400
  | lunch => 600
  | dinner => 600
  end.

Definition KID_CONSUMPTION (meal_name : MealName) : Z :=
  match meal_name with
  | breakfast => 250
  | lunch => 400
  | dinner => 400
  end.
End MealGenerator.

Module StandardMealGenerator.
Record t : Type := mk { meals_at_home_ratio : Q }.

(** [_calculate_daily_consumption]: the grams of each meal of the day. *)
Definition calculate_daily_consumption (household : Household.t)
    (meal_name : MealName) : Z :=
  MealGenerator.ADULT_CONSUMPTION meal_name * Household.adults household
  + MealGenerator.KID_CONSUMPTION meal_name * Household.children household.

(** [for meal_name in [...]: if random.random() <= self.meals_at_home_ratio:
    day_meals.append(PlannedMeal(consumption_patterns[meal_name]))] *)
Fixpoint day_meals (self : t) (consumption_patterns : MealName -> Z)
    (meal_names : list MealName) (g : Rng.t) : list PlannedMeal.t * Rng.t :=
  match meal_names with
  | [] => ([], g)
  | meal_name :: rest =>
      let (u, g1) := Rng.random g in
      let (later_meals, g2) := day_meals self consumption_patterns rest g1 in
      if Qle_bool u (meals_at_home_ratio self)
      then (PlannedMeal.mk (inject_Z (consumption_patterns meal_name)) :: later_meals,
            g2)
      else (later_meals, g2)
  end.

(** [for _ in [...]: ...; weekly_meals.append(day_meals)] *)
Fixpoint week_meals (self : t) (consumption_patterns : MealName -> Z)
    (days : list string) (g : Rng.t) : list (list PlannedMeal.t) * Rng.t :=
  match days with
  | [] => ([], g)
  | _ :: rest =>
      let (today, g1) :=
        day_meals self consumption_patterns [breakfast; lunch; dinner] g in
      let (later_days, g2) := week_meals self consumption_patterns rest g1 in
      (today :: later_days, g2)
  end.

Definition generate_weekly_meals (self : t) (household : Household.t) (g : Rng.t)
    : list (list PlannedMeal.t) * Rng.t :=
  week_meals self (calculate_daily_consumption household)
    ["Monday"; "Tuesday"; "Wednesday"; "Thursday"; "Friday"; "Saturday"; "Sunday"]%string
    g.
End StandardMealGenerator.

(** [Household.start_of_week].  The meal generator of the household, which
    no other method reads, is given as an argument. *)
Definition start_of_week (meal_generator : StandardMealGenerator.t)
    (self : Household.t) (w : World.t) : Household.t * World.t :=
  let (weekly_meals, g) :=
    StandardMealGenerator.generate_weekly_meals meal_generator self (World.rng w) in
  (Household.set_weekly_meals self (Some weekly_meals), World.mk (World.heap w) g).

(** [for day in range(days): household.daily_step()], for one household. *)
Fixpoint daily_steps (pow_half : Q -> Q) (days : nat) (self : Household.t)
    (w : World.t) : result (Household.t * World.t) :=
  match days with
  | O => Ok (self, w)
  | S days' =>
      let* (_, self, w) := Household.daily_step pow_half self w in
      daily_steps pow_half days' self w
  end.

(** One week of [run_simulation] for one household: [start_of_week], then
    seven times [daily_step]. *)
Definition simulate_week (pow_half : Q -> Q) (meal_generator : StandardMealGenerator.t)
    (self : Household.t) (w : World.t) : result (Household.t * World.t) :=
  let (self, w) := start_of_week meal_generator self w in
  daily_steps pow_half 7 self w.

(** The three meals of a day on which every meal is eaten at home. *)
Definition full_day (household : Household.t) : list PlannedMeal.t :=
  map (fun meal_name =>
         PlannedMeal.mk
           (inject_Z (StandardMealGenerator.calculate_daily_consumption household
                        meal_name)))
      [breakfast; lunch; dinner].

(** ** Further concrete inputs *)

(** A pantry to which the same object has been added twice. *)
Definition twice_heap : Heap.t :=
  heap_of_list [FoodItem.mk "x" PERISHABLE 1 2 1].

Definition twice_pantry : Pantry.t := pantry_of_list twice_heap [0; 0]%nat.

(** A pantry with an item of every food type. *)
Definition stocked_heap : Heap.t :=
  heap_of_list
    [FoodItem.mk "leftover" LEFTOVER 2 2 100;
     FoodItem.mk "Milk" PERISHABLE 3 5 300;
     FoodItem.mk "Cheese" PERISHABLE 4 7 700;
     FoodItem.mk "Rice" NON_PERISHABLE 365 730 200].

Definition stocked_pantry : Pantry.t :=
  pantry_of_list stocked_heap [0; 1; 2; 3]%nat.

(** A random source whose raw draws are [3], [5] and [2^52] in turn:
    every iteration of [get_order] draws a best before date of 3, a spoilage
    date of 5 and the factor 0.5 for the quantity. *)
Definition order_tape : nat -> Z :=
  fun n => match (n mod 3)%nat with
           | 0%nat => 3
           | 1%nat => 5
           | _ => 2 ^ 52
           end.

Definition stocked_world : World.t :=
  World.mk stocked_heap (Rng.mk order_tape 0).

(** A household with the stocked pantry that orders every day (frequency
    1) from the store of the tests, keeps a tenth of every meal as
    leftovers, wastes a twentieth on the plate, and has planned a meal of
    400 g and one of 600 g for the day. *)
Definition stocked_household (strategy : MealPlanningStrategy.t) : Household.t :=
  Household.set_weekly_meals
    (Household.set_pantry
       (Household.init 2 1 (1 # 2) strategy ConsumptionStrategy.Basic StrictStrategy
          (OrderPolicy.new_fixed 1000 1000 1 10 10)
          (Some test_store)
          (FixedPercentageLeftoverGenerator.mk (1 # 10))
          (FixedPercentageWasteCalculator.mk (1 # 20)))
       stocked_pantry)
    (Some [[PlannedMeal.mk 400; PlannedMeal.mk 600]]).

(** ** Meal: the placeholders of a call *)

(** The entries of a selection for the objects with a reference in
    [[n0, n1)]: when [n0] and [n1] are the sizes of the object store before
    and after [choose_food_to_eat], the objects that the call built. *)
Definition built_in (n0 n1 : nat) (sel : selection) : selection :=
  List.filter (fun e => (n0 <=? fst e)%nat && (fst e <? n1)%nat) sel.

(** The other entries. *)
Definition not_built_in (n0 n1 : nat) (sel : selection) : selection :=
  List.filter (fun e => negb ((n0 <=? fst e)%nat && (fst e <? n1)%nat)) sel.

(** * Part II: properties *)

(** ** Basic facts *)

Lemma rbind_Ok {A B : Type} (m : result A) (k : A -> result B) (b : B) :
  rbind m k = Ok b -> exists a, m = Ok a /\ k a = Ok b.
Proof. destruct m as [a|e]; simpl; intros H; [eauto | discriminate]. Qed.

Lemma Qltb_lt (a b : Q) : Qltb a b = true <-> (a < b)%Q.
Proof.
  unfold Qltb. rewrite negb_true_iff. split.
  - intros H. apply Qnot_le_lt. intros Hle. apply Qle_bool_iff in Hle. congruence.
  - intros H. destruct (Qle_bool b a) eqn:E; [|reflexivity].
    apply Qle_bool_iff in E. exfalso. apply (Qlt_not_le _ _ H E).
Qed.

Lemma Qltb_ge (a b : Q) : Qltb a b = false <-> (b <= a)%Q.
Proof. unfold Qltb. rewrite negb_false_iff. apply Qle_bool_iff. Qed.

Lemma Qle_bool_false (a b : Q) : Qle_bool a b = false <-> (b < a)%Q.
Proof.
  rewrite <- Qltb_lt. unfold Qltb. destruct (Qle_bool a b); simpl; intuition congruence.
Qed.

Lemma Qmin_py_spec (a b : Q) :
  (Qmin_py a b = b /\ (b < a)%Q) \/ (Qmin_py a b = a /\ (a <= b)%Q).
Proof.
  unfold Qmin_py. destruct (Qltb b a) eqn:E.
  - left. split; [reflexivity | now apply Qltb_lt].
  - right. split; [reflexivity | now apply Qltb_ge].
Qed.

Lemma fold_left_Qplus_acc (xs : list Q) (a : Q) :
  (fold_left Qplus xs a == a + fold_left Qplus xs 0)%Q.
Proof.
  revert a. induction xs as [|x xs IH]; intros a; simpl.
  - lra.
  - rewrite (IH (a + x)%Q), (IH (0 + x)%Q). lra.
Qed.

Lemma Qsum_nil : Qsum [] = 0%Q.
Proof. reflexivity. Qed.

Lemma Qsum_cons (x : Q) (xs : list Q) : (Qsum (x :: xs) == x + Qsum xs)%Q.
Proof. unfold Qsum. simpl. rewrite fold_left_Qplus_acc. lra. Qed.

Lemma Qsum_app (xs ys : list Q) : (Qsum (xs ++ ys) == Qsum xs + Qsum ys)%Q.
Proof.
  induction xs as [|x xs IH]; simpl.
  - rewrite Qsum_nil. lra.
  - rewrite !Qsum_cons, IH. lra.
Qed.

Lemma ByType_get_set_eq {A : Type} (d : ByType.t A) ft a :
  ByType.get (ByType.set d ft a) ft = a.
Proof. destruct ft; reflexivity. Qed.

Lemma ByType_get_set_ne {A : Type} (d : ByType.t A) ft ft' a :
  ft <> ft' -> ByType.get (ByType.set d ft a) ft' = ByType.get d ft'.
Proof. destruct ft, ft'; simpl; congruence. Qed.

(** ** FoodItem: the two horizons under [day_passes] *)

Lemma day_passes_best_before (f : FoodItem.t) :
  FoodItem.best_before (FoodItem.day_passes f)
  = Z.max (Z.min 0 (FoodItem.best_before f)) (FoodItem.best_before f - 1).
Proof.
  unfold FoodItem.day_passes; simpl.
  destruct (Z.ltb_spec 0 (FoodItem.best_before f)); lia.
Qed.

Lemma day_passes_spoilage_date (f : FoodItem.t) :
  FoodItem.spoilage_date (FoodItem.day_passes f)
  = Z.max (Z.min 0 (FoodItem.spoilage_date f)) (FoodItem.spoilage_date f - 1).
Proof.
  unfold FoodItem.day_passes; simpl.
  destruct (Z.ltb_spec 0 (FoodItem.spoilage_date f)); lia.
Qed.

Lemma days_pass_S (n : nat) (f : FoodItem.t) :
  FoodItem.days_pass (S n) f = FoodItem.day_passes (FoodItem.days_pass n f).
Proof. reflexivity. Qed.

(** For any initial horizons, also negative ones: a horizon that is
    positive goes down to zero and stays there, one that is not positive
    never moves. *)
Lemma days_pass_horizons_general (f : FoodItem.t) (n : nat) :
  FoodItem.best_before (FoodItem.days_pass n f)
  = Z.max (Z.min 0 (FoodItem.best_before f)) (FoodItem.best_before f - Z.of_nat n)
  /\ FoodItem.spoilage_date (FoodItem.days_pass n f)
     = Z.max (Z.min 0 (FoodItem.spoilage_date f))
             (FoodItem.spoilage_date f - Z.of_nat n).
Proof.
  induction n as [|n [IHb IHs]].
  - simpl. lia.
  - rewrite days_pass_S, day_passes_best_before, day_passes_spoilage_date,
      IHb, IHs. lia.
Qed.

Lemma day_passes_frame (f : FoodItem.t) :
  FoodItem.name (FoodItem.day_passes f) = FoodItem.name f
  /\ FoodItem.food_type (FoodItem.day_passes f) = FoodItem.food_type f
  /\ FoodItem.quantity (FoodItem.day_passes f) = FoodItem.quantity f.
Proof. repeat split. Qed.

(** C4, as the specification states it, fails for an item built with a
    negative [best_before] (the constructor accepts it, and
    [GroceryStore.get_order] can draw one): [day_passes] leaves the negative
    value where it is, while [max(0, initial - N)] is [0]. *)
Lemma days_pass_negative_best_before_counterexample :
  FoodItem.init "stale" PERISHABLE (-1) 3 1
    = Ok (FoodItem.mk "stale" PERISHABLE (-1) 3 1)
  /\ FoodItem.best_before
       (FoodItem.days_pass 1 (FoodItem.mk "stale" PERISHABLE (-1) 3 1)) = -1
  /\ FoodItem.best_before
       (FoodItem.days_pass 1 (FoodItem.mk "stale" PERISHABLE (-1) 3 1))
     <> Z.max 0 (FoodItem.best_before (FoodItem.mk "stale" PERISHABLE (-1) 3 1)
                 - Z.of_nat 1).
Proof. repeat split. vm_compute. discriminate. Qed.

(** C4 (amended): for every [FoodItem] whose initial [best_before] and
    [spoilage_date] are not negative, after [N] calls of [day_passes]
    [best_before = max(0, initial_best_before - N)] and
    [spoilage_date = max(0, initial_spoilage_date - N)]; and, at that point,
    [is_expired()] is true iff [spoilage_date <= 0] and
    [is_past_best_before()] is true iff [best_before <= 0]. *)
Theorem days_pass_horizons (f : FoodItem.t) (N : nat) :
  0 <= FoodItem.best_before f ->
  0 <= FoodItem.spoilage_date f ->
  let f' := FoodItem.days_pass N f in
  FoodItem.best_before f' = Z.max 0 (FoodItem.best_before f - Z.of_nat N)
  /\ FoodItem.spoilage_date f' = Z.max 0 (FoodItem.spoilage_date f - Z.of_nat N)
  /\ (FoodItem.is_expired f' = true <-> FoodItem.spoilage_date f' <= 0)
  /\ (FoodItem.is_past_best_before f' = true <-> FoodItem.best_before f' <= 0).
Proof.
  intros Hb Hs f'. subst f'.
  destruct (days_pass_horizons_general f N) as [Eb Es].
  rewrite Eb, Es. unfold FoodItem.is_expired, FoodItem.is_past_best_before.
  rewrite Eb, Es, !Z.leb_le. repeat split; lia.
Qed.

Lemma days_pass_horizons_witness :
  let f := FoodItem.mk "Chicken" PERISHABLE 3 5 (1 # 2) in
  FoodItem.best_before (FoodItem.days_pass 4 f) = 0
  /\ FoodItem.spoilage_date (FoodItem.days_pass 4 f) = 1.
Proof.
  intros f.
  destruct (days_pass_horizons f 4) as (Hb & Hs & _).
  - simpl. lia.
  - simpl. lia.
  - split; [exact Hb | exact Hs].
Defined.

(** ** Meal planning: the pattern adds up to the planned mass *)

Lemma Qsum_three (a b c : Q) : (Qsum [a; b; c] == a + b + c)%Q.
Proof. unfold Qsum; simpl. lra. Qed.

Lemma plan_meal_pattern_keys (strategy : MealPlanningStrategy.t)
    (planned_meal : PlannedMeal.t) (h : Heap.t) (pantry : Pantry.t) :
  map fst (MealPlanningStrategy.plan_meal strategy planned_meal h pantry)
  = [LEFTOVER; PERISHABLE; NON_PERISHABLE].
Proof.
  destruct strategy as [|p]; simpl; [reflexivity|].
  unfold ProportionalConsumptionStrategy.plan_meal.
  destruct (Qle_bool _ _); reflexivity.
Qed.

(** C6: for every planned meal and pantry state, [FreshFirstStrategy] and
    [ProportionalConsumptionStrategy] (with any proportion) return a
    consumption pattern with exactly the three food types as keys, and the
    three masses add up to [planned_meal.total_grams] (in exact
    arithmetic). *)
Theorem plan_meal_pattern_sums_to_total_grams
    (strategy : MealPlanningStrategy.t) (planned_meal : PlannedMeal.t)
    (h : Heap.t) (pantry : Pantry.t) :
  map fst (MealPlanningStrategy.plan_meal strategy planned_meal h pantry)
  = [LEFTOVER; PERISHABLE; NON_PERISHABLE]
  /\ (Qsum (map snd (MealPlanningStrategy.plan_meal strategy planned_meal h pantry))
      == PlannedMeal.total_grams planned_meal)%Q.
Proof.
  split; [apply plan_meal_pattern_keys|].
  destruct strategy as [|p]; simpl.
  - unfold FreshFirstStrategy.plan_meal; simpl. rewrite Qsum_three. lra.
  - unfold ProportionalConsumptionStrategy.plan_meal.
    destruct (Qle_bool _ _); simpl; rewrite Qsum_three; lra.
Qed.

(** ** Pantry.step under LaxStrategy *)

Lemma fold_left_ext_all {A B : Type} (f g : A -> B -> A) (l : list B) (a : A) :
  (forall x y, f x y = g x y) -> fold_left f l a = fold_left g l a.
Proof.
  intros E. revert a. induction l as [|b l IH]; intros a; simpl; [reflexivity|].
  rewrite E. apply IH.
Qed.

(** [LaxStrategy.should_discard] is consulted only after [is_expired] has
    answered no, and then it answers no, too. *)
Lemma classify_item_lax (acc : Pantry.marks) (r : ref) :
  Pantry.classify_item LaxStrategy acc r
  = Pantry.classify_item (fun _ => false) acc r.
Proof.
  unfold Pantry.classify_item, PantryStrategy.should_discard, LaxStrategy.
  destruct (Qle_bool _ _); [reflexivity|].
  destruct (FoodItem.is_expired _) eqn:E; reflexivity.
Qed.

Lemma classify_item_never_strategy (acc : Pantry.marks) (r : ref) :
  Pantry.strategy_discards (Pantry.classify_item (fun _ => false) acc r)
  = Pantry.strategy_discards acc
  /\ Pantry.weights_strategy_discarded (Pantry.classify_item (fun _ => false) acc r)
     = Pantry.weights_strategy_discarded acc.
Proof.
  unfold Pantry.classify_item, PantryStrategy.should_discard.
  destruct (Qle_bool _ _); [split; reflexivity|].
  destruct (FoodItem.is_expired _); split; reflexivity.
Qed.

Lemma classify_never_strategy (l : list ref) (acc : Pantry.marks) :
  Pantry.strategy_discards (fold_left (Pantry.classify_item (fun _ => false)) l acc)
  = Pantry.strategy_discards acc
  /\ Pantry.weights_strategy_discarded
       (fold_left (Pantry.classify_item (fun _ => false)) l acc)
     = Pantry.weights_strategy_discarded acc.
Proof.
  revert acc. induction l as [|r l IH]; intros acc; simpl; [split; reflexivity|].
  destruct (IH (Pantry.classify_item (fun _ => false) acc r)) as [E1 E2].
  destruct (classify_item_never_strategy acc r) as [E3 E4].
  rewrite E1, E2, E3, E4. split; reflexivity.
Qed.

Lemma classify_lax (h : Heap.t) (p : Pantry.t) :
  Pantry.classify LaxStrategy h p = Pantry.classify (fun _ => false) h p.
Proof. unfold Pantry.classify. apply fold_left_ext_all, classify_item_lax. Qed.

(** C8: for every pantry state, [Pantry.step] with [LaxStrategy] behaves
    as [Pantry.step] with a strategy whose [should_discard] is constantly
    false (same result, same error if any), it marks no item as a strategy
    discard, and the strategy-discards bucket it writes for the new day is
    zero for every food type. *)
Theorem step_lax_is_never_discard (h : Heap.t) (p : Pantry.t) :
  Pantry.step LaxStrategy h p = Pantry.step (fun _ => false) h p
  /\ Pantry.strategy_discards (Pantry.classify LaxStrategy h p) = []
  /\ match Pantry.step LaxStrategy h p with
     | Ok (p', _) =>
         Pantry.current_day p' = Pantry.current_day p + 1
         /\ Pantry.waste_log_strategy_discards p' !! Pantry.current_day p'
            = Some (ByType.mk 0%Q 0%Q 0%Q)
     | Raise _ => True
     end.
Proof.
  assert (Hs : Pantry.step LaxStrategy h p = Pantry.step (fun _ => false) h p).
  { unfold Pantry.step. rewrite classify_lax. reflexivity. }
  split; [exact Hs|]. split.
  - rewrite classify_lax. unfold Pantry.classify.
    apply (classify_never_strategy (Pantry.all_items p)).
  - rewrite Hs. unfold Pantry.step.
    destruct (Pantry.remove_items _ _ _) as [items|e]; simpl; [|exact I].
    split; [reflexivity|].
    rewrite lookup_insert_eq. f_equal. unfold Pantry.classify.
    apply (classify_never_strategy (Pantry.all_items p)).
Qed.

(** ** The object store *)

Lemma heap_get_set_eq (h : Heap.t) (r : ref) (v : FoodItem.t) :
  Heap.get (Heap.set h r v) r = v.
Proof. unfold Heap.get, Heap.set; simpl. now rewrite Nat.eqb_refl. Qed.

Lemma heap_get_set_ne (h : Heap.t) (r r' : ref) (v : FoodItem.t) :
  r' <> r -> Heap.get (Heap.set h r v) r' = Heap.get h r'.
Proof.
  intros Hne. unfold Heap.get, Heap.set; simpl.
  destruct (Nat.eqb_spec r' r); [contradiction | reflexivity].
Qed.

Lemma heap_next_set (h : Heap.t) (r : ref) (v : FoodItem.t) :
  Heap.next (Heap.set h r v) = Heap.next h.
Proof. reflexivity. Qed.

Lemma heap_alloc_fst (h : Heap.t) (v : FoodItem.t) :
  fst (Heap.alloc h v) = Heap.next h.
Proof. reflexivity. Qed.

Lemma heap_alloc_next (h : Heap.t) (v : FoodItem.t) :
  Heap.next (snd (Heap.alloc h v)) = S (Heap.next h).
Proof. reflexivity. Qed.

Lemma heap_get_alloc_new (h : Heap.t) (v : FoodItem.t) :
  Heap.get (snd (Heap.alloc h v)) (Heap.next h) = v.
Proof. unfold Heap.get, Heap.alloc; simpl. now rewrite Nat.eqb_refl. Qed.

Lemma heap_get_alloc_old (h : Heap.t) (v : FoodItem.t) (r : ref) :
  (r < Heap.next h)%nat -> Heap.get (snd (Heap.alloc h v)) r = Heap.get h r.
Proof.
  intros Hlt. unfold Heap.get, Heap.alloc; simpl.
  destruct (Nat.eqb_spec r (Heap.next h)); [lia | reflexivity].
Qed.

Lemma heap_alloc_spec (h h' : Heap.t) (v : FoodItem.t) (r : ref) :
  Heap.alloc h v = (r, h') ->
  r = Heap.next h
  /\ Heap.next h' = S (Heap.next h)
  /\ Heap.get h' r = v
  /\ (forall r', (r' < Heap.next h)%nat -> Heap.get h' r' = Heap.get h r').
Proof.
  intros E.
  pose proof (heap_alloc_fst h v) as H1. pose proof (heap_alloc_next h v) as H2.
  pose proof (heap_get_alloc_new h v) as H3.
  pose proof (heap_get_alloc_old h v) as H4.
  rewrite E in *; simpl in *. subst r. auto.
Qed.

#[global] Arguments Heap.alloc : simpl never.
#[global] Arguments Heap.set : simpl never.
#[global] Arguments Heap.get : simpl never.
#[global] Arguments Rng.draw : simpl never.
#[global] Arguments Rng.random : simpl never.
#[global] Arguments Rng.uniform : simpl never.
#[global] Arguments Rng.choice_index : simpl never.

Lemma FoodItem_new_Ok (h : Heap.t) name ft bb sd q :
  bb <= sd ->
  FoodItem_new h name ft bb sd q
  = Ok (Heap.alloc h (FoodItem.mk name ft bb sd q)).
Proof.
  intros Hle. unfold FoodItem_new, FoodItem.init.
  destruct (Z.ltb_spec sd bb); [lia | reflexivity].
Qed.

Lemma quantities_app (h : Heap.t) (l1 l2 : list ref) :
  Pantry.quantities h (l1 ++ l2) = Pantry.quantities h l1 ++ Pantry.quantities h l2.
Proof. unfold Pantry.quantities. apply map_app. Qed.

Lemma quantities_ext (h h' : Heap.t) (l : list ref) :
  Forall (fun r => FoodItem.quantity (Heap.get h' r) = FoodItem.quantity (Heap.get h r)) l ->
  Pantry.quantities h' l = Pantry.quantities h l.
Proof.
  induction 1 as [|r l Hr _ IH]; simpl; [reflexivity|]. now rewrite Hr, IH.
Qed.

(** ** Python's [int] on non-negative numbers *)

Lemma int_of_Q_floor (x : Q) : (0 <= x)%Q -> int_of_Q x = Qfloor x.
Proof.
  destruct x as [n d]. unfold Qle, int_of_Q, Qfloor; simpl. intros Hn.
  apply Z.quot_div_nonneg; lia.
Qed.

Lemma int_of_Q_nonneg (x : Q) : (0 <= x)%Q -> 0 <= int_of_Q x.
Proof.
  intros Hx. rewrite int_of_Q_floor by exact Hx.
  change 0 with (Qfloor 0). now apply Qfloor_resp_le.
Qed.

Lemma int_of_Q_le (x : Q) (n : Z) : (0 <= x)%Q -> (x <= inject_Z n)%Q -> int_of_Q x <= n.
Proof.
  intros Hx Hn. rewrite int_of_Q_floor by exact Hx.
  rewrite <- (Qfloor_Z n). now apply Qfloor_resp_le.
Qed.

Lemma int_of_Q_pos_inv (x : Q) : 0 < int_of_Q x -> (0 < x)%Q.
Proof.
  destruct x as [n d]. unfold int_of_Q, Qlt; simpl. intros H.
  destruct (Z_lt_le_dec 0 n) as [Hn|Hn]; [lia|].
  exfalso.
  assert (n ÷ Z.pos d <= 0); [|lia].
  apply Z.quot_le_upper_bound; lia.
Qed.

Lemma Rng_random_range (g : Rng.t) : (0 <= fst (Rng.random g) < 1)%Q.
Proof.
  unfold Rng.random, Rng.draw; simpl.
  pose proof (Z.mod_pos_bound (Rng.tape g (Rng.cursor g)) (2 ^ 53) ltac:(lia)) as Hb.
  unfold Qle, Qlt; simpl. lia.
Qed.

Lemma Rng_uniform_factor (z : Z) :
  (0 <= Qmake (z mod (2 ^ 53 + 1)) (2 ^ 53)%positive <= 1)%Q.
Proof.
  pose proof (Z.mod_pos_bound z (2 ^ 53 + 1) ltac:(lia)) as Hb.
  unfold Qle; simpl. lia.
Qed.

Lemma Rng_uniform_nonneg (a b : Q) (g : Rng.t) :
  (0 <= a)%Q -> (a <= b)%Q -> (0 <= fst (Rng.uniform a b g))%Q.
Proof.
  intros Ha Hab. unfold Rng.uniform, Rng.draw. cbn [fst].
  pose proof (Rng_uniform_factor (Rng.tape g (Rng.cursor g))) as [H0 H1].
  nra.
Qed.

(** ** GroceryStore.get_order *)

Lemma count_zero_draws_snoc (l : list Z) (q : Z) :
  count_zero_draws (l ++ [q])
  = count_zero_draws l + (if q =? 0 then 1 else 0).
Proof.
  unfold count_zero_draws. rewrite List.filter_app, length_app. simpl.
  destruct (q =? 0); simpl; lia.
Qed.

Lemma Zsum_snoc (l : list Z) (q : Z) : Zsum (l ++ [q]) = Zsum l + q.
Proof. unfold Zsum. induction l as [|x l IH]; simpl; lia. Qed.

Lemma order_invariant_initial (ft : FoodType) (T : Q) (w : World.t) :
  0 <= int_of_Q T ->
  order_invariant ft (int_of_Q T) (GroceryStore.initial_state T w).
Proof.
  intros HT. unfold order_invariant, GroceryStore.initial_state; simpl.
  repeat split; try lia.
  - constructor.
  - unfold order_mass; simpl. rewrite Z.sub_diag. reflexivity.
Qed.

(** One iteration, entered with the loop condition true, does not raise,
    keeps the invariant and uses up some of the measure. *)
Lemma loop_body_step (ft : FoodType) (T bbm bbs sdm sds : Q)
    (s : GroceryStore.loop_state) :
  order_invariant ft (int_of_Q T) s ->
  GroceryStore.loop_condition s = true ->
  exists s', GroceryStore.loop_body ft T bbm bbs sdm sds s = Ok s'
    /\ order_invariant ft (int_of_Q T) s'
    /\ (order_measure s' < order_measure s)%nat.
Proof.
  intros (Hrem & Hf & Hcnt & Hsum & Hitems & Hmass) Hc.
  unfold GroceryStore.loop_condition in Hc.
  apply andb_true_iff in Hc as [Hc1 Hc2]. apply Z.ltb_lt in Hc1, Hc2.
  assert (HT : (0 < T)%Q) by (apply int_of_Q_pos_inv; lia).
  unfold GroceryStore.loop_body, GroceryStore.draw_from_distribution, Rng.gauss_int.
  destruct (Rng.draw (World.rng (GroceryStore.world s))) as [bb g1].
  destruct (Rng.draw g1) as [sd g2].
  pose proof (Rng_uniform_nonneg ((1 # 10) * T) ((1 # 2) * T) g2
                ltac:(lra) ltac:(lra)) as Hu.
  destruct (Rng.uniform ((1 # 10) * T) ((1 # 2) * T) g2) as [u g3]. simpl in Hu.
  set (rem := GroceryStore.remaining_quantity s) in *.
  assert (Hrq : (0 < inject_Z rem)%Q).
  { change 0%Q with (inject_Z 0). rewrite <- Zlt_Qlt. lia. }
  assert (Hq : 0 <= int_of_Q (Qmin_py u (inject_Z rem)) <= rem).
  { destruct (Qmin_py_spec u (inject_Z rem)) as [[E Hlt]|[E Hle]]; rewrite E.
    - split; [apply int_of_Q_nonneg; lra | apply int_of_Q_le; lra].
    - split; [apply int_of_Q_nonneg; lra | apply int_of_Q_le; lra]. }
  set (q := int_of_Q (Qmin_py u (inject_Z rem))) in *.
  destruct (Z.eqb_spec q 0) as [E0|E0].
  - eexists. split; [reflexivity|]. split.
    + unfold order_invariant; simpl. fold rem.
      rewrite count_zero_draws_snoc, Zsum_snoc, E0. simpl.
      repeat split; try lia; assumption.
    + unfold order_measure; simpl. fold rem. lia.
  - rewrite FoodItem_new_Ok by lia.
    set (item := FoodItem.mk _ ft bb (Z.max (bb + 1) sd) (inject_Z q)).
    set (h := World.heap (GroceryStore.world s)) in *.
    destruct (Heap.alloc h item) as [r0 h1] eqn:Ea.
    apply heap_alloc_spec in Ea as (-> & Hnext & Hnew & Hold).
    simpl. eexists. split; [reflexivity|]. split.
    + unfold order_invariant; simpl. fold rem.
      rewrite count_zero_draws_snoc, Zsum_snoc.
      destruct (Z.eqb_spec q 0) as [?|_]; [contradiction|].
      repeat split; try lia.
      * apply Forall_app. split.
        -- rewrite Forall_forall in *. intros r Hr.
           destruct (Hitems r Hr) as (Hlt & Hft & Hbs).
           rewrite (Hold r Hlt). repeat split; try assumption. lia.
        -- constructor; [|constructor].
           rewrite Hnew. subst item; simpl. repeat split; lia.
      * unfold order_mass. rewrite quantities_app, Qsum_app.
        rewrite (quantities_ext h).
        2:{ eapply Forall_impl; [exact Hitems|]. simpl.
            intros r (Hlt & _). now rewrite (Hold r Hlt). }
        unfold order_mass in Hmass. rewrite Hmass.
        unfold Pantry.quantities; simpl. rewrite Hnew.
        subst item; simpl. rewrite Qsum_cons, Qsum_nil, Qplus_0_r.
        rewrite <- inject_Z_plus. f_equiv. f_equal. lia.
    + unfold order_measure; simpl. fold rem. lia.
Qed.

Lemma while_loop_run (ft : FoodType) (T bbm bbs sdm sds : Q) (fuel : nat) :
  forall s,
    order_invariant ft (int_of_Q T) s ->
    (order_measure s <= fuel)%nat ->
    exists s', GroceryStore.while_loop fuel ft T bbm bbs sdm sds s = Ok s'
      /\ order_invariant ft (int_of_Q T) s'
      /\ GroceryStore.loop_condition s' = false.
Proof.
  induction fuel as [|fuel IH]; intros s Hinv Hm; simpl.
  - exists s. split; [reflexivity|]. split; [assumption|].
    destruct Hinv as (Hrem & _). unfold order_measure in Hm.
    unfold GroceryStore.loop_condition.
    destruct (Z.ltb_spec 0 (GroceryStore.remaining_quantity s)); [lia | reflexivity].
  - destruct (GroceryStore.loop_condition s) eqn:Hc.
    + destruct (loop_body_step ft T bbm bbs sdm sds s Hinv Hc) as (s1 & E1 & Hinv1 & Hlt).
      rewrite E1. simpl. apply IH; [assumption | lia].
    + exists s. auto.
Qed.

(** The loop of [get_order], run from its initial state with the fuel that
    [get_order] gives it, ends because its condition is false. *)
Lemma while_loop_from_initial (ft : FoodType) (T bbm bbs sdm sds : Q) (w : World.t) :
  exists s,
    GroceryStore.while_loop (GroceryStore.enough_fuel T) ft T bbm bbs sdm sds
      (GroceryStore.initial_state T w) = Ok s
    /\ GroceryStore.loop_condition s = false
    /\ ((int_of_Q T <= 0 /\ s = GroceryStore.initial_state T w)
        \/ (0 < int_of_Q T /\ order_invariant ft (int_of_Q T) s)).
Proof.
  destruct (Z_lt_le_dec 0 (int_of_Q T)) as [Hpos|Hneg].
  - destruct (while_loop_run ft T bbm bbs sdm sds (GroceryStore.enough_fuel T)
                (GroceryStore.initial_state T w)) as (s & E & Hinv & Hc).
    + apply order_invariant_initial. lia.
    + unfold order_measure, GroceryStore.enough_fuel; simpl. lia.
    + exists s. auto.
  - exists (GroceryStore.initial_state T w).
    assert (Hc : GroceryStore.loop_condition (GroceryStore.initial_state T w) = false).
    { unfold GroceryStore.loop_condition; simpl.
      destruct (Z.ltb_spec 0 (int_of_Q T)); [lia | reflexivity]. }
    split; [|auto].
    destruct (GroceryStore.enough_fuel T); simpl; [reflexivity|].
    now rewrite Hc.
Qed.

(** C9: for every store, food type, requested quantity and random source,
    every item of the order that [get_order] returns has
    [spoilage_date >= best_before + 1]; and [get_order] does not raise the
    validation error of [FoodItem.__init__] (the one exception it can raise
    is the [KeyError] of a food type without parameters). *)
Theorem get_order_spoilage_after_best_before
    (store : GroceryStore.t) (ft : FoodType) (T : Q) (w : World.t) :
  match GroceryStore.get_order store ft T w with
  | Ok (order, w') =>
      Forall (fun r =>
                FoodItem.spoilage_date (Heap.get (World.heap w') r)
                >= FoodItem.best_before (Heap.get (World.heap w') r) + 1)
             order
  | Raise e => e = KeyError
  end.
Proof.
  unfold GroceryStore.get_order, GroceryStore.get_order_run, GroceryStore.dict_get.
  destruct (GroceryStore.best_before_params store !! ft) as [[bbm bbs]|]; simpl;
    [|reflexivity].
  destruct (GroceryStore.spoilage_date_params store !! ft) as [[sdm sds]|]; simpl;
    [|reflexivity].
  destruct (while_loop_from_initial ft T bbm bbs sdm sds w)
    as (s & E & _ & [[_ ->]|[_ Hinv]]); rewrite E; simpl.
  - constructor.
  - destruct Hinv as (_ & _ & _ & _ & Hitems & _).
    eapply Forall_impl; [exact Hitems|]. simpl. intros r (_ & _ & Hle). lia.
Qed.

(** C5, as the specification states it, fails: the loop counts the
    zero-quantity draws of the whole call, not the consecutive ones.  For a
    request of 3, 99 zero draws, then one draw of 1, then one more zero draw
    end the loop with an order of mass 1, although no 100 zero draws in a
    row occurred and the drawn mass never reached 3. *)
Lemma get_order_stops_without_100_zero_draws_in_a_row :
  match GroceryStore.get_order_run test_store PERISHABLE 3 late_success_world with
  | Ok s =>
      GroceryStore.loop_condition s = false
      /\ int_of_Q 3 = 3
      /\ Zsum (GroceryStore.draws s) = 1
      /\ (order_mass (World.heap (GroceryStore.world s)) (GroceryStore.order s) == 1)%Q
      /\ longest_zero_run (GroceryStore.draws s) = 99%nat
      /\ ~ (Zsum (GroceryStore.draws s) = int_of_Q 3
            \/ (100 <= longest_zero_run (GroceryStore.draws s))%nat)
  | Raise _ => False
  end.
Proof.
  vm_compute. repeat split; try reflexivity.
  intros [H|H]; [discriminate H | revert H; apply Nat.lt_nge; vm_compute; lia].
Qed.

(** C5 (amended): for a store that has parameters for the food type and
    every [total_quantity], [get_order] does not raise; its loop draws
    non-negative quantities, each capped at the remaining need, and ends
    either when the cumulative drawn mass has reached [int(total_quantity)]
    (at once when that is not positive), and then the quantities of the
    returned items add up to exactly [max(0, int(total_quantity))], or when
    100 zero-quantity draws have been counted in total (consecutive or not),
    and then the order is truncated to a smaller sum. *)
Theorem get_order_total (store : GroceryStore.t) (ft : FoodType) (T : Q)
    (w : World.t) (bbp sdp : Q * Q) :
  GroceryStore.best_before_params store !! ft = Some bbp ->
  GroceryStore.spoilage_date_params store !! ft = Some sdp ->
  exists s,
    GroceryStore.get_order_run store ft T w = Ok s
    /\ GroceryStore.get_order store ft T w
       = Ok (GroceryStore.order s, GroceryStore.world s)
    /\ GroceryStore.loop_condition s = false
    /\ GroceryStore.failures s = count_zero_draws (GroceryStore.draws s)
    /\ (order_mass (World.heap (GroceryStore.world s)) (GroceryStore.order s)
        == inject_Z (Zsum (GroceryStore.draws s)))%Q
    /\ ((GroceryStore.remaining_quantity s <= 0
         /\ Zsum (GroceryStore.draws s) = Z.max 0 (int_of_Q T))
        \/ (0 < GroceryStore.remaining_quantity s
            /\ GroceryStore.failures s = 100
            /\ Zsum (GroceryStore.draws s)
               = int_of_Q T - GroceryStore.remaining_quantity s
            /\ 0 <= Zsum (GroceryStore.draws s) < int_of_Q T)).
Proof.
  intros Eb Es.
  unfold GroceryStore.get_order, GroceryStore.get_order_run, GroceryStore.dict_get.
  rewrite Eb, Es. destruct bbp as [bbm bbs], sdp as [sdm sds]. simpl.
  destruct (while_loop_from_initial ft T bbm bbs sdm sds w)
    as (s & E & Hc & [[Hneg ->]|[Hpos Hinv]]); rewrite E; simpl.
  - eexists. split; [reflexivity|]. split; [reflexivity|]. split; [exact Hc|].
    simpl. split; [reflexivity|]. split; [reflexivity|]. left. lia.
  - exists s. split; [reflexivity|]. split; [reflexivity|]. split; [exact Hc|].
    destruct Hinv as (Hrem & Hf & Hcnt & Hsum & _ & Hmass).
    split; [exact Hcnt|]. split; [rewrite Hsum; exact Hmass|].
    unfold GroceryStore.loop_condition in Hc. apply andb_false_iff in Hc.
    destruct (Z_lt_le_dec 0 (GroceryStore.remaining_quantity s)) as [Hr|Hr].
    + right. destruct Hc as [Hc|Hc].
      * apply Z.ltb_ge in Hc. lia.
      * apply Z.ltb_ge in Hc. repeat split; lia.
    + left. lia.
Qed.

Lemma get_order_total_witness :
  exists s,
    GroceryStore.get_order_run test_store PERISHABLE 20 half_world = Ok s
    /\ GroceryStore.get_order test_store PERISHABLE 20 half_world
       = Ok (GroceryStore.order s, GroceryStore.world s)
    /\ GroceryStore.loop_condition s = false
    /\ GroceryStore.failures s = count_zero_draws (GroceryStore.draws s)
    /\ (order_mass (World.heap (GroceryStore.world s)) (GroceryStore.order s)
        == inject_Z (Zsum (GroceryStore.draws s)))%Q
    /\ ((GroceryStore.remaining_quantity s <= 0
         /\ Zsum (GroceryStore.draws s) = Z.max 0 (int_of_Q 20))
        \/ (0 < GroceryStore.remaining_quantity s
            /\ GroceryStore.failures s = 100
            /\ Zsum (GroceryStore.draws s)
               = int_of_Q 20 - GroceryStore.remaining_quantity s
            /\ 0 <= Zsum (GroceryStore.draws s) < int_of_Q 20)).
Proof.
  apply (get_order_total test_store PERISHABLE 20 half_world (3%Q, 1%Q) (5%Q, 2%Q)).
  - vm_compute. reflexivity.
  - vm_compute. reflexivity.
Defined.

(** ** Pantry.step: conservation of the discarded mass *)

Lemma items_of_type_app (h : Heap.t) (ft : FoodType) (l1 l2 : list ref) :
  items_of_type h ft (l1 ++ l2) = items_of_type h ft l1 ++ items_of_type h ft l2.
Proof. unfold items_of_type. apply List.filter_app. Qed.

Lemma mass_of_type_nil (h : Heap.t) (ft : FoodType) : mass_of_type h ft [] = 0%Q.
Proof. reflexivity. Qed.

Lemma mass_of_type_snoc (h : Heap.t) (ft : FoodType) (l : list ref) (r : ref) :
  (mass_of_type h ft (l ++ [r])
   == mass_of_type h ft l
      + (if bool_decide (FoodItem.food_type (Heap.get h r) = ft)
         then FoodItem.quantity (Heap.get h r) else 0))%Q.
Proof.
  unfold mass_of_type. rewrite items_of_type_app, quantities_app, Qsum_app.
  unfold items_of_type at 2. simpl.
  destruct (bool_decide _); simpl.
  - rewrite Qsum_cons, Qsum_nil. lra.
  - rewrite Qsum_nil. lra.
Qed.

(** The three per-type masses of a list add up to its mass. *)
Lemma mass_of_type_total (h : Heap.t) (l : list ref) :
  (mass_of_type h LEFTOVER l + mass_of_type h PERISHABLE l
   + mass_of_type h NON_PERISHABLE l
   == Qsum (Pantry.quantities h l))%Q.
Proof.
  unfold mass_of_type.
  induction l as [|r l IH]; simpl.
  - rewrite Qsum_nil. lra.
  - rewrite Qsum_cons, <- IH.
    destruct (FoodItem.food_type (Heap.get h r)) eqn:E; simpl;
      rewrite Qsum_cons; lra.
Qed.

Lemma NoDup_mark_first (E S Z : list ref) (r : ref) :
  r ∉ E ++ S ++ Z -> NoDup (E ++ S ++ Z) -> NoDup ((E ++ [r]) ++ S ++ Z).
Proof.
  intros Hr Hnd.
  assert (HP : (E ++ [r]) ++ S ++ Z ≡ₚ r :: E ++ S ++ Z).
  { rewrite <- app_assoc. simpl. symmetry. apply Permutation_middle. }
  rewrite HP. apply NoDup_cons. auto.
Qed.

Lemma NoDup_mark_second (E S Z : list ref) (r : ref) :
  r ∉ E ++ S ++ Z -> NoDup (E ++ S ++ Z) -> NoDup (E ++ (S ++ [r]) ++ Z).
Proof.
  intros Hr Hnd.
  assert (HP : E ++ (S ++ [r]) ++ Z ≡ₚ r :: E ++ S ++ Z).
  { rewrite <- (app_assoc S). simpl. rewrite app_assoc.
    rewrite <- Permutation_middle. rewrite <- app_assoc. reflexivity. }
  rewrite HP. apply NoDup_cons. auto.
Qed.

Lemma NoDup_mark_third (E S Z : list ref) (r : ref) :
  r ∉ E ++ S ++ Z -> NoDup (E ++ S ++ Z) -> NoDup (E ++ S ++ Z ++ [r]).
Proof.
  intros Hr Hnd.
  assert (HP : E ++ S ++ Z ++ [r] ≡ₚ r :: E ++ S ++ Z).
  { rewrite !app_assoc. rewrite <- Permutation_cons_append.
    rewrite <- !app_assoc. reflexivity. }
  rewrite HP. apply NoDup_cons. auto.
Qed.

Lemma marked_elem (m : Pantry.marks) (x : ref) :
  x ∈ marked m
  <-> x ∈ Pantry.expired_items m \/ x ∈ Pantry.strategy_discards m
      \/ x ∈ Pantry.empty_items m.
Proof. unfold marked. rewrite !elem_of_app. tauto. Qed.

Lemma Forall_heap_set (P : ref -> FoodItem.t -> Prop) (h : Heap.t) (r : ref)
    (v : FoodItem.t) (l : list ref) :
  r ∉ l ->
  Forall (fun x => P x (Heap.get h x)) l ->
  Forall (fun x => P x (Heap.get (Heap.set h r v) x)) l.
Proof.
  intros Hr HF. rewrite Forall_forall in *. intros x Hx.
  rewrite heap_get_set_ne; [auto|]. intros ->. contradiction.
Qed.

(** Visiting one more item keeps the invariant of the classification. *)
Lemma classify_item_invariant (strategy : PantryStrategy.t) (h0 : Heap.t)
    (all rest : list ref) (r : ref) (acc : Pantry.marks) :
  classify_invariant h0 all (r :: rest) acc ->
  r ∉ rest -> r ∈ all ->
  classify_invariant h0 all rest (Pantry.classify_item strategy acc r).
Proof.
  intros (Hfr & Hnx & Hnd & Hin & Hwe & Hws & HE & HS & HZ) Hr Hall.
  assert (Hfresh : r ∉ marked acc).
  { intros Hm. destruct (Hin r Hm) as [_ Hn]. apply Hn. left. }
  assert (HrE : r ∉ Pantry.expired_items acc)
    by (intros ?; apply Hfresh, marked_elem; auto).
  assert (HrS : r ∉ Pantry.strategy_discards acc)
    by (intros ?; apply Hfresh, marked_elem; auto).
  assert (Hin' : forall x, x ∈ r :: marked acc -> x ∈ all /\ x ∉ rest).
  { intros x [->|Hx]%elem_of_cons; [auto|].
    destruct (Hin x Hx) as [Ha Hn]. split; [exact Ha|].
    intros Hx'. apply Hn. now right. }
  destruct (Hfr r) as (Hq & Hft & Hname).
  unfold Pantry.classify_item.
  set (item := FoodItem.day_passes (Heap.get (Pantry.heap_now acc) r)).
  assert (Hqi : FoodItem.quantity item = FoodItem.quantity (Heap.get h0 r))
    by exact Hq.
  assert (Hfi : FoodItem.food_type item = FoodItem.food_type (Heap.get h0 r))
    by exact Hft.
  assert (Hfr' : forall x,
    FoodItem.quantity (Heap.get (Heap.set (Pantry.heap_now acc) r item) x)
      = FoodItem.quantity (Heap.get h0 x)
    /\ FoodItem.food_type (Heap.get (Heap.set (Pantry.heap_now acc) r item) x)
       = FoodItem.food_type (Heap.get h0 x)
    /\ FoodItem.name (Heap.get (Heap.set (Pantry.heap_now acc) r item) x)
       = FoodItem.name (Heap.get h0 x)).
  { intros x. destruct (Nat.eq_dec x r) as [->|Hne].
    - rewrite heap_get_set_eq. auto.
    - rewrite heap_get_set_ne by exact Hne. apply Hfr. }
  pose proof (Forall_heap_set
                (fun x f => (1 # 1000 < FoodItem.quantity (Heap.get h0 x))%Q
                            /\ FoodItem.is_expired f = true)
                (Pantry.heap_now acc) r item _ HrE HE) as HE'.
  pose proof (Forall_heap_set
                (fun x f => (1 # 1000 < FoodItem.quantity (Heap.get h0 x))%Q
                            /\ FoodItem.is_expired f = false)
                (Pantry.heap_now acc) r item _ HrS HS) as HS'.
  simpl in HE', HS'.
  destruct (Qle_bool (FoodItem.quantity item) (1 # 1000)) eqn:Eq.
  - (* empty *)
    apply Qle_bool_iff in Eq. rewrite Hqi in Eq.
    unfold classify_invariant; simpl.
    split; [exact Hfr'|]. split; [exact Hnx|]. split.
    { unfold marked; simpl. now apply NoDup_mark_third. }
    split.
    { intros x Hx. apply Hin'. unfold marked in Hx; simpl in Hx.
      rewrite !app_assoc in Hx. apply elem_of_app in Hx as [Hx|Hx].
      - right. unfold marked. now rewrite !app_assoc.
      - apply list_elem_of_singleton in Hx as ->. left. }
    repeat (split; [assumption|]).
    apply Forall_app. split; [exact HZ|]. constructor; [exact Eq|constructor].
  - apply Qle_bool_false in Eq. rewrite Hqi in Eq.
    destruct (FoodItem.is_expired item) eqn:Ee.
    + (* expired *)
      unfold classify_invariant; simpl.
      split; [exact Hfr'|]. split; [exact Hnx|]. split.
      { unfold marked; simpl. now apply NoDup_mark_first. }
      split.
      { intros x Hx. apply Hin'. unfold marked in Hx; simpl in Hx.
        rewrite <- app_assoc in Hx. apply elem_of_app in Hx as [Hx|Hx].
        - right. apply marked_elem. auto.
        - simpl in Hx. apply elem_of_cons in Hx as [->|Hx]; [left|].
          right. apply marked_elem. apply elem_of_app in Hx. tauto. }
      split.
      { intros ft. rewrite Hft, Hq, mass_of_type_snoc, <- Hwe.
        destruct (decide (FoodItem.food_type (Heap.get h0 r) = ft)) as [<-|Hne].
        - rewrite ByType_get_set_eq, bool_decide_eq_true_2 by reflexivity.
          reflexivity.
        - rewrite ByType_get_set_ne, bool_decide_eq_false_2 by exact Hne. lra. }
      split; [exact Hws|]. split.
      { apply Forall_app. split; [exact HE'|].
        constructor; [|constructor]. rewrite heap_get_set_eq. auto. }
      split; [exact HS'|exact HZ].
    + destruct (PantryStrategy.should_discard strategy item) eqn:Es.
      * (* discarded by the strategy *)
        unfold classify_invariant; simpl.
        split; [exact Hfr'|]. split; [exact Hnx|]. split.
        { unfold marked; simpl. now apply NoDup_mark_second. }
        split.
        { intros x Hx. apply Hin'. apply marked_elem in Hx; simpl in Hx.
          rewrite elem_of_app, list_elem_of_singleton in Hx.
          destruct Hx as [Hx|[[Hx| ->]|Hx]]; [right|right|left|right];
            apply marked_elem; auto. }
        split; [exact Hwe|]. split.
        { intros ft. rewrite Hft, Hq, mass_of_type_snoc, <- Hws.
          destruct (decide (FoodItem.food_type (Heap.get h0 r) = ft)) as [<-|Hne].
          - rewrite ByType_get_set_eq, bool_decide_eq_true_2 by reflexivity.
            reflexivity.
          - rewrite ByType_get_set_ne, bool_decide_eq_false_2 by exact Hne. lra. }
        split; [exact HE'|]. split; [|exact HZ].
        apply Forall_app. split; [exact HS'|].
        constructor; [|constructor]. rewrite heap_get_set_eq. auto.
      * (* kept *)
        unfold classify_invariant; simpl.
        split; [exact Hfr'|]. split; [exact Hnx|]. split; [exact Hnd|].
        split.
        { intros x Hx. apply Hin'. now right. }
        repeat (split; [assumption|]). exact HZ.
Qed.

Lemma classify_fold_invariant (strategy : PantryStrategy.t) (h0 : Heap.t)
    (all : list ref) :
  forall (todo : list ref) (acc : Pantry.marks),
    classify_invariant h0 all todo acc ->
    NoDup todo ->
    (forall r, r ∈ todo -> r ∈ all) ->
    classify_invariant h0 all []
      (fold_left (Pantry.classify_item strategy) todo acc).
Proof.
  induction todo as [|r rest IH]; intros acc Hinv Hnd Hall; simpl.
  - exact Hinv.
  - apply NoDup_cons in Hnd as [Hr Hnd].
    apply IH; [|exact Hnd|].
    + apply classify_item_invariant; [exact Hinv | exact Hr |].
      apply Hall. left.
    + intros x Hx. apply Hall. now right.
Qed.

Lemma classify_invariant_initial (h : Heap.t) (all : list ref) :
  classify_invariant h all all
    (Pantry.mk_marks h [] [] [] (ByType.const 0%Q) (ByType.const 0%Q)).
Proof.
  unfold classify_invariant, marked; simpl.
  split; [auto|]. split; [reflexivity|]. split; [constructor|].
  split; [intros r Hr; inversion Hr|].
  split; [intros []; reflexivity|]. split; [intros []; reflexivity|].
  repeat split; constructor.
Qed.

Lemma classify_spec (strategy : PantryStrategy.t) (h : Heap.t) (p : Pantry.t) :
  NoDup (Pantry.all_items p) ->
  classify_invariant h (Pantry.all_items p) [] (Pantry.classify strategy h p).
Proof.
  intros Hnd. unfold Pantry.classify.
  apply classify_fold_invariant; [apply classify_invariant_initial | exact Hnd | auto].
Qed.

(** [list.remove] *)
Lemma list_remove_Ok (r : ref) (l : list ref) :
  r ∈ l -> exists l', list_remove r l = Ok l'.
Proof.
  induction l as [|y l IH]; intros Hr; [inversion Hr|]. simpl.
  destruct (Nat.eqb_spec y r) as [->|Hne]; [eauto|].
  apply elem_of_cons in Hr as [->|Hr]; [contradiction|].
  destruct (IH Hr) as [l' ->]. simpl. eauto.
Qed.

Lemma list_remove_Permutation (r : ref) (l l' : list ref) :
  list_remove r l = Ok l' -> l ≡ₚ r :: l'.
Proof.
  revert l'. induction l as [|y l IH]; intros l' E; simpl in E; [discriminate|].
  destruct (Nat.eqb_spec y r) as [->|Hne].
  - injection E as <-. reflexivity.
  - destruct (list_remove r l) as [l1|e]; simpl in E; [|discriminate].
    injection E as <-. rewrite (IH l1 eq_refl). apply Permutation_swap.
Qed.

Lemma list_remove_NoDup (r : ref) (l l' : list ref) :
  list_remove r l = Ok l' -> NoDup l ->
  NoDup l' /\ (r ∉ l') /\ (forall x, x ∈ l' <-> (x ∈ l /\ x <> r)).
Proof.
  intros E Hnd. pose proof (list_remove_Permutation r l l' E) as HP.
  rewrite HP in Hnd. apply NoDup_cons in Hnd as [Hr Hnd].
  split; [exact Hnd|]. split; [exact Hr|].
  intros x. rewrite HP, elem_of_cons. split.
  - intros Hx. split; [now right|]. intros ->. contradiction.
  - intros [[->|Hx] Hne]; [contradiction | exact Hx].
Qed.

Lemma all_items_elem (p : Pantry.t) (x : ref) :
  x ∈ Pantry.all_items p <-> exists ft, x ∈ Pantry.get_items_by_type p ft.
Proof.
  unfold Pantry.all_items, Pantry.get_items_by_type, ByType.values; simpl.
  rewrite !elem_of_app. split.
  - intros [H|[H|[H|H]]]; [exists LEFTOVER | exists PERISHABLE
                           | exists NON_PERISHABLE | inversion H]; exact H.
  - intros [[] H]; simpl in H; auto.
Qed.

Lemma all_items_NoDup (p : Pantry.t) :
  NoDup (Pantry.all_items p) ->
  forall ft, NoDup (Pantry.get_items_by_type p ft).
Proof.
  unfold Pantry.all_items, Pantry.get_items_by_type, ByType.values; simpl.
  rewrite app_nil_r. intros Hnd.
  apply NoDup_app in Hnd as (HL & _ & Hnd).
  apply NoDup_app in Hnd as (HP & _ & HN).
  intros []; assumption.
Qed.

(** The removal loop of [Pantry.step] on distinct marked items that are in
    the lists of their food types. *)
Lemma remove_items_spec (h : Heap.t) :
  forall (to_remove : list ref) (items : ByType.t (list ref)),
    NoDup to_remove ->
    (forall ft, NoDup (ByType.get items ft)) ->
    (forall ft x, x ∈ ByType.get items ft -> FoodItem.food_type (Heap.get h x) = ft) ->
    (forall r, r ∈ to_remove ->
               r ∈ ByType.get items (FoodItem.food_type (Heap.get h r))) ->
    exists items',
      Pantry.remove_items h items to_remove = Ok items'
      /\ (forall ft, NoDup (ByType.get items' ft))
      /\ (forall ft x, x ∈ ByType.get items' ft
                       <-> x ∈ ByType.get items ft /\ x ∉ to_remove).
Proof.
  induction to_remove as [|r rest IH]; intros items Hnd Hl Hty Hin; simpl.
  - exists items. split; [reflexivity|]. split; [exact Hl|].
    intros ft x. split; [intros Hx; split; [exact Hx | intros H; inversion H] | tauto].
  - apply NoDup_cons in Hnd as [Hr Hnd].
    set (ft0 := FoodItem.food_type (Heap.get h r)).
    destruct (list_remove_Ok r (ByType.get items ft0)) as [l' El];
      [apply Hin; left|].
    rewrite El; simpl.
    destruct (list_remove_NoDup r _ l' El (Hl ft0)) as (Hnd' & Hrl & Hmem).
    assert (Hget : forall ft x, x ∈ ByType.get (ByType.set items ft0 l') ft
                                <-> x ∈ ByType.get items ft /\ x <> r).
    { intros ft x. destruct (decide (ft0 = ft)) as [<-|Hne].
      - rewrite ByType_get_set_eq. apply Hmem.
      - rewrite ByType_get_set_ne by exact Hne. split; [|tauto].
        intros Hx. split; [exact Hx|]. intros ->.
        apply Hne. subst ft0. now apply Hty. }
    destruct (IH (ByType.set items ft0 l')) as (items' & E & Hnd2 & Hmem2).
    + exact Hnd.
    + intros ft. destruct (decide (ft0 = ft)) as [<-|Hne].
      * now rewrite ByType_get_set_eq.
      * rewrite ByType_get_set_ne by exact Hne. apply Hl.
    + intros ft x Hx. apply Hget in Hx as [Hx _]. now apply Hty.
    + intros x Hx. apply Hget. split.
      * apply Hin. now right.
      * intros ->. contradiction.
    + exists items'. split; [exact E|]. split; [exact Hnd2|].
      intros ft x. rewrite Hmem2, Hget, elem_of_cons. tauto.
Qed.

(** [Pantry.step] on a well-formed pantry: it does not raise, and this is
    what it returns. *)
Lemma step_Ok (strategy : PantryStrategy.t) (h : Heap.t) (p : Pantry.t) :
  pantry_wf h p ->
  exists items,
    Pantry.step strategy h p
    = Ok (Pantry.mk items
            (<[Pantry.current_day p + 1 :=
                 Pantry.weights_strategy_discarded (Pantry.classify strategy h p)]>
               (Pantry.waste_log_strategy_discards p))
            (<[Pantry.current_day p + 1 :=
                 Pantry.weights_expired (Pantry.classify strategy h p)]>
               (Pantry.waste_log_expired_discards p))
            (Pantry.current_day p + 1),
          Pantry.heap_now (Pantry.classify strategy h p))
    /\ (forall ft, NoDup (ByType.get items ft))
    /\ (forall ft x, x ∈ ByType.get items ft
                     <-> x ∈ Pantry.get_items_by_type p ft
                         /\ x ∉ marked (Pantry.classify strategy h p)).
Proof.
  intros (Hnd & Hty & Hlt).
  pose proof (classify_spec strategy h p Hnd)
    as (Hfr & Hnx & Hndm & Hin & _).
  set (m := Pantry.classify strategy h p) in *.
  destruct (remove_items_spec (Pantry.heap_now m) (marked m) (Pantry.items_by_type p))
    as (items & E & Hnd' & Hmem).
  - exact Hndm.
  - apply all_items_NoDup, Hnd.
  - intros ft x Hx. destruct (Hfr x) as (_ & -> & _). now apply Hty.
  - intros r Hr. destruct (Hin r Hr) as [Hall _].
    apply all_items_elem in Hall as [ft Hft].
    destruct (Hfr r) as (_ & -> & _). now rewrite (Hty ft r Hft).
  - exists items. unfold Pantry.step. fold m. unfold marked in E.
    rewrite E. simpl. auto.
Qed.

(** C1, as the specification states it ("for every pantry state"), fails
    for a pantry that lists the same object twice, which [add_item] allows:
    the item [FoodItem("x", PERISHABLE, 1, 2, 1)] added twice and stepped
    with [StrictStrategy] is aged on both visits of the loop; on the first
    visit it is past its best before date and goes to the strategy bucket,
    on the second it is expired and goes to the expired bucket.  The one
    object, of mass 1, is in both lists, each bucket holds its mass, and the
    two buckets together hold 2. *)
Lemma step_double_listing_counterexample :
  FoodItem.init "x" PERISHABLE 1 2 1 = Ok (Heap.get twice_heap 0%nat)
  /\ Pantry.add_item twice_heap (Pantry.add_item twice_heap Pantry.init 0%nat) 0%nat
     = twice_pantry
  /\ Pantry.all_items twice_pantry = [0; 0]%nat
  /\ match Pantry.step StrictStrategy twice_heap twice_pantry with
     | Ok (p', h') =>
         let m := Pantry.classify StrictStrategy twice_heap twice_pantry in
         Pantry.all_items p' = []
         /\ Pantry.strategy_discards m = [0]%nat
         /\ Pantry.expired_items m = [0]%nat
         /\ (0%nat ∈ Pantry.expired_items m /\ 0%nat ∈ Pantry.strategy_discards m)
         /\ Pantry.waste_log_expired_discards p' !! 1 = Some (Pantry.weights_expired m)
         /\ Pantry.waste_log_strategy_discards p' !! 1
            = Some (Pantry.weights_strategy_discarded m)
         /\ (ByType.get (Pantry.weights_expired m) PERISHABLE == 1)%Q
         /\ (ByType.get (Pantry.weights_strategy_discarded m) PERISHABLE == 1)%Q
         /\ (FoodItem.quantity (Heap.get twice_heap 0%nat) == 1)%Q
         /\ ~ (Qsum (ByType.values (Pantry.weights_expired m))
               + Qsum (ByType.values (Pantry.weights_strategy_discarded m))
               == FoodItem.quantity (Heap.get twice_heap 0%nat))%Q
     | Raise _ => False
     end.
Proof.
  split; [reflexivity|]. split; [reflexivity|]. split; [reflexivity|].
  vm_compute.
  split; [reflexivity|]. split; [reflexivity|]. split; [reflexivity|].
  split; [split; apply list_elem_of_singleton; reflexivity|].
  split; [reflexivity|]. split; [reflexivity|].
  split; [reflexivity|]. split; [reflexivity|]. split; [reflexivity|].
  discriminate.
Qed.

(** C1 (amended): for every well-formed pantry state (no object is listed
    twice, and each is in the list of its own food type) and every
    [PantryStrategy], one
    call of [Pantry.step] does not raise; it writes the two buckets of the
    new day; the items it removes are exactly the marked ones; no item is
    marked twice (so none is in both the expired and the strategy list);
    each bucket holds, per food type, the mass of the items of its own list;
    and the sum of the expired bucket plus the sum of the strategy bucket is
    the total quantity of the items removed as expired or by the strategy.
    The items removed as empty (quantity <= 0.001) are in neither list. *)
Theorem step_conservation (strategy : PantryStrategy.t) (h : Heap.t) (p : Pantry.t) :
  pantry_wf h p ->
  let m := Pantry.classify strategy h p in
  let day := Pantry.current_day p + 1 in
  exists p' h',
    Pantry.step strategy h p = Ok (p', h')
    /\ Pantry.current_day p' = day
    /\ Pantry.waste_log_expired_discards p' !! day = Some (Pantry.weights_expired m)
    /\ Pantry.waste_log_strategy_discards p' !! day
       = Some (Pantry.weights_strategy_discarded m)
    /\ (forall r, FoodItem.quantity (Heap.get h' r) = FoodItem.quantity (Heap.get h r))
    /\ (forall ft r, r ∈ Pantry.get_items_by_type p' ft
                     <-> r ∈ Pantry.get_items_by_type p ft /\ r ∉ marked m)
    /\ (forall r, r ∈ marked m -> r ∈ Pantry.all_items p)
    /\ NoDup (marked m)
    /\ (forall r, ~ (r ∈ Pantry.expired_items m /\ r ∈ Pantry.strategy_discards m))
    /\ (forall ft, (ByType.get (Pantry.weights_expired m) ft
                    == mass_of_type h ft (Pantry.expired_items m))%Q)
    /\ (forall ft, (ByType.get (Pantry.weights_strategy_discarded m) ft
                    == mass_of_type h ft (Pantry.strategy_discards m))%Q)
    /\ (Qsum (ByType.values (Pantry.weights_expired m))
        + Qsum (ByType.values (Pantry.weights_strategy_discarded m))
        == Qsum (Pantry.quantities h
                   (Pantry.expired_items m ++ Pantry.strategy_discards m)))%Q
    /\ Forall (fun r => (1 # 1000 < FoodItem.quantity (Heap.get h r))%Q
                        /\ FoodItem.is_expired (Heap.get h' r) = true)
              (Pantry.expired_items m)
    /\ Forall (fun r => (1 # 1000 < FoodItem.quantity (Heap.get h r))%Q
                        /\ FoodItem.is_expired (Heap.get h' r) = false)
              (Pantry.strategy_discards m)
    /\ Forall (fun r => (FoodItem.quantity (Heap.get h r) <= 1 # 1000)%Q)
              (Pantry.empty_items m).
Proof.
  intros Hwf m day.
  destruct (step_Ok strategy h p Hwf) as (items & E & _ & Hmem).
  destruct Hwf as (Hnd & _).
  pose proof (classify_spec strategy h p Hnd)
    as (Hfr & Hnx & Hndm & Hin & Hwe & Hws & HE & HS & HZ).
  fold m in E, Hmem, Hfr, Hnx, Hndm, Hin, Hwe, Hws, HE, HS, HZ.
  eexists _, _. split; [exact E|]. simpl.
  split; [reflexivity|]. split; [apply lookup_insert_eq|].
  split; [apply lookup_insert_eq|].
  split; [intros r; apply Hfr|]. split; [exact Hmem|].
  split; [intros r Hr; apply Hin, Hr|]. split; [exact Hndm|]. split.
  { intros r [H1 H2]. unfold marked in Hndm.
    apply NoDup_app in Hndm as (_ & Hdis & _).
    apply (Hdis r H1). apply elem_of_app. now left. }
  split; [exact Hwe|]. split; [exact Hws|]. split.
  { unfold ByType.values. rewrite !Qsum_three.
    change (ByType.leftover ?d) with (ByType.get d LEFTOVER).
    change (ByType.perishable ?d) with (ByType.get d PERISHABLE).
    change (ByType.non_perishable ?d) with (ByType.get d NON_PERISHABLE).
    rewrite !Hwe, !Hws, !mass_of_type_total, quantities_app, Qsum_app.
    reflexivity. }
  split; [exact HE|]. split; [exact HS|exact HZ].
Qed.

(** ** The consumption strategies *)

Lemma basic_select_loop_spec (h : Heap.t) :
  forall (l : list ref) (amount : Q),
    NoDup l ->
    NoDup (map fst (BasicConsumptionStrategy.select_loop h l amount))
    /\ Forall (fun e => fst e ∈ l
                        /\ (snd e <= FoodItem.quantity (Heap.get h (fst e)))%Q)
              (BasicConsumptionStrategy.select_loop h l amount).
Proof.
  induction l as [|r l IH]; intros amount Hnd; simpl.
  - split; constructor.
  - apply NoDup_cons in Hnd as [Hr Hnd].
    destruct (Qle_bool amount 0); [split; constructor|].
    assert (Hstep : forall a amount',
      (a <= FoodItem.quantity (Heap.get h r))%Q ->
      NoDup (map fst ((r, a) :: BasicConsumptionStrategy.select_loop h l amount'))
      /\ Forall (fun e => fst e ∈ r :: l
                          /\ (snd e <= FoodItem.quantity (Heap.get h (fst e)))%Q)
                ((r, a) :: BasicConsumptionStrategy.select_loop h l amount')).
    { intros a amount' Ha. destruct (IH amount' Hnd) as [IH1 IH2]. split.
      - simpl. apply NoDup_cons. split; [|exact IH1].
        intros Hin. apply Hr. apply list_elem_of_fmap in Hin as ([r' a'] & -> & Hin).
        rewrite Forall_forall in IH2. apply (IH2 _ Hin).
      - constructor; [split; [left | exact Ha]|].
        eapply Forall_impl; [exact IH2|]. simpl. intros e [He1 He2].
        split; [now right | exact He2]. }
    destruct (Qle_bool _ amount) eqn:E.
    + apply Hstep. apply Qle_refl.
    + apply Hstep. apply Qle_bool_false in E. now apply Qlt_le_weak.
Qed.

Lemma choice_index_lt (len : nat) (g : Rng.t) :
  (0 < len)%nat -> (fst (Rng.choice_index len g) < len)%nat.
Proof.
  intros Hlen. unfold Rng.choice_index, Rng.draw; simpl.
  pose proof (Z.mod_pos_bound (Rng.tape g (Rng.cursor g)) (Z.of_nat len) ltac:(lia)).
  lia.
Qed.

Lemma random_select_loop_done (fuel : nat) (h : Heap.t) (cur : list ref)
    (acc : selection) (g : Rng.t) :
  RandomConsumptionStrategy.select_loop fuel h cur 0 acc g = Ok (acc, cur, g).
Proof. destruct fuel; reflexivity. Qed.

(** The loop of [RandomConsumptionStrategy.select_food] on a list of
    distinct items: it does not raise; what it appends to the selection is a
    list [gone] of items taken in full, which have left the list, followed
    by at most one item taken in part, which is still in the list; and with
    more fuel than items it ends because its condition is false. *)
Lemma random_select_loop_spec (h : Heap.t) :
  forall (fuel : nat) (cur : list ref) (amount : Q) (acc : selection) (g : Rng.t),
    NoDup cur ->
    exists gone stay l' g',
      RandomConsumptionStrategy.select_loop fuel h cur amount acc g
      = Ok (acc ++ gone ++ stay, l', g')
      /\ cur ≡ₚ map fst gone ++ l'
      /\ Forall (fun e => snd e = FoodItem.quantity (Heap.get h (fst e))) gone
      /\ (stay = []
          \/ exists r a, stay = [(r, a)] /\ r ∈ l'
                         /\ (a < FoodItem.quantity (Heap.get h r))%Q)
      /\ ((length cur < fuel)%nat ->
          (amount - Qsum (map snd (gone ++ stay)) <= 0)%Q \/ l' = []).
Proof.
  induction fuel as [|fuel IH]; intros cur amount acc g Hnd;
    cbn [RandomConsumptionStrategy.select_loop].
  - exists [], [], cur, g. rewrite app_nil_r. simpl.
    split; [reflexivity|]. split; [reflexivity|]. split; [constructor|].
    split; [now left | lia].
  - destruct (Qltb 0 amount && negb (length cur =? 0)%nat) eqn:Ec.
    + apply andb_true_iff in Ec as [Ea El].
      apply negb_true_iff, Nat.eqb_neq in El.
      pose proof (choice_index_lt (length cur) g ltac:(lia)) as Hi.
      destruct (Rng.choice_index (length cur) g) as [i g1]. simpl in Hi.
      set (food := nth i cur 0%nat).
      assert (Hfood : food ∈ cur).
      { apply list_elem_of_In. now apply nth_In. }
      destruct (Qle_bool (FoodItem.quantity (Heap.get h food)) amount) eqn:Eq.
      * destruct (list_remove_Ok food cur Hfood) as [l1 E1]. rewrite E1. simpl.
        pose proof (list_remove_Permutation food cur l1 E1) as HP.
        destruct (list_remove_NoDup food cur l1 E1 Hnd) as (Hnd1 & _ & _).
        destruct (IH l1 (amount - FoodItem.quantity (Heap.get h food))%Q
                    (acc ++ [(food, FoodItem.quantity (Heap.get h food))]) g1 Hnd1)
          as (gone & stay & l' & g' & E & HP' & Hg & Hs & Hex).
        exists ((food, FoodItem.quantity (Heap.get h food)) :: gone), stay, l', g'.
        split; [rewrite E, <- app_assoc; reflexivity|].
        split; [simpl; rewrite HP, HP'; reflexivity|].
        split; [constructor; [reflexivity | exact Hg]|].
        split; [exact Hs|].
        intros Hlen. rewrite HP in Hlen. simpl in Hlen.
        destruct (Hex ltac:(lia)) as [Hle| ->]; [left | now right].
        simpl. rewrite Qsum_cons. lra.
      * rewrite random_select_loop_done.
        exists [], [(food, amount)], cur, g1. simpl.
        split; [reflexivity|]. split; [reflexivity|]. split; [constructor|].
        split.
        { right. exists food, amount. split; [reflexivity|].
          split; [exact Hfood|]. now apply Qle_bool_false. }
        intros _. left. rewrite Qsum_cons, Qsum_nil. lra.
    + exists [], [], cur, g. rewrite app_nil_r. simpl.
      split; [reflexivity|]. split; [reflexivity|]. split; [constructor|].
      split; [now left|]. intros _.
      apply andb_false_iff in Ec as [Ea|El].
      * left. apply Qltb_ge in Ea. rewrite Qsum_nil. lra.
      * right. apply negb_false_iff, Nat.eqb_eq in El.
        now apply length_zero_iff_nil.
Qed.

Lemma set_items_by_type_same (p : Pantry.t) (ft : FoodType) :
  Pantry.set_items_by_type p ft (Pantry.get_items_by_type p ft) = p.
Proof. destruct p as [[l1 l2 l3] s e d], ft; reflexivity. Qed.

Lemma get_set_items_eq (p : Pantry.t) (ft : FoodType) (l : list ref) :
  Pantry.get_items_by_type (Pantry.set_items_by_type p ft l) ft = l.
Proof. destruct ft; reflexivity. Qed.

Lemma get_set_items_ne (p : Pantry.t) (ft ft' : FoodType) (l : list ref) :
  ft <> ft' ->
  Pantry.get_items_by_type (Pantry.set_items_by_type p ft l) ft'
  = Pantry.get_items_by_type p ft'.
Proof. destruct ft, ft'; simpl; congruence. Qed.

(** What any consumption strategy returns for one food type, on a list of
    distinct items: a selection of distinct items of that list, none taken
    for more than it holds; the pantry with, for that food type only, a list
    from which the items [gone] have been removed; and every item that is
    gone was selected for its whole quantity. *)
Lemma select_food_spec (strategy : ConsumptionStrategy.t) (h : Heap.t)
    (p : Pantry.t) (ft : FoodType) (amount : Q) (g : Rng.t) :
  NoDup (Pantry.get_items_by_type p ft) ->
  exists (sel : selection) (l' : list ref) (g' : Rng.t) (gone : list ref),
    ConsumptionStrategy.select_food strategy h p ft amount g
    = Ok (sel, Pantry.set_items_by_type p ft l', g')
    /\ Pantry.get_items_by_type p ft ≡ₚ gone ++ l'
    /\ NoDup (map fst sel)
    /\ Forall (fun e => fst e ∈ Pantry.get_items_by_type p ft
                        /\ (snd e <= FoodItem.quantity (Heap.get h (fst e)))%Q) sel
    /\ Forall (fun r => (r, FoodItem.quantity (Heap.get h r)) ∈ sel) gone.
Proof.
  intros Hnd.
  assert (HB : forall g0,
    exists (sel : selection) (l' : list ref) (g' : Rng.t) (gone : list ref),
      (let (s, p0) := BasicConsumptionStrategy.select_food h p ft amount in
       Ok (s, p0, g0))
      = Ok (sel, Pantry.set_items_by_type p ft l', g')
      /\ Pantry.get_items_by_type p ft ≡ₚ gone ++ l'
      /\ NoDup (map fst sel)
      /\ Forall (fun e => fst e ∈ Pantry.get_items_by_type p ft
                          /\ (snd e <= FoodItem.quantity (Heap.get h (fst e)))%Q) sel
      /\ Forall (fun r => (r, FoodItem.quantity (Heap.get h r)) ∈ sel) gone).
  { intros g0. unfold BasicConsumptionStrategy.select_food.
    destruct (basic_select_loop_spec h _ amount Hnd) as [H1 H2].
    eexists _, (Pantry.get_items_by_type p ft), g0, [].
    rewrite set_items_by_type_same. split; [reflexivity|].
    split; [reflexivity|]. split; [exact H1|]. split; [exact H2|constructor]. }
  assert (HR : forall g0,
    exists (sel : selection) (l' : list ref) (g' : Rng.t) (gone : list ref),
      RandomConsumptionStrategy.select_food h p ft amount g0
      = Ok (sel, Pantry.set_items_by_type p ft l', g')
      /\ Pantry.get_items_by_type p ft ≡ₚ gone ++ l'
      /\ NoDup (map fst sel)
      /\ Forall (fun e => fst e ∈ Pantry.get_items_by_type p ft
                          /\ (snd e <= FoodItem.quantity (Heap.get h (fst e)))%Q) sel
      /\ Forall (fun r => (r, FoodItem.quantity (Heap.get h r)) ∈ sel) gone).
  { intros g0. unfold RandomConsumptionStrategy.select_food.
    destruct (random_select_loop_spec h
                (S (length (Pantry.get_items_by_type p ft)))
                (Pantry.get_items_by_type p ft) amount [] g0 Hnd)
      as (gone & stay & l' & g' & E & HP & Hg & Hs & _).
    rewrite E. simpl.
    exists (gone ++ stay), l', g', (map fst gone).
    split; [reflexivity|]. split; [exact HP|].
    assert (Hnd' : NoDup (map fst gone ++ l')) by (now rewrite <- HP).
    apply NoDup_app in Hnd' as (Hg1 & Hdis & Hl').
    rewrite Forall_forall in Hg.
    split; [|split].
    - rewrite map_app. apply NoDup_app. split; [exact Hg1|]. split.
      + intros x Hx Hx'. destruct Hs as [->|(r & a & -> & Hr & _)];
          [inversion Hx'|].
        simpl in Hx'. apply list_elem_of_singleton in Hx' as ->.
        exact (Hdis r Hx Hr).
      + destruct Hs as [->|(r & a & -> & _)]; simpl;
          [constructor | apply NoDup_singleton].
    - apply Forall_app. split.
      + rewrite Forall_forall. intros e He. split.
        * rewrite HP. apply elem_of_app. left.
          apply list_elem_of_fmap. exists e. auto.
        * rewrite (Hg e He). apply Qle_refl.
      + destruct Hs as [->|(r & a & -> & Hr & Ha)]; [constructor|].
        constructor; [|constructor]. simpl. split.
        * rewrite HP. apply elem_of_app. now right.
        * now apply Qlt_le_weak.
    - rewrite Forall_forall. intros r Hr.
      apply list_elem_of_fmap in Hr as (e & -> & He).
      rewrite <- (Hg e He). apply elem_of_app. left. now destruct e. }
  destruct strategy as [| |fifo]; unfold ConsumptionStrategy.select_food.
  - apply HB.
  - apply HR.
  - destruct (Rng.random g) as [u g1]. destruct (Qltb u fifo); [apply HB | apply HR].
Qed.

(** Whatever the random source, an item that the random strategy selects
    for its whole quantity is no longer in the pantry's list when
    [select_food] returns. *)
Lemma random_select_food_removes_full_takes (h : Heap.t) (p p' : Pantry.t)
    (ft : FoodType) (amount : Q) (g g' : Rng.t) (sel : selection) :
  NoDup (Pantry.get_items_by_type p ft) ->
  RandomConsumptionStrategy.select_food h p ft amount g = Ok (sel, p', g') ->
  Forall (fun e => (snd e == FoodItem.quantity (Heap.get h (fst e)))%Q ->
                   fst e ∈ Pantry.get_items_by_type p ft
                   /\ fst e ∉ Pantry.get_items_by_type p' ft) sel.
Proof.
  intros Hnd. unfold RandomConsumptionStrategy.select_food.
  destruct (random_select_loop_spec h
              (S (length (Pantry.get_items_by_type p ft)))
              (Pantry.get_items_by_type p ft) amount [] g Hnd)
    as (gone & stay & l' & g1 & E & HP & Hg & Hs & _).
  rewrite E. simpl. intros [= <- <- <-]. rewrite get_set_items_eq.
  assert (Hnd' : NoDup (map fst gone ++ l')) by (now rewrite <- HP).
  apply NoDup_app in Hnd' as (_ & Hdis & _).
  apply Forall_app. split.
  - rewrite Forall_forall. intros e He _.
    assert (Hin : fst e ∈ map fst gone) by (apply list_elem_of_fmap; eauto).
    split; [rewrite HP; apply elem_of_app; now left | now apply Hdis].
  - destruct Hs as [->|(r & a & -> & Hr & Ha)]; [constructor|].
    constructor; [|constructor]. simpl. intros Heq. rewrite Heq in Ha.
    exfalso. exact (Qlt_irrefl _ Ha).
Qed.

(** C3: [BasicConsumptionStrategy.select_food] returns the pantry it was
    given, for every input; [RandomConsumptionStrategy.select_food] does
    not: on the three bags of rice (0.7, 1.0 and 1.5) and a request of 2.6
    it selects the first two bags for their whole quantity and 0.9 of the
    third, and when it returns (no [FoodItem.consume] has run) the first two
    bags are no longer in the pantry's list. *)
Theorem random_selection_mutates_the_pantry :
  (forall h p ft amount,
      snd (BasicConsumptionStrategy.select_food h p ft amount) = p)
  /\ (forall h p ft amount g,
         ConsumptionStrategy.select_food ConsumptionStrategy.Basic h p ft amount g
         = Ok (fst (BasicConsumptionStrategy.select_food h p ft amount), p, g))
  /\ match RandomConsumptionStrategy.select_food rice_heap rice_pantry
             NON_PERISHABLE (26 # 10) zero_rng with
     | Ok (sel, p', _) =>
         Pantry.get_items_by_type rice_pantry NON_PERISHABLE = [0; 1; 2]%nat
         /\ Pantry.quantities rice_heap [0; 1; 2]%nat = [7 # 10; 1; 15 # 10]%Q
         /\ map fst sel = [0; 1; 2]%nat
         /\ Forall2 Qeq (map snd sel) [7 # 10; 1; 9 # 10]%Q
         /\ Pantry.get_items_by_type p' NON_PERISHABLE = [2]%nat
         /\ p' <> rice_pantry
     | Raise _ => False
     end.
Proof.
  split; [reflexivity|]. split; [reflexivity|].
  vm_compute. repeat split; try reflexivity.
  - repeat constructor.
  - discriminate.
Qed.

Lemma leftovers_pantry_wf : pantry_wf leftovers_heap leftovers_pantry.
Proof.
  assert (Hall : Pantry.all_items leftovers_pantry = [1; 0]%nat) by reflexivity.
  unfold pantry_wf. rewrite Hall. split; [|split].
  - apply NoDup_cons. split; [|apply NoDup_singleton].
    intros H. apply list_elem_of_singleton in H. discriminate H.
  - intros ft r Hr. destruct ft; vm_compute in Hr.
    + apply elem_of_cons in Hr as [->|Hr]; [reflexivity|].
      apply list_elem_of_singleton in Hr as ->. reflexivity.
    + inversion Hr.
    + inversion Hr.
  - intros r Hr. apply elem_of_cons in Hr as [->|Hr]; [vm_compute; lia|].
    apply list_elem_of_singleton in Hr as ->. vm_compute. lia.
Defined.

Lemma step_conservation_witness :
  pantry_wf leftovers_heap leftovers_pantry
  /\ exists p' h',
       Pantry.step StrictStrategy leftovers_heap leftovers_pantry = Ok (p', h')
       /\ Pantry.current_day p' = 1
       /\ (Qsum (ByType.values
                   (Pantry.weights_expired
                      (Pantry.classify StrictStrategy leftovers_heap leftovers_pantry)))
           + Qsum (ByType.values
                     (Pantry.weights_strategy_discarded
                        (Pantry.classify StrictStrategy leftovers_heap leftovers_pantry)))
           == Qsum (Pantry.quantities leftovers_heap
                      (Pantry.expired_items
                         (Pantry.classify StrictStrategy leftovers_heap leftovers_pantry)
                       ++ Pantry.strategy_discards
                            (Pantry.classify StrictStrategy leftovers_heap
                               leftovers_pantry))))%Q.
Proof.
  split; [exact leftovers_pantry_wf|].
  destruct (step_conservation StrictStrategy leftovers_heap leftovers_pantry
              leftovers_pantry_wf)
    as (p' & h' & E & Hday & _ & _ & _ & _ & _ & _ & _ & _ & _ & Hsum & _).
  exists p', h'. split; [exact E|]. split; [exact Hday | exact Hsum].
Defined.

(** ** Pantry.step in an arbitrary pantry state

    The mass equation of [Pantry.step] does not need the pantry to be well
    formed: in every state, lists with a repeated object included, the two
    buckets sum to the mass of the entries of the expired and of the
    strategy list, and a step that returns has removed the marked entries,
    each as often as it was marked. *)

Lemma Qsum_values_add (d : ByType.t Q) (ft : FoodType) (q : Q) :
  (Qsum (ByType.values (ByType.set d ft (ByType.get d ft + q)))
   == Qsum (ByType.values d) + q)%Q.
Proof.
  destruct d as [a b c]. destruct ft; unfold ByType.values; simpl;
    rewrite !Qsum_three; ring.
Qed.

Lemma quantities_snoc_sum (h : Heap.t) (l : list ref) (r : ref) :
  (Qsum (Pantry.quantities h (l ++ [r]))
   == Qsum (Pantry.quantities h l) + FoodItem.quantity (Heap.get h r))%Q.
Proof.
  rewrite quantities_app, Qsum_app. simpl. rewrite Qsum_cons, Qsum_nil. ring.
Qed.

Lemma classify_item_buckets (strategy : PantryStrategy.t) (h0 : Heap.t)
    (acc : Pantry.marks) (r : ref) :
  (forall x, FoodItem.quantity (Heap.get (Pantry.heap_now acc) x)
             = FoodItem.quantity (Heap.get h0 x)) ->
  (Qsum (ByType.values (Pantry.weights_expired acc))
   + Qsum (ByType.values (Pantry.weights_strategy_discarded acc))
   == Qsum (Pantry.quantities h0 (Pantry.expired_items acc))
      + Qsum (Pantry.quantities h0 (Pantry.strategy_discards acc)))%Q ->
  (forall x, FoodItem.quantity
               (Heap.get (Pantry.heap_now (Pantry.classify_item strategy acc r)) x)
             = FoodItem.quantity (Heap.get h0 x))
  /\ (Qsum (ByType.values (Pantry.weights_expired (Pantry.classify_item strategy acc r)))
      + Qsum (ByType.values
                (Pantry.weights_strategy_discarded (Pantry.classify_item strategy acc r)))
      == Qsum (Pantry.quantities h0
                 (Pantry.expired_items (Pantry.classify_item strategy acc r)))
         + Qsum (Pantry.quantities h0
                   (Pantry.strategy_discards (Pantry.classify_item strategy acc r))))%Q.
Proof.
  intros Hq Hsum.
  assert (Hq' : forall x,
             FoodItem.quantity
               (Heap.get (Heap.set (Pantry.heap_now acc) r
                            (FoodItem.day_passes (Heap.get (Pantry.heap_now acc) r))) x)
             = FoodItem.quantity (Heap.get h0 x)).
  { intros x. destruct (Nat.eq_dec x r) as [->|Hne].
    - rewrite heap_get_set_eq. cbn [FoodItem.day_passes FoodItem.quantity]. apply Hq.
    - rewrite heap_get_set_ne by exact Hne. apply Hq. }
  assert (Hr : FoodItem.quantity (FoodItem.day_passes (Heap.get (Pantry.heap_now acc) r))
               = FoodItem.quantity (Heap.get h0 r)).
  { cbn [FoodItem.day_passes FoodItem.quantity]. apply Hq. }
  unfold Pantry.classify_item. cbv zeta.
  destruct (Qle_bool _ _); [split; [exact Hq' | exact Hsum]|].
  destruct (FoodItem.is_expired _).
  - split; [exact Hq'|]. cbn [Pantry.weights_expired Pantry.weights_strategy_discarded
                                Pantry.expired_items Pantry.strategy_discards].
    rewrite Qsum_values_add, quantities_snoc_sum, Hr, <- Qplus_assoc,
      (Qplus_comm (FoodItem.quantity _)), Qplus_assoc, Hsum. ring.
  - destruct (PantryStrategy.should_discard _ _); [|split; [exact Hq' | exact Hsum]].
    split; [exact Hq'|]. cbn [Pantry.weights_expired Pantry.weights_strategy_discarded
                                Pantry.expired_items Pantry.strategy_discards].
    rewrite Qsum_values_add, quantities_snoc_sum, Hr, Qplus_assoc, Hsum. ring.
Qed.

Lemma classify_buckets (strategy : PantryStrategy.t) (h : Heap.t) (p : Pantry.t) :
  let m := Pantry.classify strategy h p in
  (Qsum (ByType.values (Pantry.weights_expired m))
   + Qsum (ByType.values (Pantry.weights_strategy_discarded m))
   == Qsum (Pantry.quantities h
              (Pantry.expired_items m ++ Pantry.strategy_discards m)))%Q.
Proof.
  intros m. rewrite quantities_app, Qsum_app. subst m. unfold Pantry.classify.
  set (acc0 := Pantry.mk_marks h [] [] [] (ByType.const 0%Q) (ByType.const 0%Q)).
  assert (H0 : (forall x, FoodItem.quantity (Heap.get (Pantry.heap_now acc0) x)
                          = FoodItem.quantity (Heap.get h x))
               /\ (Qsum (ByType.values (Pantry.weights_expired acc0))
                   + Qsum (ByType.values (Pantry.weights_strategy_discarded acc0))
                   == Qsum (Pantry.quantities h (Pantry.expired_items acc0))
                      + Qsum (Pantry.quantities h (Pantry.strategy_discards acc0)))%Q).
  { split; [reflexivity|]. reflexivity. }
  clearbody acc0. revert acc0 H0.
  induction (Pantry.all_items p) as [|r l IH]; intros acc [Hq Hsum]; simpl.
  - exact Hsum.
  - apply IH. now apply classify_item_buckets.
Qed.

Lemma remove_items_Permutation (h : Heap.t) :
  forall (to_remove : list ref) (items items' : ByType.t (list ref)),
    Pantry.remove_items h items to_remove = Ok items' ->
    concat (ByType.values items) ≡ₚ to_remove ++ concat (ByType.values items').
Proof.
  induction to_remove as [|r rest IH]; intros items items' E; simpl in E.
  - now injection E as <-.
  - destruct (list_remove r _) as [l|] eqn:El; cbn [rbind] in E; [|discriminate E].
    apply list_remove_Permutation in El. apply IH in E. simpl. rewrite <- E.
    clear E IH. destruct items as [l1 l2 l3].
    destruct (FoodItem.food_type (Heap.get h r)); unfold ByType.values in *;
      simpl in *; rewrite El, ?app_nil_r; solve_Permutation.
Qed.

(** In every pantry state and for every strategy: a [Pantry.step] that
    returns has written the two buckets of the new day, has removed from
    the lists exactly the marked entries, and the buckets sum to the mass of
    the entries removed as expired or by the strategy. *)
Lemma step_accounting_any_state (strategy : PantryStrategy.t) (h h' : Heap.t)
    (p p' : Pantry.t) :
  Pantry.step strategy h p = Ok (p', h') ->
  let m := Pantry.classify strategy h p in
  let day := Pantry.current_day p + 1 in
  Pantry.waste_log_expired_discards p' !! day = Some (Pantry.weights_expired m)
  /\ Pantry.waste_log_strategy_discards p' !! day
     = Some (Pantry.weights_strategy_discarded m)
  /\ Pantry.all_items p ≡ₚ marked m ++ Pantry.all_items p'
  /\ (Qsum (ByType.values (Pantry.weights_expired m))
      + Qsum (ByType.values (Pantry.weights_strategy_discarded m))
      == Qsum (Pantry.quantities h
                 (Pantry.expired_items m ++ Pantry.strategy_discards m)))%Q.
Proof.
  intros E m day. unfold Pantry.step in E. cbv zeta in E. fold m in E.
  destruct (Pantry.remove_items _ _ _) as [items|] eqn:Er; cbn [rbind] in E;
    [|discriminate E].
  injection E as <- <-. simpl.
  split; [apply lookup_insert_eq|]. split; [apply lookup_insert_eq|].
  split; [|apply classify_buckets].
  apply remove_items_Permutation in Er. exact Er.
Qed.

(** ** Meal.choose_food_to_eat *)

Lemma heap_extends_refl (h : Heap.t) : heap_extends h h.
Proof. split; auto. Qed.

Lemma heap_extends_trans (h1 h2 h3 : Heap.t) :
  heap_extends h1 h2 -> heap_extends h2 h3 -> heap_extends h1 h3.
Proof.
  intros [H1 H2] [H3 H4]. split; [lia|].
  intros r Hr. rewrite H4 by lia. now apply H2.
Qed.

Lemma all_items_set_Permutation (p : Pantry.t) (ft : FoodType)
    (gone l' : list ref) :
  Pantry.get_items_by_type p ft ≡ₚ gone ++ l' ->
  Pantry.all_items p ≡ₚ gone ++ Pantry.all_items (Pantry.set_items_by_type p ft l').
Proof.
  destruct p as [[l1 l2 l3] s e d].
  unfold Pantry.all_items, Pantry.get_items_by_type, Pantry.set_items_by_type.
  destruct ft; simpl; intros HP; rewrite HP, !app_nil_r; solve_Permutation.
Qed.

Lemma items_disjoint (p : Pantry.t) (ft ft' : FoodType) (x : ref) :
  NoDup (Pantry.all_items p) -> ft <> ft' ->
  x ∈ Pantry.get_items_by_type p ft -> x ∈ Pantry.get_items_by_type p ft' -> False.
Proof.
  destruct p as [[l1 l2 l3] s e d].
  unfold Pantry.all_items, Pantry.get_items_by_type; simpl.
  rewrite app_nil_r. intros Hnd Hne H1 H2.
  apply NoDup_app in Hnd as (_ & D1 & Hnd).
  apply NoDup_app in Hnd as (_ & D2 & _).
  destruct ft, ft'; simpl in *; try congruence.
  - apply (D1 x H1). apply elem_of_app. now left.
  - apply (D1 x H1). apply elem_of_app. now right.
  - apply (D1 x H2). apply elem_of_app. now left.
  - exact (D2 x H1 H2).
  - apply (D1 x H2). apply elem_of_app. now right.
  - exact (D2 x H2 H1).
Qed.

Lemma served_mono (h0 h1 : Heap.t) (p0 p1 : Pantry.t) (patterns : Meal.patterns)
    (sel : selection) :
  (Heap.next h0 <= Heap.next h1)%nat ->
  (forall ft x, x ∈ Pantry.get_items_by_type p1 ft ->
                x ∈ Pantry.get_items_by_type p0 ft) ->
  served h1 p1 patterns sel -> served h0 p0 patterns sel.
Proof.
  intros Hn Hsub. induction 1 as [|ft amount rest chosen sel Hc Hle _ IH
                                   |ft amount rest chosen sel r Hc Hlt Hr _ IH].
  - constructor.
  - apply served_enough; [|assumption|assumption].
    eapply Forall_impl; [exact Hc|]. simpl. intros e. apply Hsub.
  - apply served_short; [|assumption|lia|assumption].
    eapply Forall_impl; [exact Hc|]. simpl. intros e. apply Hsub.
Qed.

Lemma set_items_same_logs (p : Pantry.t) (ft : FoodType) (l : list ref) :
  same_logs p (Pantry.set_items_by_type p ft l).
Proof. repeat split. Qed.

Lemma same_logs_trans (p1 p2 p3 : Pantry.t) :
  same_logs p1 p2 -> same_logs p2 p3 -> same_logs p1 p3.
Proof. unfold same_logs. intuition congruence. Qed.

(** The loop of [choose_food_to_eat], on a pattern in which every food type
    occurs once and a pantry of distinct, existing items. *)
Lemma choose_loop_spec (strategy : ConsumptionStrategy.t) :
  forall (patterns : Meal.patterns) (acc : selection) (p : Pantry.t) (w : World.t),
    NoDup (map fst patterns) ->
    NoDup (Pantry.all_items p) ->
    (forall r, r ∈ Pantry.all_items p -> (r < Heap.next (World.heap w))%nat) ->
    exists (sel : selection) (p' : Pantry.t) (w' : World.t),
      Meal.choose_loop strategy patterns acc p w = Ok (acc ++ sel, p', w')
      /\ heap_extends (World.heap w) (World.heap w')
      /\ same_logs p p'
      /\ (forall ft, exists gone : list ref,
             Pantry.get_items_by_type p ft ≡ₚ gone ++ Pantry.get_items_by_type p' ft
             /\ Forall (fun r => (r, FoodItem.quantity (Heap.get (World.heap w) r)) ∈ sel)
                       gone)
      /\ (forall ft, ft ∉ map fst patterns ->
             Pantry.get_items_by_type p' ft = Pantry.get_items_by_type p ft)
      /\ NoDup (map fst sel)
      /\ Forall (entry_ok (World.heap w) (World.heap w') p (map fst patterns)) sel
      /\ served (World.heap w) p patterns sel.
Proof.
  induction patterns as [|[ft amount] rest IH]; intros acc p w Hkeys Hnd Hlt.
  - exists [], p, w. simpl. rewrite app_nil_r.
    split; [reflexivity|]. split; [apply heap_extends_refl|].
    split; [repeat split|]. split.
    { intros ft. exists []. split; [reflexivity | constructor]. }
    split; [reflexivity|]. split; [constructor|]. split; constructor.
  - simpl in Hkeys. apply NoDup_cons in Hkeys as [Hft Hkeys].
    set (h := World.heap w) in *.
    destruct (select_food_spec strategy h p ft amount (World.rng w)
                (all_items_NoDup p Hnd ft))
      as (sel1 & l1 & g1 & gone1 & E1 & HP1 & Hnd1 & Hok1 & Hgone1).
    cbn [Meal.choose_loop]. fold h. rewrite E1. cbn [rbind].
    set (p1 := Pantry.set_items_by_type p ft l1) in *.
    set (rem := (amount - Qsum (map snd sel1))%Q).
    pose proof (all_items_set_Permutation p ft gone1 l1 HP1) as HPall.
    fold p1 in HPall.
    assert (Hnd_p1 : NoDup (Pantry.all_items p1)).
    { rewrite HPall in Hnd. now apply NoDup_app in Hnd as (_ & _ & ?). }
    assert (Hsub_all : forall x, x ∈ Pantry.all_items p1 -> x ∈ Pantry.all_items p).
    { intros x Hx. rewrite HPall. apply elem_of_app. now right. }
    assert (Hsub : forall ft' x, x ∈ Pantry.get_items_by_type p1 ft' ->
                                 x ∈ Pantry.get_items_by_type p ft').
    { intros ft' x Hx. destruct (decide (ft = ft')) as [<-|Hne].
      - unfold p1 in Hx. rewrite get_set_items_eq in Hx.
        rewrite HP1. apply elem_of_app. now right.
      - unfold p1 in Hx. now rewrite get_set_items_ne in Hx. }
    assert (Hin1 : forall e, e ∈ sel1 ->
                     fst e ∈ Pantry.get_items_by_type p ft
                     /\ (fst e < Heap.next h)%nat).
    { intros e He. rewrite Forall_forall in Hok1.
      destruct (Hok1 e He) as [H1 _]. split; [exact H1|].
      apply Hlt. apply all_items_elem. eauto. }
    assert (Hcont : forall (extra : selection) (h1 : Heap.t),
      heap_extends h h1 ->
      (extra = [] /\ h1 = h /\ (rem <= 0)%Q)
      \/ (extra = [(Heap.next h, rem)] /\ Heap.next h1 = S (Heap.next h)
          /\ Heap.get h1 (Heap.next h)
             = FoodItem.mk EMERGENCY_TAKEOUT PERISHABLE 0 0 rem
          /\ (0 < rem)%Q) ->
      exists (sel : selection) (p' : Pantry.t) (w' : World.t),
        Meal.choose_loop strategy rest ((acc ++ sel1) ++ extra) p1 (World.mk h1 g1)
        = Ok (acc ++ sel, p', w')
        /\ heap_extends h (World.heap w')
        /\ same_logs p p'
        /\ (forall ft0, exists gone : list ref,
               Pantry.get_items_by_type p ft0 ≡ₚ gone ++ Pantry.get_items_by_type p' ft0
               /\ Forall (fun r => (r, FoodItem.quantity (Heap.get h r)) ∈ sel) gone)
        /\ (forall ft0, ft0 ∉ ft :: map fst rest ->
               Pantry.get_items_by_type p' ft0 = Pantry.get_items_by_type p ft0)
        /\ NoDup (map fst sel)
        /\ Forall (entry_ok h (World.heap w') p (ft :: map fst rest)) sel
        /\ served h p ((ft, amount) :: rest) sel).
    { intros extra h1 Hext1 Hextra.
      destruct (IH ((acc ++ sel1) ++ extra) p1 (World.mk h1 g1) Hkeys Hnd_p1)
        as (sel2 & p' & w' & E2 & Hext2 & Hlogs2 & Hgone2 & Hunt2 & Hnd2 & Hok2 & Hsv2).
      { intros r Hr. simpl. destruct Hext1 as [Hn _].
        specialize (Hlt r (Hsub_all r Hr)). lia. }
      simpl in Hext2, Hgone2, Hok2, Hsv2.
      exists (sel1 ++ extra ++ sel2), p', w'.
      assert (Hold : forall r, r ∈ Pantry.all_items p ->
                               Heap.get h1 r = Heap.get h r).
      { intros r Hr. apply Hext1. now apply Hlt. }
      assert (Hn1 : (Heap.next h <= Heap.next h1)%nat) by apply Hext1.
      assert (Hn2 : (Heap.next h1 <= Heap.next (World.heap w'))%nat) by apply Hext2.
      assert (Hin2 : forall e, e ∈ sel2 ->
                (exists ft', ft' ∈ map fst rest /\ ft' <> ft
                             /\ fst e ∈ Pantry.get_items_by_type p ft'
                             /\ (fst e < Heap.next h)%nat
                             /\ (snd e <= FoodItem.quantity (Heap.get h (fst e)))%Q)
                \/ ((Heap.next h1 <= fst e < Heap.next (World.heap w'))%nat
                    /\ Heap.get (World.heap w') (fst e)
                       = FoodItem.mk EMERGENCY_TAKEOUT PERISHABLE 0 0 (snd e))).
      { intros e He. rewrite Forall_forall in Hok2.
        destruct (Hok2 e He) as [(ft' & Hk & Hm & Hq)|Hfresh]; [left | now right].
        assert (Hne : ft' <> ft) by (intros ->; contradiction).
        assert (Hm' : fst e ∈ Pantry.get_items_by_type p ft') by (now apply Hsub).
        assert (Hall : fst e ∈ Pantry.all_items p) by (apply all_items_elem; eauto).
        exists ft'. repeat split; try assumption.
        - now apply Hlt.
        - now rewrite <- (Hold _ Hall). }
      split; [rewrite E2; now rewrite <- !app_assoc|].
      split; [eapply heap_extends_trans; eassumption|].
      split; [eapply same_logs_trans; [apply set_items_same_logs | exact Hlogs2]|].
      split.
      { intros ft0. destruct (decide (ft = ft0)) as [<-|Hne].
        - exists gone1. split.
          + rewrite (Hunt2 ft Hft). unfold p1. now rewrite get_set_items_eq.
          + eapply Forall_impl; [exact Hgone1|]. simpl. intros r Hr.
            apply elem_of_app. now left.
        - destruct (Hgone2 ft0) as (gone2 & HP2 & HF2). exists gone2. split.
          + rewrite <- HP2. unfold p1. now rewrite get_set_items_ne.
          + rewrite Forall_forall in *. intros r Hr.
            assert (Hall : r ∈ Pantry.all_items p).
            { apply Hsub_all, all_items_elem. exists ft0. rewrite HP2.
              apply elem_of_app. now left. }
            rewrite <- (Hold r Hall). rewrite !elem_of_app. right. right.
            now apply HF2. }
      split.
      { intros ft0 Hft0. rewrite Hunt2.
        - unfold p1. apply get_set_items_ne. intros ->. apply Hft0. left.
        - intros Hin. apply Hft0. now right. }
      assert (Hfresh2 : forall x, x ∈ map fst sel2 ->
                          Heap.next h1 = S (Heap.next h) -> x <> Heap.next h).
      { intros x Hx Hnx. apply list_elem_of_fmap in Hx as (e & -> & He).
        destruct (Hin2 e He) as [(ft' & _ & _ & _ & Hl & _)|[Hl _]]; lia. }
      split.
      { rewrite !map_app. apply NoDup_app. split; [exact Hnd1|]. split.
        - intros x Hx Hx'. apply list_elem_of_fmap in Hx as (e1 & -> & He1).
          destruct (Hin1 e1 He1) as [Hm1 Hl1].
          apply elem_of_app in Hx' as [Hx'|Hx'].
          + destruct Hextra as [(-> & _)|(-> & _)]; [inversion Hx'|].
            simpl in Hx'. apply list_elem_of_singleton in Hx'. lia.
          + apply list_elem_of_fmap in Hx' as (e2 & Heq & He2).
            destruct (Hin2 e2 He2) as [(ft' & _ & Hne & Hm2 & _)|[Hl2 _]].
            * rewrite <- Heq in Hm2.
              exact (items_disjoint p ft ft' _ Hnd (not_eq_sym Hne) Hm1 Hm2).
            * lia.
        - destruct Hextra as [(-> & _)|(-> & Hnx & _)]; simpl; [exact Hnd2|].
          apply NoDup_cons. split; [|exact Hnd2].
          intros Hx. now apply (Hfresh2 _ Hx Hnx). }
      split.
      { apply Forall_app. split; [|apply Forall_app; split].
        - rewrite Forall_forall in *. intros e He. left. exists ft.
          destruct (Hok1 e He) as [H1 H2]. split; [left | auto].
        - destruct Hextra as [(-> & _)|(-> & Hnx & Hget & _)]; [constructor|].
          constructor; [|constructor]. right. simpl. split; [lia|].
          rewrite <- Hget. apply Hext2. lia.
        - rewrite Forall_forall. intros e He.
          destruct (Hin2 e He) as [(ft' & Hk & _ & Hm & _ & Hq)|[Hl Hg]].
          + left. exists ft'. split; [now right | auto].
          + right. split; [lia | exact Hg]. }
      assert (Hsv : served h p rest sel2).
      { eapply served_mono; [exact Hn1 | exact Hsub | exact Hsv2]. }
      assert (Hch : Forall (fun e => fst e ∈ Pantry.get_items_by_type p ft) sel1).
      { rewrite Forall_forall. intros e He. apply (Hin1 e He). }
      destruct Hextra as [(-> & _ & Hrem)|(-> & _ & _ & Hrem)]; simpl.
      - now apply served_enough.
      - apply (served_short h p ft amount rest sel1 sel2 (Heap.next h));
          [exact Hch | exact Hrem | lia | exact Hsv]. }
    destruct (Qltb 0 rem) eqn:Erem.
    + apply Qltb_lt in Erem.
      rewrite FoodItem_new_Ok by lia.
      destruct (Heap.alloc h (FoodItem.mk EMERGENCY_TAKEOUT PERISHABLE 0 0 rem))
        as [r0 h1] eqn:Ea.
      apply heap_alloc_spec in Ea as (-> & Hnext & Hnew & Hold).
      cbn [rbind].
      apply (Hcont [(Heap.next h, rem)] h1).
      * split; [lia | exact Hold].
      * right. auto.
    + apply Qltb_ge in Erem.
      rewrite <- (app_nil_r (acc ++ sel1)).
      apply (Hcont [] h); [apply heap_extends_refl | left; auto].
Qed.

(** ** Sums over lists of objects *)

Lemma Qsum_Permutation (l l' : list Q) : l ≡ₚ l' -> (Qsum l == Qsum l')%Q.
Proof.
  induction 1 as [|x l l' _ IH|x y l|l1 l2 l3 _ IH1 _ IH2].
  - reflexivity.
  - rewrite !Qsum_cons, IH. reflexivity.
  - rewrite !Qsum_cons. lra.
  - now rewrite IH1.
Qed.

Lemma Qsum_map_Qeq {A : Type} (f g : A -> Q) (l : list A) :
  Forall (fun x => (f x == g x)%Q) l -> (Qsum (map f l) == Qsum (map g l))%Q.
Proof.
  induction 1 as [|x l Hx _ IH]; simpl; [reflexivity|].
  rewrite !Qsum_cons, Hx, IH. reflexivity.
Qed.

Lemma Qsum_map_plus {A : Type} (f g : A -> Q) (l : list A) :
  (Qsum (map (fun x => f x + g x) l) == Qsum (map f l) + Qsum (map g l))%Q.
Proof.
  induction l as [|x l IH]; simpl; [rewrite Qsum_nil; lra|].
  rewrite !Qsum_cons, IH. lra.
Qed.

Lemma Qsum_map_minus {A : Type} (f g : A -> Q) (l : list A) :
  (Qsum (map (fun x => f x - g x) l) == Qsum (map f l) - Qsum (map g l))%Q.
Proof.
  induction l as [|x l IH]; simpl; [rewrite Qsum_nil; lra|].
  rewrite !Qsum_cons, IH. lra.
Qed.

Lemma Qsum_map_zero {A : Type} (f : A -> Q) (l : list A) :
  Forall (fun x => (f x == 0)%Q) l -> (Qsum (map f l) == 0)%Q.
Proof.
  induction 1 as [|x l Hx _ IH]; simpl; [reflexivity|].
  rewrite Qsum_cons, Hx, IH. lra.
Qed.

Lemma quantities_Permutation (h : Heap.t) (l l' : list ref) :
  l ≡ₚ l' -> (Qsum (Pantry.quantities h l) == Qsum (Pantry.quantities h l'))%Q.
Proof.
  intros HP. apply Qsum_Permutation. unfold Pantry.quantities.
  now apply Permutation_map.
Qed.

Lemma takes_nil : takes [] = 0%Q.
Proof. reflexivity. Qed.

Lemma takes_cons (e : ref * Q) (sel : selection) :
  (takes (e :: sel) == snd e + takes sel)%Q.
Proof. unfold takes. simpl. apply Qsum_cons. Qed.

Lemma takes_app (s1 s2 : selection) : (takes (s1 ++ s2) == takes s1 + takes s2)%Q.
Proof. unfold takes. rewrite map_app. apply Qsum_app. Qed.

Lemma is_takeout_ext (h h' : Heap.t) (e : ref * Q) :
  FoodItem.name (Heap.get h' (fst e)) = FoodItem.name (Heap.get h (fst e)) ->
  is_takeout h' e = is_takeout h e.
Proof. unfold is_takeout. now intros ->. Qed.

Lemma taken_ext (h h' : Heap.t) (sel : selection) (r : ref) :
  (forall x, FoodItem.name (Heap.get h' x) = FoodItem.name (Heap.get h x)) ->
  taken h' sel r = taken h sel r.
Proof.
  intros Hn. unfold taken. f_equal. apply List.filter_ext.
  intros e. now rewrite (is_takeout_ext h h' e (Hn _)).
Qed.

Lemma taken_cons (h : Heap.t) (e : ref * Q) (sel : selection) (r : ref) :
  (taken h (e :: sel) r
   == (if Nat.eqb (fst e) r && negb (is_takeout h e) then snd e else 0)
      + taken h sel r)%Q.
Proof.
  unfold taken. simpl. destruct (_ && _).
  - apply takes_cons.
  - lra.
Qed.

(** An item that occurs in no entry of the selection loses nothing. *)
Lemma taken_absent (h : Heap.t) (sel : selection) (r : ref) :
  r ∉ map fst sel -> taken h sel r = 0%Q.
Proof.
  intros Hr. unfold taken.
  replace (List.filter _ sel) with (@nil (ref * Q)); [reflexivity|].
  symmetry. induction sel as [|e sel IH]; [reflexivity|]. simpl.
  destruct (Nat.eqb_spec (fst e) r) as [Heq|Hne]; simpl.
  - exfalso. apply Hr. simpl. rewrite Heq. left.
  - apply IH. intros Hin. apply Hr. simpl. now right.
Qed.

(** Among entries for distinct objects, what an object loses is the amount
    of its own entry. *)
Lemma taken_unique (h : Heap.t) (sel : selection) (r : ref) (a : Q) :
  NoDup (map fst sel) -> (r, a) ∈ sel -> is_takeout h (r, a) = false ->
  (taken h sel r == a)%Q.
Proof.
  induction sel as [|e sel IH]; intros Hnd Hin Hreal; [inversion Hin|].
  simpl in Hnd. apply NoDup_cons in Hnd as [He Hnd].
  rewrite taken_cons. apply elem_of_cons in Hin as [<-|Hin].
  - simpl. rewrite Nat.eqb_refl, Hreal. simpl.
    rewrite (taken_absent h sel r He). lra.
  - destruct (Nat.eqb_spec (fst e) r) as [Heq|Hne]; simpl.
    + exfalso. apply He. rewrite Heq. apply list_elem_of_fmap. exists (r, a). auto.
    + rewrite (IH Hnd Hin Hreal). lra.
Qed.

Lemma Qsum_map_indicator (l : list ref) (x : ref) (b : bool) (a : Q) :
  NoDup l ->
  (Qsum (map (fun r => if Nat.eqb x r && b then a else 0) l)
   == if b && bool_decide (x ∈ l) then a else 0)%Q.
Proof.
  induction l as [|y l IH]; intros Hnd; simpl.
  - rewrite Qsum_nil. destruct b; reflexivity.
  - apply NoDup_cons in Hnd as [Hy Hnd]. rewrite Qsum_cons, (IH Hnd).
    destruct b; simpl; [|rewrite andb_false_r; lra].
    rewrite andb_true_r.
    destruct (Nat.eqb_spec x y) as [->|Hne].
    + rewrite (bool_decide_eq_true_2 (y ∈ y :: l)) by left.
      rewrite (bool_decide_eq_false_2 (y ∈ l)) by exact Hy. lra.
    + destruct (decide (x ∈ l)) as [Hin|Hin].
      * rewrite (bool_decide_eq_true_2 (x ∈ y :: l)) by (now right).
        rewrite (bool_decide_eq_true_2 (x ∈ l)) by exact Hin. lra.
      * rewrite (bool_decide_eq_false_2 (x ∈ l)) by exact Hin.
        rewrite (bool_decide_eq_false_2 (x ∈ y :: l)); [lra|].
        intros [?|?]%elem_of_cons; contradiction.
Qed.

(** What the distinct items of [l] lose together is the sum of the
    take-amounts of the entries for items of [l] that are not named
    "Emergency Takeout". *)
Lemma taken_sum (h : Heap.t) (sel : selection) (l : list ref) :
  NoDup l ->
  (Qsum (map (taken h sel) l)
   == takes (List.filter (fun e => negb (is_takeout h e) && bool_decide (fst e ∈ l))
                         sel))%Q.
Proof.
  intros Hnd. induction sel as [|e sel IH].
  - simpl. rewrite takes_nil. apply Qsum_map_zero.
    apply Forall_forall. intros r _. reflexivity.
  - rewrite (Qsum_map_Qeq _ _ l
               (proj2 (Forall_forall _ _) (fun r _ => taken_cons h e sel r))).
    rewrite Qsum_map_plus, IH, (Qsum_map_indicator l (fst e) _ (snd e) Hnd).
    simpl. destruct (negb (is_takeout h e) && bool_decide (fst e ∈ l)).
    + rewrite takes_cons. reflexivity.
    + lra.
Qed.

(** ** Meal.consume *)

(** The loop of [Meal.consume] over entries for distinct objects, none taken
    for more than it holds: it does not raise, it changes quantities only,
    and each object loses what [taken] says. *)
Lemma consume_loop_spec :
  forall (sel : selection) (h : Heap.t),
    NoDup (map fst sel) ->
    Forall (fun e => is_takeout h e = false ->
                     (snd e <= FoodItem.quantity (Heap.get h (fst e)))%Q) sel ->
    exists h2,
      Meal.consume_loop sel h = Ok h2
      /\ Heap.next h2 = Heap.next h
      /\ (forall r, FoodItem.name (Heap.get h2 r) = FoodItem.name (Heap.get h r)
                    /\ FoodItem.food_type (Heap.get h2 r)
                       = FoodItem.food_type (Heap.get h r)
                    /\ FoodItem.best_before (Heap.get h2 r)
                       = FoodItem.best_before (Heap.get h r)
                    /\ FoodItem.spoilage_date (Heap.get h2 r)
                       = FoodItem.spoilage_date (Heap.get h r))
      /\ (forall r, (FoodItem.quantity (Heap.get h2 r)
                     == FoodItem.quantity (Heap.get h r) - taken h sel r)%Q)
      /\ (forall r, (forall e, e ∈ sel -> fst e = r -> is_takeout h e = true) ->
                    Heap.get h2 r = Heap.get h r).
Proof.
  induction sel as [|[r0 a] sel IH]; intros h Hnd Hok.
  - exists h. simpl. split; [reflexivity|]. split; [reflexivity|].
    split; [auto|]. split; [|auto].
    intros r. unfold taken; simpl. rewrite takes_nil. lra.
  - simpl in Hnd. apply NoDup_cons in Hnd as [Hr0 Hnd].
    apply Forall_cons in Hok as [Hok0 Hok].
    cbn [Meal.consume_loop].
    change (String.eqb (FoodItem.name (Heap.get h r0)) "Emergency Takeout")
      with (is_takeout h (r0, a)).
    destruct (is_takeout h (r0, a)) eqn:Et; cbn [negb].
    + destruct (IH h Hnd Hok) as (h2 & E & Hnx & Hfr & Hq & Hsame).
      exists h2. split; [exact E|]. split; [exact Hnx|]. split; [exact Hfr|].
      split.
      * intros r. rewrite Hq, taken_cons, Et. rewrite andb_false_r. lra.
      * intros r Hr. apply Hsame. intros e He. apply Hr. now right.
    + specialize (Hok0 eq_refl). simpl in Hok0.
      unfold FoodItem.consume.
      assert (Eq : Qltb (FoodItem.quantity (Heap.get h r0)) a = false)
        by (now apply Qltb_ge).
      rewrite Eq. cbn [rbind].
      set (item := FoodItem.mk _ _ _ _ (FoodItem.quantity (Heap.get h r0) - a)%Q).
      set (h1 := Heap.set h r0 item).
      assert (Hfr1 : forall r,
        FoodItem.name (Heap.get h1 r) = FoodItem.name (Heap.get h r)
        /\ FoodItem.food_type (Heap.get h1 r) = FoodItem.food_type (Heap.get h r)
        /\ FoodItem.best_before (Heap.get h1 r) = FoodItem.best_before (Heap.get h r)
        /\ FoodItem.spoilage_date (Heap.get h1 r)
           = FoodItem.spoilage_date (Heap.get h r)).
      { intros r. unfold h1. destruct (Nat.eq_dec r r0) as [->|Hne].
        - rewrite heap_get_set_eq. repeat split.
        - rewrite heap_get_set_ne by exact Hne. repeat split. }
      assert (Hto : forall e, is_takeout h1 e = is_takeout h e).
      { intros e. apply is_takeout_ext. apply Hfr1. }
      destruct (IH h1 Hnd) as (h2 & E & Hnx & Hfr & Hq & Hsame).
      { rewrite Forall_forall in *. intros e He. rewrite Hto. intros Hreal.
        unfold h1. rewrite heap_get_set_ne; [now apply Hok|].
        intros Heq. apply Hr0. rewrite <- Heq.
        apply list_elem_of_fmap. eauto. }
      exists h2. split; [exact E|]. split; [exact Hnx|]. split.
      { intros r. destruct (Hfr r) as (-> & -> & -> & ->). apply Hfr1. }
      split.
      * intros r. rewrite Hq, taken_cons, Et.
        rewrite (taken_ext h h1 sel r (fun x => proj1 (Hfr1 x))).
        simpl. rewrite andb_true_r. unfold h1.
        destruct (Nat.eqb_spec r0 r) as [<-|Hne].
        -- rewrite heap_get_set_eq. subst item; simpl. lra.
        -- rewrite heap_get_set_ne by (intros ->; now apply Hne). lra.
      * intros r Hr. rewrite Hsame.
        -- unfold h1. apply heap_get_set_ne. intros ->.
           specialize (Hr (r0, a) ltac:(left) eq_refl). congruence.
        -- intros e He Heq. rewrite Hto. apply Hr; [now right | exact Heq].
Qed.

Lemma all_items_NoDup_shrunk (p p' : Pantry.t) :
  (forall ft, exists gone : list ref,
      Pantry.get_items_by_type p ft ≡ₚ gone ++ Pantry.get_items_by_type p' ft) ->
  NoDup (Pantry.all_items p) -> NoDup (Pantry.all_items p').
Proof.
  intros Hg Hnd.
  destruct (Hg LEFTOVER) as (g1 & H1), (Hg PERISHABLE) as (g2 & H2),
    (Hg NON_PERISHABLE) as (g3 & H3).
  destruct p as [[l1 l2 l3] s e d], p' as [[l1' l2' l3'] s' e' d'].
  unfold Pantry.all_items, Pantry.get_items_by_type in *; simpl in *.
  rewrite H1, H2, H3 in Hnd.
  assert (HP : (g1 ++ l1') ++ (g2 ++ l2') ++ (g3 ++ l3') ++ []
               ≡ₚ (g1 ++ g2 ++ g3) ++ l1' ++ l2' ++ l3' ++ [])
    by solve_Permutation.
  rewrite HP in Hnd. now apply NoDup_app in Hnd as (_ & _ & ?).
Qed.

(** [Meal.consume] on a well-formed pantry without an item named
    "Emergency Takeout", for a pattern in which every food type occurs
    once. *)
Lemma meal_consume_spec (strategy : ConsumptionStrategy.t)
    (patterns : Meal.patterns) (p : Pantry.t) (w : World.t) :
  NoDup (map fst patterns) ->
  pantry_wf (World.heap w) p ->
  no_takeout_names (World.heap w) p ->
  exists (sel : selection) (p' : Pantry.t) (w' : World.t),
    Meal.consume strategy patterns p w = Ok (sel, p', w')
    /\ pantry_wf (World.heap w') p'
    /\ no_takeout_names (World.heap w') p'
    /\ same_logs p p'
    /\ (Heap.next (World.heap w) <= Heap.next (World.heap w'))%nat
    /\ (forall r, (r < Heap.next (World.heap w))%nat ->
          FoodItem.name (Heap.get (World.heap w') r)
          = FoodItem.name (Heap.get (World.heap w) r)
          /\ FoodItem.food_type (Heap.get (World.heap w') r)
             = FoodItem.food_type (Heap.get (World.heap w) r)
          /\ FoodItem.best_before (Heap.get (World.heap w') r)
             = FoodItem.best_before (Heap.get (World.heap w) r)
          /\ FoodItem.spoilage_date (Heap.get (World.heap w') r)
             = FoodItem.spoilage_date (Heap.get (World.heap w) r))
    /\ (forall ft x, x ∈ Pantry.get_items_by_type p' ft ->
                     x ∈ Pantry.get_items_by_type p ft)
    /\ (forall ft,
          (Pantry.get_total_by_type (World.heap w') p' ft
           == Pantry.get_total_by_type (World.heap w) p ft
              - real_takes_of_type (World.heap w') ft sel)%Q)
    /\ served (World.heap w) p patterns sel
    /\ Forall (fun e =>
         (fst e ∈ Pantry.all_items p /\ is_takeout (World.heap w') e = false)
         \/ ((Heap.next (World.heap w) <= fst e < Heap.next (World.heap w'))%nat
             /\ Heap.get (World.heap w') (fst e)
                = FoodItem.mk EMERGENCY_TAKEOUT PERISHABLE 0 0 (snd e))) sel.
Proof.
  intros Hkeys (Hnd & Hty & Hlt) Hnames.
  set (h := World.heap w) in *.
  destruct (choose_loop_spec strategy patterns [] p w Hkeys Hnd Hlt)
    as (sel & p' & w1 & E1 & Hext & Hlogs & Hgone & _ & Hnds & Hok & Hsv).
  fold h in Hext, Hgone, Hok, Hsv. simpl in E1.
  set (h1 := World.heap w1) in *.
  destruct Hext as [Hn1 Hold].
  assert (Hpantry : forall e, e ∈ sel -> is_takeout h1 e = false ->
            exists ft, fst e ∈ Pantry.get_items_by_type p ft
                       /\ fst e ∈ Pantry.all_items p
                       /\ Heap.get h1 (fst e) = Heap.get h (fst e)
                       /\ (snd e <= FoodItem.quantity (Heap.get h (fst e)))%Q).
  { intros e He Hreal. rewrite Forall_forall in Hok.
    destruct (Hok e He) as [(ft & _ & Hm & Hq)|[_ Hget]].
    - assert (Hall : fst e ∈ Pantry.all_items p) by (apply all_items_elem; eauto).
      exists ft. repeat split; try assumption. apply Hold. now apply Hlt.
    - unfold is_takeout in Hreal. rewrite Hget in Hreal. discriminate Hreal. }
  destruct (consume_loop_spec sel h1 Hnds) as (h2 & E2 & Hn2 & Hfr & Hq & Hsame).
  { rewrite Forall_forall. intros e He Hreal.
    destruct (Hpantry e He Hreal) as (ft & _ & _ & -> & Hle). exact Hle. }
  assert (Hto : forall e, is_takeout h2 e = is_takeout h1 e).
  { intros e. apply is_takeout_ext. apply Hfr. }
  assert (Hsub : forall ft x, x ∈ Pantry.get_items_by_type p' ft ->
                              x ∈ Pantry.get_items_by_type p ft).
  { intros ft x Hx. destruct (Hgone ft) as (gone & HP & _).
    rewrite HP. apply elem_of_app. now right. }
  assert (Hsub_all : forall x, x ∈ Pantry.all_items p' -> x ∈ Pantry.all_items p).
  { intros x [ft Hx]%all_items_elem. apply all_items_elem. exists ft. now apply Hsub. }
  assert (Hfields : forall r, (r < Heap.next h)%nat ->
    FoodItem.name (Heap.get h2 r) = FoodItem.name (Heap.get h r)
    /\ FoodItem.food_type (Heap.get h2 r) = FoodItem.food_type (Heap.get h r)
    /\ FoodItem.best_before (Heap.get h2 r) = FoodItem.best_before (Heap.get h r)
    /\ FoodItem.spoilage_date (Heap.get h2 r) = FoodItem.spoilage_date (Heap.get h r)).
  { intros r Hr. destruct (Hfr r) as (-> & -> & -> & ->).
    rewrite (Hold r Hr). repeat split. }
  exists sel, p', (World.mk h2 (World.rng w1)).
  split.
  { unfold Meal.consume, Meal.choose_food_to_eat. rewrite E1. cbn [rbind].
    fold h1. rewrite E2. reflexivity. }
  cbn [World.heap].
  split.
  { split; [|split].
    - apply (all_items_NoDup_shrunk p p'); [|exact Hnd].
      intros ft. destruct (Hgone ft) as (gone & HP & _). eauto.
    - intros ft x Hx. specialize (Hsub ft x Hx).
      assert (Hl : (x < Heap.next h)%nat) by (apply Hlt, all_items_elem; eauto).
      destruct (Hfields x Hl) as (_ & -> & _). now apply Hty.
    - intros x Hx. specialize (Hlt x (Hsub_all x Hx)). lia. }
  split.
  { intros x Hx. specialize (Hsub_all x Hx).
    destruct (Hfields x (Hlt x Hsub_all)) as (-> & _). now apply Hnames. }
  split; [exact Hlogs|]. split; [lia|]. split; [exact Hfields|].
  split; [exact Hsub|]. split.
  { intros ft. destruct (Hgone ft) as (gone & HP & HF).
    set (L := Pantry.get_items_by_type p ft) in *.
    set (L' := Pantry.get_items_by_type p' ft) in *.
    unfold Pantry.get_total_by_type. fold L L'.
    assert (HndL : NoDup L) by (apply all_items_NoDup, Hnd).
    assert (HL : forall r, r ∈ L -> r ∈ Pantry.all_items p
                                    /\ Heap.get h1 r = Heap.get h r).
    { intros r Hr. assert (Hall : r ∈ Pantry.all_items p)
        by (apply all_items_elem; eauto).
      split; [exact Hall|]. apply Hold. now apply Hlt. }
    assert (Hzero : (Qsum (Pantry.quantities h2 gone) == 0)%Q).
    { apply Qsum_map_zero. rewrite Forall_forall in *. intros r Hr.
      assert (HrL : r ∈ L) by (rewrite HP; apply elem_of_app; now left).
      destruct (HL r HrL) as [Hall Hget].
      rewrite Hq, Hget.
      rewrite (taken_unique h1 sel r (FoodItem.quantity (Heap.get h r)) Hnds
                 (HF r Hr)); [lra|].
      unfold is_takeout; simpl. rewrite Hget.
      apply String.eqb_neq. now apply Hnames. }
    assert (H1 : (Qsum (Pantry.quantities h2 L)
                  == Qsum (Pantry.quantities h2 L'))%Q).
    { rewrite (quantities_Permutation h2 L (gone ++ L') HP).
      rewrite quantities_app, Qsum_app, Hzero. lra. }
    rewrite <- H1.
    unfold Pantry.quantities at 1.
    rewrite (Qsum_map_Qeq _ (fun r => FoodItem.quantity (Heap.get h1 r)
                                      - taken h1 sel r)%Q L
               (proj2 (Forall_forall _ _) (fun r _ => Hq r))).
    rewrite Qsum_map_minus, (taken_sum h1 sel L HndL).
    fold (Pantry.quantities h1 L).
    rewrite (quantities_ext h h1 L).
    2:{ apply Forall_forall. intros r Hr. now rewrite (proj2 (HL r Hr)). }
    unfold real_takes_of_type.
    rewrite (List.filter_ext_in
               (fun e => negb (is_takeout h2 e)
                         && bool_decide (FoodItem.food_type (Heap.get h2 (fst e)) = ft))
               (fun e => negb (is_takeout h1 e) && bool_decide (fst e ∈ L))).
    { reflexivity. }
    intros e He%list_elem_of_In. rewrite Hto.
    destruct (is_takeout h1 e) eqn:Et; [reflexivity|]. simpl.
    destruct (Hpantry e He Et) as (ft' & Hm & Hall & Hget & _).
    destruct (Hfr (fst e)) as (_ & -> & _). rewrite Hget, (Hty ft' _ Hm).
    destruct (decide (ft' = ft)) as [->|Hne].
    - rewrite !bool_decide_eq_true_2; [reflexivity | exact Hm | reflexivity].
    - rewrite !bool_decide_eq_false_2; [reflexivity | | exact Hne].
      intros Hin. exact (items_disjoint p ft' ft _ Hnd Hne Hm Hin). }
  split; [exact Hsv|].
  rewrite Forall_forall in *. intros e He.
  destruct (Hok e He) as [(ft & _ & Hm & _)|[Hl Hget]].
  - left. split; [apply all_items_elem; eauto|].
    rewrite Hto. unfold is_takeout.
    assert (Hall : fst e ∈ Pantry.all_items p) by (apply all_items_elem; eauto).
    rewrite (Hold _ (Hlt _ Hall)). apply String.eqb_neq. now apply Hnames.
  - right. split; [lia|]. rewrite <- Hget. apply Hsame.
    intros e' He' Heq. unfold is_takeout. rewrite Heq, Hget. reflexivity.
Qed.

Lemma distinctb_NoDup (l : list ref) : distinctb l = true -> NoDup l.
Proof.
  induction l as [|x l IH]; simpl; intros H; [constructor|].
  apply andb_true_iff in H as [Hx Hl]. apply NoDup_cons. split; [|auto].
  intros Hin. apply negb_true_iff in Hx.
  assert (existsb (Nat.eqb x) l = true); [|congruence].
  apply existsb_exists. exists x. split; [now apply list_elem_of_In|].
  apply Nat.eqb_refl.
Qed.

Lemma pantry_wfb_sound (h : Heap.t) (p : Pantry.t) :
  pantry_wfb h p = true -> pantry_wf h p.
Proof.
  unfold pantry_wfb. intros H.
  apply andb_true_iff in H as [H H3]. apply andb_true_iff in H as [H1 H2].
  split; [now apply distinctb_NoDup|]. split.
  - intros ft r Hr. rewrite forallb_forall in H2.
    assert (Hft : In ft [LEFTOVER; PERISHABLE; NON_PERISHABLE])
      by (destruct ft; simpl; auto).
    specialize (H2 ft Hft). rewrite forallb_forall in H2.
    apply list_elem_of_In in Hr. specialize (H2 r Hr).
    now apply bool_decide_eq_true in H2.
  - intros r Hr. rewrite forallb_forall in H3.
    apply list_elem_of_In in Hr. specialize (H3 r Hr). now apply Nat.ltb_lt in H3.
Qed.

Lemma no_takeout_namesb_sound (h : Heap.t) (p : Pantry.t) :
  no_takeout_namesb h p = true -> no_takeout_names h p.
Proof.
  unfold no_takeout_namesb. intros H r Hr. rewrite forallb_forall in H.
  apply list_elem_of_In in Hr. specialize (H r Hr).
  apply negb_true_iff in H. now apply String.eqb_neq.
Qed.

Lemma get_total_by_types (h : Heap.t) (p : Pantry.t) :
  (Pantry.get_total h p
   == Pantry.get_total_by_type h p LEFTOVER
      + Pantry.get_total_by_type h p PERISHABLE
      + Pantry.get_total_by_type h p NON_PERISHABLE)%Q.
Proof.
  unfold Pantry.get_total, Pantry.get_total_by_type, Pantry.all_items,
    Pantry.get_items_by_type, ByType.values; simpl.
  rewrite app_nil_r, !quantities_app, !Qsum_app. lra.
Qed.

Lemma real_takes_by_types (h : Heap.t) (sel : selection) :
  (real_takes h sel
   == real_takes_of_type h LEFTOVER sel + real_takes_of_type h PERISHABLE sel
      + real_takes_of_type h NON_PERISHABLE sel)%Q.
Proof.
  unfold real_takes, real_takes_of_type.
  induction sel as [|e sel IH]; simpl; [rewrite takes_nil; lra|].
  destruct (is_takeout h e); simpl; [exact IH|].
  rewrite takes_cons, IH.
  destruct (FoodItem.food_type (Heap.get h (fst e))); simpl;
    rewrite takes_cons; lra.
Qed.

(** C7, as the specification states it, fails when real pantry items carry
    the name "Emergency Takeout", because the placeholder is recognised by
    its name.  With two such items of 2 and 5 and a request of 4, the random
    strategy selects the first for 2 (and removes it from the pantry list)
    and the second for 2; [Meal.consume] subtracts neither.  No placeholder
    was built (the request is fully sourced from the pantry), the pantry
    total goes from 7 to 5, and 5 is neither 7 minus the take-amounts of the
    selected pantry items (4) nor 7 minus those of the items not named
    "Emergency Takeout" (0). *)
Lemma meal_consume_takeout_named_counterexample :
  match Meal.consume ConsumptionStrategy.Random [(PERISHABLE, 4%Q)]
          takeout_named_pantry (World.mk takeout_named_heap zero_rng) with
  | Ok (sel, p', w') =>
      (Pantry.get_total takeout_named_heap takeout_named_pantry == 7)%Q
      /\ (Pantry.get_total (World.heap w') p' == 5)%Q
      /\ Heap.next (World.heap w') = Heap.next takeout_named_heap
      /\ map fst sel = [0; 1]%nat
      /\ Pantry.all_items takeout_named_pantry = [0; 1]%nat
      /\ (takes sel == 4)%Q
      /\ (real_takes (World.heap w') sel == 0)%Q
      /\ ~ (Pantry.get_total (World.heap w') p'
            == Pantry.get_total takeout_named_heap takeout_named_pantry
               - takes sel)%Q
      /\ ~ (Pantry.get_total (World.heap w') p'
            == Pantry.get_total takeout_named_heap takeout_named_pantry
               - real_takes (World.heap w') sel)%Q
  | Raise _ => False
  end.
Proof. vm_compute. repeat split; try reflexivity; discriminate. Qed.

(** C7 (amended): for every consumption strategy, every consumption
    pattern (a dict: each food type at most once) and every well-formed
    pantry none of whose items is named "Emergency Takeout", [Meal.consume]
    does not raise; the pantry's total mass afterwards is its total before
    minus the sum of the take-amounts of the selected items that are not the
    placeholder; the selection consists, for each requested food type, of the
    items chosen in the pantry followed, when they fall short, by one new
    object taken for the shortfall; and every such new object is
    [FoodItem("Emergency Takeout", PERISHABLE, 0, 0, shortfall)], still
    untouched after [consume]. *)
Theorem meal_consume_spares_the_placeholder (strategy : ConsumptionStrategy.t)
    (patterns : Meal.patterns) (p : Pantry.t) (w : World.t) :
  NoDup (map fst patterns) ->
  pantry_wf (World.heap w) p ->
  no_takeout_names (World.heap w) p ->
  exists (sel : selection) (p' : Pantry.t) (w' : World.t),
    Meal.consume strategy patterns p w = Ok (sel, p', w')
    /\ (Pantry.get_total (World.heap w') p'
        == Pantry.get_total (World.heap w) p - real_takes (World.heap w') sel)%Q
    /\ served (World.heap w) p patterns sel
    /\ Forall (fun e =>
         (fst e ∈ Pantry.all_items p /\ is_takeout (World.heap w') e = false)
         \/ ((Heap.next (World.heap w) <= fst e < Heap.next (World.heap w'))%nat
             /\ Heap.get (World.heap w') (fst e)
                = FoodItem.mk EMERGENCY_TAKEOUT PERISHABLE 0 0 (snd e))) sel.
Proof.
  intros Hkeys Hwf Hnames.
  destruct (meal_consume_spec strategy patterns p w Hkeys Hwf Hnames)
    as (sel & p' & w' & E & _ & _ & _ & _ & _ & _ & Htot & Hsv & Hent).
  exists sel, p', w'. split; [exact E|]. split; [|split; assumption].
  rewrite !get_total_by_types, real_takes_by_types, !Htot. lra.
Qed.

Lemma meal_consume_spares_the_placeholder_witness :
  exists (sel : selection) (p' : Pantry.t) (w' : World.t),
    Meal.consume ConsumptionStrategy.Basic [(PERISHABLE, 3 # 2)] meat_pantry
      (World.mk meat_heap zero_rng) = Ok (sel, p', w')
    /\ (Pantry.get_total (World.heap w') p'
        == Pantry.get_total meat_heap meat_pantry - real_takes (World.heap w') sel)%Q.
Proof.
  destruct (meal_consume_spares_the_placeholder ConsumptionStrategy.Basic
              [(PERISHABLE, 3 # 2)] meat_pantry (World.mk meat_heap zero_rng))
    as (sel & p' & w' & E & Htot & _).
  - simpl. apply NoDup_singleton.
  - apply pantry_wfb_sound. vm_compute. reflexivity.
  - apply no_takeout_namesb_sound. vm_compute. reflexivity.
  - exists sel, p', w'. split; [exact E | exact Htot].
Defined.

(** ** Pantry.add_item *)

Lemma insert_by_key_Permutation (key : ref -> Z) (x : ref) (l : list ref) :
  insert_by_key key x l ≡ₚ x :: l.
Proof.
  induction l as [|y l IH]; simpl; [reflexivity|].
  destruct (key x <? key y); [reflexivity|].
  rewrite IH. apply Permutation_swap.
Qed.

Lemma sort_by_key_Permutation (key : ref -> Z) (l : list ref) :
  sort_by_key key l ≡ₚ l.
Proof.
  unfold sort_by_key.
  assert (H : forall acc, fold_left (fun acc x => insert_by_key key x acc) l acc
                          ≡ₚ acc ++ l).
  { induction l as [|x l IH]; intros acc; simpl.
    - now rewrite app_nil_r.
    - rewrite IH, insert_by_key_Permutation. solve_Permutation. }
  apply (H []).
Qed.

Lemma add_item_items (h : Heap.t) (p : Pantry.t) (r : ref) (ft : FoodType) :
  Pantry.get_items_by_type (Pantry.add_item h p r) ft
  ≡ₚ Pantry.get_items_by_type p ft
     ++ (if bool_decide (FoodItem.food_type (Heap.get h r) = ft) then [r] else []).
Proof.
  unfold Pantry.add_item.
  destruct (decide (FoodItem.food_type (Heap.get h r) = ft)) as [<-|Hne].
  - rewrite get_set_items_eq, sort_by_key_Permutation.
    now rewrite bool_decide_eq_true_2.
  - rewrite get_set_items_ne by exact Hne.
    rewrite bool_decide_eq_false_2 by exact Hne. now rewrite app_nil_r.
Qed.

Lemma add_item_other (h : Heap.t) (p : Pantry.t) (r : ref) (ft : FoodType) :
  FoodItem.food_type (Heap.get h r) <> ft ->
  Pantry.get_items_by_type (Pantry.add_item h p r) ft
  = Pantry.get_items_by_type p ft.
Proof. intros Hne. unfold Pantry.add_item. now apply get_set_items_ne. Qed.

Lemma add_item_all_items (h : Heap.t) (p : Pantry.t) (r : ref) :
  Pantry.all_items (Pantry.add_item h p r) ≡ₚ r :: Pantry.all_items p.
Proof.
  pose proof (add_item_items h p r LEFTOVER) as H1.
  pose proof (add_item_items h p r PERISHABLE) as H2.
  pose proof (add_item_items h p r NON_PERISHABLE) as H3.
  destruct (Pantry.add_item h p r) as [[l1' l2' l3'] s' e' d'].
  destruct p as [[l1 l2 l3] s e d].
  unfold Pantry.all_items, Pantry.get_items_by_type in *; simpl in *.
  rewrite H1, H2, H3.
  destruct (FoodItem.food_type (Heap.get h r)); simpl; solve_Permutation.
Qed.

(** Adding an object that exists and is not in the pantry yet keeps the
    pantry well formed. *)
Lemma add_item_wf (h : Heap.t) (p : Pantry.t) (r : ref) :
  pantry_wf h p -> r ∉ Pantry.all_items p -> (r < Heap.next h)%nat ->
  pantry_wf h (Pantry.add_item h p r).
Proof.
  intros (Hnd & Hty & Hlt) Hr Hrl. split; [|split].
  - rewrite add_item_all_items. apply NoDup_cons. auto.
  - intros ft x Hx. rewrite add_item_items in Hx.
    apply elem_of_app in Hx as [Hx|Hx]; [now apply Hty|].
    destruct (decide (FoodItem.food_type (Heap.get h r) = ft)) as [Heq|Hne].
    + rewrite bool_decide_eq_true_2 in Hx by exact Heq.
      apply list_elem_of_singleton in Hx as ->. exact Heq.
    + rewrite bool_decide_eq_false_2 in Hx by exact Hne. inversion Hx.
  - intros x Hx. rewrite add_item_all_items in Hx.
    apply elem_of_cons in Hx as [->|Hx]; [exact Hrl | now apply Hlt].
Qed.

Lemma pantry_wf_heap_extends (h h' : Heap.t) (p : Pantry.t) :
  heap_extends h h' -> pantry_wf h p -> pantry_wf h' p.
Proof.
  intros [Hn Hold] (Hnd & Hty & Hlt). split; [exact Hnd|]. split.
  - intros ft x Hx. rewrite Hold; [now apply Hty|].
    apply Hlt, all_items_elem. eauto.
  - intros x Hx. specialize (Hlt x Hx). lia.
Qed.

(** ** Household.daily_step: the meals *)

(** The accounting loop of a meal adds every take-amount to the counter of
    the item's food type and, for an item named "Emergency Takeout", to the
    emergency counter as well. *)
Lemma record_consumption_spec (h : Heap.t) (sel : selection) :
  forall (dc : ByType.t Q) (et : Q),
    (forall ft,
        (ByType.get (fst (Household.record_consumption h sel (dc, et))) ft
         == ByType.get dc ft + takes_of_type h ft sel)%Q)
    /\ (snd (Household.record_consumption h sel (dc, et))
        == et + takeout_takes h sel)%Q.
Proof.
  unfold Household.record_consumption, takes_of_type, takeout_takes.
  induction sel as [|[r a] sel IH]; intros dc et; simpl.
  - rewrite takes_nil. split; [intros ft|]; lra.
  - change (String.eqb (FoodItem.name (Heap.get h r)) EMERGENCY_TAKEOUT)
      with (is_takeout h (r, a)).
    set (ft0 := FoodItem.food_type (Heap.get h r)).
    set (dc1 := ByType.set dc ft0 (ByType.get dc ft0 + a)%Q).
    assert (Hdc1 : forall ft,
      (ByType.get dc1 ft
       == ByType.get dc ft + (if bool_decide (ft0 = ft) then a else 0))%Q).
    { intros ft. unfold dc1. destruct (decide (ft0 = ft)) as [<-|Hne].
      - rewrite ByType_get_set_eq, bool_decide_eq_true_2 by reflexivity. reflexivity.
      - rewrite ByType_get_set_ne, bool_decide_eq_false_2 by exact Hne. lra. }
    destruct (is_takeout h (r, a)) eqn:Et.
    + destruct (IH dc1 (et + a)%Q) as [H1 H2]. split.
      * intros ft. rewrite H1, Hdc1.
        destruct (bool_decide (ft0 = ft)); [rewrite takes_cons; simpl|]; lra.
      * rewrite H2, takes_cons. simpl. lra.
    + destruct (IH dc1 et) as [H1 H2]. split.
      * intros ft. rewrite H1, Hdc1.
        destruct (bool_decide (ft0 = ft)); [rewrite takes_cons; simpl|]; lra.
      * exact H2.
Qed.

(** When every selected item named "Emergency Takeout" is perishable, the
    perishable take-amounts are those of the other perishable items plus
    those of the items named "Emergency Takeout". *)
Lemma takes_of_type_perishable_split (h : Heap.t) (sel : selection) :
  Forall (fun e => is_takeout h e = true ->
                   FoodItem.food_type (Heap.get h (fst e)) = PERISHABLE) sel ->
  (takes_of_type h PERISHABLE sel
   == real_takes_of_type h PERISHABLE sel + takeout_takes h sel)%Q.
Proof.
  unfold takes_of_type, real_takes_of_type, takeout_takes.
  induction 1 as [|e sel He _ IH]; simpl; [rewrite takes_nil; lra|].
  destruct (is_takeout h e) eqn:Et; simpl.
  - rewrite (He eq_refl). rewrite bool_decide_eq_true_2 by reflexivity.
    rewrite !takes_cons, IH. lra.
  - destruct (bool_decide _); [rewrite !takes_cons|]; rewrite IH; lra.
Qed.


Lemma food_types_NoDup : NoDup [LEFTOVER; PERISHABLE; NON_PERISHABLE].
Proof.
  repeat (apply NoDup_cons; split);
    [ intros H; repeat (apply elem_of_cons in H as [H|H]; [discriminate H|]);
      inversion H .. | constructor ].
Qed.

Lemma plan_meal_keys (strategy : MealPlanningStrategy.t) (pm : PlannedMeal.t)
    (h : Heap.t) (p : Pantry.t) :
  NoDup (map fst (MealPlanningStrategy.plan_meal strategy pm h p)).
Proof.
  rewrite plan_meal_pattern_keys. apply food_types_NoDup.
Qed.

(** One meal, on a well-formed pantry without an item named "Emergency
    Takeout": it does not raise, it keeps the pantry so, and it keeps the
    perishable balance. *)
Lemma eat_meal_spec (pm : PlannedMeal.t) (hh : Household.t) (w : World.t) :
  pantry_wf (World.heap w) (Household.pantry hh) ->
  no_takeout_names (World.heap w) (Household.pantry hh) ->
  exists (hh1 : Household.t) (w1 : World.t),
    Household.eat_meal pm hh w = Ok (hh1, w1)
    /\ pantry_wf (World.heap w1) (Household.pantry hh1)
    /\ no_takeout_names (World.heap w1) (Household.pantry hh1)
    /\ same_policies hh hh1
    /\ same_logs (Household.pantry hh) (Household.pantry hh1)
    /\ (perishable_balance hh1 (World.heap w1)
        == perishable_balance hh (World.heap w))%Q.
Proof.
  intros Hwf Hnames.
  set (patterns := MealPlanningStrategy.plan_meal
                     (Household.meal_planning_strategy hh) pm (World.heap w)
                     (Household.pantry hh)).
  destruct (meal_consume_spec (Household.consumption_strategy hh) patterns
              (Household.pantry hh) w (plan_meal_keys _ _ _ _) Hwf Hnames)
    as (sel & p1 & wc & E & Hwf1 & Hn1 & Hlogs & Hnx & _ & _ & Htot & _ & Hent).
  set (h := World.heap w) in *. set (hc := World.heap wc) in *.
  assert (Hcell : forall h2, heap_extends hc h2 ->
            Forall (fun e => Heap.get h2 (fst e) = Heap.get hc (fst e)) sel).
  { intros h2 [_ Hold]. rewrite Forall_forall in *. intros e He. apply Hold.
    destruct (Hent e He) as [[Hall _]|[Hl _]]; [|lia].
    destruct Hwf as (_ & _ & Hlt). specialize (Hlt _ Hall). fold h in Hlt. lia. }
  assert (Hfin : forall (p2 : Pantry.t) (h2 : Heap.t) (dc' : ByType.t Q)
                        (et' pw lg : Q) (me : Z),
    heap_extends hc h2 ->
    pantry_wf h2 p2 -> no_takeout_names h2 p2 -> same_logs p1 p2 ->
    Pantry.get_items_by_type p2 PERISHABLE = Pantry.get_items_by_type p1 PERISHABLE ->
    Household.record_consumption h2 sel
      (Household.daily_consumption hh, Household.daily_emergency_takeouts hh)
    = (dc', et') ->
    pantry_wf h2 (Household.pantry
                    (Household.set_counters (Household.set_pantry hh p2)
                       dc' et' pw lg me))
    /\ no_takeout_names h2
         (Household.pantry
            (Household.set_counters (Household.set_pantry hh p2) dc' et' pw lg me))
    /\ same_policies hh
         (Household.set_counters (Household.set_pantry hh p2) dc' et' pw lg me)
    /\ same_logs (Household.pantry hh)
         (Household.pantry
            (Household.set_counters (Household.set_pantry hh p2) dc' et' pw lg me))
    /\ (perishable_balance
          (Household.set_counters (Household.set_pantry hh p2) dc' et' pw lg me) h2
        == perishable_balance hh h)%Q).
  { intros p2 h2 dc' et' pw lg me Hext Hwf2 Hn2 Hlogs2 Hitems Erc.
    split; [exact Hwf2|]. split; [exact Hn2|]. split; [repeat split|].
    split; [eapply same_logs_trans; eassumption|].
    unfold perishable_balance. simpl.
    destruct (record_consumption_spec h2 sel (Household.daily_consumption hh)
                (Household.daily_emergency_takeouts hh)) as [H1 H2].
    rewrite Erc in H1, H2. simpl in H1, H2. rewrite (H1 PERISHABLE), H2.
    specialize (Hcell h2 Hext).
    assert (Hp : (Pantry.get_total_by_type h2 p2 PERISHABLE
                  == Pantry.get_total_by_type h (Household.pantry hh) PERISHABLE
                     - real_takes_of_type hc PERISHABLE sel)%Q).
    { rewrite <- (Htot PERISHABLE). unfold Pantry.get_total_by_type.
      rewrite Hitems. rewrite (quantities_ext hc h2); [reflexivity|].
      apply Forall_forall. intros r Hr. destruct Hext as [_ Hold].
      rewrite Hold; [reflexivity|].
      destruct Hwf1 as (_ & _ & Hlt1). apply Hlt1, all_items_elem. eauto. }
    assert (Hr : real_takes_of_type h2 PERISHABLE sel
                 = real_takes_of_type hc PERISHABLE sel).
    { unfold real_takes_of_type. f_equal. apply List.filter_ext_in.
      intros e He%list_elem_of_In. unfold is_takeout.
      rewrite Forall_forall in Hcell. now rewrite (Hcell e He). }
    rewrite (takes_of_type_perishable_split h2 sel).
    - rewrite Hp, Hr. unfold ByType.get. lra.
    - rewrite Forall_forall in *. intros e He Het.
      unfold is_takeout in Het. rewrite (Hcell e He) in *.
      destruct (Hent e He) as [[_ Hreal]|[_ Hget]].
      + unfold is_takeout in Hreal. congruence.
      + rewrite Hget. reflexivity. }
  unfold Household.eat_meal. cbv zeta. fold h patterns. rewrite E. cbn [rbind].
  fold hc.
  set (lh := FixedPercentageLeftoverGenerator.compute_leftovers _ _ _).
  destruct (Qltb 0 lh) eqn:El.
  - rewrite FoodItem_new_Ok by lia.
    destruct (Heap.alloc hc (FoodItem.mk "leftover" LEFTOVER 2 2 lh))
      as [r h2] eqn:Ea.
    apply heap_alloc_spec in Ea as (-> & Hnext & Hnew & Hold).
    cbn [rbind].
    destruct (Household.record_consumption h2 sel _) as [dc' et'] eqn:Erc.
    eexists _, _. split; [reflexivity|]. cbn [World.heap].
    assert (Hext : heap_extends hc h2) by (split; [lia | exact Hold]).
    pose proof (pantry_wf_heap_extends hc h2 p1 Hext Hwf1) as Hwf2.
    assert (Hfresh : Heap.next hc ∉ Pantry.all_items p1).
    { intros Hin. destruct Hwf1 as (_ & _ & Hlt1). specialize (Hlt1 _ Hin). lia. }
    apply Hfin; try assumption.
    + apply add_item_wf; [exact Hwf2 | exact Hfresh | lia].
    + intros x Hx. rewrite add_item_all_items in Hx.
      apply elem_of_cons in Hx as [->|Hx].
      * rewrite Hnew. simpl. discriminate.
      * rewrite Hold; [now apply Hn1|].
        destruct Hwf1 as (_ & _ & Hlt1). now apply Hlt1.
    + repeat split.
    + apply add_item_other. rewrite Hnew. simpl. discriminate.
  - cbn [rbind].
    destruct (Household.record_consumption hc sel _) as [dc' et'] eqn:Erc.
    eexists _, _. split; [reflexivity|]. cbn [World.heap].
    apply Hfin; try assumption.
    + apply heap_extends_refl.
    + repeat split.
    + reflexivity.
Qed.

Lemma same_policies_refl (a : Household.t) : same_policies a a.
Proof. repeat split. Qed.

Lemma same_policies_trans (a b c : Household.t) :
  same_policies a b -> same_policies b c -> same_policies a c.
Proof. unfold same_policies. intuition congruence. Qed.

Lemma same_logs_refl (p : Pantry.t) : same_logs p p.
Proof. repeat split. Qed.

(** The meals of a day. *)
Lemma eat_meals_spec :
  forall (meals : list PlannedMeal.t) (hh : Household.t) (w : World.t),
    pantry_wf (World.heap w) (Household.pantry hh) ->
    no_takeout_names (World.heap w) (Household.pantry hh) ->
    exists (hh1 : Household.t) (w1 : World.t),
      Household.eat_meals meals hh w = Ok (hh1, w1)
      /\ pantry_wf (World.heap w1) (Household.pantry hh1)
      /\ no_takeout_names (World.heap w1) (Household.pantry hh1)
      /\ same_policies hh hh1
      /\ same_logs (Household.pantry hh) (Household.pantry hh1)
      /\ (perishable_balance hh1 (World.heap w1)
          == perishable_balance hh (World.heap w))%Q.
Proof.
  induction meals as [|pm meals IH]; intros hh w Hwf Hn.
  - exists hh, w. simpl. split; [reflexivity|]. split; [exact Hwf|].
    split; [exact Hn|]. split; [apply same_policies_refl|].
    split; [apply same_logs_refl | reflexivity].
  - destruct (eat_meal_spec pm hh w Hwf Hn)
      as (hh1 & w1 & E1 & Hwf1 & Hn1 & Hp1 & Hl1 & Hb1).
    destruct (IH hh1 w1 Hwf1 Hn1) as (hh2 & w2 & E2 & Hwf2 & Hn2 & Hp2 & Hl2 & Hb2).
    exists hh2, w2. cbn [Household.eat_meals]. rewrite E1. cbn [rbind].
    split; [exact E2|]. split; [exact Hwf2|]. split; [exact Hn2|].
    split; [eapply same_policies_trans; eassumption|].
    split; [eapply same_logs_trans; eassumption|].
    now rewrite Hb2.
Qed.

Ltac inv_bind H :=
  match type of H with
  | rbind ?m _ = Ok _ =>
      let E := fresh "E" in
      destruct m eqn:E; cbn [rbind] in H; [|discriminate H]
  end.

(** What [place_order] assigns. *)
Lemma place_order_inv (pow_half : Q -> Q) (self self' : Household.t)
    (w w' : World.t) (a b : Q) :
  Household.place_order pow_half self w = Ok (a, b, self', w') ->
  Household.daily_consumption self' = Household.daily_consumption self
  /\ Household.daily_emergency_takeouts self' = Household.daily_emergency_takeouts self
  /\ Household.history self' = Household.history self
  /\ exists policy1,
       snd (OrderPolicy.determine_order_quantity pow_half
              (Household.order_policy self) (Household.history self)
              (World.heap w) (Household.pantry self)) = policy1
       /\ OrderPolicy.reset_days_until_next_order policy1
          = Ok (Household.order_policy self').
Proof.
  unfold Household.place_order. intros H.
  destruct (OrderPolicy.determine_order_quantity _ _ _ _ _) as [[pq nq] policy1].
  inv_bind H. destruct (GroceryStore.get_order _ PERISHABLE pq w) as [[o1 w1]|];
    cbn [rbind] in H; [|discriminate H].
  destruct (GroceryStore.get_order _ NON_PERISHABLE nq w1) as [[o2 w2]|];
    cbn [rbind] in H; [|discriminate H].
  destruct (Household.add_order _ o1 _) as [t1 pa1].
  destruct (Household.add_order _ o2 _) as [t2 pa2].
  inv_bind H. injection H as <- <- <- <-. simpl.
  repeat split. exists policy1. split; [reflexivity | assumption].
Qed.

(** The steps of a successful [daily_step]. *)
Lemma daily_step_inv (pow_half : Q -> Q) (hh hh' : Household.t) (w w' : World.t)
    (rec : DailyRecord.t) :
  Household.daily_step pow_half hh w = Ok (rec, hh', w') ->
  exists (meals : list PlannedMeal.t) (rest : list (list PlannedMeal.t))
         (hh1 : Household.t) (w1 : World.t) (policy1 : OrderPolicy.t) (days : Z),
    Household.weekly_meals hh = Some (meals :: rest)
    /\ Household.eat_meals meals (at_breakfast hh rest) w = Ok (hh1, w1)
    /\ DailyRecord.daily_consumption rec = Household.daily_consumption hh1
    /\ DailyRecord.emergency_takeouts rec = Household.daily_emergency_takeouts hh1
    /\ Household.history hh' = Household.history hh1 ++ [rec]
    /\ OrderPolicy.decrement_days_until_next_order (Household.order_policy hh1)
       = Ok policy1
    /\ OrderPolicy.days_until_next_order policy1 = Ok days
    /\ ((days <> 0 /\ Household.order_policy hh' = policy1
         /\ DailyRecord.total_perishable_bought rec = 0%Q
         /\ DailyRecord.total_nonperishable_bought rec = 0%Q)
        \/ (days = 0
            /\ exists p1 h1,
                 OrderPolicy.reset_days_until_next_order
                   (snd (OrderPolicy.determine_order_quantity pow_half policy1
                           (Household.history hh1) h1 p1))
                 = Ok (Household.order_policy hh'))).
Proof.
  unfold Household.daily_step. cbv zeta. intros H.
  change (Household.weekly_meals (Household.set_counters hh _ _ _ _ _))
    with (Household.weekly_meals hh) in H.
  destruct (Household.weekly_meals hh) as [[|meals rest]|] eqn:Ew;
    cbn [rbind] in H; try discriminate H.
  fold (at_breakfast hh rest) in H.
  destruct (Household.eat_meals meals (at_breakfast hh rest) w)
    as [[hh1 w1]|] eqn:Em; cbn [rbind] in H; [|discriminate H].
  destruct (Pantry.step _ _ _) as [[pa1 h1]|] eqn:Es; cbn [rbind] in H;
    [|discriminate H].
  change (Household.order_policy (Household.set_pantry hh1 pa1))
    with (Household.order_policy hh1) in H.
  destruct (OrderPolicy.decrement_days_until_next_order _) as [policy1|] eqn:Ed;
    cbn [rbind] in H; [|discriminate H].
  destruct (OrderPolicy.days_until_next_order policy1) as [days|] eqn:Edays;
    cbn [rbind] in H; [|discriminate H].
  exists meals, rest, hh1, w1, policy1, days.
  split; [reflexivity|]. split; [exact Em|].
  destruct (Z.eqb_spec days 0) as [E0|E0].
  - destruct (Household.place_order _ _ _) as [[[[tp tn] hh2] w2]|] eqn:Ep;
      cbn [rbind] in H; [|discriminate H].
    apply place_order_inv in Ep as (Hc & He & Hh & pol & Hpol & Hreset).
    simpl in Hc, He, Hh, Hpol.
    inv_bind H. inv_bind H. injection H as <- <- <-. simpl.
    rewrite Hc, He, Hh.
    split; [reflexivity|]. split; [reflexivity|]. split; [reflexivity|].
    split; [exact Ed|]. split; [exact Edays|].
    right. split; [exact E0|]. eexists _, _. rewrite Hpol. exact Hreset.
  - cbn [rbind] in H. inv_bind H. inv_bind H. injection H as <- <- <-. simpl.
    split; [reflexivity|]. split; [reflexivity|]. split; [reflexivity|].
    split; [exact Ed|]. split; [exact Edays|].
    left. auto.
Qed.

(** ** Household.daily_step: the order countdown *)

Lemma eat_meal_policies (pm : PlannedMeal.t) (hh hh1 : Household.t) (w w1 : World.t) :
  Household.eat_meal pm hh w = Ok (hh1, w1) -> same_policies hh hh1.
Proof.
  unfold Household.eat_meal. cbv zeta. intros H.
  destruct (Meal.consume _ _ _ _) as [[[sel p1] wc]|]; cbn [rbind] in H;
    [|discriminate H].
  destruct (Qltb 0 _).
  - destruct (FoodItem_new _ _ _ _ _ _) as [[r h2]|]; cbn [rbind] in H;
      [|discriminate H].
    destruct (Household.record_consumption _ _ _) as [dc et].
    injection H as <- <-. repeat split.
  - cbn [rbind] in H.
    destruct (Household.record_consumption _ _ _) as [dc et].
    injection H as <- <-. repeat split.
Qed.

Lemma eat_meals_policies :
  forall (meals : list PlannedMeal.t) (hh hh1 : Household.t) (w w1 : World.t),
    Household.eat_meals meals hh w = Ok (hh1, w1) -> same_policies hh hh1.
Proof.
  induction meals as [|pm meals IH]; intros hh hh1 w w1 H; simpl in H.
  - injection H as <- <-. apply same_policies_refl.
  - destruct (Household.eat_meal pm hh w) as [[hh0 w0]|] eqn:E; cbn [rbind] in H;
      [|discriminate H].
    eapply same_policies_trans; [eapply eat_meal_policies, E | eapply IH, H].
Qed.

Lemma determine_order_quantity_countdown (pow_half : Q -> Q) (policy : OrderPolicy.t)
    (history : list DailyRecord.t) (h : Heap.t) (p : Pantry.t) :
  OrderPolicy.frequency
    (snd (OrderPolicy.determine_order_quantity pow_half policy history h p))
  = OrderPolicy.frequency policy
  /\ OrderPolicy.days_until_next_order
       (snd (OrderPolicy.determine_order_quantity pow_half policy history h p))
     = OrderPolicy.days_until_next_order policy.
Proof.
  destruct policy as [self|base|self delta]; simpl.
  - split; reflexivity.
  - unfold HistoricalConsumptionPolicy.determine_order_quantity.
    destruct (_ <? _)%nat; split; reflexivity.
  - unfold AdaptiveOrderPolicy.determine_order_quantity.
    destruct (_ <? _)%nat; split; reflexivity.
Qed.

(** With a policy that has the two attributes ([FixedConsumptionPolicy],
    [AdaptiveOrderPolicy]), a successful [daily_step] decrements the
    countdown once, places an order exactly when it reaches 0 and then
    resets it to [frequency]. *)
Lemma daily_step_countdown (pow_half : Q -> Q) (hh hh' : Household.t)
    (w w' : World.t) (rec : DailyRecord.t) (f d : Z) :
  Household.daily_step pow_half hh w = Ok (rec, hh', w') ->
  OrderPolicy.frequency (Household.order_policy hh) = Ok f ->
  OrderPolicy.days_until_next_order (Household.order_policy hh) = Ok d ->
  OrderPolicy.frequency (Household.order_policy hh') = Ok f
  /\ OrderPolicy.days_until_next_order (Household.order_policy hh')
     = Ok (if d - 1 =? 0 then f else d - 1)
  /\ (d - 1 <> 0 ->
      DailyRecord.total_perishable_bought rec = 0%Q
      /\ DailyRecord.total_nonperishable_bought rec = 0%Q).
Proof.
  intros H Hf Hd.
  apply daily_step_inv in H
    as (meals & rest & hh1 & w1 & policy1 & days & _ & Em & _ & _ & _ & Edec & Edays & Hcase).
  apply eat_meals_policies in Em as (Hpol & _). simpl in Hpol.
  rewrite Hpol in Edec.
  assert (Hp1 : OrderPolicy.frequency policy1 = Ok f /\ days = d - 1).
  { destruct (Household.order_policy hh) as [self|base|self delta];
      simpl in *; try discriminate;
      injection Edec as <-; simpl in *; split; congruence. }
  destruct Hp1 as [Hf1 ->].
  destruct Hcase as [(Hne & -> & Hb1 & Hb2)|(E0 & p1 & h1 & Hreset)].
  - destruct (Z.eqb_spec (d - 1) 0); [contradiction|]. auto.
  - rewrite E0. simpl.
    destruct (determine_order_quantity_countdown pow_half policy1
                (Household.history hh1) h1 p1) as [Hf2 _].
    rewrite Hf1 in Hf2.
    destruct (snd (OrderPolicy.determine_order_quantity _ _ _ _ _))
      as [self|base|self delta]; simpl in *; try discriminate;
      injection Hreset as <-; simpl; (split; [exact Hf2|]);
      (split; [congruence | contradiction]).
Qed.

(** So the countdown stays in [1 .. frequency]. *)
Lemma daily_step_countdown_range (pow_half : Q -> Q) (hh hh' : Household.t)
    (w w' : World.t) (rec : DailyRecord.t) (f d : Z) :
  Household.daily_step pow_half hh w = Ok (rec, hh', w') ->
  OrderPolicy.frequency (Household.order_policy hh) = Ok f ->
  OrderPolicy.days_until_next_order (Household.order_policy hh) = Ok d ->
  1 <= d <= f ->
  exists d', OrderPolicy.days_until_next_order (Household.order_policy hh') = Ok d'
             /\ 1 <= d' <= f.
Proof.
  intros H Hf Hd Hr.
  destruct (daily_step_countdown pow_half hh hh' w w' rec f d H Hf Hd) as (_ & Hd' & _).
  eexists. split; [exact Hd'|]. destruct (Z.eqb_spec (d - 1) 0); lia.
Qed.

(** With a [HistoricalConsumptionPolicy], [daily_step] never returns. *)
Lemma daily_step_historical_raises (pow_half : Q -> Q) (hh : Household.t)
    (w : World.t) (base : FixedConsumptionPolicy.t) :
  Household.order_policy hh = OrderPolicy.Historical base ->
  forall r, Household.daily_step pow_half hh w <> Ok r.
Proof.
  intros Hpol [[rec hh'] w'] H.
  apply daily_step_inv in H
    as (meals & rest & hh1 & w1 & policy1 & days & _ & Em & _ & _ & _ & Edec & _).
  apply eat_meals_policies in Em as (Hp & _). simpl in Hp.
  rewrite Hp, Hpol in Edec. discriminate Edec.
Qed.

(** C2, the defect: [HistoricalConsumptionPolicy.__init__] does not call
    [OrderPolicy.__init__], so the object it builds has neither
    [frequency] nor [days_until_next_order] (reading them raises
    [AttributeError]), while [FixedConsumptionPolicy] and
    [AdaptiveOrderPolicy] built from the same arguments start the countdown
    at [frequency]; and the first [daily_step] of a household with this
    policy raises [AttributeError] where the household with the wrapped
    [FixedConsumptionPolicy] itself completes the day and leaves the
    countdown at 6. *)
Theorem historical_policy_has_no_countdown :
  let base := FixedConsumptionPolicy.init 1 (1 # 2) 7 1 1 in
  OrderPolicy.days_until_next_order (OrderPolicy.new_historical base)
    = Raise AttributeError
  /\ OrderPolicy.frequency (OrderPolicy.new_historical base) = Raise AttributeError
  /\ OrderPolicy.days_until_next_order (OrderPolicy.new_fixed 1 (1 # 2) 7 1 1) = Ok 7
  /\ OrderPolicy.days_until_next_order (OrderPolicy.new_adaptive base (196 # 100)) = Ok 7
  /\ (forall pow_half,
         Household.daily_step pow_half historical_household empty_world
         = Raise AttributeError)
  /\ (forall pow_half,
         match Household.daily_step pow_half fixed_household empty_world with
         | Ok (_, hh', _) =>
             OrderPolicy.days_until_next_order (Household.order_policy hh') = Ok 6
         | Raise _ => False
         end).
Proof.
  repeat split; intros; vm_compute; reflexivity.
Qed.

(** ** Household.daily_step: emergency takeout in the recorded consumption *)

Lemma last_week_snoc (ft : FoodType) (history : list DailyRecord.t)
    (rec : DailyRecord.t) :
  last_week ft (history ++ [rec])
  = map (fun day => ByType.get (DailyRecord.daily_consumption day) ft)
        (drop (length (history ++ [rec]) - 7) history)
    ++ [ByType.get (DailyRecord.daily_consumption rec) ft].
Proof.
  unfold last_week, last7. rewrite drop_app_le.
  - now rewrite map_app.
  - rewrite length_app. simpl. lia.
Qed.

(** ** The placeholder in the accounts of the day

    These facts need no assumption on the pantry. *)

Lemma choose_loop_placeholders (strategy : ConsumptionStrategy.t) :
  forall (patterns : Meal.patterns) (foods : selection) (p : Pantry.t) (w : World.t)
         (sel : selection) (p' : Pantry.t) (w' : World.t),
    Meal.choose_loop strategy patterns foods p w = Ok (sel, p', w') ->
    (Heap.next (World.heap w) <= Heap.next (World.heap w'))%nat
    /\ (forall r, (r < Heap.next (World.heap w))%nat ->
                  Heap.get (World.heap w') r = Heap.get (World.heap w) r)
    /\ (forall e, e ∈ foods -> e ∈ sel)
    /\ (forall r, (Heap.next (World.heap w) <= r < Heap.next (World.heap w'))%nat ->
          exists q : Q,
            (0 < q)%Q /\ (r, q) ∈ sel
            /\ Heap.get (World.heap w') r
               = FoodItem.mk EMERGENCY_TAKEOUT PERISHABLE 0 0 q).
Proof.
  induction patterns as [|[ft amount] rest IH]; intros foods p w sel p' w' H.
  - simpl in H. injection H as <- <- <-.
    split; [lia|]. split; [auto|]. split; [auto|]. intros r Hr. lia.
  - cbn [Meal.choose_loop] in H.
    destruct (ConsumptionStrategy.select_food _ _ _ _ _ _) as [[[chosen p1] g1]|];
      cbn [rbind] in H; [|discriminate H].
    cbv zeta in H.
    destruct (Qltb 0 (amount - Qsum (map snd chosen))) eqn:Eq.
    + rewrite FoodItem_new_Ok in H by lia.
      destruct (Heap.alloc (World.heap w) _) as [r0 h1] eqn:Ea. cbn [rbind] in H.
      apply heap_alloc_spec in Ea as (-> & Hnx & Hnew & Hold).
      apply IH in H as (Hle & Hfr & Hin & Hph). cbn [World.heap] in *.
      apply Qltb_lt in Eq.
      split; [lia|]. split; [intros r Hr; rewrite Hfr by lia; now apply Hold|].
      split.
      { intros e He. apply Hin. apply elem_of_app. left.
        apply elem_of_app. now left. }
      intros r Hr.
      destruct (Nat.eq_dec r (Heap.next (World.heap w))) as [->|Hne].
      * exists (amount - Qsum (map snd chosen))%Q. split; [exact Eq|]. split.
        -- apply Hin. apply elem_of_app. right. apply list_elem_of_singleton.
           reflexivity.
        -- rewrite Hfr by lia. exact Hnew.
      * apply Hph. lia.
    + apply IH in H as (Hle & Hfr & Hin & Hph). cbn [World.heap] in *.
      split; [exact Hle|]. split; [exact Hfr|]. split; [|exact Hph].
      intros e He. apply Hin. apply elem_of_app. now left.
Qed.

Lemma consume_loop_keeps :
  forall (sel : selection) (h h2 : Heap.t),
    Meal.consume_loop sel h = Ok h2 ->
    Heap.next h2 = Heap.next h
    /\ (forall r, FoodItem.name (Heap.get h r) = EMERGENCY_TAKEOUT ->
                  Heap.get h2 r = Heap.get h r).
Proof.
  induction sel as [|[food amount] sel IH]; intros h h2 H.
  - simpl in H. injection H as <-. auto.
  - cbn [Meal.consume_loop] in H.
    destruct (String.eqb (FoodItem.name (Heap.get h food)) "Emergency Takeout")
      eqn:Et; cbn [negb] in H.
    + now apply IH.
    + destruct (FoodItem.consume (Heap.get h food) amount) as [item|];
        cbn [rbind] in H; [|discriminate H].
      apply IH in H as [Hnx Hkeep]. split; [exact Hnx|].
      intros r Hr.
      assert (Hne : r <> food).
      { intros ->. unfold EMERGENCY_TAKEOUT in Hr. rewrite Hr in Et.
        rewrite String.eqb_refl in Et. discriminate Et. }
      rewrite Hkeep; rewrite heap_get_set_ne by exact Hne; [reflexivity | exact Hr].
Qed.

Lemma takes_filter_split (f g : ref * Q -> bool) (sel : selection) :
  (takes (List.filter f sel)
   == takes (List.filter f (List.filter g sel))
      + takes (List.filter f (List.filter (fun e => negb (g e)) sel)))%Q.
Proof.
  induction sel as [|e sel IH]; simpl; [rewrite takes_nil; lra|].
  destruct (g e), (f e) eqn:Ef; simpl; rewrite ?Ef, ?takes_cons; lra.
Qed.

Lemma filter_all_entries (f : ref * Q -> bool) (sel : selection) :
  Forall (fun e => f e = true) sel -> List.filter f sel = sel.
Proof.
  induction 1 as [|e sel He _ IH]; simpl; [reflexivity|]. now rewrite He, IH.
Qed.

(** One meal, in any state: the objects that [choose_food_to_eat] builds
    are placeholders, named "Emergency Takeout" and of type PERISHABLE, and
    entries of the consumption; the accounting loop adds the amount of
    every entry to the consumption of its food type and, when it is named
    "Emergency Takeout", to the takeout counter as well. *)
Lemma eat_meal_takeout (pm : PlannedMeal.t) (hh hh2 : Household.t) (w w2 : World.t) :
  Household.eat_meal pm hh w = Ok (hh2, w2) ->
  exists (sel : selection) (p1 : Pantry.t) (wc : World.t),
    Meal.consume (Household.consumption_strategy hh)
      (MealPlanningStrategy.plan_meal (Household.meal_planning_strategy hh) pm
         (World.heap w) (Household.pantry hh))
      (Household.pantry hh) w = Ok (sel, p1, wc)
    /\ (forall r, (Heap.next (World.heap w) <= r < Heap.next (World.heap wc))%nat ->
          exists q : Q,
            (0 < q)%Q /\ (r, q) ∈ sel
            /\ Heap.get (World.heap w2) r
               = FoodItem.mk EMERGENCY_TAKEOUT PERISHABLE 0 0 q)
    /\ (Household.daily_emergency_takeouts hh2
        == Household.daily_emergency_takeouts hh
           + takeout_takes (World.heap w2) sel)%Q
    /\ (forall ft,
          (ByType.get (Household.daily_consumption hh2) ft
           == ByType.get (Household.daily_consumption hh) ft
              + takes_of_type (World.heap w2) ft sel)%Q).
Proof.
  unfold Household.eat_meal. cbv zeta. intros H.
  destruct (Meal.consume _ _ _ _) as [[[sel p1] wc]|] eqn:Ec; cbn [rbind] in H;
    [|discriminate H].
  exists sel, p1, wc. split; [reflexivity|].
  unfold Meal.consume, Meal.choose_food_to_eat in Ec.
  destruct (Meal.choose_loop _ _ _ _ _) as [[[sel0 p0] w1]|] eqn:E1;
    cbn [rbind] in Ec; [|discriminate Ec].
  destruct (Meal.consume_loop sel0 (World.heap w1)) as [hc|] eqn:E2;
    cbn [rbind] in Ec; [|discriminate Ec].
  injection Ec as -> -> <-. cbn [World.heap World.rng] in *.
  apply choose_loop_placeholders in E1 as (_ & _ & _ & Hph).
  apply consume_loop_keeps in E2 as [Hnx Hkeep].
  assert (Hph' : forall r,
            (Heap.next (World.heap w) <= r < Heap.next hc)%nat ->
            exists q : Q, (0 < q)%Q /\ (r, q) ∈ sel
                          /\ Heap.get hc r
                             = FoodItem.mk EMERGENCY_TAKEOUT PERISHABLE 0 0 q).
  { intros r Hr. rewrite Hnx in Hr. destruct (Hph r Hr) as (q & Hq & Hin & Hget).
    exists q. split; [exact Hq|]. split; [exact Hin|].
    rewrite Hkeep; [exact Hget|]. now rewrite Hget. }
  destruct (Qltb 0 _).
  - rewrite FoodItem_new_Ok in H by lia.
    destruct (Heap.alloc hc _) as [r0 h2] eqn:Ea. cbn [rbind] in H.
    apply heap_alloc_spec in Ea as (_ & _ & _ & Hold).
    pose proof (record_consumption_spec h2 sel (Household.daily_consumption hh)
                  (Household.daily_emergency_takeouts hh)) as [Hdc Het].
    destruct (Household.record_consumption _ _ _) as [dc et].
    injection H as <- <-. cbn [fst snd World.heap] in *. split.
    { intros r Hr. destruct (Hph' r Hr) as (q & Hq & Hin & Hget).
      exists q. split; [exact Hq|]. split; [exact Hin|].
      rewrite Hold by lia. exact Hget. }
    split; [exact Het | exact Hdc].
  - cbn [rbind] in H.
    pose proof (record_consumption_spec hc sel (Household.daily_consumption hh)
                  (Household.daily_emergency_takeouts hh)) as [Hdc Het].
    destruct (Household.record_consumption _ _ _) as [dc et].
    injection H as <- <-. cbn [fst snd World.heap] in *.
    split; [exact Hph'|]. split; [exact Het | exact Hdc].
Qed.

Lemma eat_meals_app :
  forall (done : list PlannedMeal.t) (pm : PlannedMeal.t) (todo : list PlannedMeal.t)
         (hh hh3 : Household.t) (w w3 : World.t),
    Household.eat_meals (done ++ pm :: todo) hh w = Ok (hh3, w3) ->
    exists (hh1 : Household.t) (w1 : World.t) (hh2 : Household.t) (w2 : World.t),
      Household.eat_meals done hh w = Ok (hh1, w1)
      /\ Household.eat_meal pm hh1 w1 = Ok (hh2, w2)
      /\ Household.eat_meals todo hh2 w2 = Ok (hh3, w3).
Proof.
  induction done as [|pm0 done IH]; intros pm todo hh hh3 w w3 H.
  - cbn [app Household.eat_meals] in H.
    destruct (Household.eat_meal pm hh w) as [[hh2 w2]|] eqn:E; cbn [rbind] in H;
      [|discriminate H].
    exists hh, w, hh2, w2. auto.
  - cbn [app Household.eat_meals] in H.
    destruct (Household.eat_meal pm0 hh w) as [[hh0 w0]|] eqn:E; cbn [rbind] in H;
      [|discriminate H].
    apply IH in H as (hh1 & w1 & hh2 & w2 & E1 & E2 & E3).
    exists hh1, w1, hh2, w2. cbn [Household.eat_meals]. rewrite E. cbn [rbind]. auto.
Qed.

(** C10: in every [daily_step] that returns, whatever the pantry holds,
    the counters of the record are those that the meals of the day leave,
    and for each meal of the day, run in the state that the meals before it
    left: every object that [choose_food_to_eat] builds is a placeholder
    named "Emergency Takeout" of food type PERISHABLE with a positive mass,
    and an entry of the meal's consumption; and the meal adds the mass of
    these placeholders both to [daily_emergency_takeouts] and to
    [daily_consumption[PERISHABLE]] (which besides receive the amounts of the
    selected pantry items named "Emergency Takeout", respectively of type
    PERISHABLE).  The record is appended to [history]; with seven records or
    more, its perishable consumption, takeout included, is the last of the
    seven values of which [HistoricalConsumptionPolicy] takes the mean, and
    [AdaptiveOrderPolicy] the sum over 7, as the daily perishable rate. *)
Theorem emergency_takeout_counts_as_perishable_consumption
    (pow_half : Q -> Q) (hh hh' : Household.t) (w w' : World.t)
    (rec : DailyRecord.t) :
  Household.daily_step pow_half hh w = Ok (rec, hh', w') ->
  exists (meals : list PlannedMeal.t) (rest : list (list PlannedMeal.t))
         (hh_end : Household.t) (w_end : World.t),
    Household.weekly_meals hh = Some (meals :: rest)
    /\ Household.eat_meals meals (at_breakfast hh rest) w = Ok (hh_end, w_end)
    /\ DailyRecord.daily_consumption rec = Household.daily_consumption hh_end
    /\ DailyRecord.emergency_takeouts rec = Household.daily_emergency_takeouts hh_end
    /\ (forall (done : list PlannedMeal.t) (pm : PlannedMeal.t)
               (todo : list PlannedMeal.t),
          meals = done ++ pm :: todo ->
          exists (hh1 : Household.t) (w1 : World.t) (hh2 : Household.t) (w2 : World.t)
                 (sel : selection) (p1 : Pantry.t) (wc : World.t),
            Household.eat_meals done (at_breakfast hh rest) w = Ok (hh1, w1)
            /\ Meal.consume (Household.consumption_strategy hh1)
                 (MealPlanningStrategy.plan_meal (Household.meal_planning_strategy hh1)
                    pm (World.heap w1) (Household.pantry hh1))
                 (Household.pantry hh1) w1 = Ok (sel, p1, wc)
            /\ Household.eat_meal pm hh1 w1 = Ok (hh2, w2)
            /\ Household.eat_meals todo hh2 w2 = Ok (hh_end, w_end)
            /\ (forall r,
                  (Heap.next (World.heap w1) <= r < Heap.next (World.heap wc))%nat ->
                  exists q : Q,
                    (0 < q)%Q /\ (r, q) ∈ sel
                    /\ Heap.get (World.heap w2) r
                       = FoodItem.mk EMERGENCY_TAKEOUT PERISHABLE 0 0 q)
            /\ (Household.daily_emergency_takeouts hh2
                == Household.daily_emergency_takeouts hh1
                   + takes (built_in (Heap.next (World.heap w1))
                              (Heap.next (World.heap wc)) sel)
                   + takeout_takes (World.heap w2)
                       (not_built_in (Heap.next (World.heap w1))
                          (Heap.next (World.heap wc)) sel))%Q
            /\ (ByType.get (Household.daily_consumption hh2) PERISHABLE
                == ByType.get (Household.daily_consumption hh1) PERISHABLE
                   + takes (built_in (Heap.next (World.heap w1))
                              (Heap.next (World.heap wc)) sel)
                   + takes_of_type (World.heap w2) PERISHABLE
                       (not_built_in (Heap.next (World.heap w1))
                          (Heap.next (World.heap wc)) sel))%Q)
    /\ Household.history hh' = Household.history hh ++ [rec]
    /\ (forall base h p,
          (7 <= length (Household.history hh'))%nat ->
          exists week : list Q,
            length week = 6%nat
            /\ FixedConsumptionPolicy.daily_consumption_perishable
                 (snd (HistoricalConsumptionPolicy.determine_order_quantity base
                         (Household.history hh') h p))
               = mean (week
                       ++ [ByType.get (DailyRecord.daily_consumption rec) PERISHABLE]))
    /\ (forall self delta h p,
          (7 <= length (Household.history hh'))%nat ->
          exists week : list Q,
            length week = 6%nat
            /\ FixedConsumptionPolicy.daily_consumption_perishable
                 (snd (AdaptiveOrderPolicy.determine_order_quantity pow_half self delta
                         (Household.history hh') h p))
               = (Qsum (week
                        ++ [ByType.get (DailyRecord.daily_consumption rec) PERISHABLE])
                  / 7)%Q).
Proof.
  intros H.
  apply daily_step_inv in H
    as (meals & rest & hh_end & w_end & _ & _ & Ew & Em & Hdc & Het & Hh & _).
  pose proof (eat_meals_policies meals _ _ _ _ Em) as (_ & Hhist & _).
  simpl in Hhist. rewrite Hhist in Hh.
  exists meals, rest, hh_end, w_end.
  split; [exact Ew|]. split; [exact Em|]. split; [exact Hdc|]. split; [exact Het|].
  split.
  { intros done pm todo ->.
    apply eat_meals_app in Em as (hh1 & w1 & hh2 & w2 & E1 & E2 & E3).
    destruct (eat_meal_takeout pm hh1 hh2 w1 w2 E2)
      as (sel & p1 & wc & Ec & Hph & Het2 & Hdc2).
    exists hh1, w1, hh2, w2, sel, p1, wc.
    split; [exact E1|]. split; [exact Ec|]. split; [exact E2|]. split; [exact E3|].
    split; [exact Hph|].
    set (n0 := Heap.next (World.heap w1)) in *.
    set (n1 := Heap.next (World.heap wc)) in *.
    assert (Hb : Forall (fun e => is_takeout (World.heap w2) e = true
                                  /\ FoodItem.food_type (Heap.get (World.heap w2) (fst e))
                                     = PERISHABLE)
                        (built_in n0 n1 sel)).
    { apply Forall_forall. intros [r a] He.
      apply list_elem_of_In, filter_In in He as [_ Hr]. cbn [fst] in Hr.
      apply andb_true_iff in Hr as [Hr0 Hr1].
      apply Nat.leb_le in Hr0. apply Nat.ltb_lt in Hr1.
      destruct (Hph r (conj Hr0 Hr1)) as (q & _ & _ & Hget).
      unfold is_takeout. cbn [fst]. rewrite Hget. cbn [FoodItem.name FoodItem.food_type].
      split; [apply String.eqb_refl | reflexivity]. }
    split.
    - rewrite Het2. unfold takeout_takes at 1.
      rewrite (takes_filter_split (is_takeout (World.heap w2))
                 (fun e => (n0 <=? fst e)%nat && (fst e <? n1)%nat) sel).
      fold (built_in n0 n1 sel). fold (not_built_in n0 n1 sel).
      rewrite (filter_all_entries (is_takeout (World.heap w2)) (built_in n0 n1 sel)).
      + unfold takeout_takes. ring.
      + eapply Forall_impl; [exact Hb|]. simpl. tauto.
    - rewrite (Hdc2 PERISHABLE). unfold takes_of_type at 1.
      rewrite (takes_filter_split
                 (fun e => bool_decide
                             (FoodItem.food_type (Heap.get (World.heap w2) (fst e))
                              = PERISHABLE))
                 (fun e => (n0 <=? fst e)%nat && (fst e <? n1)%nat) sel).
      fold (built_in n0 n1 sel). fold (not_built_in n0 n1 sel).
      rewrite (filter_all_entries _ (built_in n0 n1 sel)).
      + unfold takes_of_type. ring.
      + eapply Forall_impl; [exact Hb|]. simpl. intros e [_ He].
        now apply bool_decide_eq_true_2. }
  split; [exact Hh|].
  assert (Hweek : (7 <= length (Household.history hh'))%nat ->
            exists week : list Q,
              length week = 6%nat
              /\ last_week PERISHABLE (Household.history hh')
                 = week ++ [ByType.get (DailyRecord.daily_consumption rec)
                              PERISHABLE]).
  { intros Hlen. rewrite Hh in Hlen |- *. rewrite last_week_snoc.
    eexists. split; [|reflexivity].
    rewrite length_map, length_drop, length_app in *. simpl in *. lia. }
  split.
  - intros base h p Hlen. destruct (Hweek Hlen) as (week & Hl & Hw).
    exists week. split; [exact Hl|]. rewrite <- Hw.
    unfold HistoricalConsumptionPolicy.determine_order_quantity.
    destruct (Nat.ltb_spec (length (Household.history hh')) 7); [lia|].
    reflexivity.
  - intros self delta h p Hlen. destruct (Hweek Hlen) as (week & Hl & Hw).
    exists week. split; [exact Hl|]. rewrite <- Hw.
    unfold AdaptiveOrderPolicy.determine_order_quantity.
    destruct (Nat.ltb_spec (length (Household.history hh')) 7); [lia|].
    reflexivity.
Qed.

Lemma empty_pantry_wf (h : Heap.t) : pantry_wf h Pantry.init.
Proof.
  split; [constructor|]. split.
  - intros [] r Hr; inversion Hr.
  - intros r Hr. inversion Hr.
Defined.

Lemma emergency_takeout_counts_as_perishable_consumption_witness :
  exists (rec : DailyRecord.t) (hh' : Household.t) (w' : World.t),
    Household.daily_step (fun x => x)
      (stocked_household (MealPlanningStrategy.Proportional (1 # 2))) stocked_world
    = Ok (rec, hh', w')
    /\ (DailyRecord.emergency_takeouts rec == 230)%Q
    /\ (ByType.get (DailyRecord.daily_consumption rec) PERISHABLE == 430 + 230)%Q
    /\ (Pantry.get_total_by_type stocked_heap stocked_pantry PERISHABLE == 1000)%Q
    /\ Household.history hh' = [rec].
Proof.
  destruct (Household.daily_step (fun x => x)
              (stocked_household (MealPlanningStrategy.Proportional (1 # 2)))
              stocked_world) as [[[rec hh'] w']|e] eqn:E;
    [|vm_compute in E; discriminate E].
  exists rec, hh', w'. split; [reflexivity|].
  destruct (emergency_takeout_counts_as_perishable_consumption (fun x => x)
              (stocked_household (MealPlanningStrategy.Proportional (1 # 2)))
              hh' stocked_world w' rec E)
    as (meals & rest & hh_end & w_end & Ew & Em & Hdc & Het & _ & Hh & _).
  injection Ew as <- <-. vm_compute in Em. injection Em as <- <-.
  rewrite Hdc, Het.
  split; [vm_compute; reflexivity|]. split; [vm_compute; reflexivity|].
  split; [vm_compute; reflexivity | exact Hh].
Defined.

(** ** The invariant of the simulation

    A pantry that is well formed and holds no item named "Emergency
    Takeout" stays so through [Pantry.step], through the orders of
    [GroceryStore.get_order] and through a whole [daily_step]; the empty
    pantry of a new household is one. *)

Lemma loop_body_fresh (h0 : Heap.t) (ft : FoodType) (T bbm bbs sdm sds : Q)
    (s s' : GroceryStore.loop_state) :
  order_fresh h0 ft (World.heap (GroceryStore.world s)) (GroceryStore.order s) ->
  GroceryStore.loop_body ft T bbm bbs sdm sds s = Ok s' ->
  order_fresh h0 ft (World.heap (GroceryStore.world s')) (GroceryStore.order s').
Proof.
  intros (Hext & Hnd & HF).
  unfold GroceryStore.loop_body, GroceryStore.draw_from_distribution, Rng.gauss_int.
  destruct (Rng.draw _) as [bb g1]. destruct (Rng.draw g1) as [sd g2].
  destruct (Rng.uniform _ _ g2) as [u g3].
  destruct (_ =? 0).
  - intros [= <-]. simpl. exact (conj Hext (conj Hnd HF)).
  - unfold FoodItem_new.
    destruct (FoodItem.init _ _ _ _ _) as [item|] eqn:Ei; cbn [rbind];
      [|discriminate].
    unfold FoodItem.init in Ei. destruct (_ <? _) in Ei; [discriminate|].
    injection Ei as <-.
    destruct (Heap.alloc _ _) as [r h1] eqn:Ea.
    apply heap_alloc_spec in Ea as (-> & Hnext & Hnew & Hold).
    cbn [rbind]. intros [= <-]. simpl.
    set (h := World.heap (GroceryStore.world s)) in *.
    assert (Hext1 : heap_extends h h1) by (split; [lia | exact Hold]).
    split; [eapply heap_extends_trans; eassumption|].
    rewrite Forall_forall in HF. split.
    + apply NoDup_app. split; [exact Hnd|]. split; [|apply NoDup_singleton].
      intros x Hx Hx'. apply list_elem_of_singleton in Hx' as ->.
      destruct (HF _ Hx) as [Hl _]. lia.
    + apply Forall_app. split.
      * apply Forall_forall. intros x Hx. destruct (HF x Hx) as (Hl & Hft & Hname).
        rewrite (Hold x) by lia. repeat split; try assumption; lia.
      * constructor; [|constructor]. rewrite Hnew. simpl.
        destruct Hext as [Hn _]. repeat split; lia.
Qed.

Lemma while_loop_fresh (h0 : Heap.t) (ft : FoodType) (T bbm bbs sdm sds : Q) :
  forall (fuel : nat) (s s' : GroceryStore.loop_state),
    order_fresh h0 ft (World.heap (GroceryStore.world s)) (GroceryStore.order s) ->
    GroceryStore.while_loop fuel ft T bbm bbs sdm sds s = Ok s' ->
    order_fresh h0 ft (World.heap (GroceryStore.world s')) (GroceryStore.order s').
Proof.
  induction fuel as [|fuel IH]; intros s s' Hs; simpl.
  - now intros [= <-].
  - destruct (GroceryStore.loop_condition s); [|now intros [= <-]].
    destruct (GroceryStore.loop_body ft T bbm bbs sdm sds s) as [s1|] eqn:E;
      cbn [rbind]; [|discriminate].
    apply IH. eapply loop_body_fresh; eassumption.
Qed.

Lemma get_order_fresh (store : GroceryStore.t) (ft : FoodType) (T : Q)
    (w w' : World.t) (order : list ref) :
  GroceryStore.get_order store ft T w = Ok (order, w') ->
  order_fresh (World.heap w) ft (World.heap w') order.
Proof.
  unfold GroceryStore.get_order, GroceryStore.get_order_run. intros H.
  destruct (GroceryStore.dict_get (GroceryStore.best_before_params store) ft)
    as [[bbm bbs]|]; cbn [rbind] in H; [|discriminate H].
  destruct (GroceryStore.dict_get (GroceryStore.spoilage_date_params store) ft)
    as [[sdm sds]|]; cbn [rbind] in H; [|discriminate H].
  destruct (GroceryStore.while_loop _ _ _ _ _ _ _ _) as [s|] eqn:E;
    cbn [rbind] in H; [|discriminate H].
  injection H as <- <-.
  apply (while_loop_fresh (World.heap w) ft T bbm bbs sdm sds _ _ s) in E;
    [exact E|].
  simpl. split; [apply heap_extends_refl|]. split; constructor.
Qed.

Lemma all_items_NoDup_of_parts (p p' : Pantry.t) :
  (forall ft, NoDup (Pantry.get_items_by_type p' ft)) ->
  (forall ft x, x ∈ Pantry.get_items_by_type p' ft ->
                x ∈ Pantry.get_items_by_type p ft) ->
  NoDup (Pantry.all_items p) -> NoDup (Pantry.all_items p').
Proof.
  intros Hnd' Hsub Hnd.
  pose proof (Hnd' LEFTOVER) as N1. pose proof (Hnd' PERISHABLE) as N2.
  pose proof (Hnd' NON_PERISHABLE) as N3.
  pose proof (fun ft ft' x Hne H1 H2 =>
                items_disjoint p ft ft' x Hnd Hne (Hsub ft x H1) (Hsub ft' x H2))
    as Hdis.
  destruct p' as [[l1 l2 l3] s e d].
  unfold Pantry.all_items, Pantry.get_items_by_type in *; simpl in *.
  rewrite app_nil_r. apply NoDup_app. split; [exact N1|]. split.
  - intros x H1 [H2|H3]%elem_of_app.
    + exact (Hdis LEFTOVER PERISHABLE x ltac:(discriminate) H1 H2).
    + exact (Hdis LEFTOVER NON_PERISHABLE x ltac:(discriminate) H1 H3).
  - apply NoDup_app. split; [exact N2|]. split; [|exact N3].
    intros x H2 H3.
    exact (Hdis PERISHABLE NON_PERISHABLE x ltac:(discriminate) H2 H3).
Qed.

(** [Pantry.step] keeps the invariant. *)
Lemma step_pantry_ok (strategy : PantryStrategy.t) (h h' : Heap.t) (p p' : Pantry.t) :
  pantry_ok h p -> Pantry.step strategy h p = Ok (p', h') ->
  pantry_ok h' p' /\ Heap.next h' = Heap.next h.
Proof.
  intros [Hwf Hn] E.
  destruct (step_Ok strategy h p Hwf) as (items & E' & Hnd' & Hmem).
  rewrite E' in E. injection E as <- <-.
  destruct Hwf as (Hnd & Hty & Hlt).
  pose proof (classify_spec strategy h p Hnd) as (Hfr & Hnx & _).
  set (m := Pantry.classify strategy h p) in *.
  assert (Hsub : forall ft x,
            x ∈ Pantry.get_items_by_type
                  (Pantry.mk items
                     (<[Pantry.current_day p + 1 := Pantry.weights_strategy_discarded m]>
                        (Pantry.waste_log_strategy_discards p))
                     (<[Pantry.current_day p + 1 := Pantry.weights_expired m]>
                        (Pantry.waste_log_expired_discards p))
                     (Pantry.current_day p + 1)) ft ->
            x ∈ Pantry.get_items_by_type p ft).
  { intros ft x Hx. now apply Hmem in Hx as [Hx _]. }
  assert (Hsub_all : forall x,
            x ∈ Pantry.all_items
                  (Pantry.mk items
                     (<[Pantry.current_day p + 1 := Pantry.weights_strategy_discarded m]>
                        (Pantry.waste_log_strategy_discards p))
                     (<[Pantry.current_day p + 1 := Pantry.weights_expired m]>
                        (Pantry.waste_log_expired_discards p))
                     (Pantry.current_day p + 1)) ->
            x ∈ Pantry.all_items p).
  { intros x [ft Hx]%all_items_elem. apply all_items_elem. exists ft.
    now apply Hsub. }
  split; [|exact Hnx]. split; [split; [|split]|].
  - apply (all_items_NoDup_of_parts p); [exact Hnd' | exact Hsub | exact Hnd].
  - intros ft x Hx. destruct (Hfr x) as (_ & -> & _). apply Hty. now apply Hsub.
  - intros x Hx. rewrite Hnx. apply Hlt. now apply Hsub_all.
  - intros x Hx. destruct (Hfr x) as (_ & _ & ->). apply Hn. now apply Hsub_all.
Qed.

Lemma pantry_ok_heap_extends (h h' : Heap.t) (p : Pantry.t) :
  heap_extends h h' -> pantry_ok h p -> pantry_ok h' p.
Proof.
  intros Hext [Hwf Hn]. split; [eapply pantry_wf_heap_extends; eassumption|].
  intros x Hx. destruct Hext as [_ Hold]. rewrite Hold; [now apply Hn|].
  destruct Hwf as (_ & _ & Hlt). now apply Hlt.
Qed.

(** Putting an order of new, distinct objects into the pantry. *)
Lemma add_order_pantry_ok (h : Heap.t) :
  forall (order : list ref) (p : Pantry.t) (total : Q),
    pantry_ok h p ->
    NoDup order ->
    Forall (fun r => (r ∉ Pantry.all_items p) /\ (r < Heap.next h)%nat
                     /\ FoodItem.name (Heap.get h r) <> EMERGENCY_TAKEOUT) order ->
    pantry_ok h
      (snd (fold_left (fun '(total, p) item =>
                         ((total + FoodItem.quantity (Heap.get h item))%Q,
                          Pantry.add_item h p item))
                      order (total, p)))
    /\ forall x,
         x ∈ Pantry.all_items
               (snd (fold_left (fun '(total, p) item =>
                                  ((total + FoodItem.quantity (Heap.get h item))%Q,
                                   Pantry.add_item h p item))
                               order (total, p)))
         <-> x ∈ Pantry.all_items p \/ x ∈ order.
Proof.
  induction order as [|r order IH]; intros p total Hok Hnd HF; simpl.
  - split; [exact Hok|]. intros x. split; [auto|].
    intros [H|H]; [exact H | inversion H].
  - apply NoDup_cons in Hnd as [Hr Hnd].
    apply Forall_cons in HF as [(Hr1 & Hr2 & Hr3) HF].
    destruct Hok as [Hwf Hn].
    destruct (IH (Pantry.add_item h p r)
                (total + FoodItem.quantity (Heap.get h r))%Q) as [Hok' Hmem].
    + split; [now apply add_item_wf|].
      intros x Hx. rewrite add_item_all_items in Hx.
      apply elem_of_cons in Hx as [->|Hx]; [exact Hr3 | now apply Hn].
    + exact Hnd.
    + rewrite Forall_forall in *. intros x Hx.
      destruct (HF x Hx) as (H1 & H2 & H3). split; [|auto].
      rewrite add_item_all_items. intros [->|H]%elem_of_cons; contradiction.
    + split; [exact Hok'|]. intros x. rewrite Hmem, add_item_all_items.
      rewrite !elem_of_cons. tauto.
Qed.

Lemma order_fresh_addable (h0 h1 h2 : Heap.t) (ft : FoodType) (p : Pantry.t)
    (order : list ref) :
  order_fresh h0 ft h1 order -> heap_extends h1 h2 ->
  (forall r, r ∈ Pantry.all_items p -> (r < Heap.next h0)%nat) ->
  Forall (fun r => (r ∉ Pantry.all_items p) /\ (r < Heap.next h2)%nat
                   /\ FoodItem.name (Heap.get h2 r) <> EMERGENCY_TAKEOUT) order.
Proof.
  intros (_ & _ & HF) [Hn Hold] Hlt. rewrite Forall_forall in *.
  intros r Hr. destruct (HF r Hr) as (Hl & _ & Hname). split; [|split].
  - intros Hin. apply Hlt in Hin. lia.
  - lia.
  - rewrite Hold by lia. rewrite Hname. now destruct ft.
Qed.

(** An order that is placed keeps the invariant. *)
Lemma place_order_pantry_ok (pow_half : Q -> Q) (self self' : Household.t)
    (w w' : World.t) (a b : Q) :
  pantry_ok (World.heap w) (Household.pantry self) ->
  Household.place_order pow_half self w = Ok (a, b, self', w') ->
  pantry_ok (World.heap w') (Household.pantry self').
Proof.
  intros Hok. unfold Household.place_order. intros H.
  destruct (OrderPolicy.determine_order_quantity _ _ _ _ _) as [[pq nq] policy1].
  inv_bind H.
  destruct (GroceryStore.get_order _ PERISHABLE pq w) as [[o1 w1]|] eqn:E1;
    cbn [rbind] in H; [|discriminate H].
  destruct (GroceryStore.get_order _ NON_PERISHABLE nq w1) as [[o2 w2]|] eqn:E2;
    cbn [rbind] in H; [|discriminate H].
  apply get_order_fresh in E1, E2.
  pose proof E1 as (Hext1 & Hnd1 & _). pose proof E2 as (Hext2 & Hnd2 & HF2).
  assert (Hext : heap_extends (World.heap w) (World.heap w2))
    by (eapply heap_extends_trans; eassumption).
  assert (Hlt : forall r, r ∈ Pantry.all_items (Household.pantry self) ->
                          (r < Heap.next (World.heap w))%nat)
    by (destruct Hok as [(_ & _ & Hlt) _]; exact Hlt).
  apply (pantry_ok_heap_extends _ _ _ Hext) in Hok.
  destruct (add_order_pantry_ok (World.heap w2) o1 (Household.pantry self) 0%Q
              Hok Hnd1
              (order_fresh_addable _ _ _ _ _ _ E1 Hext2 Hlt)) as [Hok1 Hmem1].
  unfold Household.add_order in H.
  destruct (fold_left _ o1 _) as [t1 pa1]. simpl in Hok1, Hmem1.
  assert (Hlt1 : forall r, r ∈ Pantry.all_items pa1 ->
                           (r < Heap.next (World.heap w1))%nat).
  { intros r [Hr|Hr]%Hmem1.
    - apply Hlt in Hr. destruct Hext1. lia.
    - destruct E1 as (_ & _ & HF1). rewrite Forall_forall in HF1.
      destruct (HF1 r Hr) as [? _]. lia. }
  destruct (add_order_pantry_ok (World.heap w2) o2 pa1 0%Q Hok1 Hnd2
              (order_fresh_addable _ _ _ _ _ _ E2 (heap_extends_refl _) Hlt1))
    as [Hok2 _].
  destruct (fold_left _ o2 _) as [t2 pa2]. simpl in Hok2.
  inv_bind H. injection H as <- <- <- <-. exact Hok2.
Qed.

(** A whole day keeps the invariant: for a household whose pantry is well
    formed and holds no item named "Emergency Takeout", the pantry after a
    [daily_step] that returns is again such a pantry. *)
Lemma daily_step_pantry_ok (pow_half : Q -> Q) (hh hh' : Household.t)
    (w w' : World.t) (rec : DailyRecord.t) :
  pantry_ok (World.heap w) (Household.pantry hh) ->
  Household.daily_step pow_half hh w = Ok (rec, hh', w') ->
  pantry_ok (World.heap w') (Household.pantry hh').
Proof.
  intros [Hwf Hn]. unfold Household.daily_step. cbv zeta. intros H.
  change (Household.weekly_meals (Household.set_counters hh _ _ _ _ _))
    with (Household.weekly_meals hh) in H.
  destruct (Household.weekly_meals hh) as [[|meals rest]|] eqn:Ew;
    cbn [rbind] in H; try discriminate H.
  fold (at_breakfast hh rest) in H.
  destruct (eat_meals_spec meals (at_breakfast hh rest) w Hwf Hn)
    as (hh1 & w1 & Em & Hwf1 & Hn1 & _).
  rewrite Em in H. cbn [rbind] in H.
  destruct (Pantry.step _ _ _) as [[pa1 h1]|] eqn:Es; cbn [rbind] in H;
    [|discriminate H].
  apply step_pantry_ok in Es as [Hok1 _]; [|split; assumption].
  destruct (OrderPolicy.decrement_days_until_next_order _) as [policy1|];
    cbn [rbind] in H; [|discriminate H].
  destruct (OrderPolicy.days_until_next_order policy1) as [days|];
    cbn [rbind] in H; [|discriminate H].
  destruct (days =? 0).
  - destruct (Household.place_order _ _ _) as [[[[tp tn] hh2] w2]|] eqn:Ep;
      cbn [rbind] in H; [|discriminate H].
    apply place_order_pantry_ok in Ep; [|exact Hok1].
    inv_bind H. inv_bind H. injection H as <- <- <-. exact Ep.
  - cbn [rbind] in H. inv_bind H. inv_bind H. injection H as <- <- <-.
    exact Hok1.
Qed.

(** The pantry of a new household is empty, and so satisfies the invariant
    in every store. *)
Lemma init_pantry_ok (h : Heap.t) : pantry_ok h Pantry.init.
Proof.
  split; [apply empty_pantry_wf|]. intros r Hr. inversion Hr.
Qed.

(** ** The stocked pantry of the examples *)

Lemma stocked_pantry_wf : pantry_wf stocked_heap stocked_pantry.
Proof. apply pantry_wfb_sound. vm_compute. reflexivity. Qed.

Lemma stocked_pantry_ok : pantry_ok stocked_heap stocked_pantry.
Proof.
  split; [exact stocked_pantry_wf|].
  apply no_takeout_namesb_sound. vm_compute. reflexivity.
Qed.

Lemma stocked_pantry_sound : pantry_sound stocked_heap stocked_pantry.
Proof.
  split; [exact stocked_pantry_ok|]. split.
  - repeat constructor; vm_compute; discriminate.
  - intros []; vm_compute; repeat (split || constructor); discriminate.
Qed.

Lemma stocked_meals_nonneg :
  Forall (fun pm => (0 <= PlannedMeal.total_grams pm)%Q)
         [PlannedMeal.mk 400; PlannedMeal.mk 600].
Proof. repeat constructor; vm_compute; discriminate. Qed.

Lemma half_is_sensible : sensible_plan (MealPlanningStrategy.Proportional (1 # 2)).
Proof. simpl. lra. Qed.

(** * Part III: further properties of the code *)

(** ** FoodItem *)

(** X2: the state of an item after [N] calls of [day_passes] depends on
    its initial horizons alone, negative ones included: it is expired
    exactly when [spoilage_date <= N] held at the start and past its best
    before date exactly when [best_before <= N] did; so an item that is
    expired (or past its best before date) stays so. *)
Theorem expiry_timeline (f : FoodItem.t) (N : nat) :
  (FoodItem.is_expired (FoodItem.days_pass N f) = true
   <-> FoodItem.spoilage_date f <= Z.of_nat N)
  /\ (FoodItem.is_past_best_before (FoodItem.days_pass N f) = true
      <-> FoodItem.best_before f <= Z.of_nat N)
  /\ (forall M : nat,
        FoodItem.is_expired (FoodItem.days_pass N f) = true ->
        FoodItem.is_expired (FoodItem.days_pass (N + M) f) = true)
  /\ (forall M : nat,
        FoodItem.is_past_best_before (FoodItem.days_pass N f) = true ->
        FoodItem.is_past_best_before (FoodItem.days_pass (N + M) f) = true).
Proof.
  assert (He : forall n, FoodItem.is_expired (FoodItem.days_pass n f) = true
                         <-> FoodItem.spoilage_date f <= Z.of_nat n).
  { intros n. destruct (days_pass_horizons_general f n) as [_ Es].
    unfold FoodItem.is_expired. rewrite Es, Z.leb_le. lia. }
  assert (Hb : forall n, FoodItem.is_past_best_before (FoodItem.days_pass n f) = true
                         <-> FoodItem.best_before f <= Z.of_nat n).
  { intros n. destruct (days_pass_horizons_general f n) as [Eb _].
    unfold FoodItem.is_past_best_before. rewrite Eb, Z.leb_le. lia. }
  split; [apply He|]. split; [apply Hb|]. split; intros M H.
  - apply He. apply He in H. lia.
  - apply Hb. apply Hb in H. lia.
Qed.

(** X3: the constructor's check [best_before <= spoilage_date] is kept by
    [day_passes]: an item that the constructor accepted has
    [best_before <= spoilage_date] after any number of days, so whenever it
    is expired it is also past its best before date, and [StrictStrategy]
    discards every item that [LaxStrategy] discards. *)
Theorem strict_discards_what_lax_discards (name : string) (ft : FoodType)
    (bb sd : Z) (q : Q) (f : FoodItem.t) (N : nat) :
  FoodItem.init name ft bb sd q = Ok f ->
  FoodItem.best_before (FoodItem.days_pass N f)
  <= FoodItem.spoilage_date (FoodItem.days_pass N f)
  /\ (PantryStrategy.should_discard LaxStrategy (FoodItem.days_pass N f) = true ->
      PantryStrategy.should_discard StrictStrategy (FoodItem.days_pass N f) = true).
Proof.
  unfold FoodItem.init. destruct (Z.ltb_spec sd bb) as [|Hle]; [discriminate|].
  intros [= <-].
  destruct (days_pass_horizons_general
              (FoodItem.mk name ft bb sd q) N) as [Eb Es].
  simpl in Eb, Es.
  assert (Hinv : FoodItem.best_before (FoodItem.days_pass N (FoodItem.mk name ft bb sd q))
                 <= FoodItem.spoilage_date
                      (FoodItem.days_pass N (FoodItem.mk name ft bb sd q)))
    by (rewrite Eb, Es; lia).
  split; [exact Hinv|].
  unfold PantryStrategy.should_discard, LaxStrategy, StrictStrategy,
    FoodItem.is_expired, FoodItem.is_past_best_before.
  rewrite !Z.leb_le. lia.
Qed.

Lemma strict_discards_what_lax_discards_witness :
  FoodItem.best_before
    (FoodItem.days_pass 4 (FoodItem.mk "Milk" PERISHABLE 3 5 1))
  <= FoodItem.spoilage_date
       (FoodItem.days_pass 4 (FoodItem.mk "Milk" PERISHABLE 3 5 1)).
Proof.
  exact (proj1 (strict_discards_what_lax_discards "Milk" PERISHABLE 3 5 1
                  (FoodItem.mk "Milk" PERISHABLE 3 5 1) 4 eq_refl)).
Defined.

(** ** Pantry.add_item: the lists are kept in order of spoilage date *)

Lemma sorted_by_insert (key : ref -> Z) (x : ref) :
  forall l, sorted_by key l -> sorted_by key (insert_by_key key x l).
Proof.
  induction l as [|y l IH]; intros Hs; simpl.
  - split; [constructor | exact I].
  - destruct Hs as [Hy Hs]. destruct (Z.ltb_spec (key x) (key y)) as [Hlt|Hge].
    + split; [|split; assumption]. constructor; [lia|].
      eapply Forall_impl; [exact Hy|]. simpl. intros z Hz. lia.
    + split; [|now apply IH].
      rewrite insert_by_key_Permutation. constructor; assumption.
Qed.

Lemma sort_by_key_sorted (key : ref -> Z) (l : list ref) :
  sorted_by key (sort_by_key key l).
Proof.
  unfold sort_by_key.
  assert (H : forall acc, sorted_by key acc ->
                          sorted_by key (fold_left (fun acc x => insert_by_key key x acc) l acc)).
  { induction l as [|x l IH]; intros acc Hacc; simpl; [exact Hacc|].
    apply IH. now apply sorted_by_insert. }
  apply H. exact I.
Qed.

(** Inserting behind a sorted list whose keys are all [<=] the new key. *)
Lemma insert_by_key_last (key : ref -> Z) (x : ref) :
  forall l, Forall (fun y => key y <= key x) l -> insert_by_key key x l = l ++ [x].
Proof.
  induction l as [|y l IH]; intros HF; simpl; [reflexivity|].
  apply Forall_cons in HF as [Hy HF].
  destruct (Z.ltb_spec (key x) (key y)); [lia|]. now rewrite IH.
Qed.

(** Sorting a list that is sorted changes nothing. *)
Lemma sort_by_key_sorted_id (key : ref -> Z) (l : list ref) :
  sorted_by key l -> sort_by_key key l = l.
Proof.
  unfold sort_by_key.
  assert (H : forall l acc,
             sorted_by key l ->
             Forall (fun a => Forall (fun y => key a <= key y) l) acc ->
             fold_left (fun acc x => insert_by_key key x acc) l acc = acc ++ l).
  { clear l. induction l as [|x l IH]; intros acc Hs Hacc; simpl.
    - now rewrite app_nil_r.
    - destruct Hs as [Hx Hs]. rewrite insert_by_key_last.
      + rewrite IH; [now rewrite <- app_assoc | exact Hs |].
        apply Forall_app. split.
        * eapply Forall_impl; [exact Hacc|]. simpl. intros a Ha.
          now apply Forall_cons in Ha as [_ Ha].
        * constructor; [exact Hx | constructor].
      + eapply Forall_impl; [exact Hacc|]. simpl. intros a Ha.
        now apply Forall_cons in Ha as [Ha _]. }
  intros Hs. rewrite (H l [] Hs); [reflexivity | constructor].
Qed.

Lemma filter_all (P : ref -> bool) (l : list ref) :
  Forall (fun y => P y = true) l -> List.filter P l = l.
Proof.
  induction 1 as [|y l Hy _ IH]; simpl; [reflexivity|]. now rewrite Hy, IH.
Qed.

Lemma filter_none (P : ref -> bool) (l : list ref) :
  Forall (fun y => P y = false) l -> List.filter P l = [].
Proof.
  induction 1 as [|y l Hy _ IH]; simpl; [reflexivity|]. now rewrite Hy.
Qed.

(** Where the insertion puts the new element in a sorted list: behind the
    elements whose key is not larger, before the others. *)
Lemma insert_by_key_split (key : ref -> Z) (x : ref) :
  forall l, sorted_by key l ->
    insert_by_key key x l
    = List.filter (fun y => key y <=? key x) l
      ++ x :: List.filter (fun y => key x <? key y) l.
Proof.
  induction l as [|y l IH]; intros Hs; simpl; [reflexivity|].
  destruct Hs as [Hy Hs].
  destruct (Z.ltb_spec (key x) (key y)) as [Hlt|Hge].
  - destruct (Z.leb_spec (key y) (key x)); [lia|].
    rewrite filter_none, filter_all; [reflexivity | |].
    + eapply Forall_impl; [exact Hy|]. simpl. intros z Hz. apply Z.ltb_lt. lia.
    + eapply Forall_impl; [exact Hy|]. simpl. intros z Hz. apply Z.leb_gt. lia.
  - destruct (Z.leb_spec (key y) (key x)); [|lia].
    simpl. now rewrite IH.
Qed.

(** X4: [Pantry.add_item] puts the item in the list of its own food type
    and leaves that list in non-decreasing order of spoilage date, whatever
    order it had before; the other lists, the waste log and the day counter
    are untouched.  When the list was in order already, the item goes behind
    every item that spoils no later than it does and before the others, and
    the old items keep their order. *)
Theorem add_item_keeps_spoilage_order (h : Heap.t) (p : Pantry.t) (item : ref) :
  let ft := FoodItem.food_type (Heap.get h item) in
  let l := Pantry.get_items_by_type p ft in
  let l' := Pantry.get_items_by_type (Pantry.add_item h p item) ft in
  sorted_by (spoilage_key h) l'
  /\ l' ≡ₚ l ++ [item]
  /\ (forall ft', ft' <> ft ->
        Pantry.get_items_by_type (Pantry.add_item h p item) ft'
        = Pantry.get_items_by_type p ft')
  /\ same_logs p (Pantry.add_item h p item)
  /\ (sorted_by (spoilage_key h) l ->
      l' = List.filter (fun y => spoilage_key h y <=? spoilage_key h item) l
           ++ item :: List.filter (fun y => spoilage_key h item <? spoilage_key h y) l).
Proof.
  intros ft l l'. subst l'. unfold Pantry.add_item. fold ft. fold l.
  rewrite get_set_items_eq.
  change (fun r => FoodItem.spoilage_date (Heap.get h r)) with (spoilage_key h).
  split; [apply sort_by_key_sorted|].
  split; [apply sort_by_key_Permutation|].
  split; [intros ft' Hne; apply get_set_items_ne; congruence|].
  split; [apply set_items_same_logs|].
  intros Hs. unfold sort_by_key. rewrite fold_left_app. simpl.
  fold (sort_by_key (spoilage_key h) l).
  rewrite (sort_by_key_sorted_id _ l Hs). now apply insert_by_key_split.
Qed.

(** ** Pantry.step as a function of the pantry *)

Lemma classify_item_heap (strategy : PantryStrategy.t) (acc : Pantry.marks) (r : ref) :
  Pantry.heap_now (Pantry.classify_item strategy acc r)
  = Heap.set (Pantry.heap_now acc) r
      (FoodItem.day_passes (Heap.get (Pantry.heap_now acc) r)).
Proof.
  unfold Pantry.classify_item. cbv zeta.
  destruct (Qle_bool _ _); [reflexivity|].
  destruct (FoodItem.is_expired _); [reflexivity|].
  destruct (PantryStrategy.should_discard _ _); reflexivity.
Qed.

Lemma classify_item_lists (strategy : PantryStrategy.t) (h : Heap.t)
    (acc : Pantry.marks) (r : ref) :
  Heap.get (Pantry.heap_now acc) r = Heap.get h r ->
  Pantry.expired_items (Pantry.classify_item strategy acc r)
  = Pantry.expired_items acc ++ List.filter (goes_expired h) [r]
  /\ Pantry.strategy_discards (Pantry.classify_item strategy acc r)
     = Pantry.strategy_discards acc ++ List.filter (goes_discarded strategy h) [r]
  /\ Pantry.empty_items (Pantry.classify_item strategy acc r)
     = Pantry.empty_items acc ++ List.filter (goes_empty h) [r].
Proof.
  intros E. unfold Pantry.classify_item, goes_expired, goes_discarded, goes_empty, aged.
  cbv zeta. rewrite E. simpl.
  destruct (Qle_bool _ _); simpl; [now rewrite !app_nil_r|].
  destruct (FoodItem.is_expired _); simpl; [now rewrite !app_nil_r|].
  destruct (PantryStrategy.should_discard _ _); simpl; now rewrite !app_nil_r.
Qed.

Lemma classify_fold_lists (strategy : PantryStrategy.t) (h : Heap.t) :
  forall (l : list ref) (acc : Pantry.marks),
    NoDup l ->
    (forall r, r ∈ l -> Heap.get (Pantry.heap_now acc) r = Heap.get h r) ->
    Pantry.expired_items (fold_left (Pantry.classify_item strategy) l acc)
    = Pantry.expired_items acc ++ List.filter (goes_expired h) l
    /\ Pantry.strategy_discards (fold_left (Pantry.classify_item strategy) l acc)
       = Pantry.strategy_discards acc ++ List.filter (goes_discarded strategy h) l
    /\ Pantry.empty_items (fold_left (Pantry.classify_item strategy) l acc)
       = Pantry.empty_items acc ++ List.filter (goes_empty h) l
    /\ (forall r, r ∈ l ->
          Heap.get (Pantry.heap_now (fold_left (Pantry.classify_item strategy) l acc)) r
          = aged h r)
    /\ (forall r, r ∉ l ->
          Heap.get (Pantry.heap_now (fold_left (Pantry.classify_item strategy) l acc)) r
          = Heap.get (Pantry.heap_now acc) r).
Proof.
  induction l as [|r0 l IH]; intros acc Hnd Hagree.
  - simpl. rewrite !app_nil_r. repeat split; try reflexivity.
    intros r Hr. inversion Hr.
  - apply NoDup_cons in Hnd as [Hr0 Hnd].
    assert (E0 : Heap.get (Pantry.heap_now acc) r0 = Heap.get h r0)
      by (apply Hagree; left).
    destruct (classify_item_lists strategy h acc r0 E0) as (HE & HS & HZ).
    pose proof (classify_item_heap strategy acc r0) as HH.
    destruct (IH (Pantry.classify_item strategy acc r0) Hnd) as (IE & IS & IZ & Iin & Iout).
    { intros r Hr. rewrite HH, heap_get_set_ne; [apply Hagree; now right|].
      intros ->. contradiction. }
    cbn [fold_left]. rewrite IE, IS, IZ, HE, HS, HZ, <- !app_assoc.
    change (r0 :: l) with ([r0] ++ l). rewrite !List.filter_app.
    split; [reflexivity|]. split; [reflexivity|]. split; [reflexivity|]. split.
    + intros r [Hr|Hr]%elem_of_app.
      * apply list_elem_of_singleton in Hr as ->.
        rewrite (Iout r0 Hr0), HH, heap_get_set_eq. unfold aged. now rewrite E0.
      * now apply Iin.
    + intros r Hr. rewrite Iout.
      * rewrite HH, heap_get_set_ne; [reflexivity|].
        intros ->. apply Hr. apply elem_of_app. left. now apply list_elem_of_singleton.
      * intros Hin. apply Hr. apply elem_of_app. now right.
Qed.

Lemma list_remove_sublist (r : ref) (l l' : list ref) :
  list_remove r l = Ok l' -> l' `sublist_of` l.
Proof.
  revert l'. induction l as [|y l IH]; intros l' E; simpl in E; [discriminate|].
  destruct (Nat.eqb y r).
  - injection E as <-. now apply sublist_cons.
  - destruct (list_remove r l) as [l1|]; cbn [rbind] in E; [|discriminate].
    injection E as <-. apply sublist_skip. now apply IH.
Qed.

Lemma remove_items_sublist (h : Heap.t) :
  forall (to_remove : list ref) (items items' : ByType.t (list ref)),
    Pantry.remove_items h items to_remove = Ok items' ->
    forall ft, ByType.get items' ft `sublist_of` ByType.get items ft.
Proof.
  induction to_remove as [|r rest IH]; intros items items' E ft; simpl in E.
  - now injection E as <-.
  - destruct (list_remove r _) as [l|] eqn:El; cbn [rbind] in E; [|discriminate E].
    apply list_remove_sublist in El. etrans; [exact (IH _ _ E ft)|].
    destruct (decide (FoodItem.food_type (Heap.get h r) = ft)) as [<-|Hne].
    + now rewrite ByType_get_set_eq.
    + now rewrite ByType_get_set_ne.
Qed.

(** A sublist of a duplicate-free list is the filter of the list by the
    property that tells its elements. *)
Lemma sublist_filter_eq (P : ref -> bool) (l' l : list ref) :
  l' `sublist_of` l -> NoDup l ->
  (forall x, x ∈ l' <-> x ∈ l /\ P x = true) ->
  l' = List.filter P l.
Proof.
  induction 1 as [|x l1 l2 Hsub IH|x l1 l2 Hsub IH]; intros Hnd Hmem.
  - reflexivity.
  - apply NoDup_cons in Hnd as [Hx Hnd].
    assert (Px : P x = true) by (apply Hmem; left).
    simpl. rewrite Px. f_equal. apply IH; [exact Hnd|]. intros y. split.
    + intros Hy. split; [eapply elem_of_sublist; eassumption|].
      apply Hmem. now right.
    + intros [Hy Py].
      assert (Hin : y ∈ x :: l1) by (apply Hmem; split; [now right | exact Py]).
      apply elem_of_cons in Hin as [->|Hin]; [contradiction | exact Hin].
  - apply NoDup_cons in Hnd as [Hx Hnd].
    assert (Px : P x = false).
    { destruct (P x) eqn:Px; [|reflexivity]. exfalso. apply Hx.
      eapply elem_of_sublist; [|exact Hsub]. apply Hmem. split; [left | exact Px]. }
    simpl. rewrite Px. apply IH; [exact Hnd|]. intros y. split.
    + intros Hy. split; [eapply elem_of_sublist; eassumption|]. now apply Hmem.
    + intros [Hy Py]. apply Hmem. split; [now right | exact Py].
Qed.

Lemma fates_partition (strategy : PantryStrategy.t) (h : Heap.t) (r : ref) :
  stays strategy h r = true
  <-> goes_expired h r = false /\ goes_discarded strategy h r = false
      /\ goes_empty h r = false.
Proof.
  unfold stays, goes_expired, goes_discarded.
  destruct (goes_empty h r), (FoodItem.is_expired (aged h r)),
    (PantryStrategy.should_discard strategy (aged h r)); simpl; intuition congruence.
Qed.

Lemma elem_of_List_filter (P : ref -> bool) (l : list ref) (x : ref) :
  x ∈ List.filter P l <-> x ∈ l /\ P x = true.
Proof. rewrite !list_elem_of_In, List.filter_In. tauto. Qed.

(** [Pantry.step] on a well-formed pantry, as a function: what it returns,
    which items stay (in their order), and what it does to the objects. *)
Lemma step_functional (strategy : PantryStrategy.t) (h : Heap.t) (p : Pantry.t) :
  pantry_wf h p ->
  exists p' h',
    Pantry.step strategy h p = Ok (p', h')
    /\ (forall ft, Pantry.get_items_by_type p' ft
                   = List.filter (stays strategy h) (Pantry.get_items_by_type p ft))
    /\ (forall r, r ∈ Pantry.all_items p -> Heap.get h' r = aged h r)
    /\ (forall r, r ∉ Pantry.all_items p -> Heap.get h' r = Heap.get h r)
    /\ Heap.next h' = Heap.next h
    /\ Pantry.current_day p' = Pantry.current_day p + 1
    /\ Pantry.expired_items (Pantry.classify strategy h p)
       = List.filter (goes_expired h) (Pantry.all_items p)
    /\ Pantry.strategy_discards (Pantry.classify strategy h p)
       = List.filter (goes_discarded strategy h) (Pantry.all_items p)
    /\ Pantry.empty_items (Pantry.classify strategy h p)
       = List.filter (goes_empty h) (Pantry.all_items p).
Proof.
  intros Hwf.
  destruct (step_Ok strategy h p Hwf) as (items & E & Hnd' & Hmem).
  pose proof Hwf as (Hnd & Hty & Hlt).
  pose proof (classify_spec strategy h p Hnd) as (_ & Hnx & _).
  destruct (classify_fold_lists strategy h (Pantry.all_items p)
              (Pantry.mk_marks h [] [] [] (ByType.const 0%Q) (ByType.const 0%Q)) Hnd)
    as (HE & HS & HZ & Hin & Hout); [reflexivity|].
  fold (Pantry.classify strategy h p) in HE, HS, HZ, Hin, Hout.
  simpl in HE, HS, HZ, Hout.
  eexists _, _. split; [exact E|]. simpl.
  split; [|auto 10].
  intros ft. unfold Pantry.get_items_by_type at 1. simpl.
  apply sublist_filter_eq.
  - pose proof E as E'. unfold Pantry.step in E'. cbv zeta in E'.
    destruct (Pantry.remove_items _ _ _) as [items0|] eqn:Er; cbn [rbind] in E';
      [|discriminate E'].
    injection E' as ->. exact (remove_items_sublist _ _ _ _ Er ft).
  - apply all_items_NoDup, Hnd.
  - intros x. rewrite Hmem. unfold Pantry.get_items_by_type.
    split; intros [Hx H]; (split; [exact Hx|]).
    + apply fates_partition.
      assert (Hall : x ∈ Pantry.all_items p) by (apply all_items_elem; eauto).
      destruct (goes_expired h x) eqn:G1.
      { exfalso. apply H. apply marked_elem. left. rewrite HE.
        now apply elem_of_List_filter. }
      destruct (goes_discarded strategy h x) eqn:G2.
      { exfalso. apply H. apply marked_elem. right. left. rewrite HS.
        now apply elem_of_List_filter. }
      destruct (goes_empty h x) eqn:G3; [|auto].
      exfalso. apply H. apply marked_elem. right. right. rewrite HZ.
      now apply elem_of_List_filter.
    + apply fates_partition in H as (G1 & G2 & G3).
      rewrite marked_elem, HE, HS, HZ, !elem_of_List_filter. intuition congruence.
Qed.

(** X5: on a well-formed pantry [Pantry.step] keeps, in each list and in
    their order, exactly the items that after aging are neither empty
    (quantity <= 0.001) nor expired nor discarded by the strategy; so after
    the step every item of the pantry holds more than 0.001, has a positive
    spoilage date and is not one the strategy discards, and every item that
    was removed fails one of the three. *)
Theorem step_keeps_the_good_items (strategy : PantryStrategy.t) (h h' : Heap.t)
    (p p' : Pantry.t) :
  pantry_wf h p ->
  Pantry.step strategy h p = Ok (p', h') ->
  (forall ft, Pantry.get_items_by_type p' ft
              = List.filter (stays strategy h) (Pantry.get_items_by_type p ft))
  /\ (forall r, r ∈ Pantry.all_items p ->
        (r ∈ Pantry.all_items p'
         <-> (1 # 1000 < FoodItem.quantity (Heap.get h' r))%Q
             /\ 0 < FoodItem.spoilage_date (Heap.get h' r)
             /\ PantryStrategy.should_discard strategy (Heap.get h' r) = false)).
Proof.
  intros Hwf E.
  destruct (step_functional strategy h p Hwf) as (p1 & h1 & E1 & Hl & Hin & _).
  rewrite E in E1. injection E1 as <- <-.
  split; [exact Hl|]. intros r Hr.
  rewrite (Hin r Hr).
  assert (Hst : stays strategy h r = true
                <-> (1 # 1000 < FoodItem.quantity (aged h r))%Q
                    /\ 0 < FoodItem.spoilage_date (aged h r)
                    /\ PantryStrategy.should_discard strategy (aged h r) = false).
  { unfold stays, goes_empty, FoodItem.is_expired.
    rewrite !andb_true_iff, !negb_true_iff, Qle_bool_false, Z.leb_gt. tauto. }
  rewrite <- Hst. split.
  - intros [ft Hft]%all_items_elem. rewrite Hl in Hft.
    now apply elem_of_List_filter in Hft.
  - intros Hs. apply all_items_elem in Hr as [ft Hft]. apply all_items_elem.
    exists ft. rewrite Hl. now apply elem_of_List_filter.
Qed.

Lemma step_keeps_the_good_items_witness :
  exists p' h',
    Pantry.step StrictStrategy leftovers_heap leftovers_pantry = Ok (p', h')
    /\ forall ft, Pantry.get_items_by_type p' ft
                  = List.filter (stays StrictStrategy leftovers_heap)
                      (Pantry.get_items_by_type leftovers_pantry ft).
Proof.
  destruct (Pantry.step StrictStrategy leftovers_heap leftovers_pantry)
    as [[p' h']|e] eqn:E; [|vm_compute in E; discriminate E].
  exists p', h'. split; [reflexivity|].
  exact (proj1 (step_keeps_the_good_items StrictStrategy leftovers_heap h'
                  leftovers_pantry p' leftovers_pantry_wf E)).
Defined.

(** X6: what [Pantry.step] touches, on a well-formed pantry: every item of
    the pantry ages by exactly one [day_passes], no other object changes and
    none is created; the day counter goes up by one, and in both waste logs
    only the entry of the new day is written. *)
Theorem step_frame (strategy : PantryStrategy.t) (h h' : Heap.t) (p p' : Pantry.t) :
  pantry_wf h p ->
  Pantry.step strategy h p = Ok (p', h') ->
  (forall r, r ∈ Pantry.all_items p ->
             Heap.get h' r = FoodItem.day_passes (Heap.get h r))
  /\ (forall r, r ∉ Pantry.all_items p -> Heap.get h' r = Heap.get h r)
  /\ Heap.next h' = Heap.next h
  /\ Pantry.current_day p' = Pantry.current_day p + 1
  /\ (forall day, day <> Pantry.current_day p + 1 ->
        Pantry.waste_log_expired_discards p' !! day
        = Pantry.waste_log_expired_discards p !! day
        /\ Pantry.waste_log_strategy_discards p' !! day
           = Pantry.waste_log_strategy_discards p !! day).
Proof.
  intros Hwf E.
  destruct (step_functional strategy h p Hwf)
    as (p1 & h1 & E1 & _ & Hin & Hout & Hnx & Hday & _).
  rewrite E in E1. injection E1 as <- <-.
  split; [exact Hin|]. split; [exact Hout|]. split; [exact Hnx|].
  split; [exact Hday|].
  intros day Hne. unfold Pantry.step in E. cbv zeta in E.
  destruct (Pantry.remove_items _ _ _) as [items|]; cbn [rbind] in E; [|discriminate E].
  injection E as <- _. simpl.
  split; apply lookup_insert_ne; congruence.
Qed.

Lemma step_frame_witness :
  exists p' h',
    Pantry.step StrictStrategy leftovers_heap leftovers_pantry = Ok (p', h')
    /\ Heap.next h' = Heap.next leftovers_heap
    /\ Pantry.current_day p' = Pantry.current_day leftovers_pantry + 1.
Proof.
  destruct (Pantry.step StrictStrategy leftovers_heap leftovers_pantry)
    as [[p' h']|e] eqn:E; [|vm_compute in E; discriminate E].
  exists p', h'. split; [reflexivity|].
  destruct (step_frame StrictStrategy leftovers_heap h' leftovers_pantry p'
              leftovers_pantry_wf E) as (_ & _ & Hnx & Hday & _).
  split; [exact Hnx | exact Hday].
Defined.

Lemma sorted_by_filter (key : ref -> Z) (P : ref -> bool) :
  forall l, sorted_by key l -> sorted_by key (List.filter P l).
Proof.
  induction l as [|x l IH]; intros Hs; simpl; [exact I|].
  destruct Hs as [Hx Hs]. destruct (P x); [|now apply IH].
  split; [|now apply IH].
  rewrite Forall_forall in *. intros y Hy.
  apply elem_of_List_filter in Hy as [Hy _]. now apply Hx.
Qed.

Lemma sorted_by_mono (key key' : ref -> Z) :
  forall l,
    (forall x y, x ∈ l -> y ∈ l -> key x <= key y -> key' x <= key' y) ->
    sorted_by key l -> sorted_by key' l.
Proof.
  induction l as [|x l IH]; intros Hm Hs; simpl; [exact I|].
  destruct Hs as [Hx Hs]. split.
  - rewrite Forall_forall in *. intros y Hy.
    apply Hm; [left | now right | now apply Hx].
  - apply IH; [|exact Hs]. intros a b Ha Hb. apply Hm; now right.
Qed.

(** X7: aging keeps the order of the lists: when every list of a
    well-formed pantry is in non-decreasing order of spoilage date, so is
    every list after [Pantry.step] (for the dates after aging), since
    [day_passes] lowers all positive dates alike and the step only removes
    items. *)
Theorem step_keeps_spoilage_order (strategy : PantryStrategy.t) (h h' : Heap.t)
    (p p' : Pantry.t) :
  pantry_wf h p ->
  (forall ft, sorted_by (spoilage_key h) (Pantry.get_items_by_type p ft)) ->
  Pantry.step strategy h p = Ok (p', h') ->
  forall ft, sorted_by (spoilage_key h') (Pantry.get_items_by_type p' ft).
Proof.
  intros Hwf Hs E ft.
  destruct (step_functional strategy h p Hwf) as (p1 & h1 & E1 & Hl & Hin & _).
  rewrite E in E1. injection E1 as <- <-.
  rewrite Hl. apply sorted_by_filter.
  apply (sorted_by_mono (spoilage_key h)); [|apply Hs].
  intros x y Hx Hy Hle. unfold spoilage_key in *.
  rewrite (Hin x), (Hin y) by (apply all_items_elem; eauto).
  unfold aged. rewrite !day_passes_spoilage_date. lia.
Qed.

Lemma step_keeps_spoilage_order_witness :
  exists p' h',
    Pantry.step StrictStrategy leftovers_heap leftovers_pantry = Ok (p', h')
    /\ forall ft, sorted_by (spoilage_key h') (Pantry.get_items_by_type p' ft).
Proof.
  destruct (Pantry.step StrictStrategy leftovers_heap leftovers_pantry)
    as [[p' h']|e] eqn:E; [|vm_compute in E; discriminate E].
  exists p', h'. split; [reflexivity|].
  apply (step_keeps_spoilage_order StrictStrategy leftovers_heap h'
           leftovers_pantry p' leftovers_pantry_wf); [|exact E].
  intros ft. destruct ft; vm_compute; repeat split; repeat constructor; discriminate.
Defined.

(** ** The consumption strategies: how much is selected *)

Lemma Qsum_nonneg (l : list Q) : Forall (fun x => (0 <= x)%Q) l -> (0 <= Qsum l)%Q.
Proof.
  induction 1 as [|x l Hx _ IH]; [rewrite Qsum_nil; lra|].
  rewrite Qsum_cons. lra.
Qed.

Lemma quantities_nonneg (h : Heap.t) (l : list ref) :
  nonneg_quantities h l -> (0 <= Qsum (Pantry.quantities h l))%Q.
Proof.
  intros H. apply Qsum_nonneg. unfold Pantry.quantities.
  apply Forall_fmap. exact H.
Qed.

Lemma basic_select_loop_total (h : Heap.t) :
  forall (l : list ref) (amount : Q),
    nonneg_quantities h l -> (0 <= amount)%Q ->
    ((amount <= Qsum (Pantry.quantities h l))%Q ->
     (takes (BasicConsumptionStrategy.select_loop h l amount) == amount)%Q)
    /\ ((Qsum (Pantry.quantities h l) <= amount)%Q ->
        (takes (BasicConsumptionStrategy.select_loop h l amount)
         == Qsum (Pantry.quantities h l))%Q)
    /\ Forall (fun e => (0 <= snd e)%Q) (BasicConsumptionStrategy.select_loop h l amount).
Proof.
  induction l as [|r l IH]; intros amount Hq Ha.
  - simpl. rewrite takes_nil, Qsum_nil. repeat split; try constructor; intros; lra.
  - apply Forall_cons in Hq as [Hr Hq].
    pose proof (quantities_nonneg h l Hq) as HS.
    cbn [BasicConsumptionStrategy.select_loop Pantry.quantities map].
    fold (Pantry.quantities h l). rewrite Qsum_cons.
    destruct (Qle_bool amount 0) eqn:E0.
    + apply Qle_bool_iff in E0. rewrite takes_nil.
      repeat split; try constructor; intros; lra.
    + destruct (Qle_bool (FoodItem.quantity (Heap.get h r)) amount) eqn:E1.
      * apply Qle_bool_iff in E1.
        destruct (IH (amount - FoodItem.quantity (Heap.get h r))%Q Hq ltac:(lra))
          as (I1 & I2 & I3).
        rewrite takes_cons. cbn [snd]. split; [|split].
        -- intros H. rewrite I1; lra.
        -- intros H. rewrite I2; lra.
        -- constructor; [exact Hr | exact I3].
      * apply Qle_bool_false in E1.
        destruct (IH 0%Q Hq ltac:(lra)) as (I1 & _ & I3).
        rewrite takes_cons. cbn [snd]. split; [|split].
        -- intros H. rewrite I1; lra.
        -- intros H. lra.
        -- constructor; [exact Ha | exact I3].
Qed.

Lemma random_select_loop_total (h : Heap.t) :
  forall (fuel : nat) (cur : list ref) (amount : Q) (acc : selection) (g : Rng.t)
         (sel : selection) (l' : list ref) (g' : Rng.t),
    NoDup cur -> nonneg_quantities h cur -> (0 <= amount)%Q ->
    (length cur < fuel)%nat ->
    RandomConsumptionStrategy.select_loop fuel h cur amount acc g = Ok (sel, l', g') ->
    exists sel2,
      sel = acc ++ sel2
      /\ ((amount <= Qsum (Pantry.quantities h cur))%Q -> (takes sel2 == amount)%Q)
      /\ ((Qsum (Pantry.quantities h cur) <= amount)%Q ->
          (takes sel2 == Qsum (Pantry.quantities h cur))%Q)
      /\ Forall (fun e => (0 <= snd e)%Q) sel2.
Proof.
  induction fuel as [|fuel IH]; intros cur amount acc g sel l' g' Hnd Hq Ha Hfuel;
    [lia|].
  pose proof (quantities_nonneg h cur Hq) as HS.
  cbn [RandomConsumptionStrategy.select_loop].
  destruct (Qltb 0 amount && negb (length cur =? 0)%nat) eqn:Ec.
  - apply andb_true_iff in Ec as [Ea El].
    apply Qltb_lt in Ea. apply negb_true_iff, Nat.eqb_neq in El.
    pose proof (choice_index_lt (length cur) g ltac:(lia)) as Hi.
    destruct (Rng.choice_index (length cur) g) as [i g1]. simpl in Hi.
    set (food := nth i cur 0%nat).
    assert (Hfood : food ∈ cur) by (apply list_elem_of_In; now apply nth_In).
    assert (Hqf : (0 <= FoodItem.quantity (Heap.get h food))%Q).
    { unfold nonneg_quantities in Hq. rewrite Forall_forall in Hq. now apply Hq. }
    destruct (list_remove_Ok food cur Hfood) as [l1 E1].
    pose proof (list_remove_Permutation food cur l1 E1) as HP.
    assert (HSeq : (Qsum (Pantry.quantities h cur)
                    == FoodItem.quantity (Heap.get h food)
                       + Qsum (Pantry.quantities h l1))%Q).
    { rewrite (quantities_Permutation h _ _ HP). simpl. now rewrite Qsum_cons. }
    assert (Hq1 : nonneg_quantities h l1).
    { unfold nonneg_quantities in *. rewrite HP in Hq.
      now apply Forall_cons in Hq as [_ Hq]. }
    destruct (Qle_bool (FoodItem.quantity (Heap.get h food)) amount) eqn:Eq.
    + apply Qle_bool_iff in Eq. rewrite E1. cbn [rbind]. intros E.
      destruct (list_remove_NoDup food cur l1 E1 Hnd) as (Hnd1 & _ & _).
      apply IH in E as (sel2 & -> & I1 & I2 & I3);
        [|exact Hnd1 | exact Hq1 | lra
         | apply Permutation_length in HP; simpl in HP; lia].
      exists ((food, FoodItem.quantity (Heap.get h food)) :: sel2).
      split; [now rewrite <- app_assoc|]. rewrite takes_cons. cbn [snd].
      split; [|split].
      * intros H. rewrite I1; lra.
      * intros H. rewrite I2; lra.
      * constructor; [exact Hqf | exact I3].
    + apply Qle_bool_false in Eq. rewrite random_select_loop_done.
      intros [= <- <- <-]. exists [(food, amount)]. split; [reflexivity|].
      rewrite takes_cons, takes_nil. cbn [snd].
      pose proof (quantities_nonneg h l1 Hq1).
      split; [|split].
      * intros _. lra.
      * intros H1. lra.
      * constructor; [exact Ha | constructor].
  - intros [= <- <- <-]. exists []. rewrite app_nil_r, takes_nil.
    split; [reflexivity|].
    apply andb_false_iff in Ec as [Ec|Ec].
    + apply Qltb_ge in Ec. repeat split; try constructor; intros; lra.
    + apply negb_false_iff, Nat.eqb_eq in Ec. destruct cur; [|discriminate Ec].
      simpl. rewrite Qsum_nil. repeat split; try constructor; intros; lra.
Qed.

(** The loops of the three strategies select the same total. *)
Lemma select_food_total_any (strategy : ConsumptionStrategy.t) (h : Heap.t)
    (p : Pantry.t) (ft : FoodType) (amount : Q) (g : Rng.t) :
  NoDup (Pantry.get_items_by_type p ft) ->
  nonneg_quantities h (Pantry.get_items_by_type p ft) ->
  (0 <= amount)%Q ->
  exists (sel : selection) (p' : Pantry.t) (g' : Rng.t),
    ConsumptionStrategy.select_food strategy h p ft amount g = Ok (sel, p', g')
    /\ ((amount <= Pantry.get_total_by_type h p ft)%Q -> (takes sel == amount)%Q)
    /\ ((Pantry.get_total_by_type h p ft <= amount)%Q ->
        (takes sel == Pantry.get_total_by_type h p ft)%Q)
    /\ Forall (fun e => (0 <= snd e)%Q) sel.
Proof.
  intros Hnd Hq Ha. unfold Pantry.get_total_by_type.
  assert (HB : forall g0,
    exists (sel : selection) (p' : Pantry.t) (g' : Rng.t),
      (let (s, p0) := BasicConsumptionStrategy.select_food h p ft amount in
       Ok (s, p0, g0)) = Ok (sel, p', g')
      /\ ((amount <= Qsum (Pantry.quantities h (Pantry.get_items_by_type p ft)))%Q ->
          (takes sel == amount)%Q)
      /\ ((Qsum (Pantry.quantities h (Pantry.get_items_by_type p ft)) <= amount)%Q ->
          (takes sel == Qsum (Pantry.quantities h (Pantry.get_items_by_type p ft)))%Q)
      /\ Forall (fun e => (0 <= snd e)%Q) sel).
  { intros g0. unfold BasicConsumptionStrategy.select_food.
    eexists _, _, _. split; [reflexivity|].
    apply basic_select_loop_total; assumption. }
  assert (HR : forall g0,
    exists (sel : selection) (p' : Pantry.t) (g' : Rng.t),
      RandomConsumptionStrategy.select_food h p ft amount g0 = Ok (sel, p', g')
      /\ ((amount <= Qsum (Pantry.quantities h (Pantry.get_items_by_type p ft)))%Q ->
          (takes sel == amount)%Q)
      /\ ((Qsum (Pantry.quantities h (Pantry.get_items_by_type p ft)) <= amount)%Q ->
          (takes sel == Qsum (Pantry.quantities h (Pantry.get_items_by_type p ft)))%Q)
      /\ Forall (fun e => (0 <= snd e)%Q) sel).
  { intros g0. unfold RandomConsumptionStrategy.select_food.
    destruct (random_select_loop_spec h
                (S (length (Pantry.get_items_by_type p ft)))
                (Pantry.get_items_by_type p ft) amount [] g0 Hnd)
      as (gone & stay & l' & g1 & E & _).
    pose proof E as E'.
    apply random_select_loop_total in E' as (sel2 & Hsel & I1 & I2 & I3);
      [|exact Hnd | exact Hq | exact Ha | lia].
    rewrite E. cbn [rbind]. eexists _, _, _. split; [reflexivity|].
    simpl in Hsel. rewrite Hsel. auto. }
  destruct strategy as [| |fifo]; unfold ConsumptionStrategy.select_food.
  - apply HB.
  - apply HR.
  - destruct (Rng.random g) as [u g1]. destruct (Qltb u fifo); [apply HB | apply HR].
Qed.


(** X8: every consumption strategy (first in first out, random, mixed)
    selects the same total: from a list of distinct items with no negative
    quantity, and for a request that is not negative, [select_food] returns
    (it does not raise) a selection whose amounts add up to the request when
    the food type holds that much, and to all the food type holds
    otherwise; no amount is negative. *)
Theorem select_food_total (strategy : ConsumptionStrategy.t) (h : Heap.t)
    (p : Pantry.t) (ft : FoodType) (amount : Q) (g : Rng.t) :
  NoDup (Pantry.get_items_by_type p ft) ->
  nonneg_quantities h (Pantry.get_items_by_type p ft) ->
  (0 <= amount)%Q ->
  exists (sel : selection) (p' : Pantry.t) (g' : Rng.t),
    ConsumptionStrategy.select_food strategy h p ft amount g = Ok (sel, p', g')
    /\ ((amount <= Pantry.get_total_by_type h p ft)%Q -> (takes sel == amount)%Q)
    /\ ((Pantry.get_total_by_type h p ft <= amount)%Q ->
        (takes sel == Pantry.get_total_by_type h p ft)%Q)
    /\ Forall (fun e => (0 <= snd e)%Q) sel.
Proof.
  intros Hnd Hq Ha.
  destruct (select_food_total_any strategy h p ft amount g Hnd Hq Ha)
    as (sel & p' & g' & E & Henough & Hshort & Hpos).
  exists sel, p', g'. split; [exact E|].
  split; [exact Henough|]. split; [exact Hshort | exact Hpos].
Qed.

Lemma select_food_total_witness :
  exists (sel : selection) (p' : Pantry.t) (g' : Rng.t),
    ConsumptionStrategy.select_food ConsumptionStrategy.Random rice_heap rice_pantry
      NON_PERISHABLE (26 # 10) zero_rng = Ok (sel, p', g')
    /\ ((26 # 10 <= Pantry.get_total_by_type rice_heap rice_pantry NON_PERISHABLE)%Q ->
        (takes sel == 26 # 10)%Q).
Proof.
  destruct (select_food_total ConsumptionStrategy.Random rice_heap rice_pantry
              NON_PERISHABLE (26 # 10) zero_rng)
    as (sel & p' & g' & E & H1 & _).
  - apply distinctb_NoDup. vm_compute. reflexivity.
  - vm_compute. repeat constructor; discriminate.
  - lra.
  - exists sel, p', g'. split; [exact E | exact H1].
Defined.

Lemma basic_select_loop_zero (h : Heap.t) (l : list ref) :
  BasicConsumptionStrategy.select_loop h l 0 = [].
Proof. destruct l; reflexivity. Qed.

Lemma basic_select_loop_shape (h : Heap.t) :
  forall (l : list ref) (amount : Q),
    exists (full : list ref) (part : selection),
      BasicConsumptionStrategy.select_loop h l amount
      = map (fun r => (r, FoodItem.quantity (Heap.get h r))) full ++ part
      /\ (part = []
          \/ exists r a, part = [(r, a)]
                         /\ (a < FoodItem.quantity (Heap.get h r))%Q)
      /\ (full ++ map fst part) `prefix_of` l.
Proof.
  induction l as [|r l IH]; intros amount.
  - exists [], []. simpl. split; [reflexivity|]. split; [now left | reflexivity].
  - cbn [BasicConsumptionStrategy.select_loop].
    destruct (Qle_bool amount 0).
    + exists [], []. simpl. split; [reflexivity|]. split; [now left|].
      apply prefix_nil.
    + destruct (Qle_bool (FoodItem.quantity (Heap.get h r)) amount) eqn:E.
      * destruct (IH (amount - FoodItem.quantity (Heap.get h r))%Q)
          as (full & part & -> & Hpart & Hpre).
        exists (r :: full), part. split; [reflexivity|]. split; [exact Hpart|].
        simpl. now apply prefix_cons.
      * apply Qle_bool_false in E. rewrite basic_select_loop_zero.
        exists [], [(r, amount)]. split; [reflexivity|]. split; [right; eauto|].
        simpl. apply prefix_cons, prefix_nil.
Qed.

Lemma sorted_by_app (key : ref -> Z) :
  forall l1 l2, sorted_by key (l1 ++ l2) ->
    forall x y, x ∈ l1 -> y ∈ l2 -> key x <= key y.
Proof.
  induction l1 as [|a l1 IH]; intros l2 Hs x y Hx Hy; [inversion Hx|].
  simpl in Hs. destruct Hs as [Ha Hs].
  apply elem_of_cons in Hx as [->|Hx].
  - rewrite Forall_forall in Ha. apply Ha. apply elem_of_app. now right.
  - eapply IH; eassumption.
Qed.

(** X9: [BasicConsumptionStrategy.select_food] is first in, first out:
    it selects a prefix of the pantry's list for the food type, every item
    for all it holds except possibly the last one, which it takes in part;
    the pantry is untouched.  So when the list is in order of spoilage date
    (as [add_item] and [step] keep it), no item left out spoils earlier than
    a selected one. *)
Theorem basic_selection_is_fifo (h : Heap.t) (p : Pantry.t) (ft : FoodType)
    (amount : Q) :
  let l := Pantry.get_items_by_type p ft in
  let sel := fst (BasicConsumptionStrategy.select_food h p ft amount) in
  snd (BasicConsumptionStrategy.select_food h p ft amount) = p
  /\ (exists (full : list ref) (part : selection),
        sel = map (fun r => (r, FoodItem.quantity (Heap.get h r))) full ++ part
        /\ (part = []
            \/ exists r a, part = [(r, a)]
                           /\ (a < FoodItem.quantity (Heap.get h r))%Q))
  /\ map fst sel `prefix_of` l
  /\ (sorted_by (spoilage_key h) l ->
      forall e r, e ∈ sel -> r ∈ l -> r ∉ map fst sel ->
                  spoilage_key h (fst e) <= spoilage_key h r).
Proof.
  intros l sel. subst sel. unfold BasicConsumptionStrategy.select_food.
  fold l. cbn [fst snd].
  destruct (basic_select_loop_shape h l amount) as (full & part & E & Hpart & Hpre).
  assert (Hfst : map fst (BasicConsumptionStrategy.select_loop h l amount)
                 = full ++ map fst part).
  { rewrite E, map_app, map_map. simpl. now rewrite map_id. }
  split; [reflexivity|]. split; [eauto|]. rewrite Hfst. split; [exact Hpre|].
  intros Hs e r He Hr Hout. destruct Hpre as [k Hk].
  rewrite Hk in Hs, Hr.
  apply (sorted_by_app _ _ _ Hs).
  - rewrite <- Hfst. apply list_elem_of_fmap. eauto.
  - apply elem_of_app in Hr as [Hr|Hr]; [contradiction | exact Hr].
Qed.

(** X10: the two ends of [MixedConsumptionStrategy]: [random.random()] is
    in [[0, 1)], so with [fifo_probability >= 1] the mixed strategy always
    selects as [BasicConsumptionStrategy] does, and with
    [fifo_probability <= 0] always as [RandomConsumptionStrategy] does; in
    both cases one random number is drawn first. *)
Theorem mixed_strategy_extremes (fifo : Q) (h : Heap.t) (p : Pantry.t)
    (ft : FoodType) (amount : Q) (g : Rng.t) :
  ((1 <= fifo)%Q ->
   ConsumptionStrategy.select_food (ConsumptionStrategy.Mixed fifo) h p ft amount g
   = Ok (fst (BasicConsumptionStrategy.select_food h p ft amount), p,
         snd (Rng.random g)))
  /\ ((fifo <= 0)%Q ->
      ConsumptionStrategy.select_food (ConsumptionStrategy.Mixed fifo) h p ft amount g
      = RandomConsumptionStrategy.select_food h p ft amount (snd (Rng.random g))).
Proof.
  unfold ConsumptionStrategy.select_food.
  pose proof (Rng_random_range g) as Hu.
  destruct (Rng.random g) as [u g1]. cbn [fst snd] in *.
  split; intros Hf.
  - assert (E : Qltb u fifo = true) by (apply Qltb_lt; lra).
    rewrite E. reflexivity.
  - assert (E : Qltb u fifo = false) by (apply Qltb_ge; lra).
    rewrite E. reflexivity.
Qed.

(** ** GroceryStore.get_order: the items, and the requests it cannot serve *)

Lemma Rng_uniform_range (a b : Q) (g : Rng.t) :
  (a <= b)%Q -> (a <= fst (Rng.uniform a b g) <= b)%Q.
Proof.
  intros Hab. unfold Rng.uniform, Rng.draw. cbn [fst].
  pose proof (Rng_uniform_factor (Rng.tape g (Rng.cursor g))) as [H0 H1].
  split; nra.
Qed.

Lemma int_of_Q_below (x : Q) : (0 <= x)%Q -> (inject_Z (int_of_Q x) <= x)%Q.
Proof. intros Hx. rewrite int_of_Q_floor by exact Hx. apply Qfloor_le. Qed.

Lemma int_of_Q_unit (x : Q) : (0 <= x)%Q -> (x < 1)%Q -> int_of_Q x = 0.
Proof.
  intros H0 H1. pose proof (int_of_Q_nonneg x H0). pose proof (int_of_Q_below x H0).
  assert (Hlt : (inject_Z (int_of_Q x) < inject_Z 1)%Q)
    by (apply Qle_lt_trans with x; assumption).
  rewrite <- Zlt_Qlt in Hlt. lia.
Qed.

Lemma int_of_Q_small (x : Q) : (x < 1)%Q -> int_of_Q x <= 0.
Proof.
  intros H1. destruct (Qlt_le_dec x 0) as [Hneg|Hpos].
  - destruct (Z_lt_le_dec 0 (int_of_Q x)) as [H|H]; [|exact H].
    apply int_of_Q_pos_inv in H. lra.
  - rewrite (int_of_Q_unit x Hpos H1). lia.
Qed.

Lemma loop_body_items (h0 : Heap.t) (ft : FoodType) (T bbm bbs sdm sds : Q)
    (s s' : GroceryStore.loop_state) :
  (0 < T)%Q -> 0 < GroceryStore.remaining_quantity s ->
  Forall (order_item T ft (World.heap (GroceryStore.world s))) (GroceryStore.order s) ->
  Forall (fun r => (r < Heap.next (World.heap (GroceryStore.world s)))%nat)
         (GroceryStore.order s) ->
  GroceryStore.loop_body ft T bbm bbs sdm sds s = Ok s' ->
  Forall (order_item T ft (World.heap (GroceryStore.world s'))) (GroceryStore.order s')
  /\ Forall (fun r => (r < Heap.next (World.heap (GroceryStore.world s')))%nat)
            (GroceryStore.order s').
Proof.
  intros HT Hrem HF Hlt.
  unfold GroceryStore.loop_body, GroceryStore.draw_from_distribution, Rng.gauss_int.
  destruct (Rng.draw _) as [bb g1]. destruct (Rng.draw g1) as [sd g2].
  pose proof (Rng_uniform_range ((1 # 10) * T) ((1 # 2) * T) g2 ltac:(lra)) as Hu.
  destruct (Rng.uniform _ _ g2) as [u g3]. cbn [fst] in Hu.
  set (rem := GroceryStore.remaining_quantity s) in *.
  assert (Hrq : (0 < inject_Z rem)%Q).
  { change 0%Q with (inject_Z 0). rewrite <- Zlt_Qlt. lia. }
  assert (Hmin : (0 <= Qmin_py u (inject_Z rem) <= u)%Q).
  { destruct (Qmin_py_spec u (inject_Z rem)) as [[E H]|[E H]]; rewrite E; lra. }
  pose proof (int_of_Q_nonneg _ (proj1 Hmin)) as Hq0.
  pose proof (int_of_Q_below _ (proj1 Hmin)) as Hq1.
  set (q := int_of_Q (Qmin_py u (inject_Z rem))) in *.
  destruct (Z.eqb_spec q 0) as [E0|E0].
  - intros [= <-]. simpl. split; assumption.
  - rewrite FoodItem_new_Ok by lia.
    set (h := World.heap (GroceryStore.world s)) in *.
    destruct (Heap.alloc h _) as [r0 h1] eqn:Ea.
    apply heap_alloc_spec in Ea as (-> & Hnext & Hnew & Hold).
    cbn [rbind]. intros [= <-]. simpl.
    rewrite Forall_forall in HF, Hlt. split.
    + apply Forall_app. split.
      * apply Forall_forall. intros r Hr. unfold order_item.
        rewrite (Hold r (Hlt r Hr)). now apply HF.
      * constructor; [|constructor]. unfold order_item. rewrite Hnew. simpl.
        split; [reflexivity|]. split; [reflexivity|]. split; [lia|].
        exists q. split; [lia|]. split; [reflexivity | lra].
    + apply Forall_app. split.
      * apply Forall_forall. intros r Hr. specialize (Hlt r Hr). lia.
      * constructor; [lia | constructor].
Qed.

Lemma while_loop_items (ft : FoodType) (T bbm bbs sdm sds : Q) :
  (0 < T)%Q ->
  forall (fuel : nat) (s s' : GroceryStore.loop_state),
    Forall (order_item T ft (World.heap (GroceryStore.world s))) (GroceryStore.order s) ->
    Forall (fun r => (r < Heap.next (World.heap (GroceryStore.world s)))%nat)
           (GroceryStore.order s) ->
    GroceryStore.while_loop fuel ft T bbm bbs sdm sds s = Ok s' ->
    Forall (order_item T ft (World.heap (GroceryStore.world s'))) (GroceryStore.order s').
Proof.
  intros HT. induction fuel as [|fuel IH]; intros s s' HF Hlt; simpl.
  - now intros [= <-].
  - destruct (GroceryStore.loop_condition s) eqn:Hc; [|now intros [= <-]].
    unfold GroceryStore.loop_condition in Hc.
    apply andb_true_iff in Hc as [Hc _]. apply Z.ltb_lt in Hc.
    destruct (GroceryStore.loop_body ft T bbm bbs sdm sds s) as [s1|] eqn:E;
      cbn [rbind]; [|discriminate].
    destruct (loop_body_items (World.heap (GroceryStore.world s)) ft T bbm bbs sdm sds
                s s1 HT Hc HF Hlt E) as [HF1 Hlt1].
    now apply IH.
Qed.

Lemma quantities_at_least_one (h : Heap.t) (l : list ref) :
  Forall (fun r => (1 <= FoodItem.quantity (Heap.get h r))%Q) l ->
  (inject_Z (Z.of_nat (length l)) <= Qsum (Pantry.quantities h l))%Q.
Proof.
  induction 1 as [|r l Hr _ IH]; [apply Qle_refl|].
  cbn [length Pantry.quantities map]. fold (Pantry.quantities h l).
  rewrite Qsum_cons, Nat2Z.inj_succ. unfold Z.succ. rewrite inject_Z_plus.
  change (inject_Z 1) with 1%Q. lra.
Qed.

(** X11: the items of an order.  Whatever the random source,
    [get_order] returns distinct, newly built items (no object that existed
    before is touched), each of the requested food type, named
    "<TYPE> - item", with [best_before < spoilage_date] and a whole quantity
    that is at least 1 and at most half the requested total; so an order
    has at most [int(total_quantity)] items.  The only error is the
    [KeyError] of a food type without parameters. *)
Theorem get_order_items (store : GroceryStore.t) (ft : FoodType) (T : Q)
    (w : World.t) :
  match GroceryStore.get_order store ft T w with
  | Ok (order, w') =>
      NoDup order
      /\ heap_extends (World.heap w) (World.heap w')
      /\ Forall (fun r => (Heap.next (World.heap w) <= r < Heap.next (World.heap w'))%nat
                          /\ order_item T ft (World.heap w') r) order
      /\ Z.of_nat (length order) <= Z.max 0 (int_of_Q T)
  | Raise e => e = KeyError
  end.
Proof.
  destruct (GroceryStore.get_order store ft T w) as [[order w']|e] eqn:E.
  - pose proof (get_order_fresh store ft T w w' order E) as (Hext & Hnd & Hfresh).
    split; [exact Hnd|]. split; [exact Hext|].
    unfold GroceryStore.get_order, GroceryStore.get_order_run in E.
    destruct (GroceryStore.dict_get (GroceryStore.best_before_params store) ft)
      as [[bbm bbs]|]; cbn [rbind] in E; [|discriminate E].
    destruct (GroceryStore.dict_get (GroceryStore.spoilage_date_params store) ft)
      as [[sdm sds]|]; cbn [rbind] in E; [|discriminate E].
    destruct (while_loop_from_initial ft T bbm bbs sdm sds w)
      as (s & Es & _ & [[Hneg ->]|[Hpos Hinv]]); rewrite Es in E; cbn [rbind] in E;
      injection E as <- <-.
    + simpl. split; [constructor | lia].
    + assert (HT : (0 < T)%Q) by (now apply int_of_Q_pos_inv).
      pose proof (while_loop_items ft T bbm bbs sdm sds HT _
                    (GroceryStore.initial_state T w) s
                    ltac:(simpl; constructor) ltac:(simpl; constructor) Es) as Hitems.
      split.
      * rewrite Forall_forall in *. intros r Hr.
        destruct (Hfresh r Hr) as (Hl & _). split; [exact Hl | now apply Hitems].
      * destruct Hinv as (Hrem & _ & _ & _ & _ & Hmass).
        assert (Hlen : (inject_Z (Z.of_nat (length (GroceryStore.order s)))
                        <= order_mass (World.heap (GroceryStore.world s))
                             (GroceryStore.order s))%Q).
        { apply quantities_at_least_one. eapply Forall_impl; [exact Hitems|].
          simpl. intros r (_ & _ & _ & n & Hn & -> & _).
          change 1%Q with (inject_Z 1). rewrite <- Zle_Qle. exact Hn. }
        rewrite Hmass in Hlen. rewrite <- Zle_Qle in Hlen. lia.
  - unfold GroceryStore.get_order, GroceryStore.get_order_run,
      GroceryStore.dict_get in E.
    destruct (GroceryStore.best_before_params store !! ft) as [[bbm bbs]|];
      cbn [rbind] in E; [|now injection E as <-].
    destruct (GroceryStore.spoilage_date_params store !! ft) as [[sdm sds]|];
      cbn [rbind] in E; [|now injection E as <-].
    destruct (while_loop_from_initial ft T bbm bbs sdm sds w) as (s & Es & _).
    rewrite Es in E. discriminate E.
Qed.

(** X12: the requests that [get_order] answers without drawing.  A food
    type without parameters raises [KeyError], whatever the quantity (also
    for a quantity of zero); with parameters, a request below 1 (so that
    [int(total_quantity) <= 0]: zero, a fraction, a negative number) returns
    the empty order at once: no random number is drawn and no object is
    built. *)
Theorem get_order_without_drawing (store : GroceryStore.t) (ft : FoodType) (T : Q)
    (w : World.t) :
  (GroceryStore.best_before_params store !! ft = None ->
   GroceryStore.get_order store ft T w = Raise KeyError)
  /\ (GroceryStore.spoilage_date_params store !! ft = None ->
      GroceryStore.get_order store ft T w = Raise KeyError)
  /\ (is_Some (GroceryStore.best_before_params store !! ft) ->
      is_Some (GroceryStore.spoilage_date_params store !! ft) ->
      (T < 1)%Q ->
      GroceryStore.get_order store ft T w = Ok ([], w)).
Proof.
  unfold GroceryStore.get_order, GroceryStore.get_order_run, GroceryStore.dict_get.
  split; [intros ->; reflexivity|]. split.
  - intros ->. destruct (GroceryStore.best_before_params store !! ft) as [[? ?]|];
      reflexivity.
  - intros [[bbm bbs] ->] [[sdm sds] ->] HT. cbn [rbind].
    apply int_of_Q_small in HT.
    destruct (while_loop_from_initial ft T bbm bbs sdm sds w)
      as (s & Es & _ & [[_ ->]|[Hpos _]]); [|lia].
    rewrite Es. reflexivity.
Qed.

Lemma loop_body_small (ft : FoodType) (T bbm bbs sdm sds : Q)
    (s : GroceryStore.loop_state) :
  (0 < T)%Q -> ((1 # 2) * T < 1)%Q -> 1 <= GroceryStore.remaining_quantity s ->
  GroceryStore.loop_body ft T bbm bbs sdm sds s
  = Ok (GroceryStore.mk_state (GroceryStore.order s)
          (GroceryStore.remaining_quantity s) (GroceryStore.failures s + 1)
          (World.mk (World.heap (GroceryStore.world s))
             (Rng_skip 3 (World.rng (GroceryStore.world s))))
          (GroceryStore.draws s ++ [0])).
Proof.
  intros HT Hsmall Hrem.
  unfold GroceryStore.loop_body, GroceryStore.draw_from_distribution, Rng.gauss_int.
  set (g := World.rng (GroceryStore.world s)).
  unfold Rng.draw at 1. cbn [Rng.tape Rng.cursor].
  unfold Rng.draw at 1. cbn [Rng.tape Rng.cursor].
  set (g2 := Rng.mk (Rng.tape g) (S (S (Rng.cursor g)))).
  pose proof (Rng_uniform_range ((1 # 10) * T) ((1 # 2) * T) g2 ltac:(lra)) as Hu.
  assert (Hg3 : snd (Rng.uniform ((1 # 10) * T) ((1 # 2) * T) g2) = Rng_skip 3 g)
    by reflexivity.
  destruct (Rng.uniform _ _ g2) as [u g3]. cbn [fst snd] in Hu, Hg3. subst g3.
  assert (Hrq : (1 <= inject_Z (GroceryStore.remaining_quantity s))%Q).
  { change 1%Q with (inject_Z 1). now rewrite <- Zle_Qle. }
  assert (E : int_of_Q (Qmin_py u (inject_Z (GroceryStore.remaining_quantity s))) = 0).
  { apply int_of_Q_unit;
      destruct (Qmin_py_spec u (inject_Z (GroceryStore.remaining_quantity s)))
        as [[E H]|[E H]]; rewrite E; lra. }
  rewrite E. reflexivity.
Qed.

Lemma while_loop_small (ft : FoodType) (T bbm bbs sdm sds : Q) :
  (0 < T)%Q -> ((1 # 2) * T < 1)%Q ->
  forall (n fuel : nat) (s : GroceryStore.loop_state),
    (n <= fuel)%nat ->
    GroceryStore.failures s = 100 - Z.of_nat n ->
    1 <= GroceryStore.remaining_quantity s ->
    GroceryStore.while_loop fuel ft T bbm bbs sdm sds s
    = Ok (GroceryStore.mk_state (GroceryStore.order s)
            (GroceryStore.remaining_quantity s) 100
            (World.mk (World.heap (GroceryStore.world s))
               (Rng_skip (3 * n) (World.rng (GroceryStore.world s))))
            (GroceryStore.draws s ++ repeat 0 n)).
Proof.
  intros HT Hsmall. induction n as [|n IH]; intros fuel s Hfuel Hf Hrem.
  - assert (Hc : GroceryStore.loop_condition s = false).
    { unfold GroceryStore.loop_condition. rewrite Hf. simpl.
      now rewrite andb_false_r. }
    assert (Es : GroceryStore.while_loop fuel ft T bbm bbs sdm sds s = Ok s).
    { destruct fuel; simpl; [reflexivity | now rewrite Hc]. }
    rewrite Es. destruct s as [o r f [h [tape c]] d]. simpl in *.
    subst f. unfold Rng_skip. simpl. now rewrite app_nil_r.
  - destruct fuel as [|fuel]; [lia|]. cbn [GroceryStore.while_loop].
    assert (Hc : GroceryStore.loop_condition s = true).
    { unfold GroceryStore.loop_condition. apply andb_true_iff.
      split; [apply Z.ltb_lt | apply Z.ltb_lt]; lia. }
    rewrite Hc, (loop_body_small ft T bbm bbs sdm sds s HT Hsmall Hrem).
    cbn [rbind]. rewrite IH; cbn [GroceryStore.failures GroceryStore.remaining_quantity];
      [|lia|lia|exact Hrem].
    cbn [GroceryStore.order GroceryStore.remaining_quantity GroceryStore.world
         GroceryStore.draws World.heap World.rng].
    f_equal. f_equal.
    + f_equal. unfold Rng_skip. cbn [Rng.tape Rng.cursor]. f_equal. lia.
    + rewrite <- app_assoc. reflexivity.
Qed.

(** X13: requests that are too small are never served.  Each item is drawn
    from [uniform(0.1 * total, 0.5 * total)] and truncated, so for a request
    of at least 1 and less than 2 every draw is below 1 and truncates to 0:
    whatever the random source, the loop runs its 100 failures (three
    random numbers each) and [get_order] returns the empty order, although
    [int(total_quantity)] is 1.  No object is built. *)
Theorem get_order_too_small (store : GroceryStore.t) (ft : FoodType) (T : Q)
    (w : World.t) :
  is_Some (GroceryStore.best_before_params store !! ft) ->
  is_Some (GroceryStore.spoilage_date_params store !! ft) ->
  (1 <= T)%Q -> (T < 2)%Q ->
  1 <= int_of_Q T
  /\ GroceryStore.get_order store ft T w
     = Ok ([], World.mk (World.heap w) (Rng_skip 300 (World.rng w))).
Proof.
  intros [[bbm bbs] Eb] [[sdm sds] Es] H1 H2.
  assert (Hint : 1 <= int_of_Q T).
  { rewrite int_of_Q_floor by lra. change 1 with (Qfloor 1).
    now apply Qfloor_resp_le. }
  split; [exact Hint|].
  unfold GroceryStore.get_order, GroceryStore.get_order_run, GroceryStore.dict_get.
  rewrite Eb, Es. cbn [rbind].
  rewrite (while_loop_small ft T bbm bbs sdm sds ltac:(lra) ltac:(lra) 100).
  - reflexivity.
  - unfold GroceryStore.enough_fuel. lia.
  - reflexivity.
  - exact Hint.
Qed.

Lemma get_order_too_small_witness :
  GroceryStore.get_order test_store PERISHABLE (3 # 2) half_world
  = Ok ([], World.mk (World.heap half_world) (Rng_skip 300 (World.rng half_world))).
Proof.
  apply (get_order_too_small test_store PERISHABLE (3 # 2) half_world).
  - vm_compute. eauto.
  - vm_compute. eauto.
  - lra.
  - lra.
Defined.

(** ** The order policies *)

Lemma Qmax_py_spec (a b : Q) :
  (Qmax_py a b = b /\ (a < b)%Q) \/ (Qmax_py a b = a /\ (b <= a)%Q).
Proof.
  unfold Qmax_py. destruct (Qltb a b) eqn:E.
  - left. split; [reflexivity | now apply Qltb_lt].
  - right. split; [reflexivity | now apply Qltb_ge].
Qed.

(** X14: [FixedConsumptionPolicy] orders up to a level.  For each of the
    two ordered food types the level is
    [daily rate * frequency + safety stock]; the quantity it asks for is
    never negative, brings the stock of that type exactly to the level when
    the stock is below it, and is zero when the stock is at the level or
    above.  Leftovers in the pantry do not count as stock of either type. *)
Theorem fixed_policy_orders_up_to_level (self : FixedConsumptionPolicy.t)
    (h : Heap.t) (pantry : Pantry.t) :
  let level_p :=
    (FixedConsumptionPolicy.daily_consumption_perishable self
     * inject_Z (FixedConsumptionPolicy.frequency self)
     + FixedConsumptionPolicy.safety_stock_perishable self)%Q in
  let level_n :=
    (FixedConsumptionPolicy.daily_consumption_non_perishable self
     * inject_Z (FixedConsumptionPolicy.frequency self)
     + FixedConsumptionPolicy.safety_stock_non_perishable self)%Q in
  let stock_p := Pantry.get_total_by_type h pantry PERISHABLE in
  let stock_n := Pantry.get_total_by_type h pantry NON_PERISHABLE in
  let q := FixedConsumptionPolicy.determine_order_quantity self h pantry in
  (0 <= fst q)%Q /\ (0 <= snd q)%Q
  /\ ((stock_p <= level_p)%Q -> (stock_p + fst q == level_p)%Q)
  /\ ((level_p <= stock_p)%Q -> (fst q == 0)%Q)
  /\ ((stock_n <= level_n)%Q -> (stock_n + snd q == level_n)%Q)
  /\ ((level_n <= stock_n)%Q -> (snd q == 0)%Q).
Proof.
  intros level_p level_n stock_p stock_n q. subst q.
  unfold FixedConsumptionPolicy.determine_order_quantity. cbv zeta. cbn [fst snd].
  fold stock_p stock_n level_p level_n.
  destruct (Qmax_py_spec 0 (level_p - stock_p)) as [[-> H1]|[-> H1]];
    destruct (Qmax_py_spec 0 (level_n - stock_n)) as [[-> H2]|[-> H2]];
    repeat split; intros; lra.
Qed.

Lemma Qpower_2_nonneg (x : Q) : (0 <= x ^ 2)%Q.
Proof. change (x ^ 2)%Q with (x * x)%Q. nra. Qed.

(** X15: [AdaptiveOrderPolicy._calculate_std_dev] never takes the root of
    a negative number: for fewer than two values it returns 0 without
    computing anything, and otherwise it applies [** 0.5] to a variance that
    is not negative, and that is zero when all the values are equal. *)
Theorem std_dev_of_nonnegative_variance (pow_half : Q -> Q) (data : list Q) :
  ((length data <= 1)%nat ->
   AdaptiveOrderPolicy.calculate_std_dev pow_half data = 0%Q)
  /\ ((2 <= length data)%nat ->
      exists variance : Q,
        AdaptiveOrderPolicy.calculate_std_dev pow_half data = pow_half variance
        /\ (0 <= variance)%Q
        /\ (forall c : Q, Forall (fun x => x = c) data -> (variance == 0)%Q)).
Proof.
  unfold AdaptiveOrderPolicy.calculate_std_dev. split; intros Hlen.
  - destruct (Nat.leb_spec (length data) 1); [reflexivity | lia].
  - destruct (Nat.leb_spec (length data) 1); [lia|].
    eexists. split; [reflexivity|].
    set (m := (Qsum data / inject_Z (Z.of_nat (length data)))%Q).
    assert (Hn : (0 < inject_Z (Z.of_nat (length data) - 1))%Q).
    { change 0%Q with (inject_Z 0). rewrite <- Zlt_Qlt. lia. }
    assert (Hsq : (0 <= Qsum (map (fun x => (x - m) ^ 2) data))%Q).
    { apply Qsum_nonneg. apply Forall_fmap. apply Forall_forall.
      intros x _. apply Qpower_2_nonneg. }
    split.
    + apply Qle_shift_div_l; [exact Hn | lra].
    + intros c Hc.
      assert (Hsum : (Qsum data == inject_Z (Z.of_nat (length data)) * c)%Q).
      { clear -Hc. induction Hc as [|x l -> _ IH]; [simpl; rewrite Qsum_nil; ring|].
        rewrite Qsum_cons, IH. cbn [length]. rewrite Nat2Z.inj_succ.
        unfold Z.succ. rewrite inject_Z_plus. change (inject_Z 1) with 1%Q. ring. }
      assert (Hm : (m == c)%Q).
      { unfold m. rewrite Hsum. field.
        change 0%Q with (inject_Z 0). rewrite inject_Z_injective. lia. }
      assert (Hz : (Qsum (map (fun x => (x - m) ^ 2) data) == 0)%Q).
      { clearbody m. clear -Hc Hm. induction Hc as [|x l -> _ IH]; [reflexivity|].
        cbn [map]. rewrite Qsum_cons, IH.
        change ((c - m) ^ 2)%Q with ((c - m) * (c - m))%Q. rewrite Hm. ring. }
      rewrite Hz. field. lra.
Qed.

Lemma last7_length {A : Type} (l : list A) :
  (7 <= length l)%nat -> length (last7 l) = 7%nat.
Proof. intros H. unfold last7. rewrite length_drop. lia. Qed.

(** X16: the two policies that look at the history use the same daily
    rates.  With fewer than seven days of history both order what the fixed
    policy they were built from orders.  With seven days or more,
    [history[-7:]] has exactly seven entries, so the mean that
    [HistoricalConsumptionPolicy] takes and the sum over 7 that
    [AdaptiveOrderPolicy] takes are the same number; the policies differ in
    the safety stock alone, which the first leaves as it was and the second
    sets to [delta] times the standard deviation of the week. *)
Theorem history_policies_share_rates (pow_half : Q -> Q)
    (base : FixedConsumptionPolicy.t) (delta : Q)
    (history : list DailyRecord.t) (h : Heap.t) (p : Pantry.t) :
  ((length history < 7)%nat ->
   fst (OrderPolicy.determine_order_quantity pow_half
          (OrderPolicy.new_historical base) history h p)
   = FixedConsumptionPolicy.determine_order_quantity base h p
   /\ fst (OrderPolicy.determine_order_quantity pow_half
             (OrderPolicy.new_adaptive base delta) history h p)
      = FixedConsumptionPolicy.determine_order_quantity base h p)
  /\ ((7 <= length history)%nat ->
      exists hp ap : FixedConsumptionPolicy.t,
        snd (OrderPolicy.determine_order_quantity pow_half
               (OrderPolicy.new_historical base) history h p)
        = OrderPolicy.Historical hp
        /\ snd (OrderPolicy.determine_order_quantity pow_half
                  (OrderPolicy.new_adaptive base delta) history h p)
           = OrderPolicy.Adaptive ap delta
        /\ (FixedConsumptionPolicy.daily_consumption_perishable hp
            == Qsum (last_week PERISHABLE history) / 7)%Q
        /\ (FixedConsumptionPolicy.daily_consumption_perishable ap
            == FixedConsumptionPolicy.daily_consumption_perishable hp)%Q
        /\ (FixedConsumptionPolicy.daily_consumption_non_perishable ap
            == FixedConsumptionPolicy.daily_consumption_non_perishable hp)%Q
        /\ FixedConsumptionPolicy.safety_stock_perishable hp
           = FixedConsumptionPolicy.safety_stock_perishable base
        /\ FixedConsumptionPolicy.safety_stock_non_perishable hp
           = FixedConsumptionPolicy.safety_stock_non_perishable base
        /\ FixedConsumptionPolicy.safety_stock_perishable ap
           = (delta * AdaptiveOrderPolicy.calculate_std_dev pow_half
                        (last_week PERISHABLE history))%Q
        /\ FixedConsumptionPolicy.safety_stock_non_perishable ap
           = (delta * AdaptiveOrderPolicy.calculate_std_dev pow_half
                        (last_week NON_PERISHABLE history))%Q
        /\ FixedConsumptionPolicy.frequency hp = FixedConsumptionPolicy.frequency base
        /\ FixedConsumptionPolicy.frequency ap = FixedConsumptionPolicy.frequency base).
Proof.
  unfold OrderPolicy.new_historical, OrderPolicy.new_adaptive.
  cbn [OrderPolicy.determine_order_quantity].
  unfold HistoricalConsumptionPolicy.determine_order_quantity,
    AdaptiveOrderPolicy.determine_order_quantity.
  split; intros Hlen.
  - destruct (Nat.ltb_spec (length history) 7); [|lia]. cbn [fst].
    split; reflexivity.
  - destruct (Nat.ltb_spec (length history) 7); [lia|]. cbn [fst snd].
    eexists _, _. split; [reflexivity|]. split; [reflexivity|].
    cbn [FixedConsumptionPolicy.daily_consumption_perishable
         FixedConsumptionPolicy.daily_consumption_non_perishable
         FixedConsumptionPolicy.safety_stock_perishable
         FixedConsumptionPolicy.safety_stock_non_perishable
         FixedConsumptionPolicy.frequency FixedConsumptionPolicy.init].
    assert (Hm : forall ft, (mean (last_week ft history)
                             == Qsum (last_week ft history) / 7)%Q).
    { intros ft. unfold mean, last_week. rewrite length_map, last7_length by exact Hlen.
      reflexivity. }
    split; [apply Hm|]. split; [now rewrite Hm|]. split; [now rewrite Hm|].
    repeat split; reflexivity.
Qed.

Lemma decrement_countdown (policy : OrderPolicy.t) :
  match OrderPolicy.days_until_next_order policy with
  | Ok d =>
      exists policy1 f,
        OrderPolicy.decrement_days_until_next_order policy = Ok policy1
        /\ OrderPolicy.days_until_next_order policy1 = Ok (d - 1)
        /\ OrderPolicy.frequency policy1 = Ok f
  | Raise e =>
      OrderPolicy.decrement_days_until_next_order policy = Raise AttributeError
  end.
Proof.
  destruct policy as [p|b|p delta]; simpl; eauto.
Qed.

(** X17: the countdown of a policy that has one ([FixedConsumptionPolicy],
    [AdaptiveOrderPolicy]).  A [daily_step] that returns eats the meals of
    the day, ages the pantry and lowers [days_until_next_order] by one.
    When that makes it 0 (it was 1) the order block runs on the aged
    pantry: the totals bought of the record, the pantry and the state of
    the world at the end of the day are those that it returns, and the
    countdown is back at [frequency].  On every other day no order is
    placed: nothing is bought and the pantry at the end of the day is the
    aged pantry.  [frequency] never changes, and a countdown that is in
    [1 .. frequency] before the day is in [1 .. frequency] after it. *)
Theorem order_countdown_cycle (pow_half : Q -> Q) (hh hh' : Household.t)
    (w w' : World.t) (rec : DailyRecord.t) (f d : Z) :
  Household.daily_step pow_half hh w = Ok (rec, hh', w') ->
  OrderPolicy.frequency (Household.order_policy hh) = Ok f ->
  OrderPolicy.days_until_next_order (Household.order_policy hh) = Ok d ->
  exists (meals : list PlannedMeal.t) (rest : list (list PlannedMeal.t))
         (hh1 : Household.t) (w1 : World.t) (pa1 : Pantry.t) (h1 : Heap.t)
         (policy1 : OrderPolicy.t),
    Household.weekly_meals hh = Some (meals :: rest)
    /\ Household.eat_meals meals (at_breakfast hh rest) w = Ok (hh1, w1)
    /\ Pantry.step (Household.pantry_strategy hh1) (World.heap w1)
         (Household.pantry hh1) = Ok (pa1, h1)
    /\ OrderPolicy.decrement_days_until_next_order (Household.order_policy hh)
       = Ok policy1
    /\ OrderPolicy.days_until_next_order policy1 = Ok (d - 1)
    /\ OrderPolicy.frequency (Household.order_policy hh') = Ok f
    /\ (d = 1 ->
        OrderPolicy.days_until_next_order (Household.order_policy hh') = Ok f
        /\ exists self2 : Household.t,
             Household.place_order pow_half
               (Household.set_order_policy (Household.set_pantry hh1 pa1) policy1)
               (World.mk h1 (World.rng w1))
             = Ok (DailyRecord.total_perishable_bought rec,
                   DailyRecord.total_nonperishable_bought rec, self2, w')
             /\ Household.pantry hh' = Household.pantry self2)
    /\ (d <> 1 ->
        OrderPolicy.days_until_next_order (Household.order_policy hh') = Ok (d - 1)
        /\ DailyRecord.total_perishable_bought rec = 0%Q
        /\ DailyRecord.total_nonperishable_bought rec = 0%Q
        /\ Household.pantry hh' = pa1
        /\ w' = World.mk h1 (World.rng w1))
    /\ (1 <= d <= f ->
        exists d', OrderPolicy.days_until_next_order (Household.order_policy hh') = Ok d'
                   /\ 1 <= d' <= f).
Proof.
  intros H Hf Hd.
  destruct (daily_step_countdown pow_half hh hh' w w' rec f d H Hf Hd)
    as (Hf' & Hd' & _).
  unfold Household.daily_step in H. cbv zeta in H.
  change (Household.weekly_meals (Household.set_counters hh _ _ _ _ _))
    with (Household.weekly_meals hh) in H.
  destruct (Household.weekly_meals hh) as [[|meals rest]|] eqn:Ew;
    cbn [rbind] in H; try discriminate H.
  fold (at_breakfast hh rest) in H.
  destruct (Household.eat_meals meals (at_breakfast hh rest) w)
    as [[hh1 w1]|] eqn:Em; cbn [rbind] in H; [|discriminate H].
  destruct (Pantry.step _ _ _) as [[pa1 h1]|] eqn:Es; cbn [rbind] in H;
    [|discriminate H].
  change (Household.order_policy (Household.set_pantry hh1 pa1))
    with (Household.order_policy hh1) in H.
  pose proof (eat_meals_policies meals _ _ _ _ Em) as (Hop & _).
  simpl in Hop. rewrite Hop in H.
  pose proof (decrement_countdown (Household.order_policy hh)) as Hdec.
  rewrite Hd in Hdec. destruct Hdec as (policy1 & f1 & Edec & Edays & _).
  rewrite Edec in H. cbn [rbind] in H. rewrite Edays in H. cbn [rbind] in H.
  exists meals, rest, hh1, w1, pa1, h1, policy1.
  split; [reflexivity|]. split; [exact Em|]. split; [exact Es|].
  split; [exact Edec|]. split; [exact Edays|]. split; [exact Hf'|].
  destruct (Z.eqb_spec (d - 1) 0) as [E0|E0].
  - split; [|split].
    + intros _. split; [exact Hd'|].
      destruct (Household.place_order _ _ _) as [[[[tp tn] self2] w2]|] eqn:Ep;
        cbn [rbind] in H; [|discriminate H].
      inv_bind H. inv_bind H. injection H as <- <- <-. simpl.
      exists self2. split; reflexivity.
    + intros Hne. lia.
    + intros Hr. exists f. split; [exact Hd' | lia].
  - cbn [rbind] in H. inv_bind H. inv_bind H. injection H as <- <- <-. simpl.
    split; [|split].
    + intros ->. lia.
    + intros _. simpl in Hd'. split; [exact Hd'|]. auto.
    + intros Hr. exists (d - 1). split; [exact Hd' | lia].
Qed.

Lemma order_countdown_cycle_witness :
  exists (rec : DailyRecord.t) (hh' : Household.t) (w' : World.t),
    Household.daily_step (fun x => x)
      (stocked_household (MealPlanningStrategy.Proportional (1 # 2))) stocked_world
    = Ok (rec, hh', w')
    /\ OrderPolicy.days_until_next_order (Household.order_policy hh') = Ok 1
    /\ (exists (self1 self2 : Household.t) (w1 : World.t),
          Household.place_order (fun x => x) self1 w1
          = Ok (DailyRecord.total_perishable_bought rec,
                DailyRecord.total_nonperishable_bought rec, self2, w')
          /\ Household.pantry hh' = Household.pantry self2)
    /\ (DailyRecord.total_perishable_bought rec == 440)%Q
    /\ (DailyRecord.total_nonperishable_bought rec == 1010)%Q.
Proof.
  destruct (Household.daily_step (fun x => x)
              (stocked_household (MealPlanningStrategy.Proportional (1 # 2)))
              stocked_world) as [[[rec hh'] w']|e] eqn:E;
    [|vm_compute in E; discriminate E].
  exists rec, hh', w'. split; [reflexivity|].
  destruct (order_countdown_cycle (fun x => x)
              (stocked_household (MealPlanningStrategy.Proportional (1 # 2)))
              hh' stocked_world w' rec 1 1 E eq_refl eq_refl)
    as (meals & rest & hh1 & w1 & pa1 & h1 & policy1 & _ & _ & _ & _ & _ & _
        & Hone & _).
  destruct (Hone eq_refl) as (Hd & self2 & Ep & Hp).
  split; [exact Hd|].
  split; [eexists _, self2, _; split; [exact Ep | exact Hp]|].
  vm_compute in E. injection E as <- _ _.
  split; reflexivity.
Defined.

(** ** Household: what an order brings into the pantry *)

Lemma add_item_total (h : Heap.t) (p : Pantry.t) (r : ref) (ft : FoodType) :
  (Pantry.get_total_by_type h (Pantry.add_item h p r) ft
   == Pantry.get_total_by_type h p ft
      + (if bool_decide (FoodItem.food_type (Heap.get h r) = ft)
         then FoodItem.quantity (Heap.get h r) else 0))%Q.
Proof.
  unfold Pantry.get_total_by_type.
  rewrite (quantities_Permutation h _ _ (add_item_items h p r ft)).
  rewrite quantities_app, Qsum_app.
  destruct (bool_decide _); simpl; [rewrite Qsum_cons|]; rewrite Qsum_nil; lra.
Qed.

Lemma add_order_totals (h : Heap.t) (ft0 : FoodType) :
  forall (order : list ref) (p : Pantry.t) (total : Q),
    Forall (fun r => FoodItem.food_type (Heap.get h r) = ft0) order ->
    (fst (fold_left (fun '(total, p) item =>
                       ((total + FoodItem.quantity (Heap.get h item))%Q,
                        Pantry.add_item h p item))
                    order (total, p))
     == total + order_mass h order)%Q
    /\ forall ft,
         (Pantry.get_total_by_type h
            (snd (fold_left (fun '(total, p) item =>
                               ((total + FoodItem.quantity (Heap.get h item))%Q,
                                Pantry.add_item h p item))
                            order (total, p))) ft
          == Pantry.get_total_by_type h p ft
             + (if bool_decide (ft0 = ft) then order_mass h order else 0))%Q.
Proof.
  unfold order_mass.
  induction order as [|r order IH]; intros p total HF.
  - simpl. rewrite Qsum_nil. split; [lra|]. intros ft. destruct (bool_decide _); lra.
  - apply Forall_cons in HF as [Hr HF]. cbn [fold_left Pantry.quantities map].
    fold (Pantry.quantities h order). rewrite Qsum_cons.
    destruct (IH (Pantry.add_item h p r)
                (total + FoodItem.quantity (Heap.get h r))%Q HF) as [I1 I2].
    split; [rewrite I1; lra|].
    intros ft. rewrite I2, add_item_total, Hr.
    destruct (bool_decide (ft0 = ft)); [rewrite Qsum_cons|]; lra.
Qed.

Lemma get_order_mass (store : GroceryStore.t) (ft : FoodType) (T : Q)
    (w w' : World.t) (order : list ref) :
  GroceryStore.get_order store ft T w = Ok (order, w') ->
  (0 <= order_mass (World.heap w') order)%Q
  /\ (order_mass (World.heap w') order <= inject_Z (Z.max 0 (int_of_Q T)))%Q.
Proof.
  unfold GroceryStore.get_order, GroceryStore.get_order_run. intros E.
  destruct (GroceryStore.dict_get (GroceryStore.best_before_params store) ft)
    as [[bbm bbs]|]; cbn [rbind] in E; [|discriminate E].
  destruct (GroceryStore.dict_get (GroceryStore.spoilage_date_params store) ft)
    as [[sdm sds]|]; cbn [rbind] in E; [|discriminate E].
  destruct (while_loop_from_initial ft T bbm bbs sdm sds w)
    as (s & Es & _ & [[Hneg ->]|[Hpos Hinv]]); rewrite Es in E; cbn [rbind] in E;
    injection E as <- <-.
  - simpl. unfold order_mass. simpl. rewrite Qsum_nil.
    split; [lra|]. change 0%Q with (inject_Z 0). rewrite <- Zle_Qle. lia.
  - destruct Hinv as (Hrem & _ & _ & _ & _ & Hmass). rewrite Hmass.
    split; [change 0%Q with (inject_Z 0)|]; rewrite <- Zle_Qle; lia.
Qed.

(** X18: what an order brings in.  When [daily_step] places an order for
    a household whose pantry is well formed, the mass recorded as bought is
    the mass that arrives: the pantry's perishable total goes up by exactly
    [total_perishable_bought], its non-perishable total by exactly
    [total_nonperishable_bought], and its leftovers do not change; and
    what is bought of a type is never negative and never more than the whole
    part of what the order policy asked for. *)
Theorem place_order_receives (pow_half : Q -> Q) (self self' : Household.t)
    (w w' : World.t) (tp tn : Q) :
  pantry_wf (World.heap w) (Household.pantry self) ->
  Household.place_order pow_half self w = Ok (tp, tn, self', w') ->
  let asked :=
    fst (OrderPolicy.determine_order_quantity pow_half (Household.order_policy self)
           (Household.history self) (World.heap w) (Household.pantry self)) in
  (Pantry.get_total_by_type (World.heap w') (Household.pantry self') PERISHABLE
   == Pantry.get_total_by_type (World.heap w) (Household.pantry self) PERISHABLE + tp)%Q
  /\ (Pantry.get_total_by_type (World.heap w') (Household.pantry self') NON_PERISHABLE
      == Pantry.get_total_by_type (World.heap w) (Household.pantry self) NON_PERISHABLE
         + tn)%Q
  /\ (Pantry.get_total_by_type (World.heap w') (Household.pantry self') LEFTOVER
      == Pantry.get_total_by_type (World.heap w) (Household.pantry self) LEFTOVER)%Q
  /\ (0 <= tp <= inject_Z (Z.max 0 (int_of_Q (fst asked))))%Q
  /\ (0 <= tn <= inject_Z (Z.max 0 (int_of_Q (snd asked))))%Q.
Proof.
  intros Hwf H asked. subst asked. unfold Household.place_order in H.
  destruct (OrderPolicy.determine_order_quantity _ _ _ _ _) as [[pq nq] policy1].
  cbn [fst snd]. inv_bind H.
  destruct (GroceryStore.get_order _ PERISHABLE pq w) as [[o1 w1]|] eqn:E1;
    cbn [rbind] in H; [|discriminate H].
  destruct (GroceryStore.get_order _ NON_PERISHABLE nq w1) as [[o2 w2]|] eqn:E2;
    cbn [rbind] in H; [|discriminate H].
  pose proof (get_order_mass _ _ _ _ _ _ E1) as Hm1.
  pose proof (get_order_mass _ _ _ _ _ _ E2) as Hm2.
  apply get_order_fresh in E1, E2.
  destruct E1 as (Hext1 & _ & HF1). destruct E2 as (Hext2 & _ & HF2).
  rewrite Forall_forall in HF1, HF2.
  set (h := World.heap w) in *. set (h1 := World.heap w1) in *.
  set (h2 := World.heap w2) in *. set (p := Household.pantry self) in *.
  assert (Hold1 : forall r, r ∈ o1 -> Heap.get h2 r = Heap.get h1 r).
  { intros r Hr. apply Hext2. now apply HF1. }
  assert (Hmass1 : order_mass h2 o1 = order_mass h1 o1).
  { unfold order_mass. f_equal. apply quantities_ext, Forall_forall.
    intros r Hr. now rewrite Hold1. }
  assert (Ht1 : Forall (fun r => FoodItem.food_type (Heap.get h2 r) = PERISHABLE) o1).
  { apply Forall_forall. intros r Hr. rewrite (Hold1 r Hr). now apply HF1. }
  assert (Ht2 : Forall (fun r => FoodItem.food_type (Heap.get h2 r) = NON_PERISHABLE) o2).
  { apply Forall_forall. intros r Hr. now apply HF2. }
  assert (Hp : forall ft, Pantry.get_total_by_type h2 p ft = Pantry.get_total_by_type h p ft).
  { intros ft. unfold Pantry.get_total_by_type. f_equal.
    apply quantities_ext, Forall_forall. intros r Hr.
    destruct Hwf as (_ & _ & Hlt).
    assert (Hr' : (r < Heap.next h)%nat) by (apply Hlt, all_items_elem; eauto).
    destruct Hext1 as [Hn1 Ho1]. destruct Hext2 as [_ Ho2].
    rewrite Ho2 by lia. now rewrite Ho1. }
  unfold Household.add_order in H.
  destruct (add_order_totals h2 PERISHABLE o1 p 0%Q Ht1) as [Ta1 Tb1].
  destruct (fold_left _ o1 _) as [t1 pa1]. cbn [fst snd] in Ta1, Tb1.
  destruct (add_order_totals h2 NON_PERISHABLE o2 pa1 0%Q Ht2) as [Ta2 Tb2].
  destruct (fold_left _ o2 _) as [t2 pa2]. cbn [fst snd] in Ta2, Tb2.
  inv_bind H. injection H as <- <- <- <-. cbn [Household.pantry Household.set_order_policy
    Household.set_pantry].
  fold h2.
  pose proof (Tb2 PERISHABLE) as A1. pose proof (Tb2 NON_PERISHABLE) as A2.
  pose proof (Tb2 LEFTOVER) as A3. pose proof (Tb1 PERISHABLE) as B1.
  pose proof (Tb1 NON_PERISHABLE) as B2. pose proof (Tb1 LEFTOVER) as B3.
  rewrite Hp in B1, B2, B3.
  rewrite bool_decide_eq_true_2 in A2, B1 by reflexivity.
  rewrite bool_decide_eq_false_2 in A1, A3, B2, B3 by discriminate.
  rewrite Hmass1 in Ta1, B1.
  repeat split; lra.
Qed.

Lemma place_order_receives_witness :
  exists (tp tn : Q) (self' : Household.t) (w' : World.t),
    Household.place_order (fun x => x)
      (stocked_household (MealPlanningStrategy.Proportional (1 # 2))) stocked_world
    = Ok (tp, tn, self', w')
    /\ (tp == 10)%Q /\ (tn == 810)%Q
    /\ (Pantry.get_total_by_type (World.heap w') (Household.pantry self') PERISHABLE
        == 1000 + 10)%Q
    /\ (Pantry.get_total_by_type (World.heap w') (Household.pantry self')
          NON_PERISHABLE == 200 + 810)%Q.
Proof.
  destruct (Household.place_order (fun x => x)
              (stocked_household (MealPlanningStrategy.Proportional (1 # 2)))
              stocked_world) as [[[[tp tn] self'] w']|e] eqn:E;
    [|vm_compute in E; discriminate E].
  exists tp, tn, self', w'. split; [reflexivity|].
  destruct (place_order_receives (fun x => x)
              (stocked_household (MealPlanningStrategy.Proportional (1 # 2)))
              self' stocked_world w' tp tn stocked_pantry_wf E)
    as (Hp & Hn & _).
  assert (Et : tp = 10%Q /\ tn = 810%Q).
  { vm_compute in E. injection E as <- <- _ _. split; reflexivity. }
  destruct Et as [-> ->].
  split; [reflexivity|]. split; [reflexivity|].
  split; [rewrite Hp | rewrite Hn]; vm_compute; reflexivity.
Defined.

(** ** Household.daily_step: the record of the day *)

Lemma place_order_shape (pow_half : Q -> Q) (self self' : Household.t)
    (w w' : World.t) (a b : Q) :
  Household.place_order pow_half self w = Ok (a, b, self', w') ->
  exists (pa : Pantry.t) (policy : OrderPolicy.t),
    self' = Household.set_order_policy (Household.set_pantry self pa) policy.
Proof.
  unfold Household.place_order. intros H.
  destruct (OrderPolicy.determine_order_quantity _ _ _ _ _) as [[pq nq] policy1].
  inv_bind H.
  destruct (GroceryStore.get_order _ PERISHABLE pq w) as [[o1 w1]|];
    cbn [rbind] in H; [|discriminate H].
  destruct (GroceryStore.get_order _ NON_PERISHABLE nq w1) as [[o2 w2]|];
    cbn [rbind] in H; [|discriminate H].
  destruct (Household.add_order _ o1 _) as [t1 pa1].
  destruct (Household.add_order _ o2 _) as [t2 pa2].
  inv_bind H. injection H as <- <- <- <-. eauto.
Qed.

(** A successful [daily_step], step by step: the meals of the day are
    eaten from the state [at_breakfast]; the counters of the record are the
    counters after the meals; the stored masses are those of the pantry at
    the end of the day. *)
Lemma daily_step_record (pow_half : Q -> Q) (hh hh' : Household.t) (w w' : World.t)
    (rec : DailyRecord.t) :
  Household.daily_step pow_half hh w = Ok (rec, hh', w') ->
  exists (meals : list PlannedMeal.t) (rest : list (list PlannedMeal.t))
         (hh1 : Household.t) (w1 : World.t),
    Household.weekly_meals hh = Some (meals :: rest)
    /\ Household.eat_meals meals (at_breakfast hh rest) w = Ok (hh1, w1)
    /\ DailyRecord.meals_eaten_today rec = Household.meals_eaten_today hh1
    /\ DailyRecord.daily_consumption rec = Household.daily_consumption hh1
    /\ DailyRecord.emergency_takeouts rec = Household.daily_emergency_takeouts hh1
    /\ DailyRecord.daily_plate_waste rec = Household.daily_plate_waste hh1
    /\ DailyRecord.daily_leftovers_generated rec
       = Household.daily_leftovers_generated hh1
    /\ Household.weekly_meals hh' = Household.weekly_meals hh1
    /\ Household.history hh' = Household.history hh1 ++ [rec]
    /\ DailyRecord.total_food_stored rec
       = Pantry.get_total (World.heap w') (Household.pantry hh')
    /\ DailyRecord.perishables_stored rec
       = Pantry.get_total_by_type (World.heap w') (Household.pantry hh') PERISHABLE
    /\ DailyRecord.non_perishables_stored rec
       = Pantry.get_total_by_type (World.heap w') (Household.pantry hh') NON_PERISHABLE
    /\ DailyRecord.leftovers_stored rec
       = Pantry.get_total_by_type (World.heap w') (Household.pantry hh') LEFTOVER.
Proof.
  unfold Household.daily_step. cbv zeta. intros H.
  change (Household.weekly_meals (Household.set_counters hh _ _ _ _ _))
    with (Household.weekly_meals hh) in H.
  destruct (Household.weekly_meals hh) as [[|meals rest]|] eqn:Ew;
    cbn [rbind] in H; try discriminate H.
  fold (at_breakfast hh rest) in H.
  destruct (Household.eat_meals meals (at_breakfast hh rest) w)
    as [[hh1 w1]|] eqn:Em; cbn [rbind] in H; [|discriminate H].
  destruct (Pantry.step _ _ _) as [[pa1 h1]|] eqn:Es; cbn [rbind] in H;
    [|discriminate H].
  destruct (OrderPolicy.decrement_days_until_next_order _) as [policy1|] eqn:Ed;
    cbn [rbind] in H; [|discriminate H].
  destruct (OrderPolicy.days_until_next_order policy1) as [days|] eqn:Edays;
    cbn [rbind] in H; [|discriminate H].
  exists meals, rest, hh1, w1.
  split; [reflexivity|]. split; [exact Em|].
  destruct (days =? 0).
  - destruct (Household.place_order _ _ _) as [[[[tp tn] hh2] w2]|] eqn:Ep;
      cbn [rbind] in H; [|discriminate H].
    apply place_order_shape in Ep as (pa & pol & ->).
    inv_bind H. inv_bind H. injection H as <- <- <-. simpl. auto 15.
  - cbn [rbind] in H. inv_bind H. inv_bind H. injection H as <- <- <-. simpl.
    auto 15.
Qed.

Lemma plate_waste_fold (pct : Q) (sel : selection) (acc : Q) :
  (fold_left (fun acc wasted => (acc + snd wasted)%Q)
     (FixedPercentageWasteCalculator.compute_plate_waste
        (FixedPercentageWasteCalculator.mk pct) sel) acc
   == acc + pct * takes sel)%Q.
Proof.
  unfold FixedPercentageWasteCalculator.compute_plate_waste. simpl.
  revert acc. induction sel as [|[r a] sel IH]; intros acc; simpl.
  - rewrite takes_nil. ring.
  - rewrite IH, takes_cons. simpl. ring.
Qed.

Lemma leftovers_fold (pct : Q) (sel waste : selection) :
  (FixedPercentageLeftoverGenerator.compute_leftovers
     (FixedPercentageLeftoverGenerator.mk pct) sel waste
   == pct * takes sel)%Q.
Proof.
  unfold FixedPercentageLeftoverGenerator.compute_leftovers. simpl.
  assert (H : forall acc,
             (fold_left (fun leftovers '(_, amount) => (leftovers + amount * pct)%Q)
                        sel acc == acc + pct * takes sel)%Q).
  { induction sel as [|[r a] sel IH]; intros acc; simpl.
    - rewrite takes_nil. ring.
    - rewrite IH, takes_cons. simpl. ring. }
  rewrite H. ring.
Qed.

Lemma takes_by_types (h : Heap.t) (sel : selection) :
  (takes sel
   == takes_of_type h LEFTOVER sel + takes_of_type h PERISHABLE sel
      + takes_of_type h NON_PERISHABLE sel)%Q.
Proof.
  unfold takes_of_type.
  induction sel as [|e sel IH]; simpl; [rewrite takes_nil; lra|].
  rewrite takes_cons, IH.
  destruct (FoodItem.food_type (Heap.get h (fst e))); simpl;
    rewrite takes_cons; lra.
Qed.

Lemma record_consumption_total (h : Heap.t) (sel : selection) (dc : ByType.t Q) (et : Q) :
  (consumption_total (fst (Household.record_consumption h sel (dc, et)))
   == consumption_total dc + takes sel)%Q.
Proof.
  destruct (record_consumption_spec h sel dc et) as [H _].
  pose proof (H LEFTOVER) as H1. pose proof (H PERISHABLE) as H2.
  pose proof (H NON_PERISHABLE) as H3.
  unfold consumption_total, ByType.values. rewrite !Qsum_three.
  unfold ByType.get in H1, H2, H3. rewrite H1, H2, H3, (takes_by_types h sel). ring.
Qed.

(** What a meal does to the counters of the household. *)
Lemma eat_meal_counters (pm : PlannedMeal.t) (hh hh1 : Household.t) (w w1 : World.t) :
  Household.eat_meal pm hh w = Ok (hh1, w1) ->
  exists (sel : selection) (p1 : Pantry.t) (wc : World.t),
    Meal.consume (Household.consumption_strategy hh)
      (MealPlanningStrategy.plan_meal (Household.meal_planning_strategy hh) pm
         (World.heap w) (Household.pantry hh))
      (Household.pantry hh) w = Ok (sel, p1, wc)
    /\ Household.meals_eaten_today hh1 = Household.meals_eaten_today hh + 1
    /\ (Household.daily_plate_waste hh1
        == Household.daily_plate_waste hh
           + FixedPercentageWasteCalculator.waste_percentage
               (Household.plate_waste_generator hh) * takes sel)%Q
    /\ (consumption_total (Household.daily_consumption hh1)
        == consumption_total (Household.daily_consumption hh) + takes sel)%Q
    /\ ((0 < FixedPercentageLeftoverGenerator.leftover_percentage
               (Household.leftover_generator hh) * takes sel)%Q ->
        (Household.daily_leftovers_generated hh1
         == Household.daily_leftovers_generated hh
            + FixedPercentageLeftoverGenerator.leftover_percentage
                (Household.leftover_generator hh) * takes sel)%Q)
    /\ ((FixedPercentageLeftoverGenerator.leftover_percentage
           (Household.leftover_generator hh) * takes sel <= 0)%Q ->
        Household.daily_leftovers_generated hh1 = Household.daily_leftovers_generated hh
        /\ Household.pantry hh1 = p1 /\ w1 = wc).
Proof.
  unfold Household.eat_meal. cbv zeta. intros H.
  destruct (Meal.consume _ _ _ _) as [[[sel p1] wc]|]; cbn [rbind] in H;
    [|discriminate H].
  exists sel, p1, wc. split; [reflexivity|].
  destruct (Household.plate_waste_generator hh) as [wpct] eqn:Ewg.
  destruct (Household.leftover_generator hh) as [lpct] eqn:Elg.
  cbn [FixedPercentageWasteCalculator.waste_percentage
       FixedPercentageLeftoverGenerator.leftover_percentage].
  pose proof (leftovers_fold lpct sel
                (FixedPercentageWasteCalculator.compute_plate_waste
                   (FixedPercentageWasteCalculator.mk wpct) sel)) as Hl.
  pose proof (plate_waste_fold wpct sel (Household.daily_plate_waste hh)) as Hw.
  destruct (Qltb 0 _) eqn:El.
  - apply Qltb_lt in El.
    destruct (FoodItem_new _ _ _ _ _ _) as [[r h2]|]; cbn [rbind] in H;
      [|discriminate H].
    pose proof (record_consumption_total h2 sel (Household.daily_consumption hh)
                  (Household.daily_emergency_takeouts hh)) as Hc.
    destruct (Household.record_consumption _ _ _) as [dc et].
    injection H as <- <-. simpl. cbn [fst] in Hc.
    split; [reflexivity|]. split; [exact Hw|]. split; [exact Hc|].
    split; [intros _; rewrite Hl; reflexivity|]. intros Hle. lra.
  - apply Qltb_ge in El. cbn [rbind] in H.
    pose proof (record_consumption_total (World.heap wc) sel
                  (Household.daily_consumption hh)
                  (Household.daily_emergency_takeouts hh)) as Hc.
    destruct (Household.record_consumption _ _ _) as [dc et].
    injection H as <- <-. simpl. cbn [fst] in Hc.
    split; [reflexivity|]. split; [exact Hw|]. split; [exact Hc|].
    split; [intros Hlt; lra|]. intros _. destruct wc; auto.
Qed.

Lemma eat_meals_counters :
  forall (meals : list PlannedMeal.t) (hh hh1 : Household.t) (w w1 : World.t),
    Household.eat_meals meals hh w = Ok (hh1, w1) ->
    Household.meals_eaten_today hh1
    = Household.meals_eaten_today hh + Z.of_nat (length meals)
    /\ (Household.daily_plate_waste hh1
        - FixedPercentageWasteCalculator.waste_percentage
            (Household.plate_waste_generator hh)
          * consumption_total (Household.daily_consumption hh1)
        == Household.daily_plate_waste hh
           - FixedPercentageWasteCalculator.waste_percentage
               (Household.plate_waste_generator hh)
             * consumption_total (Household.daily_consumption hh))%Q.
Proof.
  induction meals as [|pm meals IH]; intros hh hh1 w w1 H; simpl in H.
  - injection H as <- <-. simpl. split; [lia | reflexivity].
  - destruct (Household.eat_meal pm hh w) as [[hh0 w0]|] eqn:E; cbn [rbind] in H;
      [|discriminate H].
    pose proof (eat_meal_policies pm hh hh0 w w0 E)
      as (_ & _ & _ & _ & _ & _ & _ & Hg & _).
    apply eat_meal_counters in E as (sel & p1 & wc & _ & Hn & Hw & Hc & _).
    apply IH in H as [Hn' Hw']. rewrite Hg in Hw'.
    split; [rewrite Hn', Hn; cbn [length]; lia|].
    rewrite Hw', Hw, Hc. ring.
Qed.

(** X19: [daily_step] follows the weekly plan.  Before [start_of_week]
    has been called it raises [AttributeError]; when the plan has no day
    left it raises [IndexError] (and the counters of the day have been reset
    by then); a call that returns has taken the first day off the plan,
    eaten every meal planned for that day ([meals_eaten_today] is their
    number) and appended its record to [history]. *)
Theorem daily_step_follows_the_plan (pow_half : Q -> Q) (hh : Household.t)
    (w : World.t) :
  (Household.weekly_meals hh = None ->
   Household.daily_step pow_half hh w = Raise AttributeError)
  /\ (Household.weekly_meals hh = Some [] ->
      Household.daily_step pow_half hh w = Raise IndexError)
  /\ (forall rec hh' w',
        Household.daily_step pow_half hh w = Ok (rec, hh', w') ->
        exists meals rest,
          Household.weekly_meals hh = Some (meals :: rest)
          /\ Household.weekly_meals hh' = Some rest
          /\ DailyRecord.meals_eaten_today rec = Z.of_nat (length meals)
          /\ Household.history hh' = Household.history hh ++ [rec]).
Proof.
  split; [|split].
  - intros E. unfold Household.daily_step. cbv zeta.
    change (Household.weekly_meals (Household.set_counters hh _ _ _ _ _))
      with (Household.weekly_meals hh). now rewrite E.
  - intros E. unfold Household.daily_step. cbv zeta.
    change (Household.weekly_meals (Household.set_counters hh _ _ _ _ _))
      with (Household.weekly_meals hh). now rewrite E.
  - intros rec hh' w' H.
    apply daily_step_record in H
      as (meals & rest & hh1 & w1 & Ew & Em & Hn & _ & _ & _ & _ & Hwm & Hh & _).
    exists meals, rest. split; [exact Ew|].
    pose proof (eat_meals_policies meals _ _ _ _ Em)
      as (_ & Hhist & _ & _ & _ & _ & _ & _ & Hweek).
    apply eat_meals_counters in Em as [Hcount _].
    simpl in Hhist, Hweek, Hcount.
    split; [now rewrite Hwm, Hweek|]. split; [now rewrite Hn, Hcount|].
    now rewrite Hh, Hhist.
Qed.

(** X20: plate waste is a fixed share of all that was eaten.  In the record
    of every [daily_step], [daily_plate_waste] is the waste percentage of
    the household times the total of [daily_consumption] over the three food
    types, emergency takeout included; the waste is not taken off the
    consumption. *)
Theorem plate_waste_is_a_share_of_consumption (pow_half : Q -> Q)
    (hh hh' : Household.t) (w w' : World.t) (rec : DailyRecord.t) :
  Household.daily_step pow_half hh w = Ok (rec, hh', w') ->
  (DailyRecord.daily_plate_waste rec
   == FixedPercentageWasteCalculator.waste_percentage
        (Household.plate_waste_generator hh)
      * consumption_total (DailyRecord.daily_consumption rec))%Q.
Proof.
  intros H.
  apply daily_step_record in H
    as (meals & rest & hh1 & w1 & _ & Em & _ & Hc & _ & Hw & _).
  apply eat_meals_counters in Em as [_ Hbal].
  cbn [at_breakfast Household.plate_waste_generator Household.set_weekly_meals
       Household.set_counters Household.daily_plate_waste
       Household.daily_consumption] in Hbal.
  rewrite Hw, Hc.
  assert (H0 : (consumption_total (ByType.const 0) == 0)%Q) by reflexivity.
  rewrite H0 in Hbal. lra.
Qed.

Lemma plate_waste_is_a_share_of_consumption_witness :
  exists (rec : DailyRecord.t) (hh' : Household.t) (w' : World.t),
    Household.daily_step (fun x => x)
      (stocked_household (MealPlanningStrategy.Proportional (1 # 2))) stocked_world
    = Ok (rec, hh', w')
    /\ (consumption_total (DailyRecord.daily_consumption rec) == 1000)%Q
    /\ (DailyRecord.daily_plate_waste rec == (1 # 20) * 1000)%Q.
Proof.
  destruct (Household.daily_step (fun x => x)
              (stocked_household (MealPlanningStrategy.Proportional (1 # 2)))
              stocked_world) as [[[rec hh'] w']|e] eqn:E;
    [|vm_compute in E; discriminate E].
  exists rec, hh', w'. split; [reflexivity|].
  pose proof (plate_waste_is_a_share_of_consumption (fun x => x)
                (stocked_household (MealPlanningStrategy.Proportional (1 # 2)))
                hh' stocked_world w' rec E) as Hw.
  assert (Hc : (consumption_total (DailyRecord.daily_consumption rec) == 1000)%Q).
  { vm_compute in E. injection E as <- _ _. vm_compute. reflexivity. }
  split; [exact Hc|]. rewrite Hw, Hc. reflexivity.
Defined.

(** X21: the stored masses of a record add up: [total_food_stored]
    ([Pantry.get_total]) is the sum of [leftovers_stored],
    [perishables_stored] and [non_perishables_stored]
    ([Pantry.get_total_by_type] for the three food types), all taken at the
    end of the day, after aging and ordering. *)
Theorem stored_masses_add_up (pow_half : Q -> Q) (hh hh' : Household.t)
    (w w' : World.t) (rec : DailyRecord.t) :
  Household.daily_step pow_half hh w = Ok (rec, hh', w') ->
  (DailyRecord.total_food_stored rec
   == DailyRecord.leftovers_stored rec + DailyRecord.perishables_stored rec
      + DailyRecord.non_perishables_stored rec)%Q
  /\ DailyRecord.total_food_stored rec
     = Pantry.get_total (World.heap w') (Household.pantry hh').
Proof.
  intros H.
  apply daily_step_record in H
    as (meals & rest & hh1 & w1 & _ & _ & _ & _ & _ & _ & _ & _ & _
        & Ht & Hp & Hn & Hl).
  split; [|exact Ht]. rewrite Ht, Hp, Hn, Hl. apply get_total_by_types.
Qed.

Lemma stored_masses_add_up_witness :
  exists (rec : DailyRecord.t) (hh' : Household.t) (w' : World.t),
    Household.daily_step (fun x => x)
      (stocked_household (MealPlanningStrategy.Proportional (1 # 2))) stocked_world
    = Ok (rec, hh', w')
    /\ (DailyRecord.leftovers_stored rec == 60)%Q
    /\ (DailyRecord.perishables_stored rec == 1010)%Q
    /\ (DailyRecord.non_perishables_stored rec == 1010)%Q
    /\ (DailyRecord.total_food_stored rec == 60 + 1010 + 1010)%Q.
Proof.
  destruct (Household.daily_step (fun x => x)
              (stocked_household (MealPlanningStrategy.Proportional (1 # 2)))
              stocked_world) as [[[rec hh'] w']|e] eqn:E;
    [|vm_compute in E; discriminate E].
  exists rec, hh', w'. split; [reflexivity|].
  pose proof (proj1 (stored_masses_add_up (fun x => x)
                       (stocked_household (MealPlanningStrategy.Proportional (1 # 2)))
                       hh' stocked_world w' rec E)) as Ht.
  assert (Hs : (DailyRecord.leftovers_stored rec == 60)%Q
               /\ (DailyRecord.perishables_stored rec == 1010)%Q
               /\ (DailyRecord.non_perishables_stored rec == 1010)%Q).
  { vm_compute in E. injection E as <- _ _. vm_compute. repeat split. }
  destruct Hs as (Hl & Hp & Hn).
  split; [exact Hl|]. split; [exact Hp|]. split; [exact Hn|].
  rewrite Ht, Hl, Hp, Hn. reflexivity.
Defined.

(** ** Meal.choose_food_to_eat: the selection adds up to the request *)

Lemma requested_cons (ft : FoodType) (amount : Q) (rest : Meal.patterns) :
  (requested ((ft, amount) :: rest) == amount + requested rest)%Q.
Proof. unfold requested. simpl. apply Qsum_cons. Qed.

Lemma shortfall_cons (h : Heap.t) (p : Pantry.t) (ft : FoodType) (amount : Q)
    (rest : Meal.patterns) :
  (shortfall h p ((ft, amount) :: rest)
   == Qmax_py 0 (amount - Pantry.get_total_by_type h p ft) + shortfall h p rest)%Q.
Proof. unfold shortfall. simpl. apply Qsum_cons. Qed.

Lemma Qmax_py_0_Qeq (x y : Q) : (x == y)%Q -> (Qmax_py 0 x == Qmax_py 0 y)%Q.
Proof.
  intros E.
  destruct (Qmax_py_spec 0 x) as [[-> H1]|[-> H1]];
    destruct (Qmax_py_spec 0 y) as [[-> H2]|[-> H2]]; lra.
Qed.

Lemma shortfall_ext (h h' : Heap.t) (p p' : Pantry.t) (patterns : Meal.patterns) :
  (forall ft, ft ∈ map fst patterns ->
              (Pantry.get_total_by_type h' p' ft == Pantry.get_total_by_type h p ft)%Q) ->
  (shortfall h' p' patterns == shortfall h p patterns)%Q.
Proof.
  induction patterns as [|[ft a] rest IH]; intros H; [reflexivity|].
  rewrite !shortfall_cons, IH.
  - rewrite (Qmax_py_0_Qeq (a - Pantry.get_total_by_type h' p' ft)
               (a - Pantry.get_total_by_type h p ft)); [reflexivity|].
    rewrite H; [reflexivity | left].
  - intros ft' Hft'. apply H. now right.
Qed.

Lemma built_since_app (n : nat) (s1 s2 : selection) :
  built_since n (s1 ++ s2) = built_since n s1 ++ built_since n s2.
Proof. unfold built_since. apply List.filter_app. Qed.

Lemma built_since_old (n : nat) (sel : selection) :
  Forall (fun e => (fst e < n)%nat) sel -> built_since n sel = [].
Proof.
  intros H. unfold built_since.
  induction H as [|e sel He _ IH]; simpl; [reflexivity|].
  destruct (Nat.leb_spec n (fst e)); [lia | exact IH].
Qed.

Lemma choose_loop_totals (strategy : ConsumptionStrategy.t) (n0 : nat) :
  forall (patterns : Meal.patterns) (acc : selection) (p : Pantry.t) (w : World.t)
         (sel : selection) (p' : Pantry.t) (w' : World.t),
    NoDup (map fst patterns) ->
    NoDup (Pantry.all_items p) ->
    (forall r, r ∈ Pantry.all_items p -> (r < n0)%nat) ->
    (n0 <= Heap.next (World.heap w))%nat ->
    nonneg_quantities (World.heap w) (Pantry.all_items p) ->
    Forall (fun e => (0 <= snd e)%Q) patterns ->
    Meal.choose_loop strategy patterns acc p w = Ok (sel, p', w') ->
    exists sel2,
      sel = acc ++ sel2
      /\ (takes sel2 == requested patterns)%Q
      /\ (takes (built_since n0 sel2) == shortfall (World.heap w) p patterns)%Q
      /\ Forall (fun e => (0 <= snd e)%Q) sel2.
Proof.
  induction patterns as [|[ft amount] rest IH];
    intros acc p w sel p' w' Hkeys Hnd Hlt Hn0 Hq Hamt E.
  - simpl in E. injection E as <- <- <-. exists []. rewrite app_nil_r.
    repeat split; constructor.
  - simpl in Hkeys. apply NoDup_cons in Hkeys as [Hft Hkeys].
    apply Forall_cons in Hamt as [Ha Hamt]. cbn [snd] in Ha.
    set (h := World.heap w) in *.
    assert (HqL : nonneg_quantities h (Pantry.get_items_by_type p ft)).
    { unfold nonneg_quantities in *. rewrite Forall_forall in *. intros r Hr.
      apply Hq. apply all_items_elem. eauto. }
    destruct (select_food_spec strategy h p ft amount (World.rng w)
                (all_items_NoDup p Hnd ft))
      as (sel1 & l1 & g1 & gone1 & E1 & HP1 & _ & Hok1 & _).
    destruct (select_food_total_any strategy h p ft amount (World.rng w)
                (all_items_NoDup p Hnd ft) HqL Ha)
      as (sel1' & p1' & g1' & E1' & Hfull & Hall & Hpos1).
    rewrite E1 in E1'. injection E1' as <- <- <-.
    cbn [Meal.choose_loop] in E. fold h in E. rewrite E1 in E. cbn [rbind] in E.
    set (p1 := Pantry.set_items_by_type p ft l1) in *.
    change (Qsum (map snd sel1)) with (takes sel1) in E.
    set (rem := (amount - takes sel1)%Q) in *.
    set (avail := Pantry.get_total_by_type h p ft) in *.
    pose proof (all_items_set_Permutation p ft gone1 l1 HP1) as HPall.
    fold p1 in HPall.
    assert (Hnd_p1 : NoDup (Pantry.all_items p1)).
    { rewrite HPall in Hnd. now apply NoDup_app in Hnd as (_ & _ & ?). }
    assert (Hsub_all : forall x, x ∈ Pantry.all_items p1 -> x ∈ Pantry.all_items p).
    { intros x Hx. rewrite HPall. apply elem_of_app. now right. }
    assert (Hold1 : Forall (fun e => (fst e < n0)%nat) sel1).
    { rewrite Forall_forall in *. intros e He. destruct (Hok1 e He) as [Hm _].
      apply Hlt, all_items_elem. eauto. }
    assert (Hshort : (Qmax_py 0 (amount - avail) == Qmax_py 0 rem)%Q).
    { unfold rem. destruct (Qlt_le_dec avail amount) as [Hlt'|Hge].
      - apply Qmax_py_0_Qeq. rewrite Hall; [reflexivity | lra].
      - specialize (Hfull Hge).
        destruct (Qmax_py_spec 0 (amount - avail)) as [[-> H1]|[-> H1]];
          destruct (Qmax_py_spec 0 (amount - takes sel1)) as [[-> H2]|[-> H2]]; lra. }
    assert (Hcont : forall (extra : selection) (h1 : Heap.t),
      heap_extends h h1 ->
      (takes extra == Qmax_py 0 rem)%Q ->
      (takes (built_since n0 extra) == Qmax_py 0 rem)%Q ->
      Forall (fun e => (0 <= snd e)%Q) extra ->
      Meal.choose_loop strategy rest ((acc ++ sel1) ++ extra) p1 (World.mk h1 g1)
      = Ok (sel, p', w') ->
      exists sel2,
        sel = acc ++ sel2
        /\ (takes sel2 == requested ((ft, amount) :: rest))%Q
        /\ (takes (built_since n0 sel2) == shortfall h p ((ft, amount) :: rest))%Q
        /\ Forall (fun e => (0 <= snd e)%Q) sel2).
    { intros extra h1 [Hn1 Hagree] Hex Hexb Hexpos E2.
      apply IH in E2 as (sel2 & -> & Ht2 & Hb2 & Hp2); try assumption.
      - exists (sel1 ++ extra ++ sel2).
        split; [now rewrite <- !app_assoc|].
        rewrite !takes_app, requested_cons, shortfall_cons, !built_since_app,
          !takes_app, (built_since_old n0 sel1 Hold1), takes_nil, Ht2, Hb2, Hex, Hexb.
        cbn [World.heap]. fold avail. rewrite Hshort.
        rewrite (shortfall_ext h h1 p p1 rest).
        + split; [|split].
          * unfold rem. destruct (Qmax_py_spec 0 (amount - takes sel1))
              as [[-> H1]|[-> H1]]; [lra|].
            destruct (Qlt_le_dec avail amount) as [Hlt'|Hge].
            -- rewrite Hall in H1 |- * by lra. lra.
            -- rewrite Hfull by exact Hge. lra.
          * lra.
          * apply Forall_app. split; [exact Hpos1|].
            apply Forall_app. split; assumption.
        + intros ft' Hft'. unfold Pantry.get_total_by_type.
          assert (Hne : ft <> ft') by (intros ->; contradiction).
          unfold p1. rewrite get_set_items_ne by exact Hne.
          rewrite (quantities_ext h h1); [reflexivity|]. apply Forall_forall.
          intros r Hr. rewrite Hagree; [reflexivity|].
          specialize (Hlt r ltac:(apply all_items_elem; eauto)). fold h in Hn0. lia.
      - intros r Hr. apply Hlt. now apply Hsub_all.
      - cbn [World.heap]. fold h in Hn0. lia.
      - cbn [World.heap]. unfold nonneg_quantities in *. rewrite Forall_forall in *.
        intros r Hr. rewrite Hagree; [apply Hq; now apply Hsub_all|].
        specialize (Hlt r (Hsub_all r Hr)). fold h in Hn0. lia. }
    destruct (Qltb 0 rem) eqn:Erem.
    + apply Qltb_lt in Erem.
      rewrite FoodItem_new_Ok in E by lia.
      destruct (Heap.alloc h (FoodItem.mk EMERGENCY_TAKEOUT PERISHABLE 0 0 rem))
        as [r0 h1] eqn:Ea.
      apply heap_alloc_spec in Ea as (-> & Hnext & Hnew & Hold).
      cbn [rbind] in E.
      assert (Hmax : Qmax_py 0 rem = rem).
      { destruct (Qmax_py_spec 0 rem) as [[-> _]|[_ H]]; [reflexivity | lra]. }
      apply (Hcont [(Heap.next h, rem)] h1).
      * split; [lia | exact Hold].
      * rewrite takes_cons, takes_nil, Hmax. cbn [snd]. ring.
      * unfold built_since. simpl.
        destruct (Nat.leb_spec n0 (Heap.next h)); [|fold h in Hn0; lia].
        rewrite takes_cons, takes_nil, Hmax. cbn [snd]. ring.
      * constructor; [cbn [snd]; lra | constructor].
      * exact E.
    + apply Qltb_ge in Erem.
      assert (Hmax : (Qmax_py 0 rem == 0)%Q).
      { destruct (Qmax_py_spec 0 rem) as [[_ H]|[-> _]]; [lra | reflexivity]. }
      apply (Hcont [] h).
      * apply heap_extends_refl.
      * now rewrite takes_nil, Hmax.
      * unfold built_since. simpl. now rewrite takes_nil, Hmax.
      * constructor.
      * rewrite app_nil_r. destruct w; exact E.
Qed.

(** [Meal.consume] never leaves a negative quantity behind. *)
Lemma consume_loop_nonneg :
  forall (sel : selection) (h h2 : Heap.t),
    Meal.consume_loop sel h = Ok h2 ->
    forall r, (0 <= FoodItem.quantity (Heap.get h r))%Q ->
              (0 <= FoodItem.quantity (Heap.get h2 r))%Q.
Proof.
  induction sel as [|[r0 a] sel IH]; intros h h2 E r Hr.
  - injection E as <-. exact Hr.
  - cbn [Meal.consume_loop] in E.
    destruct (negb (String.eqb _ _)).
    + unfold FoodItem.consume in E.
      destruct (Qltb (FoodItem.quantity (Heap.get h r0)) a) eqn:Eq;
        cbn [rbind] in E; [discriminate E|].
      apply Qltb_ge in Eq. eapply IH; [exact E|].
      destruct (Nat.eq_dec r r0) as [->|Hne].
      * rewrite heap_get_set_eq. simpl. lra.
      * now rewrite heap_get_set_ne.
    + eapply IH; eassumption.
Qed.

Lemma random_select_loop_sublist (h : Heap.t) :
  forall (fuel : nat) (cur : list ref) (amount : Q) (acc : selection) (g : Rng.t)
         (sel : selection) (l' : list ref) (g' : Rng.t),
    RandomConsumptionStrategy.select_loop fuel h cur amount acc g = Ok (sel, l', g') ->
    l' `sublist_of` cur.
Proof.
  induction fuel as [|fuel IH]; intros cur amount acc g sel l' g' E;
    cbn [RandomConsumptionStrategy.select_loop] in E.
  - now injection E as _ <- _.
  - destruct (Qltb 0 amount && negb (length cur =? 0)%nat);
      [|now injection E as _ <- _].
    destruct (Rng.choice_index (length cur) g) as [i g1].
    destruct (Qle_bool _ amount).
    + destruct (list_remove _ cur) as [l1|] eqn:E1; cbn [rbind] in E;
        [|discriminate E].
      apply list_remove_sublist in E1. etrans; [eapply IH, E | exact E1].
    + eapply IH, E.
Qed.

Lemma select_food_sublist (strategy : ConsumptionStrategy.t) (h : Heap.t)
    (p p' : Pantry.t) (ft : FoodType) (amount : Q) (g g' : Rng.t) (sel : selection) :
  ConsumptionStrategy.select_food strategy h p ft amount g = Ok (sel, p', g') ->
  forall ft', Pantry.get_items_by_type p' ft' `sublist_of` Pantry.get_items_by_type p ft'.
Proof.
  assert (HR : forall g0,
            RandomConsumptionStrategy.select_food h p ft amount g0 = Ok (sel, p', g') ->
            forall ft', Pantry.get_items_by_type p' ft'
                        `sublist_of` Pantry.get_items_by_type p ft').
  { intros g0 E ft'. unfold RandomConsumptionStrategy.select_food in E.
    destruct (RandomConsumptionStrategy.select_loop _ _ _ _ _ _)
      as [[[s l] g1]|] eqn:El; cbn [rbind] in E; [|discriminate E].
    injection E as _ <- _. apply random_select_loop_sublist in El.
    destruct (decide (ft = ft')) as [<-|Hne].
    - now rewrite get_set_items_eq.
    - now rewrite get_set_items_ne. }
  unfold ConsumptionStrategy.select_food. destruct strategy as [| |fifo].
  - unfold BasicConsumptionStrategy.select_food. intros [= _ <- _] ft'. reflexivity.
  - apply HR.
  - destruct (Rng.random g) as [u g1]. destruct (Qltb u fifo); [|apply HR].
    unfold BasicConsumptionStrategy.select_food. intros [= _ <- _] ft'. reflexivity.
Qed.

Lemma choose_loop_sublist (strategy : ConsumptionStrategy.t) :
  forall (patterns : Meal.patterns) (acc : selection) (p : Pantry.t) (w : World.t)
         (sel : selection) (p' : Pantry.t) (w' : World.t),
    Meal.choose_loop strategy patterns acc p w = Ok (sel, p', w') ->
    forall ft, Pantry.get_items_by_type p' ft `sublist_of` Pantry.get_items_by_type p ft.
Proof.
  induction patterns as [|[ft0 amount] rest IH]; intros acc p w sel p' w' E ft.
  - simpl in E. now injection E as _ <- _.
  - cbn [Meal.choose_loop] in E.
    destruct (ConsumptionStrategy.select_food _ _ _ _ _ _) as [[[s1 p1] g1]|] eqn:E1;
      cbn [rbind] in E; [|discriminate E].
    pose proof (select_food_sublist _ _ _ _ _ _ _ _ _ E1 ft) as H1.
    destruct (Qltb 0 _).
    + destruct (FoodItem_new _ _ _ _ _ _) as [[r h1]|]; cbn [rbind] in E;
        [|discriminate E].
      etrans; [eapply IH, E | exact H1].
    + etrans; [eapply IH, E | exact H1].
Qed.

(** [Meal.consume] on a well-formed pantry without negative quantities, for
    a pattern of non-negative amounts: the selection adds up to the request,
    the entries named "Emergency Takeout" add up to what the pantry could not
    supply, and the pantry is again well formed, without negative
    quantities. *)
Lemma meal_consume_ledger (strategy : ConsumptionStrategy.t)
    (patterns : Meal.patterns) (p : Pantry.t) (w : World.t) :
  NoDup (map fst patterns) ->
  pantry_ok (World.heap w) p ->
  nonneg_quantities (World.heap w) (Pantry.all_items p) ->
  Forall (fun e => (0 <= snd e)%Q) patterns ->
  exists (sel : selection) (p' : Pantry.t) (w' : World.t),
    Meal.consume strategy patterns p w = Ok (sel, p', w')
    /\ pantry_ok (World.heap w') p'
    /\ nonneg_quantities (World.heap w') (Pantry.all_items p')
    /\ (takes sel == requested patterns)%Q
    /\ (takeout_takes (World.heap w') sel == shortfall (World.heap w) p patterns)%Q
    /\ Forall (fun e => (0 <= snd e)%Q) sel
    /\ (forall ft,
          (Pantry.get_total_by_type (World.heap w') p' ft
           == Pantry.get_total_by_type (World.heap w) p ft
              - real_takes_of_type (World.heap w') ft sel)%Q)
    /\ (forall ft x, x ∈ Pantry.get_items_by_type p' ft ->
                     x ∈ Pantry.get_items_by_type p ft)
    /\ (forall r, (r < Heap.next (World.heap w))%nat ->
          FoodItem.spoilage_date (Heap.get (World.heap w') r)
          = FoodItem.spoilage_date (Heap.get (World.heap w) r))
    /\ (Heap.next (World.heap w) <= Heap.next (World.heap w'))%nat
    /\ (forall ft, Pantry.get_items_by_type p' ft
                   `sublist_of` Pantry.get_items_by_type p ft)
    /\ Forall (fun e => (fst e < Heap.next (World.heap w'))%nat) sel.
Proof.
  intros Hkeys [Hwf Hnames] Hq Hamt.
  destruct (meal_consume_spec strategy patterns p w Hkeys Hwf Hnames)
    as (sel & p' & w' & E & Hwf' & Hn' & _ & Hnx & Hfields & Hsub & Htot & _ & Hent).
  exists sel, p', w'. split; [exact E|]. split; [split; assumption|].
  pose proof Hwf as (Hnd & _ & Hlt).
  unfold Meal.consume, Meal.choose_food_to_eat in E.
  destruct (Meal.choose_loop strategy patterns [] p w) as [[[sel0 p0] w1]|] eqn:E1;
    cbn [rbind] in E; [|discriminate E].
  destruct (Meal.consume_loop sel0 (World.heap w1)) as [h2|] eqn:E2;
    cbn [rbind] in E; [|discriminate E].
  injection E as -> -> <-. cbn [World.heap] in *.
  destruct (choose_loop_spec strategy patterns [] p w Hkeys Hnd Hlt)
    as (sel' & p1' & w1' & E1' & [_ Hold] & _ & Hgone & _).
  rewrite E1 in E1'. injection E1' as <- <- <-.
  destruct (choose_loop_totals strategy (Heap.next (World.heap w)) patterns [] p w
              sel p' w1 Hkeys Hnd Hlt (le_n _) Hq Hamt E1)
    as (sel2 & Hsel & Htakes & Hbuilt & Hpos).
  simpl in Hsel. subst sel2.
  split.
  { unfold nonneg_quantities in *. rewrite Forall_forall in *. intros r Hr.
    assert (Hall : r ∈ Pantry.all_items p).
    { apply all_items_elem in Hr as [ft Hr]. apply all_items_elem. eauto. }
    apply (consume_loop_nonneg sel _ _ E2). rewrite Hold by (now apply Hlt).
    now apply Hq. }
  split; [exact Htakes|]. split.
  { rewrite <- Hbuilt. unfold takeout_takes, built_since.
    rewrite (List.filter_ext_in (is_takeout h2)
               (fun e => (Heap.next (World.heap w) <=? fst e)%nat) sel);
      [reflexivity|].
    intros e He. rewrite Forall_forall in Hent.
    destruct (Hent e (proj2 (list_elem_of_In _ _) He)) as [[Hall Ht]|[[Hl _] Hget]].
    - rewrite Ht. specialize (Hlt _ Hall).
      destruct (Nat.leb_spec (Heap.next (World.heap w)) (fst e)); [lia | reflexivity].
    - unfold is_takeout. rewrite Hget. simpl.
      destruct (Nat.leb_spec (Heap.next (World.heap w)) (fst e)); [reflexivity | lia]. }
  split; [exact Hpos|]. split; [exact Htot|]. split; [exact Hsub|].
  split; [intros r Hr; now apply Hfields|]. split; [exact Hnx|].
  split; [intros ft; apply (choose_loop_sublist strategy patterns [] p w _ _ _ E1)|].
  rewrite Forall_forall in *. intros e He.
  destruct (Hent e He) as [[Hall _]|[[_ Hl] _]]; [|exact Hl].
  specialize (Hlt _ Hall). lia.
Qed.

(** ** A meal of the household *)

Lemma add_item_keeps_order (h : Heap.t) (p : Pantry.t) (item : ref) :
  sorted_by (spoilage_key h)
    (Pantry.get_items_by_type (Pantry.add_item h p item)
       (FoodItem.food_type (Heap.get h item)))
  /\ (forall ft, ft <> FoodItem.food_type (Heap.get h item) ->
        Pantry.get_items_by_type (Pantry.add_item h p item) ft
        = Pantry.get_items_by_type p ft).
Proof.
  unfold Pantry.add_item. rewrite get_set_items_eq. split.
  - apply sort_by_key_sorted.
  - intros ft Hne. apply get_set_items_ne. congruence.
Qed.



Lemma sorted_by_sublist (key : ref -> Z) (l' l : list ref) :
  l' `sublist_of` l -> sorted_by key l -> sorted_by key l'.
Proof.
  induction 1 as [|x l1 l2 Hsub IH|x l1 l2 Hsub IH]; intros Hs.
  - exact I.
  - destruct Hs as [Hx Hs]. split; [|now apply IH].
    rewrite Forall_forall in *. intros y Hy. apply Hx.
    eapply elem_of_sublist; eassumption.
  - destruct Hs as [_ Hs]. now apply IH.
Qed.

Lemma sorted_by_ext (key key' : ref -> Z) (l : list ref) :
  (forall x, x ∈ l -> key' x = key x) -> sorted_by key l -> sorted_by key' l.
Proof.
  intros H. apply sorted_by_mono. intros x y Hx Hy. rewrite (H x Hx), (H y Hy). auto.
Qed.

Lemma get_total_by_type_nonneg (h : Heap.t) (p : Pantry.t) (ft : FoodType) :
  nonneg_quantities h (Pantry.all_items p) ->
  (0 <= Pantry.get_total_by_type h p ft)%Q.
Proof.
  intros Hq. apply quantities_nonneg. unfold nonneg_quantities in *.
  rewrite Forall_forall in *. intros r Hr. apply Hq, all_items_elem. eauto.
Qed.

Lemma plan_meal_requested (strategy : MealPlanningStrategy.t) (pm : PlannedMeal.t)
    (h : Heap.t) (p : Pantry.t) :
  (requested (MealPlanningStrategy.plan_meal strategy pm h p)
   == PlannedMeal.total_grams pm)%Q.
Proof.
  unfold requested. destruct strategy as [|prop]; simpl.
  - unfold FreshFirstStrategy.plan_meal; simpl. rewrite Qsum_three. lra.
  - unfold ProportionalConsumptionStrategy.plan_meal.
    destruct (Qle_bool _ _); simpl; rewrite Qsum_three; lra.
Qed.

Lemma plan_meal_nonneg (strategy : MealPlanningStrategy.t) (pm : PlannedMeal.t)
    (h : Heap.t) (p : Pantry.t) :
  sensible_plan strategy ->
  (0 <= PlannedMeal.total_grams pm)%Q ->
  nonneg_quantities h (Pantry.all_items p) ->
  Forall (fun e => (0 <= snd e)%Q) (MealPlanningStrategy.plan_meal strategy pm h p).
Proof.
  intros Hs Ht Hq.
  pose proof (get_total_by_type_nonneg h p LEFTOVER Hq) as HL.
  pose proof (get_total_by_type_nonneg h p PERISHABLE Hq) as HP.
  destruct strategy as [|prop]; simpl in *.
  - unfold FreshFirstStrategy.plan_meal. cbv zeta.
    set (L := Pantry.get_total_by_type h p LEFTOVER) in *.
    set (P := Pantry.get_total_by_type h p PERISHABLE) in *.
    set (T := PlannedMeal.total_grams pm) in *.
    destruct (Qmin_py_spec L T) as [[E1 H1]|[E1 H1]]; rewrite E1;
      repeat constructor; cbn [snd]; try lra;
      match goal with
      | |- context [Qmin_py P ?x] =>
          destruct (Qmin_py_spec P x) as [[E2 H2]|[E2 H2]]; rewrite ?E2; lra
      end.
  - unfold ProportionalConsumptionStrategy.plan_meal. cbv zeta.
    set (L := Pantry.get_total_by_type h p LEFTOVER) in *.
    set (P := Pantry.get_total_by_type h p PERISHABLE) in *.
    set (T := PlannedMeal.total_grams pm) in *.
    destruct (Qmin_py_spec L T) as [[E1 H1]|[E1 H1]]; rewrite E1;
      destruct (Qle_bool P _) eqn:E2;
      try (apply Qle_bool_iff in E2); try (apply Qle_bool_false in E2);
      repeat constructor; cbn [snd]; nra.
Qed.

(** A meal of a household whose pantry is sound: [eat_meal] returns, the
    pantry is sound again, all of the planned mass is eaten, and the
    emergency takeout is what the pantry could not supply of the pattern. *)
Lemma eat_meal_sound (pm : PlannedMeal.t) (hh : Household.t) (w : World.t) :
  pantry_sound (World.heap w) (Household.pantry hh) ->
  sensible_plan (Household.meal_planning_strategy hh) ->
  (0 <= PlannedMeal.total_grams pm)%Q ->
  exists (hh1 : Household.t) (w1 : World.t),
    Household.eat_meal pm hh w = Ok (hh1, w1)
    /\ pantry_sound (World.heap w1) (Household.pantry hh1)
    /\ same_policies hh hh1
    /\ (consumption_total (Household.daily_consumption hh1)
        == consumption_total (Household.daily_consumption hh)
           + PlannedMeal.total_grams pm)%Q
    /\ (Household.daily_emergency_takeouts hh1
        == Household.daily_emergency_takeouts hh
           + shortfall (World.heap w) (Household.pantry hh)
               (MealPlanningStrategy.plan_meal (Household.meal_planning_strategy hh)
                  pm (World.heap w) (Household.pantry hh)))%Q
    /\ ((0 <= FixedPercentageLeftoverGenerator.leftover_percentage
                (Household.leftover_generator hh))%Q ->
        (Household.daily_leftovers_generated hh1
         == Household.daily_leftovers_generated hh
            + FixedPercentageLeftoverGenerator.leftover_percentage
                (Household.leftover_generator hh) * PlannedMeal.total_grams pm)%Q).
Proof.
  intros (Hok & Hq & Hsorted) Hplan Hgrams.
  set (patterns := MealPlanningStrategy.plan_meal
                     (Household.meal_planning_strategy hh) pm (World.heap w)
                     (Household.pantry hh)).
  destruct (meal_consume_ledger (Household.consumption_strategy hh) patterns
              (Household.pantry hh) w (plan_meal_keys _ _ _ _) Hok Hq
              (plan_meal_nonneg _ _ _ _ Hplan Hgrams Hq))
    as (sel & p1 & wc & E & Hok1 & Hq1 & Htakes & Hto & Hpos & _ & Hsub & Hsd & Hnx
        & Hsl & Hbound).
  unfold patterns in Htakes. rewrite plan_meal_requested in Htakes.
  set (h := World.heap w) in *. set (hc := World.heap wc) in *.
  pose proof Hok as [(_ & _ & Hlt) _]. pose proof Hok1 as [(Hnd1 & Hty1 & Hlt1) Hn1].
  assert (Hsorted1 : forall ft, sorted_by (spoilage_key hc) (Pantry.get_items_by_type p1 ft)).
  { intros ft. apply (sorted_by_ext (spoilage_key h)).
    - intros x Hx. unfold spoilage_key. apply Hsd, Hlt, all_items_elem.
      exists ft. now apply Hsub.
    - eapply sorted_by_sublist; [apply Hsl | apply Hsorted]. }
  destruct (Household.eat_meal pm hh w) as [[hh1 w1]|e] eqn:Eeat.
  2:{ exfalso. unfold Household.eat_meal in Eeat. cbv zeta in Eeat.
      fold h patterns in Eeat. rewrite E in Eeat. cbn [rbind] in Eeat.
      destruct (Qltb 0 _) in Eeat.
      - rewrite FoodItem_new_Ok in Eeat by lia.
        destruct (Heap.alloc _ _) in Eeat. cbn [rbind] in Eeat.
        destruct (Household.record_consumption _ _ _) in Eeat. discriminate Eeat.
      - cbn [rbind] in Eeat.
        destruct (Household.record_consumption _ _ _) in Eeat. discriminate Eeat. }
  exists hh1, w1. split; [reflexivity|].
  pose proof (eat_meal_policies pm hh hh1 w w1 Eeat) as Hpol.
  pose proof (eat_meal_counters pm hh hh1 w w1 Eeat)
    as (sel' & p1' & wc' & E' & _ & _ & Hc & Hlpos & Hlneg).
  fold h patterns in E'. rewrite E in E'. injection E' as <- <- <-.
  rewrite Htakes in Hc, Hlpos, Hlneg.
  unfold Household.eat_meal in Eeat. cbv zeta in Eeat.
  fold h patterns in Eeat. rewrite E in Eeat. cbn [rbind] in Eeat. fold hc in Eeat.
  set (lh := FixedPercentageLeftoverGenerator.compute_leftovers _ _ _) in Eeat.
  assert (Hemergency : forall h2 dc' et',
            heap_extends hc h2 ->
            Household.record_consumption h2 sel
              (Household.daily_consumption hh, Household.daily_emergency_takeouts hh)
            = (dc', et') ->
            (et' == Household.daily_emergency_takeouts hh
                    + shortfall h (Household.pantry hh) patterns)%Q).
  { intros h2 dc' et' [_ Hold] Erc.
    destruct (record_consumption_spec h2 sel (Household.daily_consumption hh)
                (Household.daily_emergency_takeouts hh)) as [_ H2].
    rewrite Erc in H2. cbn [snd] in H2. rewrite H2, <- Hto.
    unfold takeout_takes.
    rewrite (List.filter_ext_in (is_takeout h2) (is_takeout hc) sel); [reflexivity|].
    intros e He%list_elem_of_In. apply is_takeout_ext.
    rewrite Forall_forall in Hbound. now rewrite Hold by (now apply Hbound). }
  assert (Hleft : (0 <= FixedPercentageLeftoverGenerator.leftover_percentage
                          (Household.leftover_generator hh))%Q ->
                  (Household.daily_leftovers_generated hh1
                   == Household.daily_leftovers_generated hh
                      + FixedPercentageLeftoverGenerator.leftover_percentage
                          (Household.leftover_generator hh)
                        * PlannedMeal.total_grams pm)%Q).
  { intros Hpct.
    destruct (Qlt_le_dec 0 (FixedPercentageLeftoverGenerator.leftover_percentage
                              (Household.leftover_generator hh)
                            * PlannedMeal.total_grams pm)) as [Hl|Hl].
    - now apply Hlpos.
    - destruct (Hlneg Hl) as (-> & _). nra. }
  destruct (Qltb 0 lh) eqn:El.
  - apply Qltb_lt in El. rewrite FoodItem_new_Ok in Eeat by lia.
    destruct (Heap.alloc hc (FoodItem.mk "leftover" LEFTOVER 2 2 lh))
      as [r h2] eqn:Ea.
    apply heap_alloc_spec in Ea as (-> & Hnext & Hnew & Hold).
    cbn [rbind] in Eeat.
    destruct (Household.record_consumption h2 sel _) as [dc' et'] eqn:Erc.
    injection Eeat as <- <-. cbn [World.heap Household.pantry Household.set_counters
      Household.set_pantry Household.daily_emergency_takeouts].
    assert (Hext : heap_extends hc h2) by (split; [lia | exact Hold]).
    assert (Hfresh : Heap.next hc ∉ Pantry.all_items p1).
    { intros Hin. specialize (Hlt1 _ Hin). lia. }
    assert (Hall2 : forall x, x ∈ Pantry.all_items (Pantry.add_item h2 p1 (Heap.next hc))
                              <-> x = Heap.next hc \/ x ∈ Pantry.all_items p1).
    { intros x. rewrite add_item_all_items. apply elem_of_cons. }
    split; [|split; [exact Hpol|split; [exact Hc|split; [|exact Hleft]]]].
    + split; [split|split].
      * apply add_item_wf;
          [eapply pantry_wf_heap_extends; [exact Hext | split; [|split]; assumption]
          | exact Hfresh | lia].
      * intros x [->|Hx]%Hall2.
        -- rewrite Hnew. simpl. discriminate.
        -- rewrite Hold by (now apply Hlt1). now apply Hn1.
      * unfold nonneg_quantities in *. rewrite Forall_forall in *.
        intros x [->|Hx]%Hall2.
        -- rewrite Hnew. simpl. lra.
        -- rewrite Hold by (now apply Hlt1). now apply Hq1.
      * intros ft.
        destruct (add_item_keeps_order h2 p1 (Heap.next hc)) as [Hs Hother].
        rewrite Hnew in Hs, Hother. cbn [FoodItem.food_type] in Hs, Hother.
        destruct (decide (ft = LEFTOVER)) as [->|Hne]; [exact Hs|].
        rewrite (Hother ft Hne). apply (sorted_by_ext (spoilage_key hc)).
        -- intros x Hx. unfold spoilage_key. rewrite Hold; [reflexivity|].
           apply Hlt1, all_items_elem. eauto.
        -- apply Hsorted1.
    + eapply Hemergency; eassumption.
  - cbn [rbind] in Eeat.
    destruct (Household.record_consumption hc sel _) as [dc' et'] eqn:Erc.
    injection Eeat as <- <-. cbn [World.heap Household.pantry Household.set_counters
      Household.set_pantry Household.daily_emergency_takeouts].
    split; [|split; [exact Hpol|split; [exact Hc|split; [|exact Hleft]]]].
    + split; [exact Hok1|]. split; [exact Hq1 | exact Hsorted1].
    + eapply Hemergency; [apply heap_extends_refl | exact Erc].
Qed.

Lemma shortfall_bounds (h : Heap.t) (p : Pantry.t) (patterns : Meal.patterns) :
  nonneg_quantities h (Pantry.all_items p) ->
  Forall (fun e => (0 <= snd e)%Q) patterns ->
  (0 <= shortfall h p patterns <= requested patterns)%Q.
Proof.
  intros Hq. induction 1 as [|[ft a] rest Ha _ IH].
  - unfold shortfall, requested. simpl. rewrite Qsum_nil. lra.
  - rewrite shortfall_cons, requested_cons. cbn [snd] in Ha.
    pose proof (get_total_by_type_nonneg h p ft Hq).
    destruct (Qmax_py_spec 0 (a - Pantry.get_total_by_type h p ft))
      as [[-> H1]|[-> H1]]; lra.
Qed.

Lemma eat_meals_sound :
  forall (meals : list PlannedMeal.t) (hh : Household.t) (w : World.t),
    pantry_sound (World.heap w) (Household.pantry hh) ->
    sensible_plan (Household.meal_planning_strategy hh) ->
    Forall (fun pm => (0 <= PlannedMeal.total_grams pm)%Q) meals ->
    exists (hh1 : Household.t) (w1 : World.t),
      Household.eat_meals meals hh w = Ok (hh1, w1)
      /\ pantry_sound (World.heap w1) (Household.pantry hh1)
      /\ same_policies hh hh1
      /\ (consumption_total (Household.daily_consumption hh1)
          == consumption_total (Household.daily_consumption hh)
             + planned_grams meals)%Q
      /\ (Household.daily_emergency_takeouts hh
          <= Household.daily_emergency_takeouts hh1
          <= Household.daily_emergency_takeouts hh + planned_grams meals)%Q
      /\ ((0 <= FixedPercentageLeftoverGenerator.leftover_percentage
                  (Household.leftover_generator hh))%Q ->
          (Household.daily_leftovers_generated hh1
           == Household.daily_leftovers_generated hh
              + FixedPercentageLeftoverGenerator.leftover_percentage
                  (Household.leftover_generator hh) * planned_grams meals)%Q).
Proof.
  induction meals as [|pm meals IH]; intros hh w Hs Hplan Hgrams.
  - exists hh, w. unfold planned_grams. simpl. rewrite Qsum_nil.
    split; [reflexivity|]. split; [exact Hs|]. split; [apply same_policies_refl|].
    split; [ring|]. split; [lra|]. intros _. ring.
  - apply Forall_cons in Hgrams as [Hpm Hgrams].
    destruct (eat_meal_sound pm hh w Hs Hplan Hpm)
      as (hh0 & w0 & E0 & Hs0 & Hpol0 & Hc0 & He0 & Hl0).
    pose proof Hpol0 as (_ & _ & _ & Hmps & _ & _ & Hlg & _).
    destruct (IH hh0 w0 Hs0 ltac:(now rewrite Hmps) Hgrams)
      as (hh1 & w1 & E1 & Hs1 & Hpol1 & Hc1 & He1 & Hl1).
    exists hh1, w1. cbn [Household.eat_meals]. rewrite E0. cbn [rbind].
    split; [exact E1|]. split; [exact Hs1|].
    split; [eapply same_policies_trans; eassumption|].
    unfold planned_grams in *. cbn [map]. rewrite Qsum_cons.
    destruct Hs as (_ & Hq & _).
    pose proof (shortfall_bounds (World.heap w) (Household.pantry hh) _ Hq
                  (plan_meal_nonneg _ pm _ _ Hplan Hpm Hq)) as Hsf.
    rewrite plan_meal_requested in Hsf.
    split; [rewrite Hc1, Hc0; ring|]. split; [lra|].
    intros Hpct. rewrite Hl1, Hl0 by (rewrite ?Hlg; exact Hpct).
    rewrite Hlg. ring.
Qed.

(** ** Soundness of the pantry through the day *)

Lemma step_sound (strategy : PantryStrategy.t) (h h' : Heap.t) (p p' : Pantry.t) :
  pantry_sound h p -> Pantry.step strategy h p = Ok (p', h') -> pantry_sound h' p'.
Proof.
  intros (Hok & Hq & Hs) E.
  destruct (step_pantry_ok strategy h h' p p' Hok E) as [Hok' _].
  destruct (step_functional strategy h p (proj1 Hok))
    as (p1 & h1 & E1 & Hl & Hin & _).
  rewrite E in E1. injection E1 as <- <-.
  split; [exact Hok'|]. split.
  - unfold nonneg_quantities in *. rewrite Forall_forall in *. intros r Hr.
    assert (Hall : r ∈ Pantry.all_items p).
    { apply all_items_elem in Hr as [ft Hr]. rewrite Hl in Hr.
      apply elem_of_List_filter in Hr as [Hr _]. apply all_items_elem. eauto. }
    rewrite (Hin r Hall). unfold aged. cbn [FoodItem.day_passes FoodItem.quantity].
    now apply Hq.
  - intros ft. rewrite Hl. apply sorted_by_filter.
    apply (sorted_by_mono (spoilage_key h)); [|apply Hs].
    intros x y Hx Hy Hle. unfold spoilage_key in *.
    rewrite (Hin x), (Hin y) by (apply all_items_elem; eauto).
    unfold aged. rewrite !day_passes_spoilage_date. lia.
Qed.

Lemma add_order_sorted (h : Heap.t) :
  forall (order : list ref) (p : Pantry.t) (total : Q),
    (forall ft, sorted_by (spoilage_key h) (Pantry.get_items_by_type p ft)) ->
    forall ft,
      sorted_by (spoilage_key h)
        (Pantry.get_items_by_type
           (snd (fold_left (fun '(total, p) item =>
                              ((total + FoodItem.quantity (Heap.get h item))%Q,
                               Pantry.add_item h p item))
                           order (total, p))) ft).
Proof.
  induction order as [|r order IH]; intros p total Hs ft; [apply Hs|].
  cbn [fold_left]. apply IH. intros ft'.
  destruct (add_item_keeps_order h p r) as [H1 H2].
  destruct (decide (ft' = FoodItem.food_type (Heap.get h r))) as [->|Hne];
    [exact H1|]. rewrite (H2 ft' Hne). apply Hs.
Qed.

Lemma get_order_order_items (store : GroceryStore.t) (ft : FoodType) (T : Q)
    (w w' : World.t) (order : list ref) :
  GroceryStore.get_order store ft T w = Ok (order, w') ->
  Forall (order_item T ft (World.heap w')) order.
Proof.
  unfold GroceryStore.get_order, GroceryStore.get_order_run. intros E.
  destruct (GroceryStore.dict_get (GroceryStore.best_before_params store) ft)
    as [[bbm bbs]|]; cbn [rbind] in E; [|discriminate E].
  destruct (GroceryStore.dict_get (GroceryStore.spoilage_date_params store) ft)
    as [[sdm sds]|]; cbn [rbind] in E; [|discriminate E].
  destruct (while_loop_from_initial ft T bbm bbs sdm sds w)
    as (s & Es & _ & [[Hneg ->]|[Hpos _]]); rewrite Es in E; cbn [rbind] in E;
    injection E as <- <-.
  - constructor.
  - apply (while_loop_items ft T bbm bbs sdm sds (int_of_Q_pos_inv T Hpos)
             (GroceryStore.enough_fuel T) (GroceryStore.initial_state T w) s);
      [constructor | constructor | exact Es].
Qed.

Lemma place_order_sound (pow_half : Q -> Q) (self self' : Household.t)
    (w w' : World.t) (a b : Q) :
  pantry_sound (World.heap w) (Household.pantry self) ->
  Household.place_order pow_half self w = Ok (a, b, self', w') ->
  pantry_sound (World.heap w') (Household.pantry self').
Proof.
  intros (Hok & Hq & Hs) H.
  pose proof (place_order_pantry_ok pow_half self self' w w' a b Hok H) as Hok'.
  split; [exact Hok'|].
  unfold Household.place_order in H.
  destruct (OrderPolicy.determine_order_quantity _ _ _ _ _) as [[pq nq] policy1].
  inv_bind H.
  destruct (GroceryStore.get_order _ PERISHABLE pq w) as [[o1 w1]|] eqn:E1;
    cbn [rbind] in H; [|discriminate H].
  destruct (GroceryStore.get_order _ NON_PERISHABLE nq w1) as [[o2 w2]|] eqn:E2;
    cbn [rbind] in H; [|discriminate H].
  pose proof (get_order_order_items _ _ _ _ _ _ E1) as Hi1.
  pose proof (get_order_order_items _ _ _ _ _ _ E2) as Hi2.
  apply get_order_fresh in E1, E2.
  destruct E1 as (Hext1 & Hnd1 & HF1). destruct E2 as (Hext2 & Hnd2 & HF2).
  set (h := World.heap w) in *. set (h1 := World.heap w1) in *.
  set (h2 := World.heap w2) in *. set (p := Household.pantry self) in *.
  pose proof Hok as [(_ & _ & Hlt) _].
  assert (Hext : heap_extends h h2) by (eapply heap_extends_trans; eassumption).
  assert (Hcell : forall r, r ∈ Pantry.all_items p -> Heap.get h2 r = Heap.get h r).
  { intros r Hr. apply Hext. now apply Hlt. }
  assert (Hq1 : Forall (fun r => (0 <= FoodItem.quantity (Heap.get h2 r))%Q) o1).
  { rewrite Forall_forall in *. intros r Hr.
    destruct (HF1 r Hr) as ([_ Hl] & _). destruct Hext2 as [_ Hold2].
    rewrite Hold2 by exact Hl.
    destruct (Hi1 r Hr) as (_ & _ & _ & n & Hn & -> & _).
    change 0%Q with (inject_Z 0). rewrite <- Zle_Qle. lia. }
  assert (Hq2 : Forall (fun r => (0 <= FoodItem.quantity (Heap.get h2 r))%Q) o2).
  { rewrite Forall_forall in *. intros r Hr.
    destruct (Hi2 r Hr) as (_ & _ & _ & n & Hn & -> & _).
    change 0%Q with (inject_Z 0). rewrite <- Zle_Qle. lia. }
  unfold Household.add_order in H.
  pose proof (pantry_ok_heap_extends _ _ _ Hext Hok) as Hok2.
  destruct (add_order_pantry_ok h2 o1 p 0%Q Hok2 Hnd1
              (order_fresh_addable _ _ _ _ _ _ (conj Hext1 (conj Hnd1 HF1)) Hext2 Hlt))
    as [Hoka Hmem1].
  pose proof (add_order_sorted h2 o1 p 0%Q) as Hsa.
  destruct (fold_left _ o1 _) as [t1 pa1]. cbn [snd] in Hoka, Hmem1, Hsa.
  assert (Hlt1 : forall r, r ∈ Pantry.all_items pa1 -> (r < Heap.next h1)%nat).
  { intros r [Hr|Hr]%Hmem1.
    - apply Hlt in Hr. destruct Hext1. lia.
    - rewrite Forall_forall in HF1. destruct (HF1 r Hr) as [? _]. lia. }
  destruct (add_order_pantry_ok h2 o2 pa1 0%Q Hoka Hnd2
              (order_fresh_addable _ _ _ _ _ _ (conj Hext2 (conj Hnd2 HF2))
                 (heap_extends_refl _) Hlt1)) as [_ Hmem2].
  pose proof (add_order_sorted h2 o2 pa1 0%Q) as Hsb.
  destruct (fold_left _ o2 _) as [t2 pa2]. cbn [snd] in Hmem2, Hsb.
  inv_bind H. injection H as <- <- <- <-.
  cbn [Household.pantry Household.set_order_policy Household.set_pantry]. fold h2.
  split.
  - unfold nonneg_quantities in *. rewrite Forall_forall in *.
    intros r [[Hr|Hr]%Hmem1|Hr]%Hmem2.
    + rewrite (Hcell r Hr). now apply Hq.
    + now apply Hq1.
    + now apply Hq2.
  - apply Hsb, Hsa. intros ft. apply (sorted_by_ext (spoilage_key h)); [|apply Hs].
    intros x Hx. unfold spoilage_key. rewrite Hcell; [reflexivity|].
    apply all_items_elem. eauto.
Qed.

(** X22: a day keeps the pantry sound.  When the pantry of a household is
    well formed, holds no item named "Emergency Takeout" and no negative
    quantity, and has its lists in order of spoilage date, then after a
    [daily_step] (meals, aging, ordering) of planned meals of non-negative
    mass it is again so; the strategies of the household are unchanged, so
    this holds day after day. *)
Theorem daily_step_keeps_the_pantry_sound (pow_half : Q -> Q) (hh hh' : Household.t)
    (w w' : World.t) (rec : DailyRecord.t) (meals : list PlannedMeal.t)
    (rest : list (list PlannedMeal.t)) :
  pantry_sound (World.heap w) (Household.pantry hh) ->
  sensible_plan (Household.meal_planning_strategy hh) ->
  Household.weekly_meals hh = Some (meals :: rest) ->
  Forall (fun pm => (0 <= PlannedMeal.total_grams pm)%Q) meals ->
  Household.daily_step pow_half hh w = Ok (rec, hh', w') ->
  pantry_sound (World.heap w') (Household.pantry hh')
  /\ Household.meal_planning_strategy hh' = Household.meal_planning_strategy hh
  /\ Household.consumption_strategy hh' = Household.consumption_strategy hh
  /\ Household.pantry_strategy hh' = Household.pantry_strategy hh
  /\ Household.grocery_store hh' = Household.grocery_store hh.
Proof.
  intros Hs Hplan Ew Hgrams. unfold Household.daily_step. cbv zeta. intros H.
  change (Household.weekly_meals (Household.set_counters hh _ _ _ _ _))
    with (Household.weekly_meals hh) in H.
  rewrite Ew in H. cbn [rbind] in H. fold (at_breakfast hh rest) in H.
  destruct (eat_meals_sound meals (at_breakfast hh rest) w Hs Hplan Hgrams)
    as (hh1 & w1 & Em & Hs1 & Hpol & _).
  rewrite Em in H. cbn [rbind] in H.
  destruct Hpol as (_ & _ & Hgs & Hmps & Hcs & Hps & _). simpl in Hgs, Hmps, Hcs, Hps.
  destruct (Pantry.step _ _ _) as [[pa1 h1]|] eqn:Es; cbn [rbind] in H;
    [|discriminate H].
  apply step_sound in Es; [|exact Hs1].
  destruct (OrderPolicy.decrement_days_until_next_order _) as [policy1|];
    cbn [rbind] in H; [|discriminate H].
  destruct (OrderPolicy.days_until_next_order policy1) as [days|];
    cbn [rbind] in H; [|discriminate H].
  destruct (days =? 0).
  - destruct (Household.place_order _ _ _) as [[[[tp tn] hh2] w2]|] eqn:Ep;
      cbn [rbind] in H; [|discriminate H].
    pose proof (place_order_shape _ _ _ _ _ _ _ Ep) as (pa & pol & Eshape).
    apply place_order_sound in Ep; [|exact Es].
    inv_bind H. inv_bind H. injection H as <- <- <-. simpl.
    split; [exact Ep|]. subst hh2. simpl. auto.
  - cbn [rbind] in H. inv_bind H. inv_bind H. injection H as <- <- <-. simpl.
    split; [exact Es|]. auto.
Qed.

(** X23: the household eats what is planned.  For a household with a sound
    pantry and planned meals of non-negative mass, the record of the day has
    a total consumption (over the three food types, emergency takeout
    included) equal to the planned mass of the day's meals, whatever the
    pantry holds; the emergency takeout is between zero and that total; and
    (for a non-negative leftover percentage) the leftovers generated are
    that percentage of the planned mass. *)
Theorem daily_step_eats_the_plan (pow_half : Q -> Q) (hh hh' : Household.t)
    (w w' : World.t) (rec : DailyRecord.t) (meals : list PlannedMeal.t)
    (rest : list (list PlannedMeal.t)) :
  pantry_sound (World.heap w) (Household.pantry hh) ->
  sensible_plan (Household.meal_planning_strategy hh) ->
  Household.weekly_meals hh = Some (meals :: rest) ->
  Forall (fun pm => (0 <= PlannedMeal.total_grams pm)%Q) meals ->
  Household.daily_step pow_half hh w = Ok (rec, hh', w') ->
  (consumption_total (DailyRecord.daily_consumption rec) == planned_grams meals)%Q
  /\ (0 <= DailyRecord.emergency_takeouts rec
      <= consumption_total (DailyRecord.daily_consumption rec))%Q
  /\ ((0 <= FixedPercentageLeftoverGenerator.leftover_percentage
              (Household.leftover_generator hh))%Q ->
      (DailyRecord.daily_leftovers_generated rec
       == FixedPercentageLeftoverGenerator.leftover_percentage
            (Household.leftover_generator hh) * planned_grams meals)%Q).
Proof.
  intros Hs Hplan Ew Hgrams H.
  apply daily_step_record in H
    as (meals' & rest' & hh1 & w1 & Ew' & Em & _ & Hc & He & _ & Hl & _).
  rewrite Ew in Ew'. injection Ew' as <- <-.
  destruct (eat_meals_sound meals (at_breakfast hh rest) w Hs Hplan Hgrams)
    as (hh1' & w1' & Em' & _ & _ & Hct & Het & Hlt).
  rewrite Em in Em'. injection Em' as <- <-.
  cbn [at_breakfast Household.set_weekly_meals Household.set_counters
       Household.daily_consumption Household.daily_emergency_takeouts
       Household.daily_leftovers_generated Household.leftover_generator] in Hct, Het, Hlt.
  assert (H0 : (consumption_total (ByType.const 0) == 0)%Q) by reflexivity.
  rewrite H0 in Hct. rewrite Hc, He, Hl.
  split; [rewrite Hct; ring|]. split; [rewrite Hct; lra|].
  intros Hpct. rewrite (Hlt Hpct). ring.
Qed.

Lemma init_pantry_sound (h : Heap.t) : pantry_sound h Pantry.init.
Proof.
  split; [apply init_pantry_ok|]. split; [constructor|].
  intros []; exact I.
Qed.

Lemma one_meal_nonneg :
  Forall (fun pm => (0 <= PlannedMeal.total_grams pm)%Q) [PlannedMeal.mk 1000].
Proof. constructor; [|constructor]. simpl. lra. Qed.

Lemma daily_step_keeps_the_pantry_sound_witness :
  exists (rec : DailyRecord.t) (hh' : Household.t) (w' : World.t),
    Household.daily_step (fun x => x)
      (stocked_household (MealPlanningStrategy.Proportional (1 # 2))) stocked_world
    = Ok (rec, hh', w')
    /\ pantry_sound (World.heap w') (Household.pantry hh')
    /\ Pantry.all_items stocked_pantry = [0; 1; 2; 3]%nat
    /\ Pantry.all_items (Household.pantry hh')
       = [6; 7; 8; 9; 10; 2; 11; 12; 13; 14]%nat.
Proof.
  destruct (Household.daily_step (fun x => x)
              (stocked_household (MealPlanningStrategy.Proportional (1 # 2)))
              stocked_world) as [[[rec hh'] w']|e] eqn:E;
    [|vm_compute in E; discriminate E].
  exists rec, hh', w'. split; [reflexivity|].
  split.
  - exact (proj1 (daily_step_keeps_the_pantry_sound (fun x => x)
                    (stocked_household (MealPlanningStrategy.Proportional (1 # 2)))
                    hh' stocked_world w' rec
                    [PlannedMeal.mk 400; PlannedMeal.mk 600] []
                    stocked_pantry_sound half_is_sensible eq_refl
                    stocked_meals_nonneg E)).
  - split; [reflexivity|].
    vm_compute in E. injection E as _ <- _. reflexivity.
Defined.

Lemma daily_step_eats_the_plan_witness :
  exists rec hh' w',
    Household.daily_step (fun x => x) fixed_household empty_world = Ok (rec, hh', w')
    /\ (consumption_total (DailyRecord.daily_consumption rec)
        == planned_grams [PlannedMeal.mk 1000])%Q.
Proof.
  destruct (Household.daily_step (fun x => x) fixed_household empty_world)
    as [[[rec hh'] w']|e] eqn:E; [|vm_compute in E; discriminate E].
  exists rec, hh', w'. split; [reflexivity|].
  exact (proj1 (daily_step_eats_the_plan (fun x => x) fixed_household hh'
                  empty_world w' rec [PlannedMeal.mk 1000]
                  (repeat [PlannedMeal.mk 1000] 6)
                  (init_pantry_sound _) I eq_refl one_meal_nonneg E)).
Defined.

(** ** When a day raises and when it returns *)

Lemma get_order_returns (store : GroceryStore.t) (ft : FoodType) (T : Q) (w : World.t) :
  is_Some (GroceryStore.best_before_params store !! ft) ->
  is_Some (GroceryStore.spoilage_date_params store !! ft) ->
  exists (order : list ref) (w' : World.t),
    GroceryStore.get_order store ft T w = Ok (order, w').
Proof.
  intros [[bbm bbs] Eb] [[sdm sds] Es].
  unfold GroceryStore.get_order, GroceryStore.get_order_run, GroceryStore.dict_get.
  rewrite Eb, Es. cbn [rbind].
  destruct (while_loop_from_initial ft T bbm bbs sdm sds w) as (s & E & _).
  rewrite E. cbn [rbind]. eauto.
Qed.

(** X24: [get_order] looks its food type up in both parameter dicts before
    it draws anything.  It raises [KeyError] when either dict lacks the food
    type, whatever the quantity asked for (zero and negative included), and
    the random generator is then untouched since nothing is returned; with
    both entries present it returns an order, for every quantity and every
    state of the random generator. *)
Theorem get_order_needs_both_parameters (store : GroceryStore.t) (ft : FoodType)
    (T : Q) (w : World.t) :
  match GroceryStore.best_before_params store !! ft,
        GroceryStore.spoilage_date_params store !! ft with
  | Some _, Some _ =>
      exists (order : list ref) (w' : World.t),
        GroceryStore.get_order store ft T w = Ok (order, w')
  | _, _ => GroceryStore.get_order store ft T w = Raise KeyError
  end.
Proof.
  destruct (GroceryStore.best_before_params store !! ft) as [bb|] eqn:Eb.
  - destruct (GroceryStore.spoilage_date_params store !! ft) as [sd|] eqn:Es.
    + apply get_order_returns; [rewrite Eb | rewrite Es]; eauto.
    + unfold GroceryStore.get_order, GroceryStore.get_order_run, GroceryStore.dict_get.
      rewrite Eb, Es. destruct bb. reflexivity.
  - unfold GroceryStore.get_order, GroceryStore.get_order_run, GroceryStore.dict_get.
    rewrite Eb. reflexivity.
Qed.

Lemma add_order_same_logs (h : Heap.t) (order : list ref) (p : Pantry.t) :
  same_logs p (snd (Household.add_order h order p)).
Proof.
  unfold Household.add_order. generalize 0%Q as total. revert p.
  induction order as [|r order IH]; intros p total; simpl.
  - apply same_logs_refl.
  - eapply same_logs_trans; [|apply IH].
    unfold Pantry.add_item. apply set_items_same_logs.
Qed.

Lemma place_order_returns (pow_half : Q -> Q) (self : Household.t) (w : World.t) (f : Z) :
  can_order self ->
  OrderPolicy.frequency (Household.order_policy self) = Ok f ->
  exists (a b : Q) (self' : Household.t) (w' : World.t),
    Household.place_order pow_half self w = Ok (a, b, self', w')
    /\ same_logs (Household.pantry self) (Household.pantry self').
Proof.
  intros [[store Es] Hparams] Hf. unfold Household.place_order.
  pose proof (determine_order_quantity_countdown pow_half (Household.order_policy self)
                (Household.history self) (World.heap w) (Household.pantry self))
    as [Hf1 _].
  destruct (OrderPolicy.determine_order_quantity _ _ _ _ _) as [[pq nq] policy1].
  simpl in Hf1. rewrite Hf in Hf1. rewrite Es. cbn [rbind].
  destruct (Hparams store Es PERISHABLE (or_introl eq_refl)) as [Hb1 Hs1].
  destruct (Hparams store Es NON_PERISHABLE (or_intror eq_refl)) as [Hb2 Hs2].
  destruct (get_order_returns store PERISHABLE pq w Hb1 Hs1) as (o1 & w1 & E1).
  rewrite E1. cbn [rbind].
  destruct (get_order_returns store NON_PERISHABLE nq w1 Hb2 Hs2) as (o2 & w2 & E2).
  rewrite E2. cbn [rbind].
  pose proof (add_order_same_logs (World.heap w2) o1 (Household.pantry self)) as L1.
  destruct (Household.add_order _ o1 _) as [t1 pa1]. simpl in L1.
  pose proof (add_order_same_logs (World.heap w2) o2 pa1) as L2.
  destruct (Household.add_order _ o2 _) as [t2 pa2]. simpl in L2.
  destruct policy1 as [p1|b1|p1 d1]; simpl in Hf1; [|discriminate Hf1|];
    cbn [OrderPolicy.reset_days_until_next_order rbind];
    eexists _, _, _, _; (split; [reflexivity|]); simpl;
    eapply same_logs_trans; eassumption.
Qed.

Lemma get_order_Ok_params (store : GroceryStore.t) (ft : FoodType) (T : Q)
    (w w' : World.t) (order : list ref) :
  GroceryStore.get_order store ft T w = Ok (order, w') ->
  is_Some (GroceryStore.best_before_params store !! ft)
  /\ is_Some (GroceryStore.spoilage_date_params store !! ft).
Proof.
  unfold GroceryStore.get_order, GroceryStore.get_order_run, GroceryStore.dict_get.
  intros H.
  destruct (GroceryStore.best_before_params store !! ft) as [[bbm bbs]|];
    cbn [rbind] in H; [|discriminate H].
  destruct (GroceryStore.spoilage_date_params store !! ft) as [[sdm sds]|];
    cbn [rbind] in H; [|discriminate H].
  split; eauto.
Qed.

Lemma place_order_Ok_can_order (pow_half : Q -> Q) (self self' : Household.t)
    (w w' : World.t) (a b : Q) :
  Household.place_order pow_half self w = Ok (a, b, self', w') -> can_order self.
Proof.
  unfold Household.place_order. intros H.
  destruct (OrderPolicy.determine_order_quantity _ _ _ _ _) as [[pq nq] policy1].
  destruct (Household.grocery_store self) as [store|] eqn:Es;
    cbn [rbind] in H; [|discriminate H].
  destruct (GroceryStore.get_order store PERISHABLE pq w) as [[o1 w1]|] eqn:E1;
    cbn [rbind] in H; [|discriminate H].
  destruct (GroceryStore.get_order store NON_PERISHABLE nq w1) as [[o2 w2]|] eqn:E2;
    cbn [rbind] in H; [|discriminate H].
  apply get_order_Ok_params in E1, E2.
  unfold can_order. rewrite Es. split; [eauto|].
  intros store' E ft Hft. injection E as <-.
  destruct Hft as [-> | ->]; assumption.
Qed.

Lemma daily_step_returns (pow_half : Q -> Q) (hh : Household.t) (w : World.t)
    (meals : list PlannedMeal.t) (rest : list (list PlannedMeal.t)) (d : Z) :
  pantry_ok (World.heap w) (Household.pantry hh) ->
  Household.weekly_meals hh = Some (meals :: rest) ->
  OrderPolicy.days_until_next_order (Household.order_policy hh) = Ok d ->
  (d - 1 = 0 -> can_order hh) ->
  exists (rec : DailyRecord.t) (hh' : Household.t) (w' : World.t),
    Household.daily_step pow_half hh w = Ok (rec, hh', w').
Proof.
  intros [Hwf Hn] Ew Ed Hc. unfold Household.daily_step. cbv zeta.
  change (Household.weekly_meals (Household.set_counters hh _ _ _ _ _))
    with (Household.weekly_meals hh).
  rewrite Ew. cbn [rbind]. fold (at_breakfast hh rest).
  destruct (eat_meals_spec meals (at_breakfast hh rest) w Hwf Hn)
    as (hh1 & w1 & Em & Hwf1 & _ & Hpol & _).
  rewrite Em. cbn [rbind].
  destruct (step_Ok (Household.pantry_strategy hh1) (World.heap w1)
              (Household.pantry hh1) Hwf1) as (items & Es & _).
  rewrite Es. cbn [rbind]. clear Es.
  destruct Hpol as (Hop & _ & Hgs & _). simpl in Hop, Hgs.
  change (Household.order_policy (Household.set_pantry hh1 _))
    with (Household.order_policy hh1).
  rewrite Hop. pose proof (decrement_countdown (Household.order_policy hh)) as Hdec.
  rewrite Ed in Hdec. destruct Hdec as (policy1 & f & -> & Edays & Ef). cbn [rbind].
  rewrite Edays. cbn [rbind].
  set (pa1 := Pantry.mk items _ _ _).
  set (self1 := Household.set_order_policy (Household.set_pantry hh1 pa1) policy1).
  assert (Hcan : can_order hh -> can_order self1).
  { unfold can_order. subst self1. simpl. rewrite Hgs. auto. }
  assert (Hlogs : forall p, same_logs pa1 p ->
            exists x y,
              Household.waste_of_day (Pantry.waste_log_expired_discards p)
                (Pantry.current_day p) = Ok x
              /\ Household.waste_of_day (Pantry.waste_log_strategy_discards p)
                   (Pantry.current_day p) = Ok y).
  { intros p (-> & -> & ->). subst pa1. unfold Household.waste_of_day. simpl.
    rewrite !lookup_insert_eq. eauto. }
  destruct (Z.eqb_spec (d - 1) 0) as [E0|E0].
  - apply Hc, Hcan in E0.
    destruct (place_order_returns pow_half self1
                (World.mk (Pantry.heap_now
                             (Pantry.classify (Household.pantry_strategy hh1)
                                (World.heap w1) (Household.pantry hh1)))
                          (World.rng w1)) f E0 Ef)
      as (a & b & self2 & w2 & Ep & Hl).
    rewrite Ep. cbn [rbind].
    destruct (Hlogs _ Hl) as (x & y & -> & ->). cbn [rbind]. eauto.
  - cbn [rbind]. destruct (Hlogs _ (same_logs_refl _)) as (x & y & Hx & Hy).
    change (Household.pantry self1) with pa1. rewrite Hx, Hy. cbn [rbind]. eauto.
Qed.

(** X25: when a day raises and when it returns.  For a household with a
    well-formed pantry, [daily_step] returns a record exactly when there is
    a meal plan with a day left on it, the order policy has a countdown
    ([HistoricalConsumptionPolicy] has none), and, on a day on which the
    countdown reaches zero, there is a grocery store that has best-before
    and spoilage parameters for PERISHABLE and for NON_PERISHABLE.  Neither
    the meals (whatever they ask for and whatever the pantry holds), nor the
    aging of the pantry, nor the waste log make it raise. *)
Theorem daily_step_returns_exactly_when (pow_half : Q -> Q) (hh : Household.t)
    (w : World.t) :
  pantry_ok (World.heap w) (Household.pantry hh) ->
  (exists (rec : DailyRecord.t) (hh' : Household.t) (w' : World.t),
     Household.daily_step pow_half hh w = Ok (rec, hh', w'))
  <-> ((exists meals rest, Household.weekly_meals hh = Some (meals :: rest))
       /\ exists d, OrderPolicy.days_until_next_order (Household.order_policy hh) = Ok d
                    /\ (d - 1 = 0 -> can_order hh)).
Proof.
  intros Hok. split.
  - intros (rec & hh' & w' & H). unfold Household.daily_step in H. cbv zeta in H.
    change (Household.weekly_meals (Household.set_counters hh _ _ _ _ _))
      with (Household.weekly_meals hh) in H.
    destruct (Household.weekly_meals hh) as [[|meals rest]|] eqn:Ew;
      cbn [rbind] in H; try discriminate H.
    split; [eauto|]. fold (at_breakfast hh rest) in H.
    destruct (Household.eat_meals meals (at_breakfast hh rest) w)
      as [[hh1 w1]|] eqn:Em; cbn [rbind] in H; [|discriminate H].
    destruct (Pantry.step _ _ _) as [[pa1 h1]|]; cbn [rbind] in H; [|discriminate H].
    change (Household.order_policy (Household.set_pantry hh1 pa1))
      with (Household.order_policy hh1) in H.
    apply eat_meals_policies in Em as (Hop & _ & Hgs & _). simpl in Hop, Hgs.
    rewrite Hop in H.
    pose proof (decrement_countdown (Household.order_policy hh)) as Hdec.
    destruct (OrderPolicy.days_until_next_order (Household.order_policy hh))
      as [d|e]; [|rewrite Hdec in H; discriminate H].
    exists d. split; [reflexivity|]. intros E0.
    destruct Hdec as (policy1 & f & Hd & Edays & _).
    rewrite Hd in H. cbn [rbind] in H. rewrite Edays in H. cbn [rbind] in H.
    destruct (Z.eqb_spec (d - 1) 0) as [_|Hne]; [|contradiction].
    destruct (Household.place_order _ _ _) as [[[[tp tn] hh2] w2]|] eqn:Ep;
      cbn [rbind] in H; [|discriminate H].
    apply place_order_Ok_can_order in Ep. unfold can_order in *. simpl in Ep.
    rewrite Hgs in Ep. exact Ep.
  - intros ((meals & rest & Ew) & d & Hd & Hc).
    eapply daily_step_returns; eassumption.
Qed.

Lemma daily_step_returns_exactly_when_witness :
  pantry_ok (World.heap empty_world) (Household.pantry fixed_household)
  /\ exists (rec : DailyRecord.t) (hh' : Household.t) (w' : World.t),
       Household.daily_step (fun x => x) fixed_household empty_world = Ok (rec, hh', w').
Proof.
  split; [exact (init_pantry_ok _)|].
  apply (proj1 (iff_sym (daily_step_returns_exactly_when (fun x => x) fixed_household
                           empty_world (init_pantry_ok _)))).
  split; [eexists _, _; reflexivity|].
  exists 7. split; [reflexivity|]. intros H. discriminate H.
Defined.

(** ** Meals: the request, the plan and the takeout *)

(** X26: a meal takes what it is asked for.  On a well-formed pantry with no
    negative quantity, for a pattern with one non-negative amount per food
    type, [Meal.consume] returns under any of the three consumption
    strategies; the amounts of the selection add up to the amounts asked
    for and none is negative; the stock of every type goes down by what was
    taken of it from real items; no quantity is left negative; and the
    lists of the pantry keep their order, losing only items that the random
    strategy took in full. *)
Theorem meal_takes_what_is_asked (strategy : ConsumptionStrategy.t)
    (patterns : Meal.patterns) (p : Pantry.t) (w : World.t) :
  NoDup (map fst patterns) ->
  pantry_ok (World.heap w) p ->
  nonneg_quantities (World.heap w) (Pantry.all_items p) ->
  Forall (fun e => (0 <= snd e)%Q) patterns ->
  exists (sel : selection) (p' : Pantry.t) (w' : World.t),
    Meal.consume strategy patterns p w = Ok (sel, p', w')
    /\ (takes sel == requested patterns)%Q
    /\ Forall (fun e => (0 <= snd e)%Q) sel
    /\ (forall ft,
          (Pantry.get_total_by_type (World.heap w') p' ft
           == Pantry.get_total_by_type (World.heap w) p ft
              - real_takes_of_type (World.heap w') ft sel)%Q)
    /\ nonneg_quantities (World.heap w') (Pantry.all_items p')
    /\ (forall ft, Pantry.get_items_by_type p' ft
                   `sublist_of` Pantry.get_items_by_type p ft).
Proof.
  intros Hkeys Hok Hq Hamt.
  destruct (meal_consume_ledger strategy patterns p w Hkeys Hok Hq Hamt)
    as (sel & p' & w' & E & _ & Hq' & Htakes & _ & Hpos & Htot & _ & _ & _ & Hsub & _).
  exists sel, p', w'. split; [exact E|]. split; [exact Htakes|].
  split; [exact Hpos|]. split; [exact Htot|]. split; [exact Hq' | exact Hsub].
Qed.

Lemma meal_takes_what_is_asked_witness :
  exists (sel : selection) (p' : Pantry.t) (w' : World.t),
    Meal.consume ConsumptionStrategy.Basic
      [(LEFTOVER, 100%Q); (PERISHABLE, 250%Q); (NON_PERISHABLE, 250%Q)]
      stocked_pantry stocked_world = Ok (sel, p', w')
    /\ (takes sel == 100 + 250 + 250)%Q
    /\ (Pantry.get_total_by_type stocked_heap stocked_pantry PERISHABLE == 1000)%Q
    /\ (Pantry.get_total_by_type (World.heap w') p' PERISHABLE == 1000 - 250)%Q.
Proof.
  assert (Hk : NoDup (map fst [(LEFTOVER, 100%Q); (PERISHABLE, 250%Q);
                               (NON_PERISHABLE, 250%Q)])).
  { apply food_types_NoDup. }
  assert (Ha : Forall (fun e : FoodType * Q => (0 <= snd e)%Q)
                      [(LEFTOVER, 100%Q); (PERISHABLE, 250%Q);
                       (NON_PERISHABLE, 250%Q)]).
  { repeat constructor; vm_compute; discriminate. }
  destruct (meal_takes_what_is_asked ConsumptionStrategy.Basic
              [(LEFTOVER, 100%Q); (PERISHABLE, 250%Q); (NON_PERISHABLE, 250%Q)]
              stocked_pantry stocked_world Hk stocked_pantry_ok
              (proj1 (proj2 stocked_pantry_sound)) Ha)
    as (sel & p' & w' & E & Ht & _ & Htot & _).
  exists sel, p', w'. split; [exact E|].
  split; [rewrite Ht; vm_compute; reflexivity|].
  split; [vm_compute; reflexivity|].
  rewrite (Htot PERISHABLE).
  vm_compute in E. injection E as <- _ <-. vm_compute. reflexivity.
Defined.

Lemma shortfall_three (h : Heap.t) (p : Pantry.t) (l pe n : Q) :
  (shortfall h p [(LEFTOVER, l); (PERISHABLE, pe); (NON_PERISHABLE, n)]
   == Qmax_py 0 (l - Pantry.get_total_by_type h p LEFTOVER)
      + Qmax_py 0 (pe - Pantry.get_total_by_type h p PERISHABLE)
      + Qmax_py 0 (n - Pantry.get_total_by_type h p NON_PERISHABLE))%Q.
Proof. unfold shortfall. simpl. rewrite Qsum_three. reflexivity. Qed.

(** X27: the plan of a meal stays within the stock of leftovers and of
    perishables.  For a planned mass that is not negative and a pantry with
    no negative quantity, both planning strategies ([FreshFirstStrategy],
    and [ProportionalConsumptionStrategy] with a proportion between 0 and 1)
    ask for leftovers first (the whole planned mass, or all the leftovers
    when there are fewer), for no more perishables than the pantry holds,
    and for no negative amount; so only the non-perishable part of a plan
    can exceed the stock. *)
Theorem plan_meal_within_stock (strategy : MealPlanningStrategy.t)
    (pm : PlannedMeal.t) (h : Heap.t) (p : Pantry.t) :
  sensible_plan strategy ->
  (0 <= PlannedMeal.total_grams pm)%Q ->
  nonneg_quantities h (Pantry.all_items p) ->
  exists l pe n : Q,
    MealPlanningStrategy.plan_meal strategy pm h p
    = [(LEFTOVER, l); (PERISHABLE, pe); (NON_PERISHABLE, n)]
    /\ l = Qmin_py (Pantry.get_total_by_type h p LEFTOVER) (PlannedMeal.total_grams pm)
    /\ (0 <= l <= Pantry.get_total_by_type h p LEFTOVER)%Q
    /\ (0 <= pe <= Pantry.get_total_by_type h p PERISHABLE)%Q
    /\ (0 <= n)%Q
    /\ (shortfall h p (MealPlanningStrategy.plan_meal strategy pm h p)
        == Qmax_py 0 (n - Pantry.get_total_by_type h p NON_PERISHABLE))%Q.
Proof.
  intros Hs Ht Hq.
  pose proof (get_total_by_type_nonneg h p LEFTOVER Hq) as HL.
  pose proof (get_total_by_type_nonneg h p PERISHABLE Hq) as HP.
  assert (Hshort : forall l pe n : Q,
            (l <= Pantry.get_total_by_type h p LEFTOVER)%Q ->
            (pe <= Pantry.get_total_by_type h p PERISHABLE)%Q ->
            (shortfall h p [(LEFTOVER, l); (PERISHABLE, pe); (NON_PERISHABLE, n)]
             == Qmax_py 0 (n - Pantry.get_total_by_type h p NON_PERISHABLE))%Q).
  { intros l pe n Hl Hpe. rewrite shortfall_three.
    destruct (Qmax_py_spec 0 (l - Pantry.get_total_by_type h p LEFTOVER))
      as [[-> H1]|[-> H1]]; [lra|].
    destruct (Qmax_py_spec 0 (pe - Pantry.get_total_by_type h p PERISHABLE))
      as [[-> H2]|[-> H2]]; [lra|]. lra. }
  destruct strategy as [|prop]; cbn [MealPlanningStrategy.plan_meal sensible_plan] in *.
  - unfold FreshFirstStrategy.plan_meal. cbv zeta.
    set (l := Qmin_py (Pantry.get_total_by_type h p LEFTOVER) (PlannedMeal.total_grams pm)).
    set (pe := Qmin_py (Pantry.get_total_by_type h p PERISHABLE) _).
    assert (Hl : (0 <= l <= Pantry.get_total_by_type h p LEFTOVER)%Q
                 /\ (l <= PlannedMeal.total_grams pm)%Q).
    { subst l. destruct (Qmin_py_spec (Pantry.get_total_by_type h p LEFTOVER)
                            (PlannedMeal.total_grams pm)) as [[-> H1]|[-> H1]]; lra. }
    assert (Hpe : (0 <= pe <= Pantry.get_total_by_type h p PERISHABLE)%Q
                  /\ (pe <= PlannedMeal.total_grams pm - l)%Q).
    { subst pe. destruct (Qmin_py_spec (Pantry.get_total_by_type h p PERISHABLE)
                            (PlannedMeal.total_grams pm - l)) as [[-> H1]|[-> H1]]; lra. }
    exists l, pe, (PlannedMeal.total_grams pm - l - pe)%Q.
    split; [reflexivity|]. split; [reflexivity|].
    split; [tauto|]. split; [tauto|]. split; [lra|].
    apply Hshort; tauto.
  - unfold ProportionalConsumptionStrategy.plan_meal. cbv zeta.
    set (l := Qmin_py (Pantry.get_total_by_type h p LEFTOVER) (PlannedMeal.total_grams pm)).
    assert (Hl : (0 <= l <= Pantry.get_total_by_type h p LEFTOVER)%Q
                 /\ (l <= PlannedMeal.total_grams pm)%Q).
    { subst l. destruct (Qmin_py_spec (Pantry.get_total_by_type h p LEFTOVER)
                            (PlannedMeal.total_grams pm)) as [[-> H1]|[-> H1]]; lra. }
    assert (Hrest : (0 <= PlannedMeal.total_grams pm - l)%Q) by lra.
    destruct (Qle_bool _ _) eqn:Eb.
    + apply Qle_bool_iff in Eb.
      eexists l, _, _. split; [reflexivity|]. split; [reflexivity|].
      split; [tauto|]. split; [lra|].
      split; [|apply Hshort; [tauto | lra]].
      assert ((PlannedMeal.total_grams pm - l) * prop
              <= (PlannedMeal.total_grams pm - l) * 1)%Q by nra.
      lra.
    + assert (Hlt : ((PlannedMeal.total_grams pm - l) * prop
                     < Pantry.get_total_by_type h p PERISHABLE)%Q).
      { apply Qnot_le_lt. intros Hle. apply Qle_bool_iff in Hle. congruence. }
      assert ((PlannedMeal.total_grams pm - l) * prop
              <= (PlannedMeal.total_grams pm - l) * 1)%Q by nra.
      assert (0 <= (PlannedMeal.total_grams pm - l) * prop)%Q by nra.
      eexists l, _, _. split; [reflexivity|]. split; [reflexivity|].
      split; [tauto|]. split; [lra|].
      split; [lra|]. apply Hshort; [tauto | lra].
Qed.

Lemma plan_meal_within_stock_witness :
  exists l pe n : Q,
    MealPlanningStrategy.plan_meal (MealPlanningStrategy.Proportional (1 # 2))
      (PlannedMeal.mk 600) stocked_heap stocked_pantry
    = [(LEFTOVER, l); (PERISHABLE, pe); (NON_PERISHABLE, n)]
    /\ (l == 100)%Q /\ (pe == 250)%Q /\ (n == 250)%Q
    /\ (l <= Pantry.get_total_by_type stocked_heap stocked_pantry LEFTOVER)%Q
    /\ (pe <= Pantry.get_total_by_type stocked_heap stocked_pantry PERISHABLE)%Q
    /\ (Pantry.get_total_by_type stocked_heap stocked_pantry NON_PERISHABLE == 200)%Q
    /\ (shortfall stocked_heap stocked_pantry
          (MealPlanningStrategy.plan_meal (MealPlanningStrategy.Proportional (1 # 2))
             (PlannedMeal.mk 600) stocked_heap stocked_pantry)
        == Qmax_py 0 (n - Pantry.get_total_by_type stocked_heap stocked_pantry
                            NON_PERISHABLE))%Q.
Proof.
  assert (Hg : (0 <= PlannedMeal.total_grams (PlannedMeal.mk 600))%Q)
    by (vm_compute; discriminate).
  destruct (plan_meal_within_stock (MealPlanningStrategy.Proportional (1 # 2))
              (PlannedMeal.mk 600) stocked_heap stocked_pantry half_is_sensible Hg
              (proj1 (proj2 stocked_pantry_sound)))
    as (l & pe & n & E & _ & [_ Hl] & [_ Hpe] & _ & Hs).
  exists l, pe, n. split; [exact E|].
  assert (Hv : (l == 100)%Q /\ (pe == 250)%Q /\ (n == 250)%Q).
  { vm_compute in E. injection E as <- <- <-. vm_compute. repeat split. }
  destruct Hv as (H1 & H2 & H3).
  split; [exact H1|]. split; [exact H2|]. split; [exact H3|].
  split; [exact Hl|]. split; [exact Hpe|].
  split; [vm_compute; reflexivity | exact Hs].
Defined.

Lemma fresh_first_shortfall (pm : PlannedMeal.t) (h : Heap.t) (p : Pantry.t) :
  nonneg_quantities h (Pantry.all_items p) ->
  (0 <= PlannedMeal.total_grams pm)%Q ->
  (shortfall h p (FreshFirstStrategy.plan_meal pm h p)
   == Qmax_py 0 (PlannedMeal.total_grams pm - Pantry.get_total h p))%Q.
Proof.
  intros Hq Ht.
  pose proof (get_total_by_type_nonneg h p LEFTOVER Hq) as HL.
  pose proof (get_total_by_type_nonneg h p PERISHABLE Hq) as HP.
  pose proof (get_total_by_type_nonneg h p NON_PERISHABLE Hq) as HN.
  rewrite (Qmax_py_0_Qeq (PlannedMeal.total_grams pm - Pantry.get_total h p)
             (PlannedMeal.total_grams pm
              - (Pantry.get_total_by_type h p LEFTOVER
                 + Pantry.get_total_by_type h p PERISHABLE
                 + Pantry.get_total_by_type h p NON_PERISHABLE)))
    by (rewrite get_total_by_types; reflexivity).
  unfold FreshFirstStrategy.plan_meal. cbv zeta. rewrite shortfall_three.
  set (T := PlannedMeal.total_grams pm) in *.
  set (L := Pantry.get_total_by_type h p LEFTOVER) in *.
  set (P := Pantry.get_total_by_type h p PERISHABLE) in *.
  set (N := Pantry.get_total_by_type h p NON_PERISHABLE) in *.
  destruct (Qmin_py_spec L T) as [[-> H1]|[-> H1]];
    [destruct (Qmin_py_spec P (T - T)) as [[-> H2]|[-> H2]]
    |destruct (Qmin_py_spec P (T - L)) as [[-> H2]|[-> H2]]].
  all: repeat match goal with
       | |- context [Qmax_py 0 ?x] =>
           let E := fresh "E" in let H := fresh "H" in
           destruct (Qmax_py_spec 0 x) as [[E H]|[E H]]; rewrite E; clear E
       end; lra.
Qed.

(** X28: a household that plans fresh-first and is short of food orders
    takeout for what the whole pantry cannot cover.  With
    [FreshFirstStrategy] and a sound pantry whose total mass is less than
    the planned mass of a meal, the meal returns and adds to the day's
    emergency takeout the planned mass less the total mass of the pantry
    before the meal, under every consumption strategy. *)
Theorem fresh_first_takeout_is_the_uncovered_mass (pm : PlannedMeal.t)
    (hh : Household.t) (w : World.t) :
  pantry_sound (World.heap w) (Household.pantry hh) ->
  Household.meal_planning_strategy hh = MealPlanningStrategy.FreshFirst ->
  (Pantry.get_total (World.heap w) (Household.pantry hh)
   < PlannedMeal.total_grams pm)%Q ->
  exists (hh1 : Household.t) (w1 : World.t),
    Household.eat_meal pm hh w = Ok (hh1, w1)
    /\ (Household.daily_emergency_takeouts hh1
        == Household.daily_emergency_takeouts hh
           + (PlannedMeal.total_grams pm
              - Pantry.get_total (World.heap w) (Household.pantry hh)))%Q.
Proof.
  intros Hs Hff Hshort.
  assert (Hplan : sensible_plan (Household.meal_planning_strategy hh))
    by (rewrite Hff; exact I).
  pose proof Hs as (_ & Hq & _).
  assert (Hg : (0 <= PlannedMeal.total_grams pm)%Q).
  { pose proof (get_total_by_types (World.heap w) (Household.pantry hh)) as Ht.
    pose proof (get_total_by_type_nonneg _ _ LEFTOVER Hq).
    pose proof (get_total_by_type_nonneg _ _ PERISHABLE Hq).
    pose proof (get_total_by_type_nonneg _ _ NON_PERISHABLE Hq).
    lra. }
  destruct (eat_meal_sound pm hh w Hs Hplan Hg)
    as (hh1 & w1 & E & _ & _ & _ & Het & _).
  exists hh1, w1. split; [exact E|].
  rewrite Het, Hff. cbn [MealPlanningStrategy.plan_meal].
  rewrite fresh_first_shortfall by assumption.
  destruct (Qmax_py_spec 0 (PlannedMeal.total_grams pm
                            - Pantry.get_total (World.heap w) (Household.pantry hh)))
    as [[-> _]|[_ Hle]]; [reflexivity | lra].
Qed.

Lemma fresh_first_takeout_is_the_uncovered_mass_witness :
  exists (hh1 : Household.t) (w1 : World.t),
    Household.eat_meal (PlannedMeal.mk 2000)
      (stocked_household MealPlanningStrategy.FreshFirst) stocked_world = Ok (hh1, w1)
    /\ (Pantry.get_total stocked_heap stocked_pantry == 1300)%Q
    /\ (Household.daily_emergency_takeouts hh1 == 2000 - 1300)%Q.
Proof.
  assert (Hshort : (Pantry.get_total stocked_heap stocked_pantry
                    < PlannedMeal.total_grams (PlannedMeal.mk 2000))%Q)
    by (vm_compute; reflexivity).
  destruct (fresh_first_takeout_is_the_uncovered_mass (PlannedMeal.mk 2000)
              (stocked_household MealPlanningStrategy.FreshFirst) stocked_world
              stocked_pantry_sound eq_refl Hshort)
    as (hh1 & w1 & E & Ht).
  exists hh1, w1. split; [exact E|].
  split; [vm_compute; reflexivity|]. rewrite Ht. vm_compute. reflexivity.
Defined.

(** ** StandardMealGenerator: the plan of a week *)

Lemma Rng_random_next (g : Rng.t) :
  snd (Rng.random g) = Rng.mk (Rng.tape g) (S (Rng.cursor g)).
Proof. reflexivity. Qed.

Lemma day_meals_spec (self : StandardMealGenerator.t) (patterns : MealName -> Z)
    (meal_names : list MealName) :
  forall g : Rng.t,
    let r := StandardMealGenerator.day_meals self patterns meal_names g in
    let every_meal := map (fun n => PlannedMeal.mk (inject_Z (patterns n))) meal_names in
    fst r `sublist_of` every_meal
    /\ Rng.cursor (snd r) = (Rng.cursor g + length meal_names)%nat
    /\ Rng.tape (snd r) = Rng.tape g
    /\ ((1 <= StandardMealGenerator.meals_at_home_ratio self)%Q -> fst r = every_meal)
    /\ ((StandardMealGenerator.meals_at_home_ratio self < 0)%Q -> fst r = []).
Proof.
  induction meal_names as [|n rest IH]; intros g; cbn zeta.
  - simpl. split; [constructor|]. split; [lia|]. auto.
  - cbn [StandardMealGenerator.day_meals map length].
    pose proof (Rng_random_range g) as [Hu0 Hu1].
    pose proof (Rng_random_next g) as Hg.
    destruct (Rng.random g) as [u g1]. cbn [fst snd] in Hu0, Hu1, Hg. subst g1.
    specialize (IH (Rng.mk (Rng.tape g) (S (Rng.cursor g)))). cbn zeta in IH.
    destruct (StandardMealGenerator.day_meals self patterns rest _) as [later g2].
    cbn [fst snd Rng.cursor Rng.tape] in IH.
    destruct IH as (Hsub & Hc & Ht & Hall & Hnone).
    destruct (Qle_bool u (StandardMealGenerator.meals_at_home_ratio self)) eqn:E;
      cbn [fst snd].
    + apply Qle_bool_iff in E.
      split; [now apply sublist_skip|]. split; [lia|]. split; [exact Ht|].
      split; [intros H; now rewrite (Hall H) | intros H; lra].
    + assert (Hlt : (StandardMealGenerator.meals_at_home_ratio self < u)%Q).
      { apply Qnot_le_lt. intros Hle. apply Qle_bool_iff in Hle. congruence. }
      split; [now apply sublist_cons|]. split; [lia|]. split; [exact Ht|].
      split; [intros H; lra | exact Hnone].
Qed.

Lemma week_meals_spec (self : StandardMealGenerator.t) (patterns : MealName -> Z)
    (days : list string) :
  forall g : Rng.t,
    let r := StandardMealGenerator.week_meals self patterns days g in
    let every_meal :=
      map (fun n => PlannedMeal.mk (inject_Z (patterns n))) [breakfast; lunch; dinner] in
    length (fst r) = length days
    /\ Forall (fun day => day `sublist_of` every_meal) (fst r)
    /\ Rng.cursor (snd r) = (Rng.cursor g + 3 * length days)%nat
    /\ Rng.tape (snd r) = Rng.tape g
    /\ ((1 <= StandardMealGenerator.meals_at_home_ratio self)%Q ->
        Forall (fun day => day = every_meal) (fst r))
    /\ ((StandardMealGenerator.meals_at_home_ratio self < 0)%Q ->
        Forall (fun day => day = []) (fst r)).
Proof.
  induction days as [|d rest IH]; intros g; cbn zeta.
  - simpl. split; [reflexivity|]. split; [constructor|]. split; [lia|].
    split; [reflexivity|]. split; intros _; constructor.
  - cbn [StandardMealGenerator.week_meals length].
    pose proof (day_meals_spec self patterns [breakfast; lunch; dinner] g) as Hday.
    cbn zeta in Hday.
    destruct (StandardMealGenerator.day_meals self patterns _ g) as [today g1].
    cbn [fst snd length] in Hday. destruct Hday as (Hsub & Hc & Ht & Hall & Hnone).
    specialize (IH g1). cbn zeta in IH.
    destruct (StandardMealGenerator.week_meals self patterns rest g1) as [later g2].
    cbn [fst snd length] in *.
    destruct IH as (Hlen & Hsubs & Hc2 & Ht2 & Halls & Hnones).
    split; [now rewrite Hlen|]. split; [now constructor|]. split; [lia|].
    split; [congruence|].
    split; intros H; constructor; auto.
Qed.

(** X29: the plan of a week.  [StandardMealGenerator.generate_weekly_meals]
    returns seven days; each day holds, in the order breakfast, lunch,
    dinner, some of the three meals of the household (400, 600 and 600 g
    per adult plus 250, 400 and 400 g per child); it draws from the random
    generator 21 times, whatever the ratio.  With a ratio of at least 1
    every meal of every day is planned, with a negative ratio none is; and
    for a household with no negative number of adults or children no
    planned meal has a negative mass. *)
Theorem generate_weekly_meals_plan (self : StandardMealGenerator.t)
    (household : Household.t) (g : Rng.t) :
  let weekly_meals :=
    fst (StandardMealGenerator.generate_weekly_meals self household g) in
  let g' := snd (StandardMealGenerator.generate_weekly_meals self household g) in
  length weekly_meals = 7%nat
  /\ Forall (fun day => day `sublist_of` full_day household) weekly_meals
  /\ Rng.cursor g' = (Rng.cursor g + 21)%nat
  /\ Rng.tape g' = Rng.tape g
  /\ ((1 <= StandardMealGenerator.meals_at_home_ratio self)%Q ->
      weekly_meals = repeat (full_day household) 7)
  /\ ((StandardMealGenerator.meals_at_home_ratio self < 0)%Q ->
      weekly_meals = repeat [] 7)
  /\ (0 <= Household.adults household -> 0 <= Household.children household ->
      Forall (Forall (fun pm => (0 <= PlannedMeal.total_grams pm)%Q)) weekly_meals).
Proof.
  cbn zeta. unfold StandardMealGenerator.generate_weekly_meals.
  match goal with
  | |- context [StandardMealGenerator.week_meals self ?pat ?days g] =>
      pose proof (week_meals_spec self pat days g) as H;
      destruct (StandardMealGenerator.week_meals self pat days g) as [weekly g']
  end.
  cbn zeta in H. cbn [fst snd length] in H. fold (full_day household) in H.
  destruct H as (Hlen & Hsub & Hc & Ht & Hall & Hnone). cbn [fst snd].
  assert (Hrep : forall (A : Type) (x : A) (l : list A),
            length l = 7%nat -> Forall (fun y => y = x) l -> l = repeat x 7).
  { intros A x l Hl HF. rewrite <- Hl. clear Hl.
    induction HF as [|y l -> _ IH]; [reflexivity|]. simpl. now rewrite <- IH. }
  split; [exact Hlen|]. split; [exact Hsub|]. split; [lia|]. split; [exact Ht|].
  split; [intros Hr; apply Hrep; auto|]. split; [intros Hr; apply Hrep; auto|].
  intros Ha Hk.
  assert (Hfull : Forall (fun pm => (0 <= PlannedMeal.total_grams pm)%Q)
                    (full_day household)).
  { unfold full_day, StandardMealGenerator.calculate_daily_consumption.
    repeat constructor; simpl;
      (change 0%Q with (inject_Z 0); rewrite <- Zle_Qle; simpl; nia). }
  eapply Forall_impl; [exact Hsub|]. intros day Hday. simpl in Hday.
  rewrite Forall_forall in Hfull |- *. intros pm Hpm.
  apply Hfull. eapply elem_of_sublist; eassumption.
Qed.

(** ** A week of the simulation *)

Lemma daily_step_store (pow_half : Q -> Q) (hh hh' : Household.t) (w w' : World.t)
    (rec : DailyRecord.t) :
  Household.daily_step pow_half hh w = Ok (rec, hh', w') ->
  Household.grocery_store hh' = Household.grocery_store hh.
Proof.
  unfold Household.daily_step. cbv zeta. intros H.
  change (Household.weekly_meals (Household.set_counters hh _ _ _ _ _))
    with (Household.weekly_meals hh) in H.
  destruct (Household.weekly_meals hh) as [[|meals rest]|];
    cbn [rbind] in H; try discriminate H.
  fold (at_breakfast hh rest) in H.
  destruct (Household.eat_meals meals (at_breakfast hh rest) w)
    as [[hh1 w1]|] eqn:Em; cbn [rbind] in H; [|discriminate H].
  apply eat_meals_policies in Em as (_ & _ & Hgs & _). simpl in Hgs.
  destruct (Pantry.step _ _ _) as [[pa1 h1]|]; cbn [rbind] in H; [|discriminate H].
  destruct (OrderPolicy.decrement_days_until_next_order _) as [policy1|];
    cbn [rbind] in H; [|discriminate H].
  destruct (OrderPolicy.days_until_next_order policy1) as [days|];
    cbn [rbind] in H; [|discriminate H].
  destruct (days =? 0).
  - destruct (Household.place_order _ _ _) as [[[[tp tn] hh2] w2]|] eqn:Ep;
      cbn [rbind] in H; [|discriminate H].
    apply place_order_shape in Ep as (pa & pol & ->).
    inv_bind H. inv_bind H. injection H as <- <- <-. simpl. exact Hgs.
  - cbn [rbind] in H. inv_bind H. inv_bind H. injection H as <- <- <-. simpl.
    exact Hgs.
Qed.

Lemma daily_steps_plan (pow_half : Q -> Q) (f : Z) :
  forall (plan : list (list PlannedMeal.t)) (hh : Household.t) (w : World.t),
    pantry_ok (World.heap w) (Household.pantry hh) ->
    Household.weekly_meals hh = Some plan ->
    OrderPolicy.frequency (Household.order_policy hh) = Ok f ->
    can_order hh ->
    exists (hh' : Household.t) (w' : World.t),
      daily_steps pow_half (length plan) hh w = Ok (hh', w')
      /\ pantry_ok (World.heap w') (Household.pantry hh')
      /\ Household.weekly_meals hh' = Some []
      /\ length (Household.history hh') = (length (Household.history hh) + length plan)%nat
      /\ OrderPolicy.frequency (Household.order_policy hh') = Ok f
      /\ can_order hh'.
Proof.
  induction plan as [|meals rest IH]; intros hh w Hok Ew Hf Hc.
  - exists hh, w. simpl. split; [reflexivity|]. split; [exact Hok|].
    split; [exact Ew|]. split; [lia|]. split; assumption.
  - assert (Hd : exists d, OrderPolicy.days_until_next_order (Household.order_policy hh)
                           = Ok d).
    { destruct (Household.order_policy hh); simpl in *; eauto; discriminate Hf. }
    destruct Hd as [d Hd].
    destruct (daily_step_returns pow_half hh w meals rest d Hok Ew Hd (fun _ => Hc))
      as (rec & hh1 & w1 & E).
    pose proof (daily_step_pantry_ok _ _ _ _ _ _ Hok E) as Hok1.
    pose proof (daily_step_countdown _ _ _ _ _ _ f d E Hf Hd) as (Hf1 & _).
    pose proof (daily_step_store _ _ _ _ _ _ E) as Hgs.
    assert (Hc1 : can_order hh1) by (unfold can_order in *; rewrite Hgs; exact Hc).
    pose proof (daily_step_record _ _ _ _ _ _ E)
      as (meals' & rest' & hh0 & w0 & Ew' & Em & _ & _ & _ & _ & _ & Hwm & Hh & _).
    rewrite Ew in Ew'. injection Ew' as <- <-.
    pose proof (eat_meals_policies meals _ _ _ _ Em)
      as (_ & Hhist & _ & _ & _ & _ & _ & _ & Hweek).
    simpl in Hhist, Hweek.
    assert (Ew1 : Household.weekly_meals hh1 = Some rest) by (now rewrite Hwm, Hweek).
    destruct (IH hh1 w1 Hok1 Ew1 Hf1 Hc1) as (hh' & w' & E' & Hok' & Ew'' & Hl & Hf' & Hc').
    exists hh', w'. cbn [length daily_steps]. rewrite E. cbn [rbind].
    split; [exact E'|]. split; [exact Hok'|]. split; [exact Ew''|].
    split; [|split; assumption].
    rewrite Hl, Hh, Hhist, length_app. simpl. lia.
Qed.

(** X30: a plan lasts exactly one week.  For a household with a well-formed
    pantry, an order policy with a countdown and a store that has
    parameters for the two ordered food types, a week of the simulation
    ([start_of_week], then seven times [daily_step]) does not raise, for any
    ratio of meals at home and any state of the random generator; it
    appends seven records to the history and uses the plan up, so that one
    more [daily_step] without [start_of_week] raises [IndexError]; and the
    household is again one for which the next week does not raise. *)
Theorem a_plan_lasts_one_week (pow_half : Q -> Q)
    (meal_generator : StandardMealGenerator.t) (hh : Household.t) (w : World.t)
    (f : Z) :
  pantry_ok (World.heap w) (Household.pantry hh) ->
  OrderPolicy.frequency (Household.order_policy hh) = Ok f ->
  can_order hh ->
  exists (hh' : Household.t) (w' : World.t),
    simulate_week pow_half meal_generator hh w = Ok (hh', w')
    /\ length (Household.history hh') = (length (Household.history hh) + 7)%nat
    /\ Household.weekly_meals hh' = Some []
    /\ Household.daily_step pow_half hh' w' = Raise IndexError
    /\ pantry_ok (World.heap w') (Household.pantry hh')
    /\ OrderPolicy.frequency (Household.order_policy hh') = Ok f
    /\ can_order hh'.
Proof.
  intros Hok Hf Hc. unfold simulate_week, start_of_week,
    StandardMealGenerator.generate_weekly_meals.
  match goal with
  | |- context [StandardMealGenerator.week_meals meal_generator ?pat ?days ?g] =>
      pose proof (week_meals_spec meal_generator pat days g) as H;
      destruct (StandardMealGenerator.week_meals meal_generator pat days g)
        as [plan g']
  end.
  cbn zeta in H. cbn [fst snd length] in H. destruct H as (Hlen & _).
  destruct (daily_steps_plan pow_half f plan
              (Household.set_weekly_meals hh (Some plan))
              (World.mk (World.heap w) g') Hok eq_refl Hf Hc)
    as (hh' & w' & E & Hok' & Ew & Hl & Hf' & Hc').
  rewrite Hlen in E, Hl. exists hh', w'.
  split; [exact E|]. split; [exact Hl|]. split; [exact Ew|].
  split; [|split; [exact Hok' | split; assumption]].
  unfold Household.daily_step. cbv zeta.
  change (Household.weekly_meals (Household.set_counters hh' _ _ _ _ _))
    with (Household.weekly_meals hh').
  rewrite Ew. reflexivity.
Qed.

Lemma fixed_household_can_order : can_order fixed_household.
Proof.
  split; [eexists; reflexivity|].
  intros store E ft Hft. injection E as <-.
  destruct Hft as [-> | ->]; split; eexists; vm_compute; reflexivity.
Qed.

Lemma a_plan_lasts_one_week_witness :
  exists (hh' : Household.t) (w' : World.t),
    simulate_week (fun x => x) (StandardMealGenerator.mk 1) fixed_household empty_world
    = Ok (hh', w')
    /\ Household.weekly_meals hh' = Some [].
Proof.
  destruct (a_plan_lasts_one_week (fun x => x) (StandardMealGenerator.mk 1)
              fixed_household empty_world 7 (init_pantry_ok _) eq_refl
              fixed_household_can_order)
    as (hh' & w' & E & _ & Ew & _).
  exists hh', w'. split; [exact E | exact Ew].
Defined.
